(** * Archytas and the Delian problem: the projection and tessellation core

    A shallow embedding of the geometric core of the illustration
    (stepped ranges, fixed-dimension vectors and matrices, cameras, the
    elliptical-arc projector, the sliced tessellation of the three solids)
    together with the properties its specification states about it.

    Numbers.  A JavaScript [number] is modelled by a real number: a
    statement over these definitions is a statement of exact arithmetic,
    which the source follows up to rounding.  Division in [R] is total
    ([x / 0 = 0]) whereas the source produces a non-finite value there; a
    theorem whose conclusion depends on the value of a quotient therefore
    carries the hypotheses that keep the divisor away from zero.
    [NaN], used by the source as the "not yet set" value of two fields, is
    modelled by [None].

    Where rounding decides (an equality between computed numbers, a
    tolerance of the order of the machine precision), the code is embedded
    a second time over binary64 numbers, in the module [Double], and what
    is stated there is what the source computes. *)

From Stdlib Require Import Reals Lra Lia ZArith Psatz RNsatz String.
From Stdlib Require PrimFloat FloatOps SpecFloat.
From stdpp Require Import base list.

Local Open Scope R_scope.

(* ===================================================================== *)
(** * Part I.  The model                                                  *)
(* ===================================================================== *)

(** ** The functions of [Math] the core uses *)

Module Math.

Definition floor (x : R) : Z := Zfloor x.
Definition abs (x : R) : R := Rabs x.
Definition max (x y : R) : R := Rmax x y.
Definition min (x y : R) : R := Rmin x y.

(** [Math.atan2 y x], the angle of the point [(x, y)] in [(-PI, PI]];
    at the origin the source returns [0]. *)
Definition atan2 (y x : R) : R :=
  if Rlt_dec 0 x then atan (y / x)
  else if Rlt_dec x 0 then
    (if Rle_dec 0 y then atan (y / x) + PI else atan (y / x) - PI)
  else if Rlt_dec 0 y then PI / 2
  else if Rlt_dec y 0 then - (PI / 2)
  else 0.

End Math.

(** Comparisons of numbers as the booleans the source branches on. *)
Definition Rleb (a b : R) : bool := if Rle_dec a b then true else false.
Definition Rltb (a b : R) : bool := if Rlt_dec a b then true else false.
Definition Reqb (a b : R) : bool := if Req_dec_T a b then true else false.

(** ** Stepped ranges ([geometry/parameters]) *)

Module ConstStepRange.

(** [_stepSize] is computed once, by the constructor. *)
Record t : Type := mk {
  _stepSize : R;
  _start : R;
  _end : R;
  stepCount : Z
}.

Definition new (start end_ : R) (stepCount : Z) : t :=
  {| _start := start;
     _end := end_;
     stepCount := stepCount;
     _stepSize := (end_ - start) / IZR stepCount |}.

Definition radRangeFromStartEndDegStepCount
    (start_deg end_deg : R) (step_count : Z) : t :=
  new (start_deg * PI / 180) (end_deg * PI / 180) step_count.

Definition start (r : t) : R := _start r.
Definition end_ (r : t) : R := _end r.
Definition size (r : t) : R := _end r - _start r.
Definition stepSize (r : t) (stepIdx : Z) : R := _stepSize r.

Definition atStep (r : t) (stepIdx : Z) : R :=
  start r + _stepSize r * IZR stepIdx.

Definition includes (r : t) (value : R) : bool :=
  Rleb (start r) value && Rleb value (end_ r).

Definition lastIncludedStepIdx (r : t) (value : R) : Z :=
  Math.floor ((value - start r) / _stepSize r).


(** [MutableConstStepRange] adds no field, only [setStartEnd]. *)
Definition cloneAsMutable (r : t) : t := new (start r) (end_ r) (stepCount r).

(** Swaps the two bounds; the step size is left as the constructor set it. *)
Definition reverse (r : t) : t :=
  let tmp := _end r in
  {| _stepSize := _stepSize r;
     _start := tmp;
     _end := _start r;
     stepCount := stepCount r |}.

Definition setStartEnd (r : t) (start end_ : R) : t :=
  {| _stepSize := _stepSize r;
     _start := start;
     _end := end_;
     stepCount := stepCount r |}.

End ConstStepRange.

(** The [ValueRange] interface. Step counts and step indices are integers. *)
Module ValueRange.

Class t (T : Type) : Type := {
  start : T -> R;
  end_ : T -> R;
  size : T -> R;
  stepCount : T -> Z;
  stepSize : T -> Z -> R;
  atStep : T -> Z -> R;
  includes : T -> R -> bool;
  lastIncludedStepIdx : T -> R -> Z
}.

(** Implemented once, in [ConstStepRange], through the getters of the
    receiver; the subclasses inherit it. *)
Definition cloneAsMutable {T} `{t T} (r : T) : ConstStepRange.t :=
  ConstStepRange.new (start r) (end_ r) (stepCount r).

(** The two numbers [repr] prints when [valueToRepr] is a number; also
    implemented once, in [ConstStepRange]. *)
Definition repr {T} `{t T} (r : T) (valueToRepr : R) : list R :=
  start r * valueToRepr :: end_ r * valueToRepr :: nil.

End ValueRange.

#[export] Instance ConstStepRange_ValueRange : ValueRange.t ConstStepRange.t := {|
  ValueRange.start := ConstStepRange.start;
  ValueRange.end_ := ConstStepRange.end_;
  ValueRange.size := ConstStepRange.size;
  ValueRange.stepCount := ConstStepRange.stepCount;
  ValueRange.stepSize := ConstStepRange.stepSize;
  ValueRange.atStep := ConstStepRange.atStep;
  ValueRange.includes := ConstStepRange.includes;
  ValueRange.lastIncludedStepIdx := ConstStepRange.lastIncludedStepIdx
|}.

(** The range of the transverse circle's central angle
    ([archytas_model/transverse_circle]): a [ConstStepRange] over the
    complement of the angle OAP, seen through
    [fromAngleOapCompliment_rad]. *)
Module TransverseCircleAngleRange.

Definition fromAngleOapCompliment_rad (angleOapCompliment_rad : R) : R :=
  acos (1 - 2 * sin (PI - angleOapCompliment_rad)).

Definition toAngleOapCompliment_rad (transverseCircleAngle_rad : R) : R :=
  PI - asin ((1 - cos transverseCircleAngle_rad) / 2).

Record t : Type := mk {
  super : ConstStepRange.t;
  stepCountMultiplier : Z;
  _transformedStart : R;
  _transformedEnd : R
}.

Definition new {T} `{ValueRange.t T}
    (angleOapCompliment_rad : T) (stepCountMultiplier : Z) : t :=
  {| super :=
       ConstStepRange.new
         (ValueRange.start angleOapCompliment_rad)
         (ValueRange.end_ angleOapCompliment_rad)
         (ValueRange.stepCount angleOapCompliment_rad * stepCountMultiplier);
     stepCountMultiplier := stepCountMultiplier;
     _transformedStart :=
       fromAngleOapCompliment_rad (ValueRange.start angleOapCompliment_rad);
     _transformedEnd :=
       fromAngleOapCompliment_rad (ValueRange.end_ angleOapCompliment_rad) |}.

Definition atStep (r : t) (stepIdx : Z) : R :=
  fromAngleOapCompliment_rad (ConstStepRange.atStep (super r) stepIdx).

Definition stepSize (r : t) (stepIdx : Z) : R :=
  atStep r (stepIdx + 1) - atStep r stepIdx.

Definition includes (r : t) (value : R) : bool :=
  Rleb (_transformedStart r) value && Rleb value (_transformedEnd r).

Definition lastIncludedStepIdx (r : t) (value : R) : Z :=
  ConstStepRange.lastIncludedStepIdx (super r) (toAngleOapCompliment_rad value).

End TransverseCircleAngleRange.

#[export] Instance TransverseCircleAngleRange_ValueRange :
    ValueRange.t TransverseCircleAngleRange.t := {|
  ValueRange.start r := ConstStepRange.start (TransverseCircleAngleRange.super r);
  ValueRange.end_ r := ConstStepRange.end_ (TransverseCircleAngleRange.super r);
  ValueRange.size r := ConstStepRange.size (TransverseCircleAngleRange.super r);
  ValueRange.stepCount r :=
    ConstStepRange.stepCount (TransverseCircleAngleRange.super r);
  ValueRange.stepSize := TransverseCircleAngleRange.stepSize;
  ValueRange.atStep := TransverseCircleAngleRange.atStep;
  ValueRange.includes := TransverseCircleAngleRange.includes;
  ValueRange.lastIncludedStepIdx := TransverseCircleAngleRange.lastIncludedStepIdx
|}.

(** ** Vectors and matrices ([geometry/vectors_and_matrices])

    The source's vectors and matrices are mutable objects and most of their
    methods update the receiver (or an [out_] argument) in place and return
    it.  A method is modelled by the function from the old value of the
    object it writes to the new one.  Loops over rows and columns are
    unrolled; a sum accumulated from [0] keeps its leading [0]. *)

(** What the dimension-generic code uses of [ColumnVector<Dim>]. *)
Module ColumnVector.

Class t (V : Type) : Type := {
  componentCount : Z;
  add : V -> V -> V;
  addScaled : V -> V -> R -> V;
  subtract : V -> V -> V;
  multiplyScalar : V -> R -> V;
  vectorDot : V -> V -> R;
  distanceTo : V -> V -> R;
  normalizeColumnVectors : V -> V
}.

Arguments componentCount V {_}.

End ColumnVector.

Module ColumnVector2.

Record t : Type := mk { x : R; y : R }.

Definition add (this addend : t) : t :=
  mk (x this + x addend) (y this + y addend).

Definition addScaled (this addend : t) (scalar : R) : t :=
  mk (x this + scalar * x addend) (y this + scalar * y addend).

Definition subtract (this subtrahend : t) : t :=
  mk (x this - x subtrahend) (y this - y subtrahend).

Definition multiplyScalar (this : t) (scalar : R) : t :=
  mk (scalar * x this) (scalar * y this).

Definition vectorDot (this multiplicand : t) : R :=
  0 + x this * x multiplicand + y this * y multiplicand.

Definition distanceTo (this point : t) : R :=
  sqrt (0 + (x this - x point) * (x this - x point)
          + (y this - y point) * (y this - y point)).

Definition normalizeColumnVectors (this : t) : t :=
  let vecLength := sqrt (0 + x this * x this + y this * y this) in
  mk (x this / vecLength) (y this / vecLength).

End ColumnVector2.

Module ColumnVector3.

Record t : Type := mk { x : R; y : R; z : R }.

Definition add (this addend : t) : t :=
  mk (x this + x addend) (y this + y addend) (z this + z addend).

Definition addScaled (this addend : t) (scalar : R) : t :=
  mk (x this + scalar * x addend)
     (y this + scalar * y addend)
     (z this + scalar * z addend).

Definition subtract (this subtrahend : t) : t :=
  mk (x this - x subtrahend) (y this - y subtrahend) (z this - z subtrahend).

Definition multiplyScalar (this : t) (scalar : R) : t :=
  mk (scalar * x this) (scalar * y this) (scalar * z this).

Definition vectorDot (this multiplicand : t) : R :=
  0 + x this * x multiplicand + y this * y multiplicand
    + z this * z multiplicand.

(** [result[i] = this[(i+1) % 3] * m[(i+2) % 3] - this[(i+2) % 3] * m[(i+1) % 3]]. *)
Definition vectorCross (this multiplicand : t) : t :=
  mk (y this * z multiplicand - z this * y multiplicand)
     (z this * x multiplicand - x this * z multiplicand)
     (x this * y multiplicand - y this * x multiplicand).

Definition distanceTo (this point : t) : R :=
  sqrt (0 + (x this - x point) * (x this - x point)
          + (y this - y point) * (y this - y point)
          + (z this - z point) * (z this - z point)).

Definition vectorLength (this : t) : R := sqrt (vectorDot this this).

Definition normalizeColumnVectors (this : t) : t :=
  let vecLength :=
    sqrt (0 + x this * x this + y this * y this + z this * z this) in
  mk (x this / vecLength) (y this / vecLength) (z this / vecLength).

End ColumnVector3.

#[export] Instance ColumnVector2_ColumnVector : ColumnVector.t ColumnVector2.t := {|
  ColumnVector.componentCount := 2;
  ColumnVector.add := ColumnVector2.add;
  ColumnVector.addScaled := ColumnVector2.addScaled;
  ColumnVector.subtract := ColumnVector2.subtract;
  ColumnVector.multiplyScalar := ColumnVector2.multiplyScalar;
  ColumnVector.vectorDot := ColumnVector2.vectorDot;
  ColumnVector.distanceTo := ColumnVector2.distanceTo;
  ColumnVector.normalizeColumnVectors := ColumnVector2.normalizeColumnVectors
|}.

#[export] Instance ColumnVector3_ColumnVector : ColumnVector.t ColumnVector3.t := {|
  ColumnVector.componentCount := 3;
  ColumnVector.add := ColumnVector3.add;
  ColumnVector.addScaled := ColumnVector3.addScaled;
  ColumnVector.subtract := ColumnVector3.subtract;
  ColumnVector.multiplyScalar := ColumnVector3.multiplyScalar;
  ColumnVector.vectorDot := ColumnVector3.vectorDot;
  ColumnVector.distanceTo := ColumnVector3.distanceTo;
  ColumnVector.normalizeColumnVectors := ColumnVector3.normalizeColumnVectors
|}.

(** [Matrix2]: a 2x2 matrix; [mRC] is the element at row [R], column [C]. *)
Module Matrix2.

Record t : Type := mk { m00 : R; m01 : R; m10 : R; m11 : R }.

Definition multiplyScalar (this : t) (scalar : R) : t :=
  mk (scalar * m00 this) (scalar * m01 this)
     (scalar * m10 this) (scalar * m11 this).

(** The two off-diagonal elements are exchanged as well as negated. *)
Definition invert (this : t) : t :=
  let det := m00 this * m11 this - m01 this * m10 this in
  mk (m11 this / det) (- m10 this / det)
     (- m01 this / det) (m00 this / det).

(** [multiply] with a column vector on the right. *)
Definition multiplyVector (this : t) (v : ColumnVector2.t) : ColumnVector2.t :=
  ColumnVector2.mk
    (0 + m00 this * ColumnVector2.x v + m01 this * ColumnVector2.y v)
    (0 + m10 this * ColumnVector2.x v + m11 this * ColumnVector2.y v).

Definition getEigenValues (this : t) : ColumnVector2.t :=
  let b := - m00 this - m11 this in
  let c := m00 this * m11 this - m10 this * m01 this in
  let s := sqrt (b * b - 4 * c) in
  ColumnVector2.mk ((- b - s) / 2) ((- b + s) / 2).

(** The column written for one eigenvalue. *)
Definition getEigenvectorForEigenvalue (this : t) (eigenvalue : R)
    : ColumnVector2.t :=
  let first_v_x := - m01 this in
  let first_v_y := m00 this - eigenvalue in
  let second_v_x := m11 this - eigenvalue in
  let second_v_y := - m10 this in
  if Rltb (Math.max (Math.abs second_v_x) (Math.abs second_v_y))
          (Math.max (Math.abs first_v_x) (Math.abs first_v_y))
  then ColumnVector2.mk first_v_x first_v_y
  else ColumnVector2.mk second_v_x second_v_y.

Definition setFromColumnVectors (c0 c1 : ColumnVector2.t) : t :=
  mk (ColumnVector2.x c0) (ColumnVector2.x c1)
     (ColumnVector2.y c0) (ColumnVector2.y c1).

Definition column (this : t) (columnIdx : nat) : ColumnVector2.t :=
  match columnIdx with
  | O => ColumnVector2.mk (m00 this) (m10 this)
  | _ => ColumnVector2.mk (m01 this) (m11 this)
  end.

Definition getEigenvaluesAndVectors (this : t) : ColumnVector2.t * t :=
  let out_eigenvalues := getEigenValues this in
  (out_eigenvalues,
   setFromColumnVectors
     (getEigenvectorForEigenvalue this (ColumnVector2.x out_eigenvalues))
     (getEigenvectorForEigenvalue this (ColumnVector2.y out_eigenvalues))).

Definition normalizeColumnVectors (this : t) : t :=
  setFromColumnVectors
    (ColumnVector2.normalizeColumnVectors (column this 0))
    (ColumnVector2.normalizeColumnVectors (column this 1)).

End Matrix2.

(** [Matrix<3, 2>], and [Matrix<2, 3>] for its transpose. *)
Module Matrix3x2.

Record t : Type := mk {
  m00 : R; m01 : R;
  m10 : R; m11 : R;
  m20 : R; m21 : R
}.

Definition setFromColumnVectors (c0 c1 : ColumnVector3.t) : t :=
  mk (ColumnVector3.x c0) (ColumnVector3.x c1)
     (ColumnVector3.y c0) (ColumnVector3.y c1)
     (ColumnVector3.z c0) (ColumnVector3.z c1).

End Matrix3x2.

Module Matrix2x3.

Record t : Type := mk {
  m00 : R; m01 : R; m02 : R;
  m10 : R; m11 : R; m12 : R
}.

Definition multiply (this : t) (rhs : Matrix3x2.t) : Matrix2.t :=
  Matrix2.mk
    (0 + m00 this * Matrix3x2.m00 rhs + m01 this * Matrix3x2.m10 rhs
       + m02 this * Matrix3x2.m20 rhs)
    (0 + m00 this * Matrix3x2.m01 rhs + m01 this * Matrix3x2.m11 rhs
       + m02 this * Matrix3x2.m21 rhs)
    (0 + m10 this * Matrix3x2.m00 rhs + m11 this * Matrix3x2.m10 rhs
       + m12 this * Matrix3x2.m20 rhs)
    (0 + m10 this * Matrix3x2.m01 rhs + m11 this * Matrix3x2.m11 rhs
       + m12 this * Matrix3x2.m21 rhs).

Definition multiplyVector (this : t) (v : ColumnVector3.t) : ColumnVector2.t :=
  ColumnVector2.mk
    (0 + m00 this * ColumnVector3.x v + m01 this * ColumnVector3.y v
       + m02 this * ColumnVector3.z v)
    (0 + m10 this * ColumnVector3.x v + m11 this * ColumnVector3.y v
       + m12 this * ColumnVector3.z v).

End Matrix2x3.

Definition Matrix3x2_transposed (this : Matrix3x2.t) : Matrix2x3.t :=
  Matrix2x3.mk
    (Matrix3x2.m00 this) (Matrix3x2.m10 this) (Matrix3x2.m20 this)
    (Matrix3x2.m01 this) (Matrix3x2.m11 this) (Matrix3x2.m21 this).

Module Matrix3.

Record t : Type := mk {
  m00 : R; m01 : R; m02 : R;
  m10 : R; m11 : R; m12 : R;
  m20 : R; m21 : R; m22 : R
}.

Definition setFromColumnVectors (c0 c1 c2 : ColumnVector3.t) : t :=
  mk (ColumnVector3.x c0) (ColumnVector3.x c1) (ColumnVector3.x c2)
     (ColumnVector3.y c0) (ColumnVector3.y c1) (ColumnVector3.y c2)
     (ColumnVector3.z c0) (ColumnVector3.z c1) (ColumnVector3.z c2).

Definition transposed (this : t) : t :=
  mk (m00 this) (m10 this) (m20 this)
     (m01 this) (m11 this) (m21 this)
     (m02 this) (m12 this) (m22 this).

Definition multiply (this rhs : t) : t :=
  mk (0 + m00 this * m00 rhs + m01 this * m10 rhs + m02 this * m20 rhs)
     (0 + m00 this * m01 rhs + m01 this * m11 rhs + m02 this * m21 rhs)
     (0 + m00 this * m02 rhs + m01 this * m12 rhs + m02 this * m22 rhs)
     (0 + m10 this * m00 rhs + m11 this * m10 rhs + m12 this * m20 rhs)
     (0 + m10 this * m01 rhs + m11 this * m11 rhs + m12 this * m21 rhs)
     (0 + m10 this * m02 rhs + m11 this * m12 rhs + m12 this * m22 rhs)
     (0 + m20 this * m00 rhs + m21 this * m10 rhs + m22 this * m20 rhs)
     (0 + m20 this * m01 rhs + m21 this * m11 rhs + m22 this * m21 rhs)
     (0 + m20 this * m02 rhs + m21 this * m12 rhs + m22 this * m22 rhs).

Definition multiplyVector (this : t) (v : ColumnVector3.t) : ColumnVector3.t :=
  ColumnVector3.mk
    (0 + m00 this * ColumnVector3.x v + m01 this * ColumnVector3.y v
       + m02 this * ColumnVector3.z v)
    (0 + m10 this * ColumnVector3.x v + m11 this * ColumnVector3.y v
       + m12 this * ColumnVector3.z v)
    (0 + m20 this * ColumnVector3.x v + m21 this * ColumnVector3.y v
       + m22 this * ColumnVector3.z v).

Definition multiply3x2 (this : t) (rhs : Matrix3x2.t) : Matrix3x2.t :=
  Matrix3x2.mk
    (0 + m00 this * Matrix3x2.m00 rhs + m01 this * Matrix3x2.m10 rhs
       + m02 this * Matrix3x2.m20 rhs)
    (0 + m00 this * Matrix3x2.m01 rhs + m01 this * Matrix3x2.m11 rhs
       + m02 this * Matrix3x2.m21 rhs)
    (0 + m10 this * Matrix3x2.m00 rhs + m11 this * Matrix3x2.m10 rhs
       + m12 this * Matrix3x2.m20 rhs)
    (0 + m10 this * Matrix3x2.m01 rhs + m11 this * Matrix3x2.m11 rhs
       + m12 this * Matrix3x2.m21 rhs)
    (0 + m20 this * Matrix3x2.m00 rhs + m21 this * Matrix3x2.m10 rhs
       + m22 this * Matrix3x2.m20 rhs)
    (0 + m20 this * Matrix3x2.m01 rhs + m21 this * Matrix3x2.m11 rhs
       + m22 this * Matrix3x2.m21 rhs).

End Matrix3.

(** [applyAffine] on a 2-D vector with a 3x3 transform.  The components
    are replaced one after the other: the second row is evaluated with the
    first component already replaced. *)
Definition ColumnVector2_applyAffine
    (this : ColumnVector2.t) (affineTransform : Matrix3.t) : ColumnVector2.t :=
  let w := 0 + ColumnVector2.x this * Matrix3.m20 affineTransform
             + ColumnVector2.y this * Matrix3.m21 affineTransform
             + Matrix3.m22 affineTransform in
  let x' := (0 + ColumnVector2.x this * Matrix3.m00 affineTransform
               + ColumnVector2.y this * Matrix3.m01 affineTransform
               + Matrix3.m02 affineTransform) / w in
  let y' := (0 + x' * Matrix3.m10 affineTransform
               + ColumnVector2.y this * Matrix3.m11 affineTransform
               + Matrix3.m12 affineTransform) / w in
  ColumnVector2.mk x' y'.

(** A thrown [Error]. *)
Inductive Result (A : Type) : Type :=
  | Ok (value : A)
  | Throw (message : string).
Arguments Ok {A} value.
Arguments Throw {A} message.

(** [PlaneDirections<Dim>] ([geometry/parameters]). *)
Module PlaneDirections.

Record t (V : Type) : Type := mk { xHat : V; yHat : V }.
Arguments mk {V} xHat yHat.
Arguments xHat {V} _.
Arguments yHat {V} _.

Definition zHat (this : t ColumnVector3.t) : ColumnVector3.t :=
  ColumnVector3.vectorCross (xHat this) (yHat this).

Definition unitVecAtAngle {V} `{ColumnVector.t V} (this : t V) (angle_rad : R) : V :=
  ColumnVector.addScaled
    (ColumnVector.multiplyScalar (xHat this) (cos angle_rad))
    (yHat this) (sin angle_rad).

Definition angleForVector_rad {V} `{ColumnVector.t V}
    (this : t V) (vecRelativeToOrigin : V) : R :=
  let x := ColumnVector.vectorDot (xHat this) vecRelativeToOrigin in
  let y := ColumnVector.vectorDot (yHat this) vecRelativeToOrigin in
  Math.atan2 y x.

End PlaneDirections.

(** ** Cameras ([geometry/projections]) *)

(** The [CameraTransform<Dim>] interface, as the record of the methods of
    one camera.  Warnings written to the console are not modelled. *)
Module CameraTransform.

Record t (V : Type) : Type := mk {
  isPerspectiveCamera : bool;
  minDistanceFromCamera : R;
  getWorldPosition : V;
  getProjectionPlaneCenter : V;
  getProjectionPlaneXHat : V;
  getProjectionPlaneYHat : V;
  project : V -> V
}.
Arguments mk {V}.
Arguments isPerspectiveCamera {V} _.
Arguments minDistanceFromCamera {V} _.
Arguments getWorldPosition {V} _.
Arguments getProjectionPlaneCenter {V} _.
Arguments getProjectionPlaneXHat {V} _.
Arguments getProjectionPlaneYHat {V} _.
Arguments project {V} _ _.

End CameraTransform.

Definition EPS : R := 1e-15.

(** The affine camera of plane figures.  Its inverse transform, computed by
    the constructor and used by [projectionToWorld] only, is left out. *)
Module PlaneCamera.

Record t : Type := mk { worldToProjectionPlaneTransform : Matrix3.t }.

Definition validateCameraTransform
    (worldToProjectionPlaneTransform : Matrix3.t) (eps : R) : Result unit :=
  if negb (Reqb (Matrix3.m20 worldToProjectionPlaneTransform) 0)
     || negb (Reqb (Matrix3.m21 worldToProjectionPlaneTransform) 0)
  then Throw "Camera world-to-projection-plane transform matrix must have a last row of [0, 0, 1]!"
  else
    let homogenousCoord := Matrix3.m22 worldToProjectionPlaneTransform in
    if Rltb (Math.abs homogenousCoord) eps
    then Throw "Camera world-to-projection-plane transform matrix has a homogeneus dimenison coordinate which can't be distinguished from 0 with enough precision"
    else Ok tt.

Definition new (worldToProjectionPlaneTransform : Matrix3.t) : Result t :=
  match validateCameraTransform worldToProjectionPlaneTransform EPS with
  | Throw message => Throw message
  | Ok _ => Ok (mk worldToProjectionPlaneTransform)
  end.

Definition getWorldPosition (this : t) : ColumnVector2.t :=
  let t := worldToProjectionPlaneTransform this in
  let w := Matrix3.m22 t in
  ColumnVector2.mk (Matrix3.m20 t / w) (Matrix3.m21 t / w).

Definition getProjectionPlaneCenter (this : t) : ColumnVector2.t :=
  getWorldPosition this.

Definition getProjectionPlaneXHat (this : t) : ColumnVector2.t :=
  let t := worldToProjectionPlaneTransform this in
  ColumnVector2.normalizeColumnVectors
    (ColumnVector2.mk (Matrix3.m00 t) (Matrix3.m10 t)).

Definition getProjectionPlaneYHat (this : t) : ColumnVector2.t :=
  let t := worldToProjectionPlaneTransform this in
  ColumnVector2.normalizeColumnVectors
    (ColumnVector2.mk (Matrix3.m01 t) (Matrix3.m11 t)).

Definition project (this : t) (inout_point : ColumnVector2.t) : ColumnVector2.t :=
  ColumnVector2_applyAffine inout_point (worldToProjectionPlaneTransform this).

Definition asCameraTransform (this : t) : CameraTransform.t ColumnVector2.t :=
  CameraTransform.mk false 0
    (getWorldPosition this) (getProjectionPlaneCenter this)
    (getProjectionPlaneXHat this) (getProjectionPlaneYHat this)
    (project this).

End PlaneCamera.

(** The perspective camera: an eye point, the basis of its projection
    plane ([zHat] points from the plane's center to the eye) and the
    distance of the plane from the eye. *)
Module ProjectionPlaneCamera.

Record t : Type := mk {
  xHat : ColumnVector3.t;
  yHat : ColumnVector3.t;
  zHat : ColumnVector3.t;
  focalDistance : R;
  worldPosition : ColumnVector3.t
}.

Definition new (worldPosition : ColumnVector3.t) : t :=
  {| xHat := ColumnVector3.mk 1 0 0;
     yHat := ColumnVector3.mk 0 1 0;
     zHat := ColumnVector3.mk 0 0 1;
     focalDistance := 1;
     worldPosition := worldPosition |}.

Definition getWorldPosition (this : t) : ColumnVector3.t := worldPosition this.

Definition getProjectionPlaneCenter (this : t) : ColumnVector3.t :=
  ColumnVector3.addScaled (worldPosition this) (zHat this) (- focalDistance this).

Definition getProjectionPlaneXHat (this : t) : ColumnVector3.t := xHat this.
Definition getProjectionPlaneYHat (this : t) : ColumnVector3.t := yHat this.

(** The depth of a point in front of the eye, the divisor of [project]. *)
Definition pointFromEyePointZ (this : t) (point : ColumnVector3.t) : R :=
  - ColumnVector3.vectorDot
      (ColumnVector3.subtract point (worldPosition this)) (zHat this).

Definition project (this : t) (inout_point : ColumnVector3.t) : ColumnVector3.t :=
  let pointFromEyePoint := ColumnVector3.subtract inout_point (worldPosition this) in
  let pointFromEyePointZ := - ColumnVector3.vectorDot pointFromEyePoint (zHat this) in
  let inout_point :=
    ColumnVector3.addScaled
      (ColumnVector3.multiplyScalar pointFromEyePoint
         (focalDistance this / pointFromEyePointZ))
      (zHat this) (focalDistance this) in
  let x := ColumnVector3.vectorDot inout_point (xHat this) in
  let y := ColumnVector3.vectorDot inout_point (yHat this) in
  let z := ColumnVector3.vectorDot inout_point (zHat this) in
  ColumnVector3.mk x y z.

Definition projectionToWorld (this : t) (projectionPlaneCoords : ColumnVector3.t)
    : ColumnVector3.t :=
  ColumnVector3.addScaled
    (ColumnVector3.addScaled
       (ColumnVector3.addScaled (getProjectionPlaneCenter this)
          (xHat this) (ColumnVector3.x projectionPlaneCoords))
       (yHat this) (ColumnVector3.y projectionPlaneCoords))
    (zHat this) (ColumnVector3.z projectionPlaneCoords).

Definition lookAt (this : t) (targetPoint : ColumnVector3.t) (eps : R) : Result t :=
  let distanceFromCamera := ColumnVector3.distanceTo targetPoint (worldPosition this) in
  if Rltb distanceFromCamera eps
  then Throw "Look-at target too close to camera position"
  else
    let zHat :=
      ColumnVector3.normalizeColumnVectors
        (ColumnVector3.subtract (worldPosition this) targetPoint) in
    let xProjection := ColumnVector3.x zHat in
    let yProjection := ColumnVector3.y zHat in
    if Rleb (Math.abs xProjection) (Math.abs yProjection)
    then
      let yHat :=
        ColumnVector3.normalizeColumnVectors
          (ColumnVector3.vectorCross (ColumnVector3.mk (-1) 0 0) zHat) in
      let xHat := ColumnVector3.vectorCross yHat zHat in
      Ok {| xHat := xHat; yHat := yHat; zHat := zHat;
            focalDistance := focalDistance this;
            worldPosition := worldPosition this |}
    else
      let xHat :=
        ColumnVector3.normalizeColumnVectors
          (ColumnVector3.vectorCross (ColumnVector3.mk 0 1 0) zHat) in
      let yHat := ColumnVector3.vectorCross zHat xHat in
      Ok {| xHat := xHat; yHat := yHat; zHat := zHat;
            focalDistance := focalDistance this;
            worldPosition := worldPosition this |}.

Definition flipXAxis (this : t) : t :=
  {| xHat := ColumnVector3.multiplyScalar (xHat this) (-1);
     yHat := yHat this; zHat := zHat this;
     focalDistance := focalDistance this;
     worldPosition := worldPosition this |}.

Definition flipYAxis (this : t) : t :=
  {| xHat := xHat this;
     yHat := ColumnVector3.multiplyScalar (yHat this) (-1);
     zHat := zHat this;
     focalDistance := focalDistance this;
     worldPosition := worldPosition this |}.

Definition flipZAxis (this : t) : t :=
  {| xHat := xHat this; yHat := yHat this;
     zHat := ColumnVector3.multiplyScalar (zHat this) (-1);
     focalDistance := focalDistance this;
     worldPosition := worldPosition this |}.

Definition setFocalDistance (this : t) (value : R) : t :=
  {| xHat := xHat this; yHat := yHat this; zHat := zHat this;
     focalDistance := value;
     worldPosition := worldPosition this |}.

Definition asCameraTransform (this : t) : CameraTransform.t ColumnVector3.t :=
  CameraTransform.mk true (1 / 10)
    (getWorldPosition this) (getProjectionPlaneCenter this)
    (getProjectionPlaneXHat this) (getProjectionPlaneYHat this)
    (project this).

End ProjectionPlaneCamera.

(** ** Elliptical arcs ([geometry/plane_objects]) *)

Module EllipticalArcParameters.

Record t (V Range : Type) : Type := mk {
  origin : V;
  plane : PlaneDirections.t V;
  circularAngle_rad : Range;
  semiXAxis : R;
  semiYAxis : R
}.
Arguments mk {V Range}.
Arguments origin {V Range} _.
Arguments plane {V Range} _.
Arguments circularAngle_rad {V Range} _.
Arguments semiXAxis {V Range} _.
Arguments semiYAxis {V Range} _.

End EllipticalArcParameters.

(** The projected arc is written into an object whose range is a
    [MutableConstStepRange]. *)
Definition MutableEllipticalArcParameters (V : Type) : Type :=
  EllipticalArcParameters.t V ConstStepRange.t.

Module EllipticalArcVertexCalculator.

Section Methods.

Context {V Range : Type} `{ColumnVector.t V}.
Variable config : EllipticalArcParameters.t V Range.

Definition scaledXHat : V :=
  ColumnVector.multiplyScalar
    (PlaneDirections.xHat (EllipticalArcParameters.plane config))
    (EllipticalArcParameters.semiXAxis config).

Definition scaledYHat : V :=
  ColumnVector.multiplyScalar
    (PlaneDirections.yHat (EllipticalArcParameters.plane config))
    (EllipticalArcParameters.semiYAxis config).

Definition calculateVertex (circularAngle_rad : R) : V :=
  ColumnVector.addScaled
    (ColumnVector.addScaled (EllipticalArcParameters.origin config)
       scaledXHat (cos circularAngle_rad))
    scaledYHat (sin circularAngle_rad).

Definition circularAngleForEllipsePoint (pointFromEllipseCenter : V) : R :=
  Math.atan2
    (ColumnVector.vectorDot pointFromEllipseCenter
       (PlaneDirections.yHat (EllipticalArcParameters.plane config))
     / EllipticalArcParameters.semiYAxis config
     * EllipticalArcParameters.semiXAxis config)
    (ColumnVector.vectorDot pointFromEllipseCenter
       (PlaneDirections.xHat (EllipticalArcParameters.plane config))).

End Methods.

End EllipticalArcVertexCalculator.

Inductive SkewedEllipticalConeResult : Type :=
  | Finite
  | AxisDegenerate
  | PlaneDegenerate.

Definition SkewedEllipticalConeResult_eqb (a b : SkewedEllipticalConeResult) : bool :=
  match a, b with
  | Finite, Finite | AxisDegenerate, AxisDegenerate
  | PlaneDegenerate, PlaneDegenerate => true
  | _, _ => false
  end.

(** [PlaneDirections.projectToCamera]: the images of the two unit points of
    the plane, relative to the image of its origin. *)
Definition PlaneDirections_projectToCamera {V} `{ColumnVector.t V}
    (this : PlaneDirections.t V) (cameraTransform : CameraTransform.t V)
    (unprojectedOrigin projectedOrigin : V) : PlaneDirections.t V :=
  PlaneDirections.mk
    (ColumnVector.subtract
       (CameraTransform.project cameraTransform
          (ColumnVector.add unprojectedOrigin (PlaneDirections.xHat this)))
       projectedOrigin)
    (ColumnVector.subtract
       (CameraTransform.project cameraTransform
          (ColumnVector.add unprojectedOrigin (PlaneDirections.yHat this)))
       projectedOrigin).

(** The projector.  Its fields hold the intermediate equations of the last
    projection (the source exposes them through [debug_projectToCamera]);
    its scratch vectors and matrices are the [let]s of the methods. *)
Module EllipticalArcConfigCalculator.

Record t : Type := mk {
  eps : R;
  ellipseBasis : Matrix3.t;
  projectionPlaneBasis2 : Matrix3x2.t;
  eyePoint_c : ColumnVector3.t;
  ellipticalConeVertex_c : ColumnVector3.t;
  ellipseCenter_c : ColumnVector3.t;
  (* X^T * A * X + B^T * X + c = 0, in the frame of the input ellipse: *)
  conicEqA_c : Matrix3.t;
  conicEqB_c : ColumnVector3.t;
  (* in the world frame: *)
  conicEqA_s : Matrix3.t;
  conicEqB_s : ColumnVector3.t;
  conicEqC_s : R;
  (* in the projection plane: *)
  conicEqA_p : Matrix2.t;
  conicEqB_p : ColumnVector2.t;
  conicEqC_p : R;
  (* (Y - K)^T * M * (Y - K) = 1: *)
  ellipseEqK_p : ColumnVector2.t;
  ellipseEqM_p : Matrix2.t
}.

(** [conicEqC_c] is a read-only field initialised to [-1]. *)
Definition conicEqC_c (this : t) : R := -1.

(** The state after the constructor; what the source leaves undefined is
    [0] here. *)
Definition new (eps : R) : t :=
  let zero3 := ColumnVector3.mk 0 0 0 in
  let zero2 := ColumnVector2.mk 0 0 in
  let identity3 := Matrix3.mk 1 0 0 0 1 0 0 0 1 in
  let zero2x2 := Matrix2.mk 0 0 0 0 in
  {| eps := eps;
     ellipseBasis := identity3;
     projectionPlaneBasis2 := Matrix3x2.mk 0 0 0 0 0 0;
     eyePoint_c := zero3;
     ellipticalConeVertex_c := zero3;
     ellipseCenter_c := zero3;
     conicEqA_c := identity3; conicEqB_c := zero3;
     conicEqA_s := identity3; conicEqB_s := zero3; conicEqC_s := 0;
     conicEqA_p := zero2x2; conicEqB_p := zero2; conicEqC_p := 0;
     ellipseEqK_p := zero2; ellipseEqM_p := zero2x2 |}.

Section Projection.

Context {Range : Type} `{ValueRange.t Range}.

Definition calcSkewedConeInInputEllipseFrame (this : t)
    (parameters : EllipticalArcParameters.t ColumnVector3.t Range)
    (cameraTransform : CameraTransform.t ColumnVector3.t)
    (eps : R) : t * SkewedEllipticalConeResult :=
  if Rltb (Math.abs (EllipticalArcParameters.semiXAxis parameters)) eps
     || Rltb (Math.abs (EllipticalArcParameters.semiYAxis parameters)) eps
  then (this, AxisDegenerate)
  else
    let plane := EllipticalArcParameters.plane parameters in
    let origin := EllipticalArcParameters.origin parameters in
    let xHat := PlaneDirections.xHat plane in
    let yHat := PlaneDirections.yHat plane in
    let ellipseBasis :=
      Matrix3.setFromColumnVectors xHat yHat (PlaneDirections.zHat plane) in
    let eyePoint_c :=
      ColumnVector3.subtract
        (CameraTransform.getWorldPosition cameraTransform) origin in
    let ellipticalConeVertex_c :=
      ColumnVector3.mk
        (ColumnVector3.vectorDot eyePoint_c xHat)
        (ColumnVector3.vectorDot eyePoint_c yHat)
        (ColumnVector3.vectorDot eyePoint_c (PlaneDirections.zHat plane)) in
    if Rltb (Math.abs (ColumnVector3.z ellipticalConeVertex_c)) eps
    then
      ({| eps := EllipticalArcConfigCalculator.eps this;
          ellipseBasis := ellipseBasis;
          projectionPlaneBasis2 := projectionPlaneBasis2 this;
          eyePoint_c := eyePoint_c;
          ellipticalConeVertex_c := ellipticalConeVertex_c;
          ellipseCenter_c := ellipseCenter_c this;
          conicEqA_c := conicEqA_c this;
          conicEqB_c := conicEqB_c this;
          conicEqA_s := conicEqA_s this;
          conicEqB_s := conicEqB_s this;
          conicEqC_s := conicEqC_s this;
          conicEqA_p := conicEqA_p this;
          conicEqB_p := conicEqB_p this;
          conicEqC_p := conicEqC_p this;
          ellipseEqK_p := ellipseEqK_p this;
          ellipseEqM_p := ellipseEqM_p this |},
       PlaneDegenerate)
    else
      let ellipseCenter_c :=
        ColumnVector3.mk
          (ColumnVector3.vectorDot origin xHat)
          (ColumnVector3.vectorDot origin yHat)
          (ColumnVector3.vectorDot origin (PlaneDirections.zHat plane)) in
      let semiXAxis := EllipticalArcParameters.semiXAxis parameters in
      let semiYAxis := EllipticalArcParameters.semiYAxis parameters in
      let v0 := ColumnVector3.x ellipticalConeVertex_c in
      let v1 := ColumnVector3.y ellipticalConeVertex_c in
      let v2 := ColumnVector3.z ellipticalConeVertex_c in
      let a_c_02 := - v0 / (v2 * semiXAxis * semiXAxis) in
      let a_c_12 := - v1 / (v2 * semiYAxis * semiYAxis) in
      let a_c_22 :=
        (v0 * v0 / (semiXAxis * semiXAxis)
         + v1 * v1 / (semiYAxis * semiYAxis) - 1) / (v2 * v2) in
      ({| eps := EllipticalArcConfigCalculator.eps this;
          ellipseBasis := ellipseBasis;
          projectionPlaneBasis2 := projectionPlaneBasis2 this;
          eyePoint_c := eyePoint_c;
          ellipticalConeVertex_c := ellipticalConeVertex_c;
          ellipseCenter_c := ellipseCenter_c;
          conicEqA_c :=
            Matrix3.mk
              (1 / (semiXAxis * semiXAxis)) 0 a_c_02
              0 (1 / (semiYAxis * semiYAxis)) a_c_12
              a_c_02 a_c_12 a_c_22;
          conicEqB_c := ColumnVector3.mk 0 0 (2 / v2);
          conicEqA_s := conicEqA_s this;
          conicEqB_s := conicEqB_s this;
          conicEqC_s := conicEqC_s this;
          conicEqA_p := conicEqA_p this;
          conicEqB_p := conicEqB_p this;
          conicEqC_p := conicEqC_p this;
          ellipseEqK_p := ellipseEqK_p this;
          ellipseEqM_p := ellipseEqM_p this |},
       Finite).

Definition calcConeInWorldFrame (this : t) : t :=
  let conicEqA_s :=
    Matrix3.multiply
      (Matrix3.multiply (ellipseBasis this) (conicEqA_c this))
      (Matrix3.transposed (ellipseBasis this)) in
  let vector :=
    ColumnVector3.add
      (ColumnVector3.multiplyScalar
         (Matrix3.multiplyVector (conicEqA_c this) (ellipseCenter_c this))
         (-2))
      (conicEqB_c this) in
  let conicEqB_s := Matrix3.multiplyVector (ellipseBasis this) vector in
  let vector :=
    Matrix3.multiplyVector (conicEqA_c this) (ellipseCenter_c this) in
  let conicEqC_s :=
    ColumnVector3.vectorDot vector (ellipseCenter_c this)
    - ColumnVector3.vectorDot (conicEqB_c this) (ellipseCenter_c this)
    + conicEqC_c this in
  {| eps := eps this;
     ellipseBasis := ellipseBasis this;
     projectionPlaneBasis2 := projectionPlaneBasis2 this;
     eyePoint_c := eyePoint_c this;
     ellipticalConeVertex_c := ellipticalConeVertex_c this;
     ellipseCenter_c := ellipseCenter_c this;
     conicEqA_c := conicEqA_c this;
     conicEqB_c := conicEqB_c this;
     conicEqA_s := conicEqA_s;
     conicEqB_s := conicEqB_s;
     conicEqC_s := conicEqC_s;
     conicEqA_p := conicEqA_p this;
     conicEqB_p := conicEqB_p this;
     conicEqC_p := conicEqC_p this;
     ellipseEqK_p := ellipseEqK_p this;
     ellipseEqM_p := ellipseEqM_p this |}.

Definition calcProjectedEllipseConicEq (this : t)
    (cameraTransform : CameraTransform.t ColumnVector3.t) : t :=
  let projectionPlaneBasis2 :=
    Matrix3x2.setFromColumnVectors
      (CameraTransform.getProjectionPlaneXHat cameraTransform)
      (CameraTransform.getProjectionPlaneYHat cameraTransform) in
  let _matrix3x2 := Matrix3.multiply3x2 (conicEqA_s this) projectionPlaneBasis2 in
  let projectionPlaneBasis2Transposed :=
    Matrix3x2_transposed projectionPlaneBasis2 in
  let conicEqA_p :=
    Matrix2x3.multiply projectionPlaneBasis2Transposed _matrix3x2 in
  let projectionPlaneCenter :=
    CameraTransform.getProjectionPlaneCenter cameraTransform in
  let _vector3 :=
    ColumnVector3.add
      (ColumnVector3.multiplyScalar
         (Matrix3.multiplyVector (conicEqA_s this) projectionPlaneCenter) 2)
      (conicEqB_s this) in
  let conicEqB_p :=
    Matrix2x3.multiplyVector projectionPlaneBasis2Transposed _vector3 in
  let _vector3 :=
    Matrix3.multiplyVector (conicEqA_s this) projectionPlaneCenter in
  let conicEqC_p :=
    ColumnVector3.vectorDot _vector3 projectionPlaneCenter
    + ColumnVector3.vectorDot (conicEqB_s this) projectionPlaneCenter
    + conicEqC_s this in
  {| eps := eps this;
     ellipseBasis := ellipseBasis this;
     projectionPlaneBasis2 := projectionPlaneBasis2;
     eyePoint_c := eyePoint_c this;
     ellipticalConeVertex_c := ellipticalConeVertex_c this;
     ellipseCenter_c := ellipseCenter_c this;
     conicEqA_c := conicEqA_c this;
     conicEqB_c := conicEqB_c this;
     conicEqA_s := conicEqA_s this;
     conicEqB_s := conicEqB_s this;
     conicEqC_s := conicEqC_s this;
     conicEqA_p := conicEqA_p;
     conicEqB_p := conicEqB_p;
     conicEqC_p := conicEqC_p;
     ellipseEqK_p := ellipseEqK_p this;
     ellipseEqM_p := ellipseEqM_p this |}.

Definition calcProjectedEllipseMatrixEq (this : t) : t :=
  let vector :=
    Matrix2.multiplyVector (Matrix2.invert (conicEqA_p this)) (conicEqB_p this) in
  let ellipseEqK_p := ColumnVector2.multiplyScalar vector (-1 / 2) in
  let ellipseEqM_p :=
    Matrix2.multiplyScalar (conicEqA_p this)
      (1 / (ColumnVector2.vectorDot vector (conicEqB_p this) / 4
            - conicEqC_p this)) in
  {| eps := eps this;
     ellipseBasis := ellipseBasis this;
     projectionPlaneBasis2 := projectionPlaneBasis2 this;
     eyePoint_c := eyePoint_c this;
     ellipticalConeVertex_c := ellipticalConeVertex_c this;
     ellipseCenter_c := ellipseCenter_c this;
     conicEqA_c := conicEqA_c this;
     conicEqB_c := conicEqB_c this;
     conicEqA_s := conicEqA_s this;
     conicEqB_s := conicEqB_s this;
     conicEqC_s := conicEqC_s this;
     conicEqA_p := conicEqA_p this;
     conicEqB_p := conicEqB_p this;
     conicEqC_p := conicEqC_p this;
     ellipseEqK_p := ellipseEqK_p;
     ellipseEqM_p := ellipseEqM_p |}.

(** The angles of the projected start, end and middle points decide the
    direction of the projected arc and which of the two arcs between
    its ends is meant. *)
Definition projectCircularAngle
    (parameters : EllipticalArcParameters.t ColumnVector3.t Range)
    (cameraTransform : CameraTransform.t ColumnVector3.t)
    (out_result : MutableEllipticalArcParameters ColumnVector3.t)
    : MutableEllipticalArcParameters ColumnVector3.t :=
  let range := EllipticalArcParameters.circularAngle_rad parameters in
  let angleOf (circularAngle_rad : R) : R :=
    let vertex :=
      EllipticalArcVertexCalculator.calculateVertex parameters circularAngle_rad in
    let vertex :=
      ColumnVector3.subtract
        (CameraTransform.project cameraTransform vertex)
        (EllipticalArcParameters.origin out_result) in
    EllipticalArcVertexCalculator.circularAngleForEllipsePoint out_result vertex in
  let startAngle_rad := angleOf (ValueRange.start range) in
  let endAngle_rad := angleOf (ValueRange.end_ range) in
  let midAngle_rad :=
    angleOf ((ValueRange.start range + ValueRange.end_ range) / 2) in
  let needsInversion :=
    Rltb midAngle_rad (Math.min startAngle_rad endAngle_rad)
    || Rltb (Math.max startAngle_rad endAngle_rad) midAngle_rad in
  let needsDirectionFlip :=
    (Rltb startAngle_rad endAngle_rad && Rltb (ValueRange.size range) 0)
    || (Rltb endAngle_rad startAngle_rad && Rltb 0 (ValueRange.size range)) in
  let plane := EllipticalArcParameters.plane out_result in
  let '(yHat, startAngle_rad, endAngle_rad) :=
    if needsDirectionFlip
    then (ColumnVector3.multiplyScalar (PlaneDirections.yHat plane) (-1),
          - startAngle_rad, - endAngle_rad)
    else (PlaneDirections.yHat plane, startAngle_rad, endAngle_rad) in
  let '(startAngle_rad, endAngle_rad) :=
    if needsInversion
    then (endAngle_rad, startAngle_rad + 2 * PI)
    else (startAngle_rad, endAngle_rad) in
  EllipticalArcParameters.mk
    (EllipticalArcParameters.origin out_result)
    (PlaneDirections.mk (PlaneDirections.xHat plane) yHat)
    (ConstStepRange.setStartEnd
       (EllipticalArcParameters.circularAngle_rad out_result)
       startAngle_rad endAngle_rad)
    (EllipticalArcParameters.semiXAxis out_result)
    (EllipticalArcParameters.semiYAxis out_result).

Definition calcPerspectiveProjection (this : t)
    (parameters : EllipticalArcParameters.t ColumnVector3.t Range)
    (cameraTransform : CameraTransform.t ColumnVector3.t)
    (out_result : MutableEllipticalArcParameters ColumnVector3.t)
    (eps : R) : Result (MutableEllipticalArcParameters ColumnVector3.t) :=
  let '(eigenvalues, eigenvectors) :=
    Matrix2.getEigenvaluesAndVectors (ellipseEqM_p this) in
  let origin :=
    ColumnVector3.mk
      (ColumnVector2.x (ellipseEqK_p this))
      (ColumnVector2.y (ellipseEqK_p this)) 0 in
  let semiXAxis := 1 / sqrt (ColumnVector2.x eigenvalues) in
  let semiYAxis := 1 / sqrt (ColumnVector2.y eigenvalues) in
  let eigenColumn0 := Matrix2.column eigenvectors 0 in
  let eigenColumn1 := Matrix2.column eigenvectors 1 in
  let axes : Result Matrix2.t :=
    if Rltb (ColumnVector2.vectorDot eigenColumn0 eigenColumn0) eps
    then
      if Rltb (ColumnVector2.vectorDot eigenColumn1 eigenColumn1) eps
      then
        Ok (Matrix2.mk
              (Matrix3x2.m00 (projectionPlaneBasis2 this))
              (Matrix3x2.m01 (projectionPlaneBasis2 this))
              (Matrix3x2.m10 (projectionPlaneBasis2 this))
              (Matrix3x2.m11 (projectionPlaneBasis2 this)))
      else Throw "Projected ellipse x axis direction is indeterminate. The semiXAxis must be 0. This code branch shouldn't be reached!"
    else
      if Rltb (ColumnVector2.vectorDot eigenColumn1 eigenColumn1) eps
      then Throw "Projected ellipse y axis direction is indeterminate. The semiYAxis must be 0. This code branch shouldn't be reached!"
      else Ok (Matrix2.normalizeColumnVectors eigenvectors) in
  match axes with
  | Throw message => Throw message
  | Ok eigenvectors =>
      let plane :=
        PlaneDirections.mk
          (ColumnVector3.mk
             (Matrix2.m00 eigenvectors) (Matrix2.m10 eigenvectors) 0)
          (ColumnVector3.mk
             (Matrix2.m01 eigenvectors) (Matrix2.m11 eigenvectors) 0) in
      Ok (projectCircularAngle parameters cameraTransform
            (EllipticalArcParameters.mk origin plane
               (EllipticalArcParameters.circularAngle_rad out_result)
               semiXAxis semiYAxis))
  end.

(** The projection of an ellipse with a zero semi-axis, or seen from a
    point of its own plane: a segment or a point. *)
Definition calcDegenerateProjection
    (parameters : EllipticalArcParameters.t ColumnVector3.t Range)
    (cameraTransform : CameraTransform.t ColumnVector3.t)
    (out_result : MutableEllipticalArcParameters ColumnVector3.t)
    (eps : R) : MutableEllipticalArcParameters ColumnVector3.t :=
  let xDiameterStart :=
    CameraTransform.project cameraTransform
      (EllipticalArcVertexCalculator.calculateVertex parameters 0) in
  let xDiameterEnd :=
    CameraTransform.project cameraTransform
      (EllipticalArcVertexCalculator.calculateVertex parameters PI) in
  let origin :=
    ColumnVector3.multiplyScalar
      (ColumnVector3.add xDiameterStart xDiameterEnd) (5 / 10) in
  let semiXAxis := ColumnVector3.distanceTo xDiameterEnd origin in
  let yDiameterStart :=
    CameraTransform.project cameraTransform
      (EllipticalArcVertexCalculator.calculateVertex parameters (PI / 2)) in
  let semiYAxis := ColumnVector3.distanceTo yDiameterStart origin in
  let plane :=
    if Rleb eps (Math.abs semiXAxis)
    then
      let xHat :=
        ColumnVector3.normalizeColumnVectors
          (ColumnVector3.subtract xDiameterStart origin) in
      PlaneDirections.mk xHat
        (ColumnVector3.mk
           (- ColumnVector3.y xHat) (ColumnVector3.x xHat) (ColumnVector3.z xHat))
    else if Rleb eps (Math.abs semiYAxis)
    then
      let yHat :=
        ColumnVector3.normalizeColumnVectors
          (ColumnVector3.subtract yDiameterStart origin) in
      PlaneDirections.mk
        (ColumnVector3.mk
           (- ColumnVector3.y yHat) (ColumnVector3.x yHat) (ColumnVector3.z yHat))
        yHat
    else
      PlaneDirections.mk
        (CameraTransform.getProjectionPlaneXHat cameraTransform)
        (CameraTransform.getProjectionPlaneYHat cameraTransform) in
  projectCircularAngle parameters cameraTransform
    (EllipticalArcParameters.mk origin plane
       (EllipticalArcParameters.circularAngle_rad out_result)
       semiXAxis semiYAxis).

End Projection.

Definition projectNonPerspective {V Range} `{ColumnVector.t V} `{ValueRange.t Range}
    (parameters : EllipticalArcParameters.t V Range)
    (cameraTransform : CameraTransform.t V)
    (out_result : MutableEllipticalArcParameters V)
    : MutableEllipticalArcParameters V :=
  let unprojectedOrigin := EllipticalArcParameters.origin parameters in
  let projectedOrigin := CameraTransform.project cameraTransform unprojectedOrigin in
  let scaledXHatEnd :=
    CameraTransform.project cameraTransform
      (ColumnVector.addScaled unprojectedOrigin
         (PlaneDirections.xHat (EllipticalArcParameters.plane parameters))
         (EllipticalArcParameters.semiXAxis parameters)) in
  let semiXAxis := ColumnVector.distanceTo projectedOrigin scaledXHatEnd in
  let scaledYHatEnd :=
    CameraTransform.project cameraTransform
      (ColumnVector.addScaled unprojectedOrigin
         (PlaneDirections.yHat (EllipticalArcParameters.plane parameters))
         (EllipticalArcParameters.semiYAxis parameters)) in
  let semiYAxis := ColumnVector.distanceTo projectedOrigin scaledYHatEnd in
  EllipticalArcParameters.mk
    projectedOrigin
    (PlaneDirections_projectToCamera
       (EllipticalArcParameters.plane parameters) cameraTransform
       unprojectedOrigin projectedOrigin)
    (ValueRange.cloneAsMutable (EllipticalArcParameters.circularAngle_rad parameters))
    semiXAxis semiYAxis.

(** [projectToCamera] for [Dim = 3]. *)
Definition projectToCamera {Range} `{ValueRange.t Range} (this : t)
    (parameters : EllipticalArcParameters.t ColumnVector3.t Range)
    (cameraTransform : CameraTransform.t ColumnVector3.t)
    (out_result : MutableEllipticalArcParameters ColumnVector3.t)
    (eps : R) : t * Result (MutableEllipticalArcParameters ColumnVector3.t) :=
  if negb (ColumnVector.componentCount ColumnVector3.t =? 3)%Z
     || negb (CameraTransform.isPerspectiveCamera cameraTransform)
  then (this, Ok (projectNonPerspective parameters cameraTransform out_result))
  else
    let '(this, result) :=
      calcSkewedConeInInputEllipseFrame this parameters cameraTransform eps in
    if SkewedEllipticalConeResult_eqb result Finite
    then
      let this := calcConeInWorldFrame this in
      let this := calcProjectedEllipseConicEq this cameraTransform in
      let this := calcProjectedEllipseMatrixEq this in
      (this, calcPerspectiveProjection this parameters cameraTransform out_result eps)
    else
      (this, Ok (calcDegenerateProjection parameters cameraTransform out_result eps)).

(** [projectToCamera] for [Dim = 2]: the component count is not 3, so the
    first branch is the only one taken. *)
Definition projectToCamera2 {Range} `{ValueRange.t Range} (this : t)
    (parameters : EllipticalArcParameters.t ColumnVector2.t Range)
    (cameraTransform : CameraTransform.t ColumnVector2.t)
    (out_result : MutableEllipticalArcParameters ColumnVector2.t)
    : t * Result (MutableEllipticalArcParameters ColumnVector2.t) :=
  (this, Ok (projectNonPerspective parameters cameraTransform out_result)).

End EllipticalArcConfigCalculator.

(** ** The console *)

(** What [console.error] is given: the text of the message, with the
    numbers interpolated in it kept apart. *)
Module Console.

Inductive entry : Type :=
  | error (text : string) (values : list R).

(** The messages written so far, the latest first. *)
Definition t : Type := list entry.

End Console.

(** ** Vertex and normal buffers ([archytas_model/tesselation_base]) *)

Definition COORDS_PER_VERTEX : Z := 3.

(** A [Float32Array]: a fixed number of cells.  A store outside the array
    is ignored, and the rounding of a stored number to single precision is
    not modelled. *)
Module Float32Array.

Definition t : Type := list R.

Definition new (length : Z) : t := replicate (Z.to_nat length) 0.

Definition set (this : t) (index : Z) (value : R) : t :=
  if (0 <=? index)%Z then <[Z.to_nat index := value]> this else this.

(** A load outside the array yields [undefined] in the source; it is [0]
    here. *)
Definition get (this : t) (index : Z) : R :=
  if (0 <=? index)%Z then nth (Z.to_nat index) this 0 else 0.

End Float32Array.

(** A [THREE.BufferAttribute], reduced to its version counter:
    [needsUpdate = true] increments it. *)
Module BufferAttribute.

Record t : Type := mk { version : nat }.

Definition new : t := mk 0.
Definition set_needsUpdate_true (this : t) : t := mk (S (version this)).

End BufferAttribute.

Module VertexAndNormal.

Record t : Type := mk { vertex : ColumnVector3.t; normal : ColumnVector3.t }.

End VertexAndNormal.

Module CoordsArrayVertexAndNormalWriter.

Record t : Type := mk {
  outputVertexCoords : Float32Array.t;
  outputNormalCoords : Float32Array.t
}.

Definition writeVertex (this : t) (vertexIdx : Z) (vertex : VertexAndNormal.t) : t :=
  let coordsIdx := (vertexIdx * COORDS_PER_VERTEX)%Z in
  let position := VertexAndNormal.vertex vertex in
  let normal := VertexAndNormal.normal vertex in
  let normalCoords := outputNormalCoords this in
  let normalCoords := Float32Array.set normalCoords coordsIdx (ColumnVector3.x normal) in
  let normalCoords :=
    Float32Array.set normalCoords (coordsIdx + 1) (ColumnVector3.y normal) in
  let normalCoords :=
    Float32Array.set normalCoords (coordsIdx + 2) (ColumnVector3.z normal) in
  let vertexCoords := outputVertexCoords this in
  let vertexCoords := Float32Array.set vertexCoords coordsIdx (ColumnVector3.x position) in
  let vertexCoords :=
    Float32Array.set vertexCoords (coordsIdx + 1) (ColumnVector3.y position) in
  let vertexCoords :=
    Float32Array.set vertexCoords (coordsIdx + 2) (ColumnVector3.z position) in
  mk vertexCoords normalCoords.

End CoordsArrayVertexAndNormalWriter.

(** [for (let i = start; ...; ++i) body(i)] run [count] times. *)
Fixpoint forLoop {S : Type} (count : nat) (i : Z) (body : Z -> S -> S) (s : S) : S :=
  match count with
  | O => s
  | Datatypes.S count' => forLoop count' (i + 1)%Z body (body i s)
  end.

(** ** The sliced tessellation ([archytas_model/sliced_tesselation]) *)

(** The [SliceVertexCalculator] interface, as the record of the methods of
    one calculator. *)
Module SliceVertexCalculator.

Record t (Range : Type) : Type := mk {
  sliceParameterRange : Range;
  startVertexIndex : Z -> Z;
  maxVertexCount : Z;
  calculateVertices :
    R -> CoordsArrayVertexAndNormalWriter.t -> Z -> CoordsArrayVertexAndNormalWriter.t
}.
Arguments mk {Range}.
Arguments sliceParameterRange {Range} _.
Arguments startVertexIndex {Range} _ _.
Arguments maxVertexCount {Range} _.
Arguments calculateVertices {Range} _ _ _ _.

End SliceVertexCalculator.

(** The abstract [VertexCalculator]; [calculateSharedVertices] does nothing
    unless a solid overrides it. *)
Module VertexCalculator.

Record t (Range : Type) : Type := mk {
  slice : SliceVertexCalculator.t Range;
  calculateSharedVertices :
    CoordsArrayVertexAndNormalWriter.t -> Z -> CoordsArrayVertexAndNormalWriter.t
}.
Arguments mk {Range}.
Arguments slice {Range} _.
Arguments calculateSharedVertices {Range} _ _ _.

Section Methods.

Context {Range : Type} `{ValueRange.t Range}.

Definition new (sliceVertexCalculator : SliceVertexCalculator.t Range) : t Range :=
  mk sliceVertexCalculator (fun vertexWriter vertexStartIdx => vertexWriter).

Definition sliceCount (this : t Range) : Z :=
  (ValueRange.stepCount
     (SliceVertexCalculator.sliceParameterRange (slice this)) + 1)%Z.

Definition vertexCount (this : t Range) : Z :=
  SliceVertexCalculator.startVertexIndex (slice this) (sliceCount this + 1).

Definition calculateVertices (this : t Range)
    (vertexWriter : CoordsArrayVertexAndNormalWriter.t)
    : CoordsArrayVertexAndNormalWriter.t :=
  let vertexWriter := calculateSharedVertices this vertexWriter 0 in
  let slice := slice this in
  let sliceParameter := SliceVertexCalculator.sliceParameterRange slice in
  forLoop (Z.to_nat (sliceCount this)) 0
    (fun sliceIdx vertexWriter =>
       SliceVertexCalculator.calculateVertices slice
         (ValueRange.atStep sliceParameter sliceIdx) vertexWriter
         (SliceVertexCalculator.startVertexIndex slice sliceIdx))
    vertexWriter.

End Methods.

End VertexCalculator.

(** [SurfaceVertexCoords]: the two buffers, allocated and filled by the
    constructor, and their attributes. *)
Module SurfaceVertexCoords.

Record t : Type := mk {
  vertexCoords : Float32Array.t;
  normalCoords : Float32Array.t;
  positionAttribute : BufferAttribute.t;
  normalAttribute : BufferAttribute.t
}.

Definition vertexWriter (this : t) : CoordsArrayVertexAndNormalWriter.t :=
  CoordsArrayVertexAndNormalWriter.mk (vertexCoords this) (normalCoords this).

(** The constructor, given the [vertexCount] and the [calculateVertices]
    of its vertex calculator. *)
Definition new (vertexCount : Z)
    (calculateVertices :
       CoordsArrayVertexAndNormalWriter.t -> CoordsArrayVertexAndNormalWriter.t)
    : t :=
  let vertexWriter :=
    calculateVertices
      (CoordsArrayVertexAndNormalWriter.mk
         (Float32Array.new (vertexCount * COORDS_PER_VERTEX))
         (Float32Array.new (vertexCount * COORDS_PER_VERTEX))) in
  mk (CoordsArrayVertexAndNormalWriter.outputVertexCoords vertexWriter)
     (CoordsArrayVertexAndNormalWriter.outputNormalCoords vertexWriter)
     BufferAttribute.new BufferAttribute.new.

End SurfaceVertexCoords.

(** [ConnectingSliceVertexCalculator]: the calculator of the wedge between
    the last whole slice and the current value of the slice parameter.  It
    reads the buffers of the solid ([vertexCoords]).  The cone overrides
    [sharedVertexCount], [vertexCount], [calculateVertices] and
    [updateVertices], so a calculator is the record of these. *)
Module ConnectingSliceVertexCalculator.

Record t : Type := mk {
  sliceCount : Z;
  sharedVertexCount : Z;
  vertexCount : Z;
  calculateVertices :
    CoordsArrayVertexAndNormalWriter.t -> CoordsArrayVertexAndNormalWriter.t;
  (* sliceIdx, sliceParameter, vertexWriter, vertexStartIdx *)
  updateVertices :
    Z -> R -> CoordsArrayVertexAndNormalWriter.t -> Z ->
    CoordsArrayVertexAndNormalWriter.t
}.

Section Methods.

Context {Range : Type} `{ValueRange.t Range}.
Variable vertexCoords : SurfaceVertexCoords.t.
Variable vertexCalculator : VertexCalculator.t Range.

(** The [while (srcI < srcEndIdx)] loop of [copyVerticesFromBase], one
    vertex per turn. *)
Definition copyVerticesFromBase (srcStartVertexIdx srcEndVertexIdx : Z)
    (vertexWriter : CoordsArrayVertexAndNormalWriter.t) (destStartVertexIdx : Z)
    : CoordsArrayVertexAndNormalWriter.t :=
  let srcNormalCoords := SurfaceVertexCoords.normalCoords vertexCoords in
  let srcVertexCoords := SurfaceVertexCoords.vertexCoords vertexCoords in
  forLoop (Z.to_nat (srcEndVertexIdx - srcStartVertexIdx)) 0
    (fun k vertexWriter =>
       let srcI := ((srcStartVertexIdx + k) * COORDS_PER_VERTEX)%Z in
       let normal :=
         ColumnVector3.mk
           (Float32Array.get srcNormalCoords srcI)
           (Float32Array.get srcNormalCoords (srcI + 1))
           (Float32Array.get srcNormalCoords (srcI + 2)) in
       let vertex :=
         ColumnVector3.mk
           (Float32Array.get srcVertexCoords srcI)
           (Float32Array.get srcVertexCoords (srcI + 1))
           (Float32Array.get srcVertexCoords (srcI + 2)) in
       CoordsArrayVertexAndNormalWriter.writeVertex vertexWriter
         (destStartVertexIdx + k) (VertexAndNormal.mk vertex normal))
    vertexWriter.

Definition base_sharedVertexCount : Z :=
  SliceVertexCalculator.startVertexIndex (VertexCalculator.slice vertexCalculator) 0.

Definition base_vertexCount : Z :=
  (base_sharedVertexCount
   + 2 * SliceVertexCalculator.maxVertexCount (VertexCalculator.slice vertexCalculator))%Z.

Definition base_calculateSharedVertices
    (vertexWriter : CoordsArrayVertexAndNormalWriter.t) (coordStartIdx : Z)
    : CoordsArrayVertexAndNormalWriter.t :=
  copyVerticesFromBase 0 base_sharedVertexCount vertexWriter coordStartIdx.

Definition base_calculateVertices
    (vertexWriter : CoordsArrayVertexAndNormalWriter.t)
    : CoordsArrayVertexAndNormalWriter.t :=
  base_calculateSharedVertices vertexWriter 0.

Definition base_updateVertices (sliceIdx : Z) (sliceParameter : R)
    (vertexWriter : CoordsArrayVertexAndNormalWriter.t) (vertexStartIdx : Z)
    : CoordsArrayVertexAndNormalWriter.t :=
  let slice := VertexCalculator.slice vertexCalculator in
  let vertexWriter :=
    copyVerticesFromBase
      (SliceVertexCalculator.startVertexIndex slice sliceIdx)
      (SliceVertexCalculator.startVertexIndex slice (sliceIdx + 1))
      vertexWriter vertexStartIdx in
  SliceVertexCalculator.calculateVertices slice sliceParameter vertexWriter
    (vertexStartIdx + SliceVertexCalculator.maxVertexCount slice).

(** The calculator of the class itself (the cylinder's and the torus's). *)
Definition new : t :=
  mk 1 base_sharedVertexCount base_vertexCount
     base_calculateVertices base_updateVertices.

End Methods.

End ConnectingSliceVertexCalculator.

(** [ConnectingSliceVertexCoords]: the buffers of the connecting slice and
    the slice parameter they were last computed for ([NaN] at first). *)
Module ConnectingSliceVertexCoords.

Record t : Type := mk {
  super : SurfaceVertexCoords.t;
  _sliceParameter : option R
}.

Definition new (vertexCalculator : ConnectingSliceVertexCalculator.t) : t :=
  mk (SurfaceVertexCoords.new
        (ConnectingSliceVertexCalculator.vertexCount vertexCalculator)
        (ConnectingSliceVertexCalculator.calculateVertices vertexCalculator))
     None.

(** [value != this._sliceParameter]. *)
Definition differs (value : R) (sliceParameter : option R) : bool :=
  match sliceParameter with
  | None => true
  | Some stored => negb (Reqb value stored)
  end.

(** The setter of [sliceParameter].  [vertexCalculator] is the connecting
    slice's calculator and [baseCalculator] the one of the solid, whose
    slice parameter range gives the slice index. *)
Definition set_sliceParameter {Range : Type} `{ValueRange.t Range}
    (vertexCalculator : ConnectingSliceVertexCalculator.t)
    (baseCalculator : VertexCalculator.t Range)
    (this : t) (value : R) : t :=
  if differs value (_sliceParameter this)
  then
    let sliceIdx :=
      ValueRange.lastIncludedStepIdx
        (SliceVertexCalculator.sliceParameterRange
           (VertexCalculator.slice baseCalculator)) value in
    let vertexWriter :=
      ConnectingSliceVertexCalculator.updateVertices vertexCalculator
        sliceIdx value (SurfaceVertexCoords.vertexWriter (super this))
        (ConnectingSliceVertexCalculator.sharedVertexCount vertexCalculator) in
    mk (SurfaceVertexCoords.mk
          (CoordsArrayVertexAndNormalWriter.outputVertexCoords vertexWriter)
          (CoordsArrayVertexAndNormalWriter.outputNormalCoords vertexWriter)
          (BufferAttribute.set_needsUpdate_true
             (SurfaceVertexCoords.positionAttribute (super this)))
          (BufferAttribute.set_needsUpdate_true
             (SurfaceVertexCoords.normalAttribute (super this))))
       (Some value)
  else this.

End ConnectingSliceVertexCoords.

(** [IndexedGeometry]: what the setters change of it, namely the draw
    range of the geometry and the end slice index.  The index buffer is
    written by the constructor only and is left out. *)
Module IndexedGeometry.

(** [geometry.drawRange]; a fresh geometry draws everything
    ([count = Infinity], [None] here). *)
Record DrawRange : Type := mkDrawRange { start : Z; count : option Z }.

Record t : Type := mk {
  _startSliceIndex : Z;
  _endSliceIndex : option Z;
  drawRange : DrawRange
}.

Definition new : t := mk 0 None (mkDrawRange 0 None).

(** The setter of [drawEndSliceIndex], given the [startVertexIndex] of the
    geometry's slice calculator and its [calculatedSliceCount]. *)
Definition set_drawEndSliceIndex
    (startVertexIndex : Z -> Z) (calculatedSliceCount : Z)
    (this : t) (console : Console.t) (sliceIdx : Z) : t * Console.t :=
  if (0 <=? sliceIdx)%Z && (sliceIdx <=? calculatedSliceCount)%Z
  then
    (mk (_startSliceIndex this) (Some sliceIdx)
        (mkDrawRange (startVertexIndex (_startSliceIndex this))
           (Some (startVertexIndex sliceIdx))),
     console)
  else
    (this,
     Console.error "Slice index {} out of bounds [0; {}]"
       (IZR sliceIdx :: IZR calculatedSliceCount :: nil) :: console).

End IndexedGeometry.

(** [Line]: a polyline of a fixed number of vertices. *)
Module Line.

Record t : Type := mk {
  coords : Float32Array.t;
  positionAttribute : BufferAttribute.t
}.

Definition new (vertices : list ColumnVector3.t) : t :=
  mk (flat_map
        (fun vertex =>
           ColumnVector3.x vertex :: ColumnVector3.y vertex
           :: ColumnVector3.z vertex :: nil)
        vertices)
     BufferAttribute.new.

Definition updateVertex (this : t) (vertexIdx : Z) (newVertex : ColumnVector3.t) : t :=
  let coordIdx := (vertexIdx * COORDS_PER_VERTEX)%Z in
  let coords := Float32Array.set (coords this) coordIdx (ColumnVector3.x newVertex) in
  let coords := Float32Array.set coords (coordIdx + 1) (ColumnVector3.y newVertex) in
  let coords := Float32Array.set coords (coordIdx + 2) (ColumnVector3.z newVertex) in
  mk coords (positionAttribute this).

Definition commitUpdates (this : t) : t :=
  mk (coords this) (BufferAttribute.set_needsUpdate_true (positionAttribute this)).

End Line.

(** ** The solids ([archytas_model/cylinder], [torus], [cone]) *)

Module ArchytasCylinder.

Record CylinderConfiguration (Range : Type) : Type := mkConfiguration {
  origin : ColumnVector3.t;
  radius : R;
  transversePlane : PlaneDirections.t ColumnVector3.t;
  angle_rad : Range;
  height : R
}.
Arguments mkConfiguration {Range}.
Arguments origin {Range} _.
Arguments radius {Range} _.
Arguments transversePlane {Range} _.
Arguments angle_rad {Range} _.
Arguments height {Range} _.

(** The default of the constructor's last parameter. *)
Definition defaultHeight (radius : R) : R := 1.5 * radius.

Record t (Range : Type) : Type := mk {
  config : CylinderConfiguration Range;
  coords : SurfaceVertexCoords.t;
  surface : IndexedGeometry.t;
  wireframe : IndexedGeometry.t;
  connectingSliceCoords : ConnectingSliceVertexCoords.t;
  connectingSliceSurface : IndexedGeometry.t;
  connectingSliceWireframe : IndexedGeometry.t
}.
Arguments mk {Range}.
Arguments config {Range} _.
Arguments coords {Range} _.
Arguments surface {Range} _.
Arguments wireframe {Range} _.
Arguments connectingSliceCoords {Range} _.
Arguments connectingSliceSurface {Range} _.
Arguments connectingSliceWireframe {Range} _.

Section Methods.

Context {Range : Type} `{ValueRange.t Range}.

(** [GeneratrixVertexCalculator]: the two ends of the generatrix at a
    secant angle. *)
Definition vertexCount : Z := 2.

Definition calculateVertices (config : CylinderConfiguration Range)
    (secantAngle_rad : R) (vertexWriter : CoordsArrayVertexAndNormalWriter.t)
    (vertexStartIdx : Z) : CoordsArrayVertexAndNormalWriter.t :=
  let _hVec :=
    ColumnVector3.multiplyScalar
      (PlaneDirections.zHat (transversePlane config)) (height config) in
  let centralAngle_rad := PI - 2 * secantAngle_rad in
  let xHat := PlaneDirections.unitVecAtAngle (transversePlane config) centralAngle_rad in
  let normal := xHat in
  let vertex := ColumnVector3.addScaled (origin config) xHat (radius config) in
  let vertexWriter :=
    CoordsArrayVertexAndNormalWriter.writeVertex vertexWriter vertexStartIdx
      (VertexAndNormal.mk vertex normal) in
  let vertex := ColumnVector3.add vertex _hVec in
  CoordsArrayVertexAndNormalWriter.writeVertex vertexWriter (vertexStartIdx + 1)
    (VertexAndNormal.mk vertex normal).

Definition slice (config : CylinderConfiguration Range) : SliceVertexCalculator.t Range :=
  SliceVertexCalculator.mk
    (angle_rad config)
    (fun sliceIdx => (vertexCount * sliceIdx)%Z)
    vertexCount
    (calculateVertices config).

Definition vertexCalculator (config : CylinderConfiguration Range)
    : VertexCalculator.t Range :=
  VertexCalculator.new (slice config).

(** [SurfaceAngleStepCalculator.startVertexIndex] and
    [WireframeAngleStepCalculator.startVertexIndex]. *)
Definition surface_startVertexIndex (sliceIdx : Z) : Z :=
  (2 * (vertexCount - 1) * 3 * sliceIdx)%Z.

Definition wireframe_startVertexIndex (sliceIdx : Z) : Z :=
  ((vertexCount - 1) * 2 * sliceIdx)%Z.

Definition connectingSliceCalculator (this : t Range) : ConnectingSliceVertexCalculator.t :=
  ConnectingSliceVertexCalculator.new (coords this) (vertexCalculator (config this)).

Definition new (config : CylinderConfiguration Range) : t Range :=
  let coords :=
    SurfaceVertexCoords.new
      (VertexCalculator.vertexCount (vertexCalculator config))
      (VertexCalculator.calculateVertices (vertexCalculator config)) in
  mk config coords IndexedGeometry.new IndexedGeometry.new
     (ConnectingSliceVertexCoords.new
        (ConnectingSliceVertexCalculator.new coords (vertexCalculator config)))
     IndexedGeometry.new IndexedGeometry.new.

(** The setter of [secantAngle_rad]. *)
Definition set_secantAngle_rad (this : t Range) (console : Console.t) (value : R)
    : t Range * Console.t :=
  let range := angle_rad (config this) in
  if ValueRange.includes range value
  then
    let stepIdx := ValueRange.lastIncludedStepIdx range value in
    let calculatedSliceCount :=
      VertexCalculator.sliceCount (vertexCalculator (config this)) in
    let '(surface, console) :=
      IndexedGeometry.set_drawEndSliceIndex
        surface_startVertexIndex calculatedSliceCount
        (surface this) console stepIdx in
    let '(wireframe, console) :=
      IndexedGeometry.set_drawEndSliceIndex
        wireframe_startVertexIndex calculatedSliceCount
        (wireframe this) console
        (if (0 <? stepIdx)%Z then stepIdx + 1 else stepIdx)%Z in
    let connectingSliceCoords :=
      ConnectingSliceVertexCoords.set_sliceParameter
        (connectingSliceCalculator this) (vertexCalculator (config this))
        (connectingSliceCoords this) value in
    (mk (config this) (coords this) surface wireframe connectingSliceCoords
        (connectingSliceSurface this) (connectingSliceWireframe this),
     console)
  else
    (this,
     Console.error "Angle {} rad out of bounds [{} rad; {} rad]"
       (value :: ValueRange.start range :: ValueRange.end_ range :: nil)
     :: console).

End Methods.

End ArchytasCylinder.

Module ArchytasTorus.

Record TorusConfiguration (Range : Type) : Type := mkConfiguration {
  origin : ColumnVector3.t;
  radius : R;
  toroidalPlane : PlaneDirections.t ColumnVector3.t;
  toroidalAngle_rad : Range;
  poloidalAngle_rad : ConstStepRange.t
}.
Arguments mkConfiguration {Range}.
Arguments origin {Range} _.
Arguments radius {Range} _.
Arguments toroidalPlane {Range} _.
Arguments toroidalAngle_rad {Range} _.
Arguments poloidalAngle_rad {Range} _.

(** The constructor; [poloidalAngleStepCount] defaults to [180 / 5]. *)
Definition newConfiguration {Range : Type}
    (origin : ColumnVector3.t) (radius : R)
    (toroidalPlane : PlaneDirections.t ColumnVector3.t)
    (toroidalAngle_rad : Range) (poloidalAngleStepCount : Z)
    : TorusConfiguration Range :=
  mkConfiguration origin radius toroidalPlane toroidalAngle_rad
    (ConstStepRange.new 0 PI poloidalAngleStepCount).

Record t (Range : Type) : Type := mk {
  config : TorusConfiguration Range;
  coords : SurfaceVertexCoords.t;
  surface : IndexedGeometry.t;
  wireframe : IndexedGeometry.t;
  connectingSliceCoords : ConnectingSliceVertexCoords.t;
  connectingSliceSurface : IndexedGeometry.t;
  connectingSliceWireframe : IndexedGeometry.t
}.
Arguments mk {Range}.
Arguments config {Range} _.
Arguments coords {Range} _.
Arguments surface {Range} _.
Arguments wireframe {Range} _.
Arguments connectingSliceCoords {Range} _.
Arguments connectingSliceSurface {Range} _.
Arguments connectingSliceWireframe {Range} _.

Section Methods.

Context {Range : Type} `{ValueRange.t Range}.

(** [TubeCircleVertexCalculator]: the tube circle at a toroidal angle.  Its
    slice parameter range is the poloidal range of the configuration. *)
Definition uniqueVertexCount (config : TorusConfiguration Range) : Z :=
  ConstStepRange.stepCount (poloidalAngle_rad config).

Definition calculateVertices (config : TorusConfiguration Range)
    (toroidalAngle_rad : R) (vertexWriter : CoordsArrayVertexAndNormalWriter.t)
    (vertexStartIdx : Z) : CoordsArrayVertexAndNormalWriter.t :=
  let xHat := PlaneDirections.unitVecAtAngle (toroidalPlane config) toroidalAngle_rad in
  let yHat := PlaneDirections.zHat (toroidalPlane config) in
  let stepCount := ConstStepRange.stepCount (poloidalAngle_rad config) in
  forLoop (Z.to_nat stepCount) 0
    (fun i vertexWriter =>
       let poloidalAngle_rad := ConstStepRange.atStep (poloidalAngle_rad config) i in
       let normal :=
         ColumnVector3.addScaled
           (ColumnVector3.addScaled (ColumnVector3.mk 0 0 0) xHat (cos poloidalAngle_rad))
           yHat (sin poloidalAngle_rad) in
       let vertex :=
         ColumnVector3.add
           (ColumnVector3.multiplyScalar
              (ColumnVector3.mk
                 (0 + ColumnVector3.x normal + ColumnVector3.x xHat)
                 (0 + ColumnVector3.y normal + ColumnVector3.y xHat)
                 (0 + ColumnVector3.z normal + ColumnVector3.z xHat))
              (radius config))
           (origin config) in
       CoordsArrayVertexAndNormalWriter.writeVertex vertexWriter (vertexStartIdx + i)
         (VertexAndNormal.mk vertex normal))
    vertexWriter.

Definition slice (config : TorusConfiguration Range)
    : SliceVertexCalculator.t ConstStepRange.t :=
  SliceVertexCalculator.mk
    (poloidalAngle_rad config)
    (fun toroidalStepIdx => (1 + uniqueVertexCount config * toroidalStepIdx)%Z)
    (uniqueVertexCount config)
    (calculateVertices config).

(** [TorusVertexCalculator]: the one shared vertex is the centre of
    symmetry of the horn torus. *)
Definition calculateSharedVertices (config : TorusConfiguration Range)
    (vertexWriter : CoordsArrayVertexAndNormalWriter.t) (vertexStartIdx : Z)
    : CoordsArrayVertexAndNormalWriter.t :=
  CoordsArrayVertexAndNormalWriter.writeVertex vertexWriter vertexStartIdx
    (VertexAndNormal.mk (origin config) (PlaneDirections.zHat (toroidalPlane config))).

Definition vertexCalculator (config : TorusConfiguration Range)
    : VertexCalculator.t ConstStepRange.t :=
  VertexCalculator.mk (slice config) (calculateSharedVertices config).

Definition surface_startVertexIndex (config : TorusConfiguration Range)
    (toroidalStepIdx : Z) : Z :=
  ((1 + 2 * (uniqueVertexCount config - 1)) * 3 * toroidalStepIdx)%Z.

Definition wireframe_startVertexIndex (config : TorusConfiguration Range)
    (toroidalStepIdx : Z) : Z :=
  (uniqueVertexCount config * 2 * toroidalStepIdx)%Z.

Definition connectingSliceCalculator (this : t Range) : ConnectingSliceVertexCalculator.t :=
  ConnectingSliceVertexCalculator.new (coords this) (vertexCalculator (config this)).

Definition new (config : TorusConfiguration Range) : t Range :=
  let coords :=
    SurfaceVertexCoords.new
      (VertexCalculator.vertexCount (vertexCalculator config))
      (VertexCalculator.calculateVertices (vertexCalculator config)) in
  mk config coords IndexedGeometry.new IndexedGeometry.new
     (ConnectingSliceVertexCoords.new
        (ConnectingSliceVertexCalculator.new coords (vertexCalculator config)))
     IndexedGeometry.new IndexedGeometry.new.

(** The setter of [toroidalAngle_rad]. *)
Definition set_toroidalAngle_rad (this : t Range) (console : Console.t) (value : R)
    : t Range * Console.t :=
  let range := toroidalAngle_rad (config this) in
  if ValueRange.includes range value
  then
    let stepIdx := ValueRange.lastIncludedStepIdx range value in
    let calculatedSliceCount :=
      VertexCalculator.sliceCount (vertexCalculator (config this)) in
    let '(surface, console) :=
      IndexedGeometry.set_drawEndSliceIndex
        (surface_startVertexIndex (config this)) calculatedSliceCount
        (surface this) console stepIdx in
    let '(wireframe, console) :=
      IndexedGeometry.set_drawEndSliceIndex
        (wireframe_startVertexIndex (config this)) calculatedSliceCount
        (wireframe this) console
        (if (0 <? stepIdx)%Z then stepIdx + 1 else stepIdx)%Z in
    let connectingSliceCoords :=
      ConnectingSliceVertexCoords.set_sliceParameter
        (connectingSliceCalculator this) (vertexCalculator (config this))
        (connectingSliceCoords this) value in
    (mk (config this) (coords this) surface wireframe connectingSliceCoords
        (connectingSliceSurface this) (connectingSliceWireframe this),
     console)
  else
    (this,
     Console.error "Toroidal angle {} rad out of bounds [{}; {}]"
       (value :: ValueRange.repr range (180 / PI))
     :: console).

End Methods.

End ArchytasTorus.

Module ArchytasCone.

(** [labelPositioner] stands for [labelPositioner.positionLabel] applied to
    the label of the point T: the pixel position it gives the label's
    element for a local position of the label. *)
Record ConeConfiguration : Type := mkConfiguration {
  labelPositioner : ColumnVector3.t -> Z * Z;
  origin : ColumnVector3.t;
  transversePlane : PlaneDirections.t ColumnVector3.t;
  invertZ : bool;
  apexAngle_rad : R;
  height : R;
  cylinderRadius : R;
  oapAngleCompliment_rad : ConstStepRange.t
}.

(** The constructor; [aopAngleStepCount] defaults to [90 / 5].  The step
    count of the range is its half.  Step counts are integers here, and the
    integer quotient is the source's quotient for an even
    [aopAngleStepCount] only (the illustration is built with 18); for an odd
    one the source goes on with a fractional step count, which this model
    does not cover: what is stated of the slices of a cone is stated for
    even counts. *)
Definition newConfiguration
    (labelPositioner : ColumnVector3.t -> Z * Z)
    (origin : ColumnVector3.t)
    (transversePlane : PlaneDirections.t ColumnVector3.t)
    (invertZ : bool) (apexAngle_rad height cylinderRadius : R)
    (aopAngleStepCount : Z) : ConeConfiguration :=
  mkConfiguration labelPositioner origin transversePlane invertZ
    apexAngle_rad height cylinderRadius
    (ConstStepRange.radRangeFromStartEndDegStepCount 0 90 (aopAngleStepCount / 2)).

(** [GeneratrixVertexCalculator]: the apex and the base end of the
    generatrix at a complement of the angle OAP. *)
Definition _zHat (config : ConeConfiguration) : ColumnVector3.t :=
  if invertZ config
  then ColumnVector3.multiplyScalar (PlaneDirections.zHat (transversePlane config)) (-1)
  else PlaneDirections.zHat (transversePlane config).

Definition _baseCenterVec (config : ConeConfiguration) : ColumnVector3.t :=
  ColumnVector3.multiplyScalar (_zHat config) (- height config).

Definition _baseRadius (config : ConeConfiguration) : R :=
  height config * tan (apexAngle_rad config / 2).

Definition vertexCount : Z := 2.

Definition centralAngle_eps : R := 1e-8.

Definition centralAngleForAngleOAP_rad (oapAngle_rad : R) : R :=
  if Rltb oapAngle_rad centralAngle_eps
  then Math.atan2 1 (sqrt 2)
  else Math.atan2 (sqrt (1 / cos oapAngle_rad - 1)) (sin oapAngle_rad).

(** [oapAngleComplimentStepSize_rad] is the optional last parameter. *)
Definition calculateVertices (config : ConeConfiguration)
    (oapAngleCompliment_rad : R) (vertexWriter : CoordsArrayVertexAndNormalWriter.t)
    (vertexStartIdx : Z) (oapAngleComplimentStepSize_rad : option R)
    : CoordsArrayVertexAndNormalWriter.t :=
  let oapAngleComplimentStepSize_rad :=
    match oapAngleComplimentStepSize_rad with
    | Some stepSize => stepSize
    | None =>
        ConstStepRange.stepSize (ArchytasCone.oapAngleCompliment_rad config)
          (ConstStepRange.lastIncludedStepIdx
             (ArchytasCone.oapAngleCompliment_rad config) oapAngleCompliment_rad)
    end in
  let zHat := _zHat config in
  let oapAngle_rad := PI / 2 - oapAngleCompliment_rad in
  let centralAngle_rad :=
    centralAngleForAngleOAP_rad (oapAngle_rad - oapAngleComplimentStepSize_rad / 2) in
  let normal :=
    ColumnVector3.addScaled
      (ColumnVector3.multiplyScalar
         (PlaneDirections.unitVecAtAngle (transversePlane config) centralAngle_rad)
         (cos centralAngle_rad))
      zHat (sin centralAngle_rad) in
  let vertexWriter :=
    CoordsArrayVertexAndNormalWriter.writeVertex vertexWriter vertexStartIdx
      (VertexAndNormal.mk (origin config) normal) in
  let centralAngle_rad := centralAngleForAngleOAP_rad oapAngle_rad in
  let xHat := PlaneDirections.unitVecAtAngle (transversePlane config) centralAngle_rad in
  let normal :=
    ColumnVector3.addScaled
      (ColumnVector3.multiplyScalar xHat (cos centralAngle_rad))
      zHat (sin centralAngle_rad) in
  let vertex :=
    ColumnVector3.addScaled
      (ColumnVector3.add (origin config) (_baseCenterVec config))
      xHat (_baseRadius config) in
  CoordsArrayVertexAndNormalWriter.writeVertex vertexWriter (vertexStartIdx + 1)
    (VertexAndNormal.mk vertex normal).

Definition vertexAtCentralAngleAndHeight (config : ConeConfiguration)
    (centralAngle_rad height : R) : ColumnVector3.t :=
  let xHat := PlaneDirections.unitVecAtAngle (transversePlane config) centralAngle_rad in
  let baseRadius := height * tan (apexAngle_rad config / 2) in
  ColumnVector3.addScaled
    (ColumnVector3.add (ColumnVector3.multiplyScalar xHat baseRadius) (origin config))
    (_zHat config) (- height).

Definition vertexOnAxisAtHeight (config : ConeConfiguration) (height : R)
    : ColumnVector3.t :=
  ColumnVector3.add (ColumnVector3.multiplyScalar (_zHat config) (- height))
    (origin config).

Definition slice (config : ConeConfiguration) : SliceVertexCalculator.t ConstStepRange.t :=
  SliceVertexCalculator.mk
    (oapAngleCompliment_rad config)
    (fun sliceIdx => (vertexCount * sliceIdx)%Z)
    vertexCount
    (fun oapAngleCompliment_rad vertexWriter vertexStartIdx =>
       calculateVertices config oapAngleCompliment_rad vertexWriter vertexStartIdx None).

Definition vertexCalculator (config : ConeConfiguration)
    : VertexCalculator.t ConstStepRange.t :=
  VertexCalculator.new (slice config).

Definition surface_startVertexIndex (sliceIdx : Z) : Z := (1 * 3 * sliceIdx)%Z.

Definition wireframe_startVertexIndex (sliceIdx : Z) : Z :=
  ((vertexCount - 1) * 2 * sliceIdx)%Z.

(** [ConeConnectingSliceVertexCalculator]: one triangle; the vertices are
    computed only when the slice parameter is set. *)
Definition ConeConnectingSliceVertexCalculator (config : ConeConfiguration)
    : ConnectingSliceVertexCalculator.t :=
  ConnectingSliceVertexCalculator.mk 1 0 4
    (fun vertexWriter => vertexWriter)
    (fun sliceIdx sliceParameter vertexWriter vertexStartIdx =>
       let parameterAtSlice :=
         ConstStepRange.atStep (oapAngleCompliment_rad config) sliceIdx in
       let vertexWriter :=
         calculateVertices config sliceParameter vertexWriter vertexStartIdx None in
       calculateVertices config parameterAtSlice vertexWriter (vertexStartIdx + 2)
         (Some (sliceParameter - parameterAtSlice))).

Record t : Type := mk {
  config : ConeConfiguration;
  coords : SurfaceVertexCoords.t;
  surface : IndexedGeometry.t;
  wireframe : IndexedGeometry.t;
  connectingSliceCoords : ConnectingSliceVertexCoords.t;
  connectingSliceSurface : IndexedGeometry.t;
  connectingSliceWireframe : IndexedGeometry.t;
  lineQt : Line.t;
  lineAt : Line.t;
  ptQ : ColumnVector3.t;
  ptT : ColumnVector3.t;
  (* [left] and [top] of the label of T, in pixels, once positioned *)
  ptTLabel_position : option (Z * Z);
  _oapAngleCompliment_rad : R
}.

(** [updatePts]: the new [ptQ] and [ptT]. *)
Definition updatePts (config : ConeConfiguration) (oapAngleCompliment_rad : R)
    : ColumnVector3.t * ColumnVector3.t :=
  let oapAngle_rad := PI / 2 - oapAngleCompliment_rad in
  let centralAngle_rad := centralAngleForAngleOAP_rad oapAngle_rad in
  let lenAq := cylinderRadius config * (1 + cos (2 * oapAngle_rad)) in
  (vertexOnAxisAtHeight config lenAq,
   vertexAtCentralAngleAndHeight config centralAngle_rad lenAq).

Definition new (config : ConeConfiguration) : t :=
  let coords :=
    SurfaceVertexCoords.new
      (VertexCalculator.vertexCount (vertexCalculator config))
      (VertexCalculator.calculateVertices (vertexCalculator config)) in
  let _oapAngleCompliment_rad := PI / 4 in
  let '(ptQ, ptT) := updatePts config _oapAngleCompliment_rad in
  mk config coords IndexedGeometry.new IndexedGeometry.new
     (ConnectingSliceVertexCoords.new (ConeConnectingSliceVertexCalculator config))
     IndexedGeometry.new IndexedGeometry.new
     (Line.new (ptQ :: ptT :: nil))
     (Line.new (origin config :: ptT :: nil))
     ptQ ptT None _oapAngleCompliment_rad.

(** The setter of [oapAngleCompliment_rad]. *)
Definition set_oapAngleCompliment_rad (this : t) (console : Console.t) (value : R)
    : t * Console.t :=
  if Reqb value (_oapAngleCompliment_rad this)
  then (this, console)
  else
    let range := oapAngleCompliment_rad (config this) in
    if ConstStepRange.includes range value
    then
      let stepIdx := ConstStepRange.lastIncludedStepIdx range value in
      let calculatedSliceCount :=
        VertexCalculator.sliceCount (vertexCalculator (config this)) in
      let '(surface, console) :=
        IndexedGeometry.set_drawEndSliceIndex
          surface_startVertexIndex calculatedSliceCount
          (surface this) console stepIdx in
      let '(wireframe, console) :=
        IndexedGeometry.set_drawEndSliceIndex
          wireframe_startVertexIndex calculatedSliceCount
          (wireframe this) console
          (if (0 <? stepIdx)%Z then stepIdx + 1 else stepIdx)%Z in
      let connectingSliceCoords :=
        ConnectingSliceVertexCoords.set_sliceParameter
          (ConeConnectingSliceVertexCalculator (config this))
          (vertexCalculator (config this))
          (connectingSliceCoords this) value in
      let '(ptQ, ptT) := updatePts (config this) value in
      let lineQt :=
        Line.commitUpdates
          (Line.updateVertex (Line.updateVertex (lineQt this) 0 ptQ) 1 ptT) in
      let lineAt := Line.commitUpdates (Line.updateVertex (lineAt this) 1 ptT) in
      let ptTLabel_position := Some (labelPositioner (config this) ptT) in
      (mk (config this) (coords this) surface wireframe connectingSliceCoords
          (connectingSliceSurface this) (connectingSliceWireframe this)
          lineQt lineAt ptQ ptT ptTLabel_position value,
       console)
    else
      (this,
       Console.error "Angle {} rad out of bounds [{} rad; {} rad]"
         (value :: ConstStepRange.start range :: ConstStepRange.end_ range :: nil)
       :: console).

End ArchytasCone.


(** ** Notions used to state the properties of the projector *)

(** The value of [X^T * A * X + B^T * X + c] at a point, for the conic
    equations the projector keeps in the form [X^T * A * X + B^T * X + c = 0]. *)
Definition conicResidual3 (A : Matrix3.t) (B : ColumnVector3.t) (c : R)
    (X : ColumnVector3.t) : R :=
  ColumnVector3.vectorDot X (Matrix3.multiplyVector A X)
  + ColumnVector3.vectorDot B X + c.

Definition conicResidual2 (A : Matrix2.t) (B : ColumnVector2.t) (c : R)
    (Y : ColumnVector2.t) : R :=
  ColumnVector2.vectorDot Y (Matrix2.multiplyVector A Y)
  + ColumnVector2.vectorDot B Y + c.

(** The convention on plane bases: two orthogonal unit vectors. *)
Definition orthonormalPlane (plane : PlaneDirections.t ColumnVector3.t) : Prop :=
  ColumnVector3.vectorDot (PlaneDirections.xHat plane) (PlaneDirections.xHat plane) = 1 /\
  ColumnVector3.vectorDot (PlaneDirections.yHat plane) (PlaneDirections.yHat plane) = 1 /\
  ColumnVector3.vectorDot (PlaneDirections.xHat plane) (PlaneDirections.yHat plane) = 0.

(** The basis of a perspective camera: three pairwise orthogonal unit
    vectors.  The constructor yields one, and [lookAt], [flipXAxis],
    [flipYAxis], [flipZAxis] and [setFocalDistance] keep it. *)
Definition orthonormalCamera (camera : ProjectionPlaneCamera.t) : Prop :=
  let x := ProjectionPlaneCamera.xHat camera in
  let y := ProjectionPlaneCamera.yHat camera in
  let z := ProjectionPlaneCamera.zHat camera in
  ColumnVector3.vectorDot x x = 1 /\
  ColumnVector3.vectorDot y y = 1 /\
  ColumnVector3.vectorDot z z = 1 /\
  ColumnVector3.vectorDot x y = 0 /\
  ColumnVector3.vectorDot x z = 0 /\
  ColumnVector3.vectorDot y z = 0.

(** The first two components of a projected point: its coordinates in the
    projection plane. *)
Definition planeCoordinates (projected : ColumnVector3.t) : ColumnVector2.t :=
  ColumnVector2.mk (ColumnVector3.x projected) (ColumnVector3.y projected).

(** A symmetric 3x3 matrix. *)
Definition symmetric3 (A : Matrix3.t) : Prop :=
  Matrix3.m10 A = Matrix3.m01 A /\
  Matrix3.m20 A = Matrix3.m02 A /\
  Matrix3.m21 A = Matrix3.m12 A.

(** The coordinates of a world point in the frame of an ellipse with
    basis [R_e] and centre [C_bar_e = R_e^T * C_e]:
    [R_e^T * point - C_bar_e]. *)
Definition frameCoordinates (basis : Matrix3.t) (center_c point : ColumnVector3.t)
    : ColumnVector3.t :=
  ColumnVector3.subtract (Matrix3.multiplyVector (Matrix3.transposed basis) point) center_c.

(** The [ellipseBasis] and [ellipseCenter_c] of an arc, as
    [calcSkewedConeInInputEllipseFrame] sets them. *)
Definition arcBasis {Range}
    (parameters : EllipticalArcParameters.t ColumnVector3.t Range) : Matrix3.t :=
  let plane := EllipticalArcParameters.plane parameters in
  Matrix3.setFromColumnVectors (PlaneDirections.xHat plane) (PlaneDirections.yHat plane)
    (PlaneDirections.zHat plane).

Definition arcCenter_c {Range}
    (parameters : EllipticalArcParameters.t ColumnVector3.t Range) : ColumnVector3.t :=
  let plane := EllipticalArcParameters.plane parameters in
  let origin := EllipticalArcParameters.origin parameters in
  ColumnVector3.mk
    (ColumnVector3.vectorDot origin (PlaneDirections.xHat plane))
    (ColumnVector3.vectorDot origin (PlaneDirections.yHat plane))
    (ColumnVector3.vectorDot origin (PlaneDirections.zHat plane)).

(** The coefficients [conicEqA_c] and [conicEqB_c] of the cone with the
    given apex (in the frame of the ellipse) through the ellipse with
    semi-axes [a] and [b], as [calcSkewedConeInInputEllipseFrame] sets
    them. *)
Definition coneEqA (a b : R) (apex : ColumnVector3.t) : Matrix3.t :=
  let e0 := ColumnVector3.x apex in
  let e1 := ColumnVector3.y apex in
  let e2 := ColumnVector3.z apex in
  let a_c_02 := - e0 / (e2 * a * a) in
  let a_c_12 := - e1 / (e2 * b * b) in
  let a_c_22 := (e0 * e0 / (a * a) + e1 * e1 / (b * b) - 1) / (e2 * e2) in
  Matrix3.mk (1 / (a * a)) 0 a_c_02 0 (1 / (b * b)) a_c_12 a_c_02 a_c_12 a_c_22.

Definition coneEqB (apex : ColumnVector3.t) : ColumnVector3.t :=
  ColumnVector3.mk 0 0 (2 / ColumnVector3.z apex).


(** ** Sample configurations used by the examples of Part II *)

(** A small circle of radius [r] around the world origin whose y direction
    is the negated world y axis, swept from 0 to a quarter turn. *)
Definition tiny_arc (r : R) : EllipticalArcParameters.t ColumnVector3.t ConstStepRange.t :=
  EllipticalArcParameters.mk
    (ColumnVector3.mk 0 0 0)
    (PlaneDirections.mk (ColumnVector3.mk 1 0 0) (ColumnVector3.mk 0 (-1) 0))
    (ConstStepRange.new 0 (PI / 2) 1)
    r r.

(** A freshly constructed camera five units up the world z axis. *)
Definition camera_above : ProjectionPlaneCamera.t :=
  ProjectionPlaneCamera.new (ColumnVector3.mk 0 0 5).

(** The frame of the image of [tiny_arc r] under [camera_above], before the
    direction of the arc is decided. *)
Definition flat_frame (r : R) (range : ConstStepRange.t)
    : MutableEllipticalArcParameters ColumnVector3.t :=
  EllipticalArcParameters.mk (ColumnVector3.mk 0 0 0)
    (PlaneDirections.mk (ColumnVector3.mk 1 0 0) (ColumnVector3.mk 0 1 0))
    range (r / 5) (r / 5).

(** Some output object to be overwritten. *)
Definition blank_result : MutableEllipticalArcParameters ColumnVector3.t :=
  EllipticalArcParameters.mk (ColumnVector3.mk 0 0 0)
    (PlaneDirections.mk (ColumnVector3.mk 1 0 0) (ColumnVector3.mk 0 1 0))
    (ConstStepRange.new 0 1 1) 1 1.

(** The unit circle of the world x-y plane. *)
Definition unit_circle : EllipticalArcParameters.t ColumnVector3.t ConstStepRange.t :=
  EllipticalArcParameters.mk
    (ColumnVector3.mk 0 0 0)
    (PlaneDirections.mk (ColumnVector3.mk 1 0 0) (ColumnVector3.mk 0 1 0))
    (ConstStepRange.new 0 (2 * PI) 8) 1 1.

(** A unit circle standing in the world y-z plane; its point at circular
    angle 0 is [(0, 0, 1)]. *)
Definition upright_circle : EllipticalArcParameters.t ColumnVector3.t ConstStepRange.t :=
  EllipticalArcParameters.mk
    (ColumnVector3.mk 0 0 0)
    (PlaneDirections.mk (ColumnVector3.mk 0 0 1) (ColumnVector3.mk 0 1 0))
    (ConstStepRange.new 0 (2 * PI) 8) 1 1.

(** A freshly constructed camera at the height of that point. *)
Definition camera_beside : ProjectionPlaneCamera.t :=
  ProjectionPlaneCamera.new (ColumnVector3.mk 2 0 1).


(** ** Notions used to state the properties of the solids *)


Definition writerLengths (vertexWriter : CoordsArrayVertexAndNormalWriter.t)
    : nat * nat :=
  (length (CoordsArrayVertexAndNormalWriter.outputVertexCoords vertexWriter),
   length (CoordsArrayVertexAndNormalWriter.outputNormalCoords vertexWriter)).

(** [b] is not before [a], for two end slice indices or two draw counts.
    An end that was never set is the geometry's default (the index is
    [NaN] and the draw count [Infinity]): the whole index buffer is drawn
    then, so every set end is before it and it is before none. *)
Definition notBefore (a b : option Z) : Prop :=
  match a, b with
  | _, None => True
  | Some x, Some y => (x <= y)%Z
  | None, Some _ => False
  end.


(** The states a solid goes through: the constructor's, then any calls of
    the setter of its sweep angle. *)
Inductive cylinder_reachable {Range : Type} `{ValueRange.t Range}
    (config : ArchytasCylinder.CylinderConfiguration Range)
    : ArchytasCylinder.t Range -> Prop :=
  | cylinder_reachable_new :
      cylinder_reachable config (ArchytasCylinder.new config)
  | cylinder_reachable_set this console value :
      cylinder_reachable config this ->
      cylinder_reachable config
        (fst (ArchytasCylinder.set_secantAngle_rad this console value)).


Inductive cone_reachable (config : ArchytasCone.ConeConfiguration)
    : ArchytasCone.t -> Prop :=
  | cone_reachable_new :
      cone_reachable config (ArchytasCone.new config)
  | cone_reachable_set this console value :
      cone_reachable config this ->
      cone_reachable config
        (fst (ArchytasCone.set_oapAngleCompliment_rad this console value)).










(** ** Sample solids *)

(** The range of the complement of the angle OAP the model is built
    with. *)
Definition angleOapComplimentRange : ConstStepRange.t :=
  ConstStepRange.radRangeFromStartEndDegStepCount 0 90 (90 / 5).

Definition sample_cylinder : ArchytasCylinder.CylinderConfiguration ConstStepRange.t :=
  ArchytasCylinder.mkConfiguration
    (ColumnVector3.mk 2 0 0) 2
    (PlaneDirections.mk (ColumnVector3.mk 1 0 0) (ColumnVector3.mk 0 0 (-1)))
    angleOapComplimentRange (ArchytasCylinder.defaultHeight 2).

Definition sample_torus : ArchytasTorus.TorusConfiguration ConstStepRange.t :=
  ArchytasTorus.newConfiguration
    (ColumnVector3.mk 0 0 0) 2
    (PlaneDirections.mk (ColumnVector3.mk 0 0 (-1)) (ColumnVector3.mk (-1) 0 0))
    angleOapComplimentRange (180 / 5).

Definition sample_cone : ArchytasCone.ConeConfiguration :=
  ArchytasCone.newConfiguration
    (fun _ => (0, 0)%Z)
    (ColumnVector3.mk 0 0 0)
    (PlaneDirections.mk (ColumnVector3.mk 0 0 (-1)) (ColumnVector3.mk 0 1 0))
    true (120 / 180 * PI) (2 / cos (120 / 180 * PI / 2)) 2 (90 / 5).


(** ** Further parts of the core

    The remaining classes of [geometry/vectors_and_matrices],
    [geometry/vertices], [archytas_model/tesselation_base] and
    [archytas_model/base_circle], [transverse_circle] that the properties
    of Part II are about. *)

(** [Matrix2.transposed]. *)
Definition Matrix2_transposed (this : Matrix2.t) : Matrix2.t :=
  Matrix2.mk (Matrix2.m00 this) (Matrix2.m10 this)
             (Matrix2.m01 this) (Matrix2.m11 this).

(** [Math.acos] with its [NaN]: it has a value on [[-1, 1]] only. *)
Definition Math_acos (x : R) : option R :=
  if Rleb (-1) x && Rleb x 1 then Some (acos x) else None.

(** [PlaneDirections.rotateByAngle_rad] and
    [PlaneDirections.isXyProjectionInRightDirection]. *)
Definition PlaneDirections_rotateByAngle_rad {V} `{ColumnVector.t V}
    (this : PlaneDirections.t V) (angle_rad : R) : PlaneDirections.t V :=
  let newXHat :=
    ColumnVector.addScaled
      (ColumnVector.multiplyScalar (PlaneDirections.xHat this) (cos angle_rad))
      (PlaneDirections.yHat this) (sin angle_rad) in
  let newYHat :=
    ColumnVector.addScaled
      (ColumnVector.multiplyScalar (PlaneDirections.xHat this) (- sin angle_rad))
      (PlaneDirections.yHat this) (cos angle_rad) in
  PlaneDirections.mk newXHat newYHat.

Definition PlaneDirections_isXyProjectionInRightDirection
    (this : PlaneDirections.t ColumnVector3.t) : bool :=
  let xHat := PlaneDirections.xHat this in
  let yHat := PlaneDirections.yHat this in
  Rleb 0 (ColumnVector3.x xHat * ColumnVector3.y yHat
          - ColumnVector3.y xHat * ColumnVector3.x yHat).

(** The range of the base circle's central angle
    ([archytas_model/base_circle]): a [ConstStepRange] whose bounds are
    the doubled bounds of the range it is built from. *)
Module BaseCircleAngleRange.

Definition fromAngleOapCompliment_rad (angleOapCompliment_rad : R) : R :=
  2 * angleOapCompliment_rad.

Definition new {T} `{ValueRange.t T} (angleOapCompliment_rad : T) : ConstStepRange.t :=
  ConstStepRange.new
    (fromAngleOapCompliment_rad (ValueRange.start angleOapCompliment_rad))
    (fromAngleOapCompliment_rad (ValueRange.end_ angleOapCompliment_rad))
    (ValueRange.stepCount angleOapCompliment_rad).

End BaseCircleAngleRange.

(** [CoordsArrayVertexWriter]: the writer of vertices without normals. *)
Module CoordsArrayVertexWriter.

Record t : Type := mk { vertexCoords : Float32Array.t }.

Definition writeVertex (this : t) (vertexIdx : Z) (vertex : ColumnVector3.t) : t :=
  let coordsIdx := (vertexIdx * COORDS_PER_VERTEX)%Z in
  let vertexCoords := vertexCoords this in
  let vertexCoords := Float32Array.set vertexCoords coordsIdx (ColumnVector3.x vertex) in
  let vertexCoords :=
    Float32Array.set vertexCoords (coordsIdx + 1) (ColumnVector3.y vertex) in
  let vertexCoords :=
    Float32Array.set vertexCoords (coordsIdx + 2) (ColumnVector3.z vertex) in
  mk vertexCoords.

(** The vertex stored at an index. *)
Definition readVertex (this : t) (vertexIdx : Z) : ColumnVector3.t :=
  let coordsIdx := (vertexIdx * COORDS_PER_VERTEX)%Z in
  ColumnVector3.mk
    (Float32Array.get (vertexCoords this) coordsIdx)
    (Float32Array.get (vertexCoords this) (coordsIdx + 1))
    (Float32Array.get (vertexCoords this) (coordsIdx + 2)).

End CoordsArrayVertexWriter.

(** [ParametricVertexCalculator]: one vertex per step of a parameter range,
    both bounds included.  [calculateVertex] is the abstract method and
    [writeVertex] the method of the writer. *)
Module ParametricVertexCalculator.

Section Methods.

Context {Range : Type} `{ValueRange.t Range} {VertexInfoT Writer : Type}.
Variable parameterRange : Range.
Variable calculateVertex : R -> VertexInfoT.
Variable writeVertex : Writer -> Z -> VertexInfoT -> Writer.

Definition vertexCount : Z := (ValueRange.stepCount parameterRange + 1)%Z.

Definition calculateVertices (vertexWriter : Writer) : Writer :=
  let endStepIdx := ValueRange.stepCount parameterRange in
  forLoop (Z.to_nat (endStepIdx + 1)) 0
    (fun stepIdx vertexWriter =>
       writeVertex vertexWriter stepIdx
         (calculateVertex (ValueRange.atStep parameterRange stepIdx)))
    vertexWriter.

End Methods.

End ParametricVertexCalculator.

(** [LineVertexCoords]: the buffer of a polyline, allocated and filled by
    the constructor, and its attribute. *)
Module LineVertexCoords.

Record t : Type := mk {
  vertexCoords : Float32Array.t;
  positionAttribute : BufferAttribute.t
}.

Definition vertexWriter (this : t) : CoordsArrayVertexWriter.t :=
  CoordsArrayVertexWriter.mk (vertexCoords this).

(** The constructor, given the [vertexCount] and the [calculateVertices]
    of its vertex calculator. *)
Definition new (vertexCount : Z)
    (calculateVertices : CoordsArrayVertexWriter.t -> CoordsArrayVertexWriter.t) : t :=
  let vertexWriter :=
    calculateVertices
      (CoordsArrayVertexWriter.mk (Float32Array.new (vertexCount * COORDS_PER_VERTEX))) in
  mk (CoordsArrayVertexWriter.vertexCoords vertexWriter) BufferAttribute.new.

(** [recalculateVertices], given the [calculateVertices] of the vertex
    calculator after its [updateConfig]. *)
Definition recalculateVertices
    (calculateVertices : CoordsArrayVertexWriter.t -> CoordsArrayVertexWriter.t)
    (this : t) : t :=
  let vertexWriter := calculateVertices (vertexWriter this) in
  mk (CoordsArrayVertexWriter.vertexCoords vertexWriter)
     (BufferAttribute.set_needsUpdate_true (positionAttribute this)).

End LineVertexCoords.

(** [EllipseArc]: the polyline of an elliptical arc.  The arc reads the
    parameters it was given each time it computes its vertices, so the
    parameters in force are an argument. *)
Module EllipseArc.

Section Methods.

Context {Range : Type} `{ValueRange.t Range}.

Definition calculateVertices
    (config : EllipticalArcParameters.t ColumnVector3.t Range)
    : CoordsArrayVertexWriter.t -> CoordsArrayVertexWriter.t :=
  ParametricVertexCalculator.calculateVertices
    (EllipticalArcParameters.circularAngle_rad config)
    (EllipticalArcVertexCalculator.calculateVertex config)
    CoordsArrayVertexWriter.writeVertex.

Definition new (config : EllipticalArcParameters.t ColumnVector3.t Range)
    : LineVertexCoords.t :=
  LineVertexCoords.new
    (ParametricVertexCalculator.vertexCount
       (EllipticalArcParameters.circularAngle_rad config))
    (calculateVertices config).

Definition recalculateVertices
    (config : EllipticalArcParameters.t ColumnVector3.t Range)
    (this : LineVertexCoords.t) : LineVertexCoords.t :=
  LineVertexCoords.recalculateVertices (calculateVertices config) this.

End Methods.

End EllipseArc.

(** The labels of the model ([ArchytasModelLabels]). *)
Inductive PointLabel : Type :=
  | label_ptA | label_ptO | label_ptP | label_ptQ | label_ptR | label_ptS | label_ptT.

(** The base circle ([archytas_model/base_circle]): the circle on the
    diameter AO, the point P on it and the foot Q of P on AO.
    [labelPositioner] stands for [labelPositioner.positionLabel] applied to
    a label: the pixel position it gives the label's element for a local
    position of the label. *)
Module ArchytasBaseCircle.

Record BaseCircleConfiguration : Type := mkConfiguration {
  labelPositioner : PointLabel -> ColumnVector3.t -> Z * Z;
  origin : ColumnVector3.t;
  plane : PlaneDirections.t ColumnVector3.t;
  centralAngle : ConstStepRange.t;
  radius : R
}.

Record t : Type := mk {
  config : BaseCircleConfiguration;
  circle : LineVertexCoords.t;
  diameter : Line.t;
  lineAp : Line.t;
  linePq : Line.t;
  linePo : Line.t;
  ptP : ColumnVector3.t;
  ptQ : ColumnVector3.t;
  diameterEnd : ColumnVector3.t;
  center : ColumnVector3.t;
  ptALabel_position : Z * Z;
  ptOLabel_position : Z * Z;
  ptPLabel_position : Z * Z;
  ptQLabel_position : Z * Z
}.

(** [updatePointsAndDirections]: the new [ptP] and [ptQ]. *)
Definition updatePointsAndDirections (config : BaseCircleConfiguration)
    (center : ColumnVector3.t) (angleOapCompliment_rad : R)
    : ColumnVector3.t * ColumnVector3.t :=
  let centralAngle_rad := 2 * angleOapCompliment_rad in
  let ptQ :=
    ColumnVector3.addScaled center (PlaneDirections.xHat (plane config))
      (radius config * cos centralAngle_rad) in
  let ptP :=
    ColumnVector3.addScaled ptQ (PlaneDirections.yHat (plane config))
      (radius config * sin centralAngle_rad) in
  (ptP, ptQ).

Definition circleParameters (config : BaseCircleConfiguration) (center : ColumnVector3.t)
    : EllipticalArcParameters.t ColumnVector3.t ConstStepRange.t :=
  EllipticalArcParameters.mk center (plane config) (centralAngle config)
    (radius config) (radius config).

Definition new (config : BaseCircleConfiguration) : t :=
  let center :=
    ColumnVector3.addScaled (origin config) (PlaneDirections.xHat (plane config))
      (- radius config) in
  let diameterEnd :=
    ColumnVector3.addScaled (origin config) (PlaneDirections.xHat (plane config))
      ((-2) * radius config) in
  let _angleOapCompliment := 0 in
  let '(ptP, ptQ) := updatePointsAndDirections config center _angleOapCompliment in
  mk config
     (EllipseArc.new (circleParameters config center))
     (Line.new (origin config :: diameterEnd :: nil))
     (Line.new (origin config :: ptP :: nil))
     (Line.new (ptP :: ptQ :: nil))
     (Line.new (ptP :: diameterEnd :: nil))
     ptP ptQ diameterEnd center
     (labelPositioner config label_ptA (origin config))
     (labelPositioner config label_ptO diameterEnd)
     (labelPositioner config label_ptP ptP)
     (labelPositioner config label_ptQ ptQ).

(** The setter of [angleOapCompliment_rad]. *)
Definition set_angleOapCompliment_rad (this : t) (console : Console.t) (value : R)
    : t * Console.t :=
  let centralAngle_rad := BaseCircleAngleRange.fromAngleOapCompliment_rad value in
  let range := centralAngle (config this) in
  if ConstStepRange.includes range centralAngle_rad
  then
    let '(ptP, ptQ) := updatePointsAndDirections (config this) (center this) value in
    let lineAp := Line.commitUpdates (Line.updateVertex (lineAp this) 1 ptP) in
    let linePq :=
      Line.commitUpdates
        (Line.updateVertex (Line.updateVertex (linePq this) 0 ptP) 1 ptQ) in
    let linePo := Line.commitUpdates (Line.updateVertex (linePo this) 0 ptP) in
    (mk (config this) (circle this) (diameter this) lineAp linePq linePo
        ptP ptQ (diameterEnd this) (center this)
        (labelPositioner (config this) label_ptA (origin (config this)))
        (labelPositioner (config this) label_ptO (diameterEnd this))
        (labelPositioner (config this) label_ptP ptP)
        (labelPositioner (config this) label_ptQ ptQ),
     console)
  else
    (this,
     Console.error
       "Angle OAP compliment (90 deg - angle OAP) {} rad corresponds to an out of bounds [{} rad; {} rad] central angle = {} rad"
       (value :: ConstStepRange.start range :: ConstStepRange.end_ range
        :: centralAngle_rad :: nil)
     :: console).

End ArchytasBaseCircle.

(** The transverse circle ([archytas_model/transverse_circle]): the
    half circle on the diameter AS that turns about A above the plane of
    the base circle, and the point R on it above P. *)
Module ArchytasTransverseCircle.

Record TransverseCircleConfiguration : Type := mkConfiguration {
  labelPositioner : PointLabel -> ColumnVector3.t -> Z * Z;
  origin : ColumnVector3.t;
  baseCirclePlane : PlaneDirections.t ColumnVector3.t;
  centralAngle_rad : TransverseCircleAngleRange.t;
  radius : R
}.

Record t : Type := mk {
  config : TransverseCircleConfiguration;
  circle : LineVertexCoords.t;
  diameter : Line.t;
  lineRa : Line.t;
  lineRp : Line.t;
  lineRs : Line.t;
  circlePlane : PlaneDirections.t ColumnVector3.t;
  center : ColumnVector3.t;
  diameterEnd : ColumnVector3.t;
  ptR : ColumnVector3.t;
  ptP : ColumnVector3.t;
  ptRLabel_position : Z * Z;
  ptSLabel_position : Z * Z;
  _angleOapCompliment_rad : R
}.

(** The points and directions that [updatePointsAndDirections] writes. *)
Record Points : Type := mkPoints {
  points_circlePlane : PlaneDirections.t ColumnVector3.t;
  points_center : ColumnVector3.t;
  points_diameterEnd : ColumnVector3.t;
  points_ptP : ColumnVector3.t;
  points_ptR : ColumnVector3.t
}.

Definition updateCirclePlane (config : TransverseCircleConfiguration)
    (circlePlane : PlaneDirections.t ColumnVector3.t) (angleOapCompliment_rad : R)
    : PlaneDirections.t ColumnVector3.t :=
  PlaneDirections.mk
    (ColumnVector3.addScaled
       (ColumnVector3.multiplyScalar
          (PlaneDirections.yHat (baseCirclePlane config))
          (- cos angleOapCompliment_rad))
       (PlaneDirections.xHat (baseCirclePlane config))
       (sin angleOapCompliment_rad))
    (PlaneDirections.yHat circlePlane).

Definition updateCenter (config : TransverseCircleConfiguration)
    (circlePlane : PlaneDirections.t ColumnVector3.t) : ColumnVector3.t :=
  ColumnVector3.addScaled (origin config) (PlaneDirections.xHat circlePlane)
    (- radius config).

Definition updateDiameterEnd (config : TransverseCircleConfiguration)
    (circlePlane : PlaneDirections.t ColumnVector3.t) : ColumnVector3.t :=
  ColumnVector3.addScaled (origin config) (PlaneDirections.xHat circlePlane)
    ((-2) * radius config).

Definition updatePtP (config : TransverseCircleConfiguration)
    (circlePlane : PlaneDirections.t ColumnVector3.t) (angleOapCompliment_rad : R)
    : ColumnVector3.t :=
  ColumnVector3.addScaled (origin config) (PlaneDirections.xHat circlePlane)
    ((-2) * radius config * sin angleOapCompliment_rad).

Definition updatePtR (config : TransverseCircleConfiguration)
    (circlePlane : PlaneDirections.t ColumnVector3.t) (center ptP : ColumnVector3.t)
    : ColumnVector3.t :=
  let lenCenterToP := ColumnVector3.distanceTo center ptP in
  ColumnVector3.addScaled ptP (PlaneDirections.yHat circlePlane)
    (sqrt (radius config * radius config - lenCenterToP * lenCenterToP)).

Definition updatePointsAndDirections (config : TransverseCircleConfiguration)
    (circlePlane : PlaneDirections.t ColumnVector3.t) (angleOapCompliment_rad : R)
    : Points :=
  let circlePlane := updateCirclePlane config circlePlane angleOapCompliment_rad in
  let center := updateCenter config circlePlane in
  let diameterEnd := updateDiameterEnd config circlePlane in
  let ptP := updatePtP config circlePlane angleOapCompliment_rad in
  let ptR := updatePtR config circlePlane center ptP in
  mkPoints circlePlane center diameterEnd ptP ptR.

Definition circleParameters (config : TransverseCircleConfiguration) (points : Points)
    : EllipticalArcParameters.t ColumnVector3.t TransverseCircleAngleRange.t :=
  EllipticalArcParameters.mk (points_center points) (points_circlePlane points)
    (centralAngle_rad config) (radius config) (radius config).

Definition new (config : TransverseCircleConfiguration) : t :=
  let circlePlane :=
    PlaneDirections.mk (ColumnVector3.mk 0 0 0)
      (ColumnVector3.multiplyScalar
         (PlaneDirections.zHat (baseCirclePlane config)) (-1)) in
  let _angleOapCompliment_rad := 0 in
  let points := updatePointsAndDirections config circlePlane _angleOapCompliment_rad in
  mk config
     (EllipseArc.new (circleParameters config points))
     (Line.new (origin config :: points_diameterEnd points :: nil))
     (Line.new (points_ptR points :: origin config :: nil))
     (Line.new (points_ptR points :: points_ptP points :: nil))
     (Line.new (points_ptR points :: points_diameterEnd points :: nil))
     (points_circlePlane points) (points_center points) (points_diameterEnd points)
     (points_ptR points) (points_ptP points)
     (labelPositioner config label_ptR (points_ptR points))
     (labelPositioner config label_ptS (points_diameterEnd points))
     _angleOapCompliment_rad.

(** The setter of [angleOapCompliment_rad].  The central angle is [NaN]
    where the arc cosine has no value; no range includes [NaN]. *)
Definition set_angleOapCompliment_rad (this : t) (console : Console.t) (value : R)
    : t * Console.t :=
  if Reqb (_angleOapCompliment_rad this) value
  then (this, console)
  else
    let range := centralAngle_rad (config this) in
    match Math_acos (1 - 2 * sin (PI - value)) with
    | Some centralAngle_rad =>
        if TransverseCircleAngleRange.includes range centralAngle_rad
        then
          let points :=
            updatePointsAndDirections (config this) (circlePlane this) value in
          let circle :=
            EllipseArc.recalculateVertices (circleParameters (config this) points)
              (circle this) in
          let diameter :=
            Line.commitUpdates
              (Line.updateVertex (diameter this) 1 (points_diameterEnd points)) in
          let lineRa :=
            Line.commitUpdates (Line.updateVertex (lineRa this) 0 (points_ptR points)) in
          let lineRp :=
            Line.commitUpdates
              (Line.updateVertex
                 (Line.updateVertex (lineRp this) 0 (points_ptR points))
                 1 (points_ptP points)) in
          let lineRs :=
            Line.commitUpdates
              (Line.updateVertex
                 (Line.updateVertex (lineRs this) 0 (points_ptR points))
                 1 (points_diameterEnd points)) in
          (mk (config this) circle diameter lineRa lineRp lineRs
              (points_circlePlane points) (points_center points)
              (points_diameterEnd points) (points_ptR points) (points_ptP points)
              (labelPositioner (config this) label_ptR (points_ptR points))
              (labelPositioner (config this) label_ptS (points_diameterEnd points))
              value,
           console)
        else
          (this,
           Console.error
             "Angle OAP compliment (90 deg - angle OAP) {} rad corresponds to an out of bounds ([{} deg; {} deg]) central angle = {} deg"
             (value :: ValueRange.repr range (180 / PI)
              ++ centralAngle_rad / PI * 180 :: nil)
           :: console)
    | None =>
        (this,
         Console.error
           "Angle OAP compliment (90 deg - angle OAP) {} rad corresponds to an out of bounds ([{} deg; {} deg]) central angle = NaN deg"
           (value :: ValueRange.repr range (180 / PI))
         :: console)
    end.

End ArchytasTransverseCircle.

(** [ArchytasModel.updateLabelPositions]: the horizontal relative offsets
    it gives the labels of P, Q, R, S and T. *)
Module ArchytasModel.

Record LabelOffsets : Type := mkLabelOffsets {
  offset_ptP : R;
  offset_ptQ : R;
  offset_ptR : R;
  offset_ptS : R;
  offset_ptT : R
}.

Definition updateLabelPositions (angleOapCompliment_rad : R) : LabelOffsets :=
  let t := angleOapCompliment_rad / PI * 2 in
  mkLabelOffsets
    ((1 - t) * (-0.85) + t * 0.85)
    ((1 - t) * 0.50 + t * (-0.50))
    ((0.5 - t) * (1.0 - t) * 0.85 * 2
     + (0.0 - t) * (1.0 - t) * 0.50 * (-4)
     + (0.0 - t) * (0.5 - t) * 0.00 * 2)
    ((1 - t) * 0.00 + t * (-0.85))
    ((0.5 - t) * (1.0 - t) * 0.00 * 2
     + (0.0 - t) * (1.0 - t) * (-0.50) * (-4)
     + (0.0 - t) * (0.5 - t) * 0.00 * 2).

End ArchytasModel.

(** The states a circle goes through: the constructor's, then any calls of
    the setter of its angle. *)
Inductive baseCircle_reachable (config : ArchytasBaseCircle.BaseCircleConfiguration)
    : ArchytasBaseCircle.t -> Prop :=
  | baseCircle_reachable_new :
      baseCircle_reachable config (ArchytasBaseCircle.new config)
  | baseCircle_reachable_set this console value :
      baseCircle_reachable config this ->
      baseCircle_reachable config
        (fst (ArchytasBaseCircle.set_angleOapCompliment_rad this console value)).

Inductive transverseCircle_reachable
    (config : ArchytasTransverseCircle.TransverseCircleConfiguration)
    : ArchytasTransverseCircle.t -> Prop :=
  | transverseCircle_reachable_new :
      transverseCircle_reachable config (ArchytasTransverseCircle.new config)
  | transverseCircle_reachable_set this console value :
      transverseCircle_reachable config this ->
      transverseCircle_reachable config
        (fst (ArchytasTransverseCircle.set_angleOapCompliment_rad this console value)).

(** ** Sample circles *)

(** The base circle and the transverse circle as the model configures
    them, with a label positioner that puts every label at the same
    place. *)
Definition sample_baseCircle : ArchytasBaseCircle.BaseCircleConfiguration :=
  ArchytasBaseCircle.mkConfiguration
    (fun _ _ => (0, 0)%Z)
    (ColumnVector3.mk 0 0 0)
    (PlaneDirections.mk (ColumnVector3.mk (-1) 0 0) (ColumnVector3.mk 0 0 (-1)))
    (BaseCircleAngleRange.new angleOapComplimentRange) 2.

Definition sample_transverseCircle
    : ArchytasTransverseCircle.TransverseCircleConfiguration :=
  ArchytasTransverseCircle.mkConfiguration
    (fun _ _ => (0, 0)%Z)
    (ColumnVector3.mk 0 0 0)
    (ArchytasBaseCircle.plane sample_baseCircle)
    (TransverseCircleAngleRange.new angleOapComplimentRange 10) 2.

(** ** Reading the buffers of the solids *)

(** The vertex and the normal that the buffers of a writer hold at a vertex
    index, read cell by cell as [copyVerticesFromBase] reads them. *)
Definition CoordsArrayVertexAndNormalWriter_readVertex
    (this : CoordsArrayVertexAndNormalWriter.t) (vertexIdx : Z) : VertexAndNormal.t :=
  let coordsIdx := (vertexIdx * COORDS_PER_VERTEX)%Z in
  let normalCoords := CoordsArrayVertexAndNormalWriter.outputNormalCoords this in
  let vertexCoords := CoordsArrayVertexAndNormalWriter.outputVertexCoords this in
  VertexAndNormal.mk
    (ColumnVector3.mk
       (Float32Array.get vertexCoords coordsIdx)
       (Float32Array.get vertexCoords (coordsIdx + 1))
       (Float32Array.get vertexCoords (coordsIdx + 2)))
    (ColumnVector3.mk
       (Float32Array.get normalCoords coordsIdx)
       (Float32Array.get normalCoords (coordsIdx + 1))
       (Float32Array.get normalCoords (coordsIdx + 2))).

(** ** Index buffers ([archytas_model/sliced_tesselation], [cylinder], [torus]) *)

(** A [Uint32Array]: a fixed number of cells of 32 bits.  A store outside
    the array is ignored and a load outside it yields [undefined], [None]
    here.  A negative length, for which the source throws, does not occur
    for the slice counts the properties below assume. *)
Module Uint32Array.

Definition t : Type := list Z.

Definition new (length : Z) : t := replicate (Z.to_nat length) 0%Z.

Definition set (this : t) (index : Z) (value : Z) : t :=
  if (0 <=? index)%Z then <[Z.to_nat index := (value mod 2 ^ 32)%Z]> this else this.

Definition get (this : t) (index : Z) : option Z :=
  if (0 <=? index)%Z then this !! Z.to_nat index else None.

End Uint32Array.

(** The index buffer of an [IndexedGeometry]
    ([archytas_model/sliced_tesselation]), which the constructor allocates
    and fills, given the [IndexedGeometrySliceVertexCalculator] of the
    geometry and its [calculatedSliceCount]. *)
Module IndexedGeometrySliceVertexCalculator.

Record t : Type := mk {
  startVertexIndex : Z -> Z;
  (* sliceIdx, out_vertexIndices, startIdx *)
  calculateVertexIndices : Z -> Uint32Array.t -> Z -> Uint32Array.t
}.

End IndexedGeometrySliceVertexCalculator.

Definition IndexedGeometry_vertexCount
    (slice : IndexedGeometrySliceVertexCalculator.t) (calculatedSliceCount : Z) : Z :=
  IndexedGeometrySliceVertexCalculator.startVertexIndex slice calculatedSliceCount.

Definition IndexedGeometry_calculateVertexIndices
    (slice : IndexedGeometrySliceVertexCalculator.t) (calculatedSliceCount : Z)
    (out_vertexIndices : Uint32Array.t) : Uint32Array.t :=
  let sliceCount := calculatedSliceCount in
  forLoop (Z.to_nat sliceCount) 0
    (fun sliceIdx out_vertexIndices =>
       IndexedGeometrySliceVertexCalculator.calculateVertexIndices slice sliceIdx
         out_vertexIndices
         (IndexedGeometrySliceVertexCalculator.startVertexIndex slice sliceIdx))
    out_vertexIndices.

(** [triangleVertexIndices], as the constructor leaves it. *)
Definition IndexedGeometry_triangleVertexIndices
    (slice : IndexedGeometrySliceVertexCalculator.t) (calculatedSliceCount : Z)
    : Uint32Array.t :=
  IndexedGeometry_calculateVertexIndices slice calculatedSliceCount
    (Uint32Array.new (IndexedGeometry_vertexCount slice calculatedSliceCount)).

(** The index calculators of the cylinder ([archytas_model/cylinder]):
    [SurfaceAngleStepCalculator] writes the two triangles of each quad
    between a generatrix and the next, [WireframeAngleStepCalculator] the
    segments of a generatrix.  Each turn of their loops is a turn of
    [forLoop], with [k] counting the turns. *)
Module CylinderSurfaceAngleStepCalculator.

Section Methods.

Context {Range : Type} `{ValueRange.t Range}.
Variable vertexCalculator : VertexCalculator.t Range.

Definition triangleCount : Z := (2 * (ArchytasCylinder.vertexCount - 1))%Z.

Definition vertexIdxCount : Z := (triangleCount * 3)%Z.

Definition startVertexIndex (sliceIdx : Z) : Z := (vertexIdxCount * sliceIdx)%Z.

Definition calculateVertexIndices (sliceIdx : Z) (out_vertexIndices : Uint32Array.t)
    (startIdx : Z) : Uint32Array.t :=
  let slice := VertexCalculator.slice vertexCalculator in
  let startSliceVertexIdx := SliceVertexCalculator.startVertexIndex slice sliceIdx in
  let endSliceVertexIdx := SliceVertexCalculator.startVertexIndex slice (sliceIdx + 1) in
  let endIdx := (endSliceVertexIdx - 1)%Z in
  forLoop (Z.to_nat (endIdx - startSliceVertexIdx)) 0
    (fun k out_vertexIndices =>
       let startSliceVertexIdx := (startSliceVertexIdx + k)%Z in
       let endSliceVertexIdx := (endSliceVertexIdx + k)%Z in
       let outIdx := (startIdx + 6 * k)%Z in
       let out_vertexIndices :=
         Uint32Array.set out_vertexIndices outIdx startSliceVertexIdx in
       let out_vertexIndices :=
         Uint32Array.set out_vertexIndices (outIdx + 1) endSliceVertexIdx in
       let out_vertexIndices :=
         Uint32Array.set out_vertexIndices (outIdx + 2) (endSliceVertexIdx + 1) in
       let out_vertexIndices :=
         Uint32Array.set out_vertexIndices (outIdx + 3) (endSliceVertexIdx + 1) in
       let out_vertexIndices :=
         Uint32Array.set out_vertexIndices (outIdx + 4) (startSliceVertexIdx + 1) in
       Uint32Array.set out_vertexIndices (outIdx + 5) startSliceVertexIdx)
    out_vertexIndices.

Definition new : IndexedGeometrySliceVertexCalculator.t :=
  IndexedGeometrySliceVertexCalculator.mk startVertexIndex calculateVertexIndices.

End Methods.

End CylinderSurfaceAngleStepCalculator.

Module CylinderWireframeAngleStepCalculator.

Section Methods.

Context {Range : Type} `{ValueRange.t Range}.
Variable vertexCalculator : VertexCalculator.t Range.

Definition lineSegmentCount : Z := (ArchytasCylinder.vertexCount - 1)%Z.

Definition vertexIdxCount : Z := (lineSegmentCount * 2)%Z.

Definition startVertexIndex (sliceIdx : Z) : Z := (vertexIdxCount * sliceIdx)%Z.

Definition calculateVertexIndices (sliceIdx : Z) (out_vertexIndices : Uint32Array.t)
    (startIdx : Z) : Uint32Array.t :=
  let slice := VertexCalculator.slice vertexCalculator in
  let startVertexIdx := SliceVertexCalculator.startVertexIndex slice sliceIdx in
  let endVertexIdx :=
    (SliceVertexCalculator.startVertexIndex slice (sliceIdx + 1) - 1)%Z in
  forLoop (Z.to_nat (endVertexIdx - startVertexIdx)) 0
    (fun k out_vertexIndices =>
       let startVertexIdx := (startVertexIdx + k)%Z in
       let outIdx := (startIdx + 2 * k)%Z in
       let out_vertexIndices := Uint32Array.set out_vertexIndices outIdx startVertexIdx in
       Uint32Array.set out_vertexIndices (outIdx + 1) (startVertexIdx + 1))
    out_vertexIndices.

Definition new : IndexedGeometrySliceVertexCalculator.t :=
  IndexedGeometrySliceVertexCalculator.mk startVertexIndex calculateVertexIndices.

End Methods.

End CylinderWireframeAngleStepCalculator.

(** The index buffers of the surface and of the wireframe of a cylinder. *)
Definition ArchytasCylinder_surfaceIndices {Range : Type} `{ValueRange.t Range}
    (config : ArchytasCylinder.CylinderConfiguration Range) : Uint32Array.t :=
  IndexedGeometry_triangleVertexIndices
    (CylinderSurfaceAngleStepCalculator.new (ArchytasCylinder.vertexCalculator config))
    (VertexCalculator.sliceCount (ArchytasCylinder.vertexCalculator config)).

Definition ArchytasCylinder_wireframeIndices {Range : Type} `{ValueRange.t Range}
    (config : ArchytasCylinder.CylinderConfiguration Range) : Uint32Array.t :=
  IndexedGeometry_triangleVertexIndices
    (CylinderWireframeAngleStepCalculator.new (ArchytasCylinder.vertexCalculator config))
    (VertexCalculator.sliceCount (ArchytasCylinder.vertexCalculator config)).

(** The index calculators of the torus ([archytas_model/torus]):
    [SurfaceToroidalStepCalculator] writes the two triangles of each quad
    between a tube circle and the next, and then one triangle with the
    shared vertex; [WireframeToroidalStepCalculator] the segments of a tube
    circle, and then one segment to the shared vertex.  [turns] is the
    number of turns of the loop, after which the loop variables have
    advanced by it. *)
Module TorusSurfaceToroidalStepCalculator.

Section Methods.

Context {Range : Type} `{ValueRange.t Range}.
Variable config : ArchytasTorus.TorusConfiguration Range.

Definition triangleCount : Z := (1 + 2 * (ArchytasTorus.uniqueVertexCount config - 1))%Z.

Definition vertexIdxCount : Z := (triangleCount * 3)%Z.

Definition startVertexIndex (toroidalStepIdx : Z) : Z :=
  (vertexIdxCount * toroidalStepIdx)%Z.

Definition calculateVertexIndices (toroidalStepIdx : Z)
    (out_vertexIndices : Uint32Array.t) (startIdx : Z) : Uint32Array.t :=
  let slice := ArchytasTorus.slice config in
  let startCircleVertexIdx := SliceVertexCalculator.startVertexIndex slice toroidalStepIdx in
  let endCircleVertexIdx :=
    SliceVertexCalculator.startVertexIndex slice (toroidalStepIdx + 1) in
  let endIdx := (endCircleVertexIdx - 1)%Z in
  let turns := Z.to_nat (endIdx - startCircleVertexIdx) in
  let out_vertexIndices :=
    forLoop turns 0
      (fun k out_vertexIndices =>
         let startCircleVertexIdx := (startCircleVertexIdx + k)%Z in
         let endCircleVertexIdx := (endCircleVertexIdx + k)%Z in
         let outIdx := (startIdx + 6 * k)%Z in
         let out_vertexIndices :=
           Uint32Array.set out_vertexIndices outIdx startCircleVertexIdx in
         let out_vertexIndices :=
           Uint32Array.set out_vertexIndices (outIdx + 1) endCircleVertexIdx in
         let out_vertexIndices :=
           Uint32Array.set out_vertexIndices (outIdx + 2) (endCircleVertexIdx + 1) in
         let out_vertexIndices :=
           Uint32Array.set out_vertexIndices (outIdx + 3) (endCircleVertexIdx + 1) in
         let out_vertexIndices :=
           Uint32Array.set out_vertexIndices (outIdx + 4) (startCircleVertexIdx + 1) in
         Uint32Array.set out_vertexIndices (outIdx + 5) startCircleVertexIdx)
      out_vertexIndices in
  let startCircleVertexIdx := (startCircleVertexIdx + Z.of_nat turns)%Z in
  let endCircleVertexIdx := (endCircleVertexIdx + Z.of_nat turns)%Z in
  let outIdx := (startIdx + 6 * Z.of_nat turns)%Z in
  let out_vertexIndices := Uint32Array.set out_vertexIndices outIdx 0 in
  let out_vertexIndices :=
    Uint32Array.set out_vertexIndices (outIdx + 1) (endCircleVertexIdx - 1) in
  Uint32Array.set out_vertexIndices (outIdx + 2) (startCircleVertexIdx - 1).

Definition new : IndexedGeometrySliceVertexCalculator.t :=
  IndexedGeometrySliceVertexCalculator.mk startVertexIndex calculateVertexIndices.

End Methods.

End TorusSurfaceToroidalStepCalculator.

Module TorusWireframeToroidalStepCalculator.

Section Methods.

Context {Range : Type} `{ValueRange.t Range}.
Variable config : ArchytasTorus.TorusConfiguration Range.

Definition lineSegmentCount : Z := ArchytasTorus.uniqueVertexCount config.

Definition vertexIdxCount : Z := (lineSegmentCount * 2)%Z.

Definition startVertexIndex (toroidalStepIdx : Z) : Z :=
  (vertexIdxCount * toroidalStepIdx)%Z.

Definition calculateVertexIndices (toroidalStepIdx : Z)
    (out_vertexIndices : Uint32Array.t) (startIdx : Z) : Uint32Array.t :=
  let slice := ArchytasTorus.slice config in
  let startVertexIdx := SliceVertexCalculator.startVertexIndex slice toroidalStepIdx in
  let endVertexIdx :=
    (SliceVertexCalculator.startVertexIndex slice (toroidalStepIdx + 1) - 1)%Z in
  let turns := Z.to_nat (endVertexIdx - startVertexIdx) in
  let out_vertexIndices :=
    forLoop turns 0
      (fun k out_vertexIndices =>
         let startVertexIdx := (startVertexIdx + k)%Z in
         let outIdx := (startIdx + 2 * k)%Z in
         let out_vertexIndices :=
           Uint32Array.set out_vertexIndices outIdx startVertexIdx in
         Uint32Array.set out_vertexIndices (outIdx + 1) (startVertexIdx + 1))
      out_vertexIndices in
  let outIdx := (startIdx + 2 * Z.of_nat turns)%Z in
  let out_vertexIndices := Uint32Array.set out_vertexIndices outIdx endVertexIdx in
  Uint32Array.set out_vertexIndices (outIdx + 1) 0.

Definition new : IndexedGeometrySliceVertexCalculator.t :=
  IndexedGeometrySliceVertexCalculator.mk startVertexIndex calculateVertexIndices.

End Methods.

End TorusWireframeToroidalStepCalculator.

(** The index buffers of the surface and of the wireframe of a torus. *)
Definition ArchytasTorus_surfaceIndices {Range : Type} `{ValueRange.t Range}
    (config : ArchytasTorus.TorusConfiguration Range) : Uint32Array.t :=
  IndexedGeometry_triangleVertexIndices
    (TorusSurfaceToroidalStepCalculator.new config)
    (VertexCalculator.sliceCount (ArchytasTorus.vertexCalculator config)).

Definition ArchytasTorus_wireframeIndices {Range : Type} `{ValueRange.t Range}
    (config : ArchytasTorus.TorusConfiguration Range) : Uint32Array.t :=
  IndexedGeometry_triangleVertexIndices
    (TorusWireframeToroidalStepCalculator.new config)
    (VertexCalculator.sliceCount (ArchytasTorus.vertexCalculator config)).

(** ** Notions used to state the properties of the circles *)

(** What every reachable state of the base circle satisfies: its points
    are those of some central angle. *)
Definition baseCircle_points (config : ArchytasBaseCircle.BaseCircleConfiguration)
    (this : ArchytasBaseCircle.t) : Prop :=
  let xHat := PlaneDirections.xHat (ArchytasBaseCircle.plane config) in
  ArchytasBaseCircle.config this = config
  /\ ArchytasBaseCircle.center this
     = ColumnVector3.addScaled (ArchytasBaseCircle.origin config) xHat
         (- ArchytasBaseCircle.radius config)
  /\ ArchytasBaseCircle.diameterEnd this
     = ColumnVector3.addScaled (ArchytasBaseCircle.origin config) xHat
         ((-2) * ArchytasBaseCircle.radius config)
  /\ exists angle,
       (ArchytasBaseCircle.ptP this, ArchytasBaseCircle.ptQ this)
       = ArchytasBaseCircle.updatePointsAndDirections config
           (ArchytasBaseCircle.center this) angle.

(** What every reachable state of the transverse circle satisfies: its
    points are those of its stored angle, whose sine lies in [[0, 1]]. *)
Definition transverseCircle_points
    (config : ArchytasTransverseCircle.TransverseCircleConfiguration)
    (this : ArchytasTransverseCircle.t) : Prop :=
  ArchytasTransverseCircle.config this = config
  /\ 0 <= sin (ArchytasTransverseCircle._angleOapCompliment_rad this) <= 1
  /\ exists circlePlane,
       PlaneDirections.yHat circlePlane
       = ColumnVector3.multiplyScalar
           (PlaneDirections.zHat (ArchytasTransverseCircle.baseCirclePlane config)) (-1)
       /\ ArchytasTransverseCircle.mkPoints
            (ArchytasTransverseCircle.circlePlane this)
            (ArchytasTransverseCircle.center this)
            (ArchytasTransverseCircle.diameterEnd this)
            (ArchytasTransverseCircle.ptP this)
            (ArchytasTransverseCircle.ptR this)
          = ArchytasTransverseCircle.updatePointsAndDirections config circlePlane
              (ArchytasTransverseCircle._angleOapCompliment_rad this).


(** ** Double precision

    The numbers of the source are IEEE 754 double-precision numbers.  Where
    a property turns on rounding (an equality between computed numbers, a
    tolerance, the sign of a quantity that is zero in exact arithmetic),
    the code concerned is embedded a second time over the binary64 numbers
    of the kernel, operation for operation and in the order of the source:
    [+], [-], [*], [/] and [Math.sqrt] are correctly rounded, comparisons
    with [NaN] are false.  The definitions below carry the names of those
    over the real numbers, inside [Double]. *)

Module Double.

Import PrimFloat FloatOps SpecFloat.
Local Open Scope float_scope.
#[local] Set Warnings "-inexact-float".

Module Math.

(** [Math.PI], the double nearest to the number. *)
Definition PI : float := 0x1.921fb54442d18p+1.

Definition abs (x : float) : float := PrimFloat.abs x.
Definition sqrt (x : float) : float := PrimFloat.sqrt x.

(** [Math.floor]: a double is [m * 2 ^ e] for integers [m] and [e]; zeros,
    infinities and [NaN] are returned as they are, and so is a number
    with [0 <= e], which is whole. *)
Definition floor (x : float) : float :=
  match Prim2SF x with
  | S754_finite s m (Zneg p) =>
      let n := if s then (Zneg m / 2 ^ Zpos p)%Z else (Zpos m / 2 ^ Zpos p)%Z in
      match n with
      | Z0 => if s then (- 0) else 0
      | Zpos q => SF2Prim (S754_finite false q 0)
      | Zneg q => SF2Prim (S754_finite true q 0)
      end
  | _ => x
  end.

Definition max (x y : float) : float :=
  if is_nan x || is_nan y then nan
  else if x <? y then y
  else if y <? x then x
  else if get_sign x then y else x.

Definition min (x y : float) : float :=
  if is_nan x || is_nan y then nan
  else if x <? y then x
  else if y <? x then y
  else if get_sign x then x else y.

(** The values of [Math.sin], [Math.cos] and [Math.atan2] are left to the
    implementation by the language; what is stated of code that calls them
    is stated for every choice of them. *)
Record Trigonometry : Type := mkTrigonometry {
  sin : float -> float;
  cos : float -> float;
  atan2 : float -> float -> float
}.

End Math.

Module ConstStepRange.

Record t : Type := mk {
  _stepSize : float;
  _start : float;
  _end : float;
  stepCount : float
}.

Definition new (start end_ stepCount : float) : t :=
  {| _start := start;
     _end := end_;
     stepCount := stepCount;
     _stepSize := (end_ - start) / stepCount |}.

Definition radRangeFromStartEndDegStepCount
    (start_deg end_deg step_count : float) : t :=
  new (start_deg * Math.PI / 180) (end_deg * Math.PI / 180) step_count.

Definition start (r : t) : float := _start r.
Definition end_ (r : t) : float := _end r.
Definition size (r : t) : float := _end r - _start r.
Definition stepSize (r : t) (stepIdx : float) : float := _stepSize r.

Definition atStep (r : t) (stepIdx : float) : float :=
  start r + _stepSize r * stepIdx.

Definition includes (r : t) (value : float) : bool :=
  (start r <=? value) && (value <=? end_ r).

Definition lastIncludedStepIdx (r : t) (value : float) : float :=
  Math.floor ((value - start r) / _stepSize r).

Definition setStartEnd (r : t) (start end_ : float) : t :=
  {| _stepSize := _stepSize r;
     _start := start;
     _end := end_;
     stepCount := stepCount r |}.

End ConstStepRange.

Module ColumnVector2.

Record t : Type := mk { x : float; y : float }.

Definition multiplyScalar (this : t) (scalar : float) : t :=
  mk (scalar * x this) (scalar * y this).

Definition vectorDot (this multiplicand : t) : float :=
  0 + x this * x multiplicand + y this * y multiplicand.

Definition normalizeColumnVectors (this : t) : t :=
  let vecLength := Math.sqrt (0 + x this * x this + y this * y this) in
  mk (x this / vecLength) (y this / vecLength).

End ColumnVector2.

Module ColumnVector3.

Record t : Type := mk { x : float; y : float; z : float }.

Definition add (this addend : t) : t :=
  mk (x this + x addend) (y this + y addend) (z this + z addend).

Definition addScaled (this addend : t) (scalar : float) : t :=
  mk (x this + scalar * x addend)
     (y this + scalar * y addend)
     (z this + scalar * z addend).

Definition subtract (this subtrahend : t) : t :=
  mk (x this - x subtrahend) (y this - y subtrahend) (z this - z subtrahend).

Definition multiplyScalar (this : t) (scalar : float) : t :=
  mk (scalar * x this) (scalar * y this) (scalar * z this).

Definition vectorDot (this multiplicand : t) : float :=
  0 + x this * x multiplicand + y this * y multiplicand
    + z this * z multiplicand.

Definition vectorCross (this multiplicand : t) : t :=
  mk (y this * z multiplicand - z this * y multiplicand)
     (z this * x multiplicand - x this * z multiplicand)
     (x this * y multiplicand - y this * x multiplicand).

Definition distanceTo (this point : t) : float :=
  Math.sqrt (0 + (x this - x point) * (x this - x point)
               + (y this - y point) * (y this - y point)
               + (z this - z point) * (z this - z point)).

Definition normalizeColumnVectors (this : t) : t :=
  let vecLength :=
    Math.sqrt (0 + x this * x this + y this * y this + z this * z this) in
  mk (x this / vecLength) (y this / vecLength) (z this / vecLength).

End ColumnVector3.

Module Matrix2.

Record t : Type := mk { m00 : float; m01 : float; m10 : float; m11 : float }.

Definition multiplyScalar (this : t) (scalar : float) : t :=
  mk (scalar * m00 this) (scalar * m01 this)
     (scalar * m10 this) (scalar * m11 this).

Definition invert (this : t) : t :=
  let det := m00 this * m11 this - m01 this * m10 this in
  mk (m11 this / det) (- m10 this / det)
     (- m01 this / det) (m00 this / det).

Definition multiplyVector (this : t) (v : ColumnVector2.t) : ColumnVector2.t :=
  ColumnVector2.mk
    (0 + m00 this * ColumnVector2.x v + m01 this * ColumnVector2.y v)
    (0 + m10 this * ColumnVector2.x v + m11 this * ColumnVector2.y v).

Definition getEigenValues (this : t) : ColumnVector2.t :=
  let b := - m00 this - m11 this in
  let c := m00 this * m11 this - m10 this * m01 this in
  let s := Math.sqrt (b * b - 4 * c) in
  ColumnVector2.mk ((- b - s) / 2) ((- b + s) / 2).

Definition getEigenvectorForEigenvalue (this : t) (eigenvalue : float)
    : ColumnVector2.t :=
  let first_v_x := - m01 this in
  let first_v_y := m00 this - eigenvalue in
  let second_v_x := m11 this - eigenvalue in
  let second_v_y := - m10 this in
  if Math.max (Math.abs second_v_x) (Math.abs second_v_y)
     <? Math.max (Math.abs first_v_x) (Math.abs first_v_y)
  then ColumnVector2.mk first_v_x first_v_y
  else ColumnVector2.mk second_v_x second_v_y.

Definition setFromColumnVectors (c0 c1 : ColumnVector2.t) : t :=
  mk (ColumnVector2.x c0) (ColumnVector2.x c1)
     (ColumnVector2.y c0) (ColumnVector2.y c1).

Definition column (this : t) (columnIdx : nat) : ColumnVector2.t :=
  match columnIdx with
  | O => ColumnVector2.mk (m00 this) (m10 this)
  | _ => ColumnVector2.mk (m01 this) (m11 this)
  end.

Definition getEigenvaluesAndVectors (this : t) : ColumnVector2.t * t :=
  let out_eigenvalues := getEigenValues this in
  (out_eigenvalues,
   setFromColumnVectors
     (getEigenvectorForEigenvalue this (ColumnVector2.x out_eigenvalues))
     (getEigenvectorForEigenvalue this (ColumnVector2.y out_eigenvalues))).

Definition normalizeColumnVectors (this : t) : t :=
  setFromColumnVectors
    (ColumnVector2.normalizeColumnVectors (column this 0))
    (ColumnVector2.normalizeColumnVectors (column this 1)).

End Matrix2.

Module Matrix3x2.

Record t : Type := mk {
  m00 : float; m01 : float;
  m10 : float; m11 : float;
  m20 : float; m21 : float
}.

Definition setFromColumnVectors (c0 c1 : ColumnVector3.t) : t :=
  mk (ColumnVector3.x c0) (ColumnVector3.x c1)
     (ColumnVector3.y c0) (ColumnVector3.y c1)
     (ColumnVector3.z c0) (ColumnVector3.z c1).

End Matrix3x2.

Module Matrix2x3.

Record t : Type := mk {
  m00 : float; m01 : float; m02 : float;
  m10 : float; m11 : float; m12 : float
}.

Definition multiply (this : t) (rhs : Matrix3x2.t) : Matrix2.t :=
  Matrix2.mk
    (0 + m00 this * Matrix3x2.m00 rhs + m01 this * Matrix3x2.m10 rhs
       + m02 this * Matrix3x2.m20 rhs)
    (0 + m00 this * Matrix3x2.m01 rhs + m01 this * Matrix3x2.m11 rhs
       + m02 this * Matrix3x2.m21 rhs)
    (0 + m10 this * Matrix3x2.m00 rhs + m11 this * Matrix3x2.m10 rhs
       + m12 this * Matrix3x2.m20 rhs)
    (0 + m10 this * Matrix3x2.m01 rhs + m11 this * Matrix3x2.m11 rhs
       + m12 this * Matrix3x2.m21 rhs).

Definition multiplyVector (this : t) (v : ColumnVector3.t) : ColumnVector2.t :=
  ColumnVector2.mk
    (0 + m00 this * ColumnVector3.x v + m01 this * ColumnVector3.y v
       + m02 this * ColumnVector3.z v)
    (0 + m10 this * ColumnVector3.x v + m11 this * ColumnVector3.y v
       + m12 this * ColumnVector3.z v).

End Matrix2x3.

Definition Matrix3x2_transposed (this : Matrix3x2.t) : Matrix2x3.t :=
  Matrix2x3.mk
    (Matrix3x2.m00 this) (Matrix3x2.m10 this) (Matrix3x2.m20 this)
    (Matrix3x2.m01 this) (Matrix3x2.m11 this) (Matrix3x2.m21 this).

Module Matrix3.

Record t : Type := mk {
  m00 : float; m01 : float; m02 : float;
  m10 : float; m11 : float; m12 : float;
  m20 : float; m21 : float; m22 : float
}.

Definition setFromColumnVectors (c0 c1 c2 : ColumnVector3.t) : t :=
  mk (ColumnVector3.x c0) (ColumnVector3.x c1) (ColumnVector3.x c2)
     (ColumnVector3.y c0) (ColumnVector3.y c1) (ColumnVector3.y c2)
     (ColumnVector3.z c0) (ColumnVector3.z c1) (ColumnVector3.z c2).

Definition transposed (this : t) : t :=
  mk (m00 this) (m10 this) (m20 this)
     (m01 this) (m11 this) (m21 this)
     (m02 this) (m12 this) (m22 this).

Definition multiply (this rhs : t) : t :=
  mk (0 + m00 this * m00 rhs + m01 this * m10 rhs + m02 this * m20 rhs)
     (0 + m00 this * m01 rhs + m01 this * m11 rhs + m02 this * m21 rhs)
     (0 + m00 this * m02 rhs + m01 this * m12 rhs + m02 this * m22 rhs)
     (0 + m10 this * m00 rhs + m11 this * m10 rhs + m12 this * m20 rhs)
     (0 + m10 this * m01 rhs + m11 this * m11 rhs + m12 this * m21 rhs)
     (0 + m10 this * m02 rhs + m11 this * m12 rhs + m12 this * m22 rhs)
     (0 + m20 this * m00 rhs + m21 this * m10 rhs + m22 this * m20 rhs)
     (0 + m20 this * m01 rhs + m21 this * m11 rhs + m22 this * m21 rhs)
     (0 + m20 this * m02 rhs + m21 this * m12 rhs + m22 this * m22 rhs).

Definition multiplyVector (this : t) (v : ColumnVector3.t) : ColumnVector3.t :=
  ColumnVector3.mk
    (0 + m00 this * ColumnVector3.x v + m01 this * ColumnVector3.y v
       + m02 this * ColumnVector3.z v)
    (0 + m10 this * ColumnVector3.x v + m11 this * ColumnVector3.y v
       + m12 this * ColumnVector3.z v)
    (0 + m20 this * ColumnVector3.x v + m21 this * ColumnVector3.y v
       + m22 this * ColumnVector3.z v).

Definition multiply3x2 (this : t) (rhs : Matrix3x2.t) : Matrix3x2.t :=
  Matrix3x2.mk
    (0 + m00 this * Matrix3x2.m00 rhs + m01 this * Matrix3x2.m10 rhs
       + m02 this * Matrix3x2.m20 rhs)
    (0 + m00 this * Matrix3x2.m01 rhs + m01 this * Matrix3x2.m11 rhs
       + m02 this * Matrix3x2.m21 rhs)
    (0 + m10 this * Matrix3x2.m00 rhs + m11 this * Matrix3x2.m10 rhs
       + m12 this * Matrix3x2.m20 rhs)
    (0 + m10 this * Matrix3x2.m01 rhs + m11 this * Matrix3x2.m11 rhs
       + m12 this * Matrix3x2.m21 rhs)
    (0 + m20 this * Matrix3x2.m00 rhs + m21 this * Matrix3x2.m10 rhs
       + m22 this * Matrix3x2.m20 rhs)
    (0 + m20 this * Matrix3x2.m01 rhs + m21 this * Matrix3x2.m11 rhs
       + m22 this * Matrix3x2.m21 rhs).

End Matrix3.

Module PlaneDirections.

Record t : Type := mk { xHat : ColumnVector3.t; yHat : ColumnVector3.t }.

Definition zHat (this : t) : ColumnVector3.t :=
  ColumnVector3.vectorCross (xHat this) (yHat this).

End PlaneDirections.

Definition EPS : float := 1e-15.

Module ProjectionPlaneCamera.

Record t : Type := mk {
  xHat : ColumnVector3.t;
  yHat : ColumnVector3.t;
  zHat : ColumnVector3.t;
  focalDistance : float;
  worldPosition : ColumnVector3.t
}.

Definition new (worldPosition : ColumnVector3.t) : t :=
  {| xHat := ColumnVector3.mk 1 0 0;
     yHat := ColumnVector3.mk 0 1 0;
     zHat := ColumnVector3.mk 0 0 1;
     focalDistance := 1;
     worldPosition := worldPosition |}.

Definition getWorldPosition (this : t) : ColumnVector3.t := worldPosition this.

Definition getProjectionPlaneCenter (this : t) : ColumnVector3.t :=
  ColumnVector3.addScaled (worldPosition this) (zHat this) (- focalDistance this).

Definition getProjectionPlaneXHat (this : t) : ColumnVector3.t := xHat this.
Definition getProjectionPlaneYHat (this : t) : ColumnVector3.t := yHat this.

Definition project (this : t) (inout_point : ColumnVector3.t) : ColumnVector3.t :=
  let pointFromEyePoint := ColumnVector3.subtract inout_point (worldPosition this) in
  let pointFromEyePointZ := - ColumnVector3.vectorDot pointFromEyePoint (zHat this) in
  let inout_point :=
    ColumnVector3.addScaled
      (ColumnVector3.multiplyScalar pointFromEyePoint
         (focalDistance this / pointFromEyePointZ))
      (zHat this) (focalDistance this) in
  let x := ColumnVector3.vectorDot inout_point (xHat this) in
  let y := ColumnVector3.vectorDot inout_point (yHat this) in
  let z := ColumnVector3.vectorDot inout_point (zHat this) in
  ColumnVector3.mk x y z.

Definition lookAt (this : t) (targetPoint : ColumnVector3.t) (eps : float) : Result t :=
  let distanceFromCamera := ColumnVector3.distanceTo targetPoint (worldPosition this) in
  if distanceFromCamera <? eps
  then Throw "Look-at target too close to camera position"
  else
    let zHat :=
      ColumnVector3.normalizeColumnVectors
        (ColumnVector3.subtract (worldPosition this) targetPoint) in
    let xProjection := ColumnVector3.x zHat in
    let yProjection := ColumnVector3.y zHat in
    if Math.abs xProjection <=? Math.abs yProjection
    then
      let yHat :=
        ColumnVector3.normalizeColumnVectors
          (ColumnVector3.vectorCross (ColumnVector3.mk (-1) 0 0) zHat) in
      let xHat := ColumnVector3.vectorCross yHat zHat in
      Ok {| xHat := xHat; yHat := yHat; zHat := zHat;
            focalDistance := focalDistance this;
            worldPosition := worldPosition this |}
    else
      let xHat :=
        ColumnVector3.normalizeColumnVectors
          (ColumnVector3.vectorCross (ColumnVector3.mk 0 1 0) zHat) in
      let yHat := ColumnVector3.vectorCross zHat xHat in
      Ok {| xHat := xHat; yHat := yHat; zHat := zHat;
            focalDistance := focalDistance this;
            worldPosition := worldPosition this |}.

End ProjectionPlaneCamera.

Module EllipticalArcParameters.

Record t : Type := mk {
  origin : ColumnVector3.t;
  plane : PlaneDirections.t;
  circularAngle_rad : ConstStepRange.t;
  semiXAxis : float;
  semiYAxis : float
}.

End EllipticalArcParameters.

Module EllipticalArcVertexCalculator.

Section Methods.

Variable trigonometry : Math.Trigonometry.
Variable config : EllipticalArcParameters.t.

Definition scaledXHat : ColumnVector3.t :=
  ColumnVector3.multiplyScalar
    (PlaneDirections.xHat (EllipticalArcParameters.plane config))
    (EllipticalArcParameters.semiXAxis config).

Definition scaledYHat : ColumnVector3.t :=
  ColumnVector3.multiplyScalar
    (PlaneDirections.yHat (EllipticalArcParameters.plane config))
    (EllipticalArcParameters.semiYAxis config).

Definition calculateVertex (circularAngle_rad : float) : ColumnVector3.t :=
  ColumnVector3.addScaled
    (ColumnVector3.addScaled (EllipticalArcParameters.origin config)
       scaledXHat (Math.cos trigonometry circularAngle_rad))
    scaledYHat (Math.sin trigonometry circularAngle_rad).

Definition circularAngleForEllipsePoint (pointFromEllipseCenter : ColumnVector3.t)
    : float :=
  Math.atan2 trigonometry
    (ColumnVector3.vectorDot pointFromEllipseCenter
       (PlaneDirections.yHat (EllipticalArcParameters.plane config))
     / EllipticalArcParameters.semiYAxis config
     * EllipticalArcParameters.semiXAxis config)
    (ColumnVector3.vectorDot pointFromEllipseCenter
       (PlaneDirections.xHat (EllipticalArcParameters.plane config))).

End Methods.

End EllipticalArcVertexCalculator.

(** The projector for three dimensions and a [ProjectionPlaneCamera],
    whose [isPerspectiveCamera] is the constant [true]. *)
Module EllipticalArcConfigCalculator.

Record t : Type := mk {
  eps : float;
  ellipseBasis : Matrix3.t;
  projectionPlaneBasis2 : Matrix3x2.t;
  eyePoint_c : ColumnVector3.t;
  ellipticalConeVertex_c : ColumnVector3.t;
  ellipseCenter_c : ColumnVector3.t;
  conicEqA_c : Matrix3.t;
  conicEqB_c : ColumnVector3.t;
  conicEqA_s : Matrix3.t;
  conicEqB_s : ColumnVector3.t;
  conicEqC_s : float;
  conicEqA_p : Matrix2.t;
  conicEqB_p : ColumnVector2.t;
  conicEqC_p : float;
  ellipseEqK_p : ColumnVector2.t;
  ellipseEqM_p : Matrix2.t
}.

Definition conicEqC_c (this : t) : float := -1.

(** The state after the constructor; what the source leaves undefined is
    [0] here. *)
Definition new (eps : float) : t :=
  let zero3 := ColumnVector3.mk 0 0 0 in
  let zero2 := ColumnVector2.mk 0 0 in
  let identity3 := Matrix3.mk 1 0 0 0 1 0 0 0 1 in
  let zero2x2 := Matrix2.mk 0 0 0 0 in
  {| eps := eps;
     ellipseBasis := identity3;
     projectionPlaneBasis2 := Matrix3x2.mk 0 0 0 0 0 0;
     eyePoint_c := zero3;
     ellipticalConeVertex_c := zero3;
     ellipseCenter_c := zero3;
     conicEqA_c := identity3; conicEqB_c := zero3;
     conicEqA_s := identity3; conicEqB_s := zero3; conicEqC_s := 0;
     conicEqA_p := zero2x2; conicEqB_p := zero2; conicEqC_p := 0;
     ellipseEqK_p := zero2; ellipseEqM_p := zero2x2 |}.

Section Projection.

Variable trigonometry : Math.Trigonometry.

Definition calcSkewedConeInInputEllipseFrame (this : t)
    (parameters : EllipticalArcParameters.t)
    (cameraTransform : ProjectionPlaneCamera.t)
    (eps : float) : t * SkewedEllipticalConeResult :=
  if (Math.abs (EllipticalArcParameters.semiXAxis parameters) <? eps)
     || (Math.abs (EllipticalArcParameters.semiYAxis parameters) <? eps)
  then (this, AxisDegenerate)
  else
    let plane := EllipticalArcParameters.plane parameters in
    let origin := EllipticalArcParameters.origin parameters in
    let xHat := PlaneDirections.xHat plane in
    let yHat := PlaneDirections.yHat plane in
    let ellipseBasis :=
      Matrix3.setFromColumnVectors xHat yHat (PlaneDirections.zHat plane) in
    let eyePoint_c :=
      ColumnVector3.subtract
        (ProjectionPlaneCamera.getWorldPosition cameraTransform) origin in
    let ellipticalConeVertex_c :=
      ColumnVector3.mk
        (ColumnVector3.vectorDot eyePoint_c xHat)
        (ColumnVector3.vectorDot eyePoint_c yHat)
        (ColumnVector3.vectorDot eyePoint_c (PlaneDirections.zHat plane)) in
    if Math.abs (ColumnVector3.z ellipticalConeVertex_c) <? eps
    then
      ({| eps := EllipticalArcConfigCalculator.eps this;
          ellipseBasis := ellipseBasis;
          projectionPlaneBasis2 := projectionPlaneBasis2 this;
          eyePoint_c := eyePoint_c;
          ellipticalConeVertex_c := ellipticalConeVertex_c;
          ellipseCenter_c := ellipseCenter_c this;
          conicEqA_c := conicEqA_c this;
          conicEqB_c := conicEqB_c this;
          conicEqA_s := conicEqA_s this;
          conicEqB_s := conicEqB_s this;
          conicEqC_s := conicEqC_s this;
          conicEqA_p := conicEqA_p this;
          conicEqB_p := conicEqB_p this;
          conicEqC_p := conicEqC_p this;
          ellipseEqK_p := ellipseEqK_p this;
          ellipseEqM_p := ellipseEqM_p this |},
       PlaneDegenerate)
    else
      let ellipseCenter_c :=
        ColumnVector3.mk
          (ColumnVector3.vectorDot origin xHat)
          (ColumnVector3.vectorDot origin yHat)
          (ColumnVector3.vectorDot origin (PlaneDirections.zHat plane)) in
      let semiXAxis := EllipticalArcParameters.semiXAxis parameters in
      let semiYAxis := EllipticalArcParameters.semiYAxis parameters in
      let v0 := ColumnVector3.x ellipticalConeVertex_c in
      let v1 := ColumnVector3.y ellipticalConeVertex_c in
      let v2 := ColumnVector3.z ellipticalConeVertex_c in
      let a_c_02 := - v0 / (v2 * semiXAxis * semiXAxis) in
      let a_c_12 := - v1 / (v2 * semiYAxis * semiYAxis) in
      let a_c_22 :=
        (v0 * v0 / (semiXAxis * semiXAxis)
         + v1 * v1 / (semiYAxis * semiYAxis) - 1) / (v2 * v2) in
      ({| eps := EllipticalArcConfigCalculator.eps this;
          ellipseBasis := ellipseBasis;
          projectionPlaneBasis2 := projectionPlaneBasis2 this;
          eyePoint_c := eyePoint_c;
          ellipticalConeVertex_c := ellipticalConeVertex_c;
          ellipseCenter_c := ellipseCenter_c;
          conicEqA_c :=
            Matrix3.mk
              (1 / (semiXAxis * semiXAxis)) 0 a_c_02
              0 (1 / (semiYAxis * semiYAxis)) a_c_12
              a_c_02 a_c_12 a_c_22;
          conicEqB_c := ColumnVector3.mk 0 0 (2 / v2);
          conicEqA_s := conicEqA_s this;
          conicEqB_s := conicEqB_s this;
          conicEqC_s := conicEqC_s this;
          conicEqA_p := conicEqA_p this;
          conicEqB_p := conicEqB_p this;
          conicEqC_p := conicEqC_p this;
          ellipseEqK_p := ellipseEqK_p this;
          ellipseEqM_p := ellipseEqM_p this |},
       Finite).

Definition calcConeInWorldFrame (this : t) : t :=
  let conicEqA_s :=
    Matrix3.multiply
      (Matrix3.multiply (ellipseBasis this) (conicEqA_c this))
      (Matrix3.transposed (ellipseBasis this)) in
  let vector :=
    ColumnVector3.add
      (ColumnVector3.multiplyScalar
         (Matrix3.multiplyVector (conicEqA_c this) (ellipseCenter_c this))
         (-2))
      (conicEqB_c this) in
  let conicEqB_s := Matrix3.multiplyVector (ellipseBasis this) vector in
  let vector :=
    Matrix3.multiplyVector (conicEqA_c this) (ellipseCenter_c this) in
  let conicEqC_s :=
    ColumnVector3.vectorDot vector (ellipseCenter_c this)
    - ColumnVector3.vectorDot (conicEqB_c this) (ellipseCenter_c this)
    + conicEqC_c this in
  {| eps := eps this;
     ellipseBasis := ellipseBasis this;
     projectionPlaneBasis2 := projectionPlaneBasis2 this;
     eyePoint_c := eyePoint_c this;
     ellipticalConeVertex_c := ellipticalConeVertex_c this;
     ellipseCenter_c := ellipseCenter_c this;
     conicEqA_c := conicEqA_c this;
     conicEqB_c := conicEqB_c this;
     conicEqA_s := conicEqA_s;
     conicEqB_s := conicEqB_s;
     conicEqC_s := conicEqC_s;
     conicEqA_p := conicEqA_p this;
     conicEqB_p := conicEqB_p this;
     conicEqC_p := conicEqC_p this;
     ellipseEqK_p := ellipseEqK_p this;
     ellipseEqM_p := ellipseEqM_p this |}.

Definition calcProjectedEllipseConicEq (this : t)
    (cameraTransform : ProjectionPlaneCamera.t) : t :=
  let projectionPlaneBasis2 :=
    Matrix3x2.setFromColumnVectors
      (ProjectionPlaneCamera.getProjectionPlaneXHat cameraTransform)
      (ProjectionPlaneCamera.getProjectionPlaneYHat cameraTransform) in
  let _matrix3x2 := Matrix3.multiply3x2 (conicEqA_s this) projectionPlaneBasis2 in
  let projectionPlaneBasis2Transposed :=
    Matrix3x2_transposed projectionPlaneBasis2 in
  let conicEqA_p :=
    Matrix2x3.multiply projectionPlaneBasis2Transposed _matrix3x2 in
  let projectionPlaneCenter :=
    ProjectionPlaneCamera.getProjectionPlaneCenter cameraTransform in
  let _vector3 :=
    ColumnVector3.add
      (ColumnVector3.multiplyScalar
         (Matrix3.multiplyVector (conicEqA_s this) projectionPlaneCenter) 2)
      (conicEqB_s this) in
  let conicEqB_p :=
    Matrix2x3.multiplyVector projectionPlaneBasis2Transposed _vector3 in
  let _vector3 :=
    Matrix3.multiplyVector (conicEqA_s this) projectionPlaneCenter in
  let conicEqC_p :=
    ColumnVector3.vectorDot _vector3 projectionPlaneCenter
    + ColumnVector3.vectorDot (conicEqB_s this) projectionPlaneCenter
    + conicEqC_s this in
  {| eps := eps this;
     ellipseBasis := ellipseBasis this;
     projectionPlaneBasis2 := projectionPlaneBasis2;
     eyePoint_c := eyePoint_c this;
     ellipticalConeVertex_c := ellipticalConeVertex_c this;
     ellipseCenter_c := ellipseCenter_c this;
     conicEqA_c := conicEqA_c this;
     conicEqB_c := conicEqB_c this;
     conicEqA_s := conicEqA_s this;
     conicEqB_s := conicEqB_s this;
     conicEqC_s := conicEqC_s this;
     conicEqA_p := conicEqA_p;
     conicEqB_p := conicEqB_p;
     conicEqC_p := conicEqC_p;
     ellipseEqK_p := ellipseEqK_p this;
     ellipseEqM_p := ellipseEqM_p this |}.

Definition calcProjectedEllipseMatrixEq (this : t) : t :=
  let vector :=
    Matrix2.multiplyVector (Matrix2.invert (conicEqA_p this)) (conicEqB_p this) in
  let ellipseEqK_p := ColumnVector2.multiplyScalar vector (-1 / 2) in
  let ellipseEqM_p :=
    Matrix2.multiplyScalar (conicEqA_p this)
      (1 / (ColumnVector2.vectorDot vector (conicEqB_p this) / 4
            - conicEqC_p this)) in
  {| eps := eps this;
     ellipseBasis := ellipseBasis this;
     projectionPlaneBasis2 := projectionPlaneBasis2 this;
     eyePoint_c := eyePoint_c this;
     ellipticalConeVertex_c := ellipticalConeVertex_c this;
     ellipseCenter_c := ellipseCenter_c this;
     conicEqA_c := conicEqA_c this;
     conicEqB_c := conicEqB_c this;
     conicEqA_s := conicEqA_s this;
     conicEqB_s := conicEqB_s this;
     conicEqC_s := conicEqC_s this;
     conicEqA_p := conicEqA_p this;
     conicEqB_p := conicEqB_p this;
     conicEqC_p := conicEqC_p this;
     ellipseEqK_p := ellipseEqK_p;
     ellipseEqM_p := ellipseEqM_p |}.

Definition projectCircularAngle
    (parameters : EllipticalArcParameters.t)
    (cameraTransform : ProjectionPlaneCamera.t)
    (out_result : EllipticalArcParameters.t)
    : EllipticalArcParameters.t :=
  let range := EllipticalArcParameters.circularAngle_rad parameters in
  let angleOf (circularAngle_rad : float) : float :=
    let vertex :=
      EllipticalArcVertexCalculator.calculateVertex trigonometry parameters
        circularAngle_rad in
    let vertex :=
      ColumnVector3.subtract
        (ProjectionPlaneCamera.project cameraTransform vertex)
        (EllipticalArcParameters.origin out_result) in
    EllipticalArcVertexCalculator.circularAngleForEllipsePoint trigonometry
      out_result vertex in
  let startAngle_rad := angleOf (ConstStepRange.start range) in
  let endAngle_rad := angleOf (ConstStepRange.end_ range) in
  let midAngle_rad :=
    angleOf ((ConstStepRange.start range + ConstStepRange.end_ range) / 2) in
  let needsInversion :=
    (midAngle_rad <? Math.min startAngle_rad endAngle_rad)
    || (Math.max startAngle_rad endAngle_rad <? midAngle_rad) in
  let needsDirectionFlip :=
    ((startAngle_rad <? endAngle_rad) && (ConstStepRange.size range <? 0))
    || ((endAngle_rad <? startAngle_rad) && (0 <? ConstStepRange.size range)) in
  let plane := EllipticalArcParameters.plane out_result in
  let '(yHat, startAngle_rad, endAngle_rad) :=
    if needsDirectionFlip
    then (ColumnVector3.multiplyScalar (PlaneDirections.yHat plane) (-1),
          - startAngle_rad, - endAngle_rad)
    else (PlaneDirections.yHat plane, startAngle_rad, endAngle_rad) in
  let '(startAngle_rad, endAngle_rad) :=
    if needsInversion
    then (endAngle_rad, startAngle_rad + 2 * Math.PI)
    else (startAngle_rad, endAngle_rad) in
  EllipticalArcParameters.mk
    (EllipticalArcParameters.origin out_result)
    (PlaneDirections.mk (PlaneDirections.xHat plane) yHat)
    (ConstStepRange.setStartEnd
       (EllipticalArcParameters.circularAngle_rad out_result)
       startAngle_rad endAngle_rad)
    (EllipticalArcParameters.semiXAxis out_result)
    (EllipticalArcParameters.semiYAxis out_result).

Definition calcPerspectiveProjection (this : t)
    (parameters : EllipticalArcParameters.t)
    (cameraTransform : ProjectionPlaneCamera.t)
    (out_result : EllipticalArcParameters.t)
    (eps : float) : Result EllipticalArcParameters.t :=
  let '(eigenvalues, eigenvectors) :=
    Matrix2.getEigenvaluesAndVectors (ellipseEqM_p this) in
  let origin :=
    ColumnVector3.mk
      (ColumnVector2.x (ellipseEqK_p this))
      (ColumnVector2.y (ellipseEqK_p this)) 0 in
  let semiXAxis := 1 / Math.sqrt (ColumnVector2.x eigenvalues) in
  let semiYAxis := 1 / Math.sqrt (ColumnVector2.y eigenvalues) in
  let eigenColumn0 := Matrix2.column eigenvectors 0 in
  let eigenColumn1 := Matrix2.column eigenvectors 1 in
  let axes : Result Matrix2.t :=
    if ColumnVector2.vectorDot eigenColumn0 eigenColumn0 <? eps
    then
      if ColumnVector2.vectorDot eigenColumn1 eigenColumn1 <? eps
      then
        Ok (Matrix2.mk
              (Matrix3x2.m00 (projectionPlaneBasis2 this))
              (Matrix3x2.m01 (projectionPlaneBasis2 this))
              (Matrix3x2.m10 (projectionPlaneBasis2 this))
              (Matrix3x2.m11 (projectionPlaneBasis2 this)))
      else Throw "Projected ellipse x axis direction is indeterminate. The semiXAxis must be 0. This code branch shouldn't be reached!"
    else
      if ColumnVector2.vectorDot eigenColumn1 eigenColumn1 <? eps
      then Throw "Projected ellipse y axis direction is indeterminate. The semiYAxis must be 0. This code branch shouldn't be reached!"
      else Ok (Matrix2.normalizeColumnVectors eigenvectors) in
  match axes with
  | Throw message => Throw message
  | Ok eigenvectors =>
      let plane :=
        PlaneDirections.mk
          (ColumnVector3.mk
             (Matrix2.m00 eigenvectors) (Matrix2.m10 eigenvectors) 0)
          (ColumnVector3.mk
             (Matrix2.m01 eigenvectors) (Matrix2.m11 eigenvectors) 0) in
      Ok (projectCircularAngle parameters cameraTransform
            (EllipticalArcParameters.mk origin plane
               (EllipticalArcParameters.circularAngle_rad out_result)
               semiXAxis semiYAxis))
  end.

Definition calcDegenerateProjection
    (parameters : EllipticalArcParameters.t)
    (cameraTransform : ProjectionPlaneCamera.t)
    (out_result : EllipticalArcParameters.t)
    (eps : float) : EllipticalArcParameters.t :=
  let xDiameterStart :=
    ProjectionPlaneCamera.project cameraTransform
      (EllipticalArcVertexCalculator.calculateVertex trigonometry parameters 0) in
  let xDiameterEnd :=
    ProjectionPlaneCamera.project cameraTransform
      (EllipticalArcVertexCalculator.calculateVertex trigonometry parameters Math.PI) in
  let origin :=
    ColumnVector3.multiplyScalar
      (ColumnVector3.add xDiameterStart xDiameterEnd) 0.5 in
  let semiXAxis := ColumnVector3.distanceTo xDiameterEnd origin in
  let yDiameterStart :=
    ProjectionPlaneCamera.project cameraTransform
      (EllipticalArcVertexCalculator.calculateVertex trigonometry parameters
         (Math.PI / 2)) in
  let semiYAxis := ColumnVector3.distanceTo yDiameterStart origin in
  let plane :=
    if eps <=? Math.abs semiXAxis
    then
      let xHat :=
        ColumnVector3.normalizeColumnVectors
          (ColumnVector3.subtract xDiameterStart origin) in
      PlaneDirections.mk xHat
        (ColumnVector3.mk
           (- ColumnVector3.y xHat) (ColumnVector3.x xHat) (ColumnVector3.z xHat))
    else if eps <=? Math.abs semiYAxis
    then
      let yHat :=
        ColumnVector3.normalizeColumnVectors
          (ColumnVector3.subtract yDiameterStart origin) in
      PlaneDirections.mk
        (ColumnVector3.mk
           (- ColumnVector3.y yHat) (ColumnVector3.x yHat) (ColumnVector3.z yHat))
        yHat
    else
      PlaneDirections.mk
        (ProjectionPlaneCamera.getProjectionPlaneXHat cameraTransform)
        (ProjectionPlaneCamera.getProjectionPlaneYHat cameraTransform) in
  projectCircularAngle parameters cameraTransform
    (EllipticalArcParameters.mk origin plane
       (EllipticalArcParameters.circularAngle_rad out_result)
       semiXAxis semiYAxis).

(** [projectToCamera]; its first branch, for an arc of two dimensions or a
    camera that is not a perspective camera, is not taken here. *)
Definition projectToCamera (this : t)
    (parameters : EllipticalArcParameters.t)
    (cameraTransform : ProjectionPlaneCamera.t)
    (out_result : EllipticalArcParameters.t)
    (eps : float) : t * Result EllipticalArcParameters.t :=
  let '(this, result) :=
    calcSkewedConeInInputEllipseFrame this parameters cameraTransform eps in
  if SkewedEllipticalConeResult_eqb result Finite
  then
    let this := calcConeInWorldFrame this in
    let this := calcProjectedEllipseConicEq this cameraTransform in
    let this := calcProjectedEllipseMatrixEq this in
    (this, calcPerspectiveProjection this parameters cameraTransform out_result eps)
  else
    (this, Ok (calcDegenerateProjection parameters cameraTransform out_result eps)).

End Projection.

End EllipticalArcConfigCalculator.

(** Sample configurations. *)

(** A circle of the plane through the origin spanned by the x axis and
    [(0, 0.6, 0.8)], centred at the origin. *)
Definition tilted_circle (radius : float) : EllipticalArcParameters.t :=
  EllipticalArcParameters.mk
    (ColumnVector3.mk 0 0 0)
    (PlaneDirections.mk
       (ColumnVector3.mk 1 0 0) (ColumnVector3.mk 0 0.6 0.8))
    (ConstStepRange.new 0 (2 * Math.PI) 36)
    radius radius.

(** The point of the axis of a circle at a distance from its centre: the
    centre plus the distance times the normal of the plane, [plane.zHat]. *)
Definition pointOnAxis (arc : EllipticalArcParameters.t)
    (distance : float) : ColumnVector3.t :=
  ColumnVector3.addScaled
    (EllipticalArcParameters.origin arc)
    (PlaneDirections.zHat (EllipticalArcParameters.plane arc))
    distance.

(** [new ProjectionPlaneCamera(eye).lookAt(target)]. *)
Definition cameraLookingAt (eye target : ColumnVector3.t)
    : Result ProjectionPlaneCamera.t :=
  ProjectionPlaneCamera.lookAt
    (ProjectionPlaneCamera.new eye) target EPS.

(** The object a caller passes for the result. *)
Definition sample_out_result : EllipticalArcParameters.t :=
  EllipticalArcParameters.mk
    (ColumnVector3.mk 0 0 0)
    (PlaneDirections.mk
       (ColumnVector3.mk 1 0 0) (ColumnVector3.mk 0 1 0))
    (ConstStepRange.new 0 (2 * Math.PI) 36)
    0 0.

(** [projectToCamera] of a circle for the camera at a distance on its
    axis, looking at its centre. *)
Definition projectFromAxis (trigonometry : Math.Trigonometry)
    (arc : EllipticalArcParameters.t) (distance : float)
    : Result EllipticalArcParameters.t :=
  match
    cameraLookingAt (pointOnAxis arc distance)
      (EllipticalArcParameters.origin arc)
  with
  | Throw message => Throw message
  | Ok camera =>
      snd (EllipticalArcConfigCalculator.projectToCamera trigonometry
             (EllipticalArcConfigCalculator.new EPS)
             arc camera sample_out_result EPS)
  end.

End Double.

(* ===================================================================== *)
(** * Part II.  Properties                                                *)
(* ===================================================================== *)

(** ** Stepped ranges *)

Section RangeFacts.

Variables (start end_ : R) (n : Z).
Hypothesis n_pos : (1 <= n)%Z.

Let r := ConstStepRange.new start end_ n.

Lemma IZR_stepCount_pos : 0 < IZR n.
Proof. apply IZR_lt. lia. Qed.

Lemma atStep_first : ConstStepRange.atStep r 0 = start.
Proof. unfold ConstStepRange.atStep; simpl. lra. Qed.

Lemma atStep_last : ConstStepRange.atStep r n = end_.
Proof.
  pose proof IZR_stepCount_pos.
  unfold ConstStepRange.atStep; simpl. field. lra.
Qed.

Lemma stepSize_nonzero : start <> end_ -> ConstStepRange._stepSize r <> 0.
Proof.
  intros Hne. pose proof IZR_stepCount_pos as Hn. simpl.
  intros Hz. apply Hne.
  assert (E : end_ - start = (end_ - start) / IZR n * IZR n) by (field; lra).
  rewrite Hz in E. lra.
Qed.

Lemma lastIncludedStepIdx_atStep (k : Z) :
  start <> end_ ->
  ConstStepRange.lastIncludedStepIdx r (ConstStepRange.atStep r k) = k.
Proof.
  intros Hne. pose proof (stepSize_nonzero Hne) as Hs.
  unfold ConstStepRange.lastIncludedStepIdx, ConstStepRange.atStep, Math.floor.
  apply Zfloor_eq.
  replace ((ConstStepRange.start r + ConstStepRange._stepSize r * IZR k
            - ConstStepRange.start r) / ConstStepRange._stepSize r)
    with (IZR k) by (field; exact Hs).
  lra.
Qed.

End RangeFacts.

(** In exact arithmetic a range built by the constructor from
    [(start, end, n)] with [n >= 1] and [start <> end] starts at [start],
    reaches [end] at step [n], and [lastIncludedStepIdx] inverts [atStep]
    on every step index from [0] to [n]; the range of 0 to 180 degrees in
    one step runs from [0] to [PI].  The second and the third of these
    equalities do not survive the rounding of the source's double
    precision (see the part on double precision below). *)
Lemma range_semantics_in_exact_arithmetic (start end_ : R) (n : Z) :
  (1 <= n)%Z ->
  start <> end_ ->
  let r := ConstStepRange.new start end_ n in
  ConstStepRange.atStep r 0 = start /\
  ConstStepRange.atStep r n = end_ /\
  (forall k : Z, (0 <= k <= n)%Z ->
     ConstStepRange.lastIncludedStepIdx r (ConstStepRange.atStep r k) = k) /\
  (let d := ConstStepRange.radRangeFromStartEndDegStepCount 0 180 1 in
   ConstStepRange.atStep d 0 = 0 /\ ConstStepRange.atStep d 1 = PI).
Proof.
  intros Hn Hne r. repeat split.
  - now apply atStep_first.
  - now apply atStep_last.
  - intros k _. now apply lastIncludedStepIdx_atStep.
  - unfold ConstStepRange.radRangeFromStartEndDegStepCount,
      ConstStepRange.atStep; simpl. lra.
  - unfold ConstStepRange.radRangeFromStartEndDegStepCount,
      ConstStepRange.atStep; simpl. lra.
Qed.

(** After [reverse] the first step is still the (new) start, but the step
    size is the one the constructor computed for the old direction: the
    last step lands at [2 * end - start] of the original bounds. *)
Lemma reverse_atStep_first (start end_ : R) (n : Z) :
  let r := ConstStepRange.reverse (ConstStepRange.new start end_ n) in
  ConstStepRange.atStep r 0 = ConstStepRange.start r.
Proof. unfold ConstStepRange.atStep; simpl. lra. Qed.

Lemma reverse_atStep_last (start end_ : R) (n : Z) :
  (1 <= n)%Z ->
  let r := ConstStepRange.reverse (ConstStepRange.new start end_ n) in
  ConstStepRange.atStep r n = 2 * end_ - start /\
  ConstStepRange.end_ r = start.
Proof.
  intros Hn. pose proof (IZR_stepCount_pos n Hn).
  unfold ConstStepRange.atStep; simpl. split; [field; lra | reflexivity].
Qed.

(** C10.  The range from 0 to 1 in one step, reversed: step 0 is the new
    start (1), but step 1 is 2, not the new end (0). *)
Theorem C10_reverse_keeps_old_step :
  let r := ConstStepRange.reverse (ConstStepRange.new 0 1 1) in
  ConstStepRange.atStep r 0 = ConstStepRange.start r /\
  ConstStepRange.end_ r = 0 /\
  ConstStepRange.atStep r 1 = 2 /\
  ConstStepRange.atStep r 1 <> ConstStepRange.end_ r.
Proof.
  unfold ConstStepRange.atStep; simpl. repeat split; lra.
Qed.

(** ** The transverse circle's angle transform *)

Lemma sin_bounds_first_quadrant (phi : R) :
  0 <= phi <= PI / 2 -> 0 <= sin phi <= 1.
Proof.
  intros [H0 H1]. pose proof PI_RGT_0. split.
  - apply sin_ge_0; lra.
  - destruct (SIN_bound phi); assumption.
Qed.

(** On the configured domain [[0, PI/2]] the declared inverse returns the
    supplement of the angle it was given. *)
Lemma toAngle_fromAngle_supplement (phi : R) :
  0 <= phi <= PI / 2 ->
  TransverseCircleAngleRange.toAngleOapCompliment_rad
    (TransverseCircleAngleRange.fromAngleOapCompliment_rad phi) = PI - phi.
Proof.
  intros Hphi. pose proof (sin_bounds_first_quadrant phi Hphi) as Hs.
  unfold TransverseCircleAngleRange.toAngleOapCompliment_rad,
    TransverseCircleAngleRange.fromAngleOapCompliment_rad.
  rewrite sin_PI_x, cos_acos by lra.
  replace ((1 - (1 - 2 * sin phi)) / 2) with (sin phi) by field.
  rewrite asin_sin by lra. reflexivity.
Qed.

(** C9.  At [phi = 0], the start of the configured domain,
    [toAngleOapCompliment_rad (fromAngleOapCompliment_rad phi)] is [PI],
    not [phi]. *)
Theorem C9_toAngle_fromAngle_at_zero :
  TransverseCircleAngleRange.toAngleOapCompliment_rad
    (TransverseCircleAngleRange.fromAngleOapCompliment_rad 0) = PI /\
  TransverseCircleAngleRange.toAngleOapCompliment_rad
    (TransverseCircleAngleRange.fromAngleOapCompliment_rad 0) <> 0.
Proof.
  pose proof PI_RGT_0 as Hpi.
  assert (E : TransverseCircleAngleRange.toAngleOapCompliment_rad
                (TransverseCircleAngleRange.fromAngleOapCompliment_rad 0) = PI).
  { rewrite toAngle_fromAngle_supplement by lra. lra. }
  split; [exact E | rewrite E; lra].
Qed.

(** ** The projector: cameras that are not perspective cameras *)

(** C4.  [projectNonPerspective] hands the circular-angle range through
    (same start, end and step count), and each output semi-axis is the
    distance from the projected origin to the projection of the end of
    that semi-axis; it is what [projectToCamera] computes for a 3-D arc
    under a camera that is not a perspective camera, and for every 2-D
    arc. *)
Theorem C4_projectNonPerspective
    {V Range : Type} `{ColumnVector.t V} `{ValueRange.t Range}
    (parameters : EllipticalArcParameters.t V Range)
    (cameraTransform : CameraTransform.t V)
    (out_result : MutableEllipticalArcParameters V) :
  let result :=
    EllipticalArcConfigCalculator.projectNonPerspective
      parameters cameraTransform out_result in
  let range := EllipticalArcParameters.circularAngle_rad parameters in
  let origin := EllipticalArcParameters.origin parameters in
  let plane := EllipticalArcParameters.plane parameters in
  let projectedOrigin := CameraTransform.project cameraTransform origin in
  (ConstStepRange.start (EllipticalArcParameters.circularAngle_rad result)
     = ValueRange.start range /\
   ConstStepRange.end_ (EllipticalArcParameters.circularAngle_rad result)
     = ValueRange.end_ range /\
   ConstStepRange.stepCount (EllipticalArcParameters.circularAngle_rad result)
     = ValueRange.stepCount range) /\
  EllipticalArcParameters.semiXAxis result
    = ColumnVector.distanceTo projectedOrigin
        (CameraTransform.project cameraTransform
           (ColumnVector.addScaled origin (PlaneDirections.xHat plane)
              (EllipticalArcParameters.semiXAxis parameters))) /\
  EllipticalArcParameters.semiYAxis result
    = ColumnVector.distanceTo projectedOrigin
        (CameraTransform.project cameraTransform
           (ColumnVector.addScaled origin (PlaneDirections.yHat plane)
              (EllipticalArcParameters.semiYAxis parameters))) /\
  (forall (this : EllipticalArcConfigCalculator.t)
          (parameters3 : EllipticalArcParameters.t ColumnVector3.t Range)
          (out_result3 : MutableEllipticalArcParameters ColumnVector3.t)
          (minDistance eps : R)
          (worldPosition center xHat yHat : ColumnVector3.t)
          (project : ColumnVector3.t -> ColumnVector3.t),
     let notPerspective :=
       CameraTransform.mk false minDistance worldPosition center xHat yHat project in
     EllipticalArcConfigCalculator.projectToCamera
       this parameters3 notPerspective out_result3 eps
     = (this,
        Ok (EllipticalArcConfigCalculator.projectNonPerspective
              parameters3 notPerspective out_result3))) /\
  (forall (this : EllipticalArcConfigCalculator.t)
          (parameters2 : EllipticalArcParameters.t ColumnVector2.t Range)
          (camera2 : PlaneCamera.t)
          (out_result2 : MutableEllipticalArcParameters ColumnVector2.t),
     EllipticalArcConfigCalculator.projectToCamera2
       this parameters2 (PlaneCamera.asCameraTransform camera2) out_result2
     = (this,
        Ok (EllipticalArcConfigCalculator.projectNonPerspective
              parameters2 (PlaneCamera.asCameraTransform camera2) out_result2))).
Proof.
  cbv zeta. repeat split; reflexivity.
Qed.

(** ** Boolean comparisons *)

Lemma Rltb_true (a b : R) : a < b -> Rltb a b = true.
Proof. intros Hab. unfold Rltb. destruct (Rlt_dec a b); [reflexivity | contradiction]. Qed.

Lemma Rltb_false (a b : R) : b <= a -> Rltb a b = false.
Proof. intros Hab. unfold Rltb. destruct (Rlt_dec a b); [lra | reflexivity]. Qed.

Lemma Rleb_true (a b : R) : a <= b -> Rleb a b = true.
Proof. intros Hab. unfold Rleb. destruct (Rle_dec a b); [reflexivity | contradiction]. Qed.

Lemma Rleb_false (a b : R) : b < a -> Rleb a b = false.
Proof. intros Hab. unfold Rleb. destruct (Rle_dec a b); [lra | reflexivity]. Qed.

Lemma Reqb_true (a b : R) : a = b -> Reqb a b = true.
Proof. intros Hab. unfold Reqb. destruct (Req_dec_T a b); [reflexivity | contradiction]. Qed.

Lemma Reqb_false (a b : R) : a <> b -> Reqb a b = false.
Proof. intros Hab. unfold Reqb. destruct (Req_dec_T a b); [contradiction | reflexivity]. Qed.

(** ** The projector: degenerate input *)

Section DegenerateProjection.

Context {Range : Type} `{ValueRange.t Range}.
Variable parameters : EllipticalArcParameters.t ColumnVector3.t Range.
Variable cameraTransform : CameraTransform.t ColumnVector3.t.

(** [projectCircularAngle] leaves the origin, the x direction and the
    semi-axes alone, and either keeps or negates the y direction. *)
Lemma projectCircularAngle_frame
    (out_result : MutableEllipticalArcParameters ColumnVector3.t) :
  let result :=
    EllipticalArcConfigCalculator.projectCircularAngle
      parameters cameraTransform out_result in
  EllipticalArcParameters.origin result = EllipticalArcParameters.origin out_result /\
  EllipticalArcParameters.semiXAxis result
    = EllipticalArcParameters.semiXAxis out_result /\
  EllipticalArcParameters.semiYAxis result
    = EllipticalArcParameters.semiYAxis out_result /\
  PlaneDirections.xHat (EllipticalArcParameters.plane result)
    = PlaneDirections.xHat (EllipticalArcParameters.plane out_result) /\
  (PlaneDirections.yHat (EllipticalArcParameters.plane result)
     = PlaneDirections.yHat (EllipticalArcParameters.plane out_result) \/
   PlaneDirections.yHat (EllipticalArcParameters.plane result)
     = ColumnVector3.multiplyScalar
         (PlaneDirections.yHat (EllipticalArcParameters.plane out_result)) (-1)).
Proof.
  unfold EllipticalArcConfigCalculator.projectCircularAngle. cbv zeta.
  match goal with
  | |- context [if ?flip then (ColumnVector3.multiplyScalar _ _, _, _) else _] =>
      destruct flip
  end;
  match goal with
  | |- context [if ?inversion then (_, _ + 2 * PI) else _] => destruct inversion
  end; simpl; auto 10.
Qed.

End DegenerateProjection.

(** With a semi-axis below [eps] the cone is not built: the calculator is
    left as it was and the degenerate projection is returned. *)
Lemma projectToCamera_axis_degenerate
    {Range : Type} `{ValueRange.t Range}
    (this : EllipticalArcConfigCalculator.t)
    (parameters : EllipticalArcParameters.t ColumnVector3.t Range)
    (cameraTransform : CameraTransform.t ColumnVector3.t)
    (out_result : MutableEllipticalArcParameters ColumnVector3.t)
    (eps : R) :
  CameraTransform.isPerspectiveCamera cameraTransform = true ->
  Rabs (EllipticalArcParameters.semiXAxis parameters) < eps ->
  EllipticalArcConfigCalculator.projectToCamera
    this parameters cameraTransform out_result eps
  = (this,
     Ok (EllipticalArcConfigCalculator.calcDegenerateProjection
           parameters cameraTransform out_result eps)).
Proof.
  intros Hpersp HsemiX.
  unfold EllipticalArcConfigCalculator.projectToCamera.
  rewrite Hpersp. simpl negb. simpl orb. cbv iota.
  unfold EllipticalArcConfigCalculator.calcSkewedConeInInputEllipseFrame.
  unfold Math.abs. rewrite (Rltb_true _ _ HsemiX). reflexivity.
Qed.

(** C5 (as amended).  An arc whose two semi-axes are both below [eps] in
    magnitude is projected, under a perspective camera, by
    [calcDegenerateProjection], and [projectToCamera] returns that result
    without throwing; when the two projected semi-axes are below [eps] as
    well, the output x direction is the camera's projection-plane x-hat
    and the output y direction is the camera's projection-plane y-hat or,
    when the projected arc runs the other way round, its negation. *)
Theorem C5_degenerate_input
    {Range : Type} `{ValueRange.t Range}
    (this : EllipticalArcConfigCalculator.t)
    (parameters : EllipticalArcParameters.t ColumnVector3.t Range)
    (cameraTransform : CameraTransform.t ColumnVector3.t)
    (out_result : MutableEllipticalArcParameters ColumnVector3.t)
    (eps : R) :
  CameraTransform.isPerspectiveCamera cameraTransform = true ->
  Rabs (EllipticalArcParameters.semiXAxis parameters) < eps ->
  Rabs (EllipticalArcParameters.semiYAxis parameters) < eps ->
  let result :=
    EllipticalArcConfigCalculator.calcDegenerateProjection
      parameters cameraTransform out_result eps in
  EllipticalArcConfigCalculator.projectToCamera
    this parameters cameraTransform out_result eps = (this, Ok result) /\
  (Rabs (EllipticalArcParameters.semiXAxis result) < eps ->
   Rabs (EllipticalArcParameters.semiYAxis result) < eps ->
   PlaneDirections.xHat (EllipticalArcParameters.plane result)
     = CameraTransform.getProjectionPlaneXHat cameraTransform /\
   (PlaneDirections.yHat (EllipticalArcParameters.plane result)
      = CameraTransform.getProjectionPlaneYHat cameraTransform \/
    PlaneDirections.yHat (EllipticalArcParameters.plane result)
      = ColumnVector3.multiplyScalar
          (CameraTransform.getProjectionPlaneYHat cameraTransform) (-1))).
Proof.
  intros Hpersp HsemiX HsemiY result. split.
  - now apply projectToCamera_axis_degenerate.
  - subst result.
    unfold EllipticalArcConfigCalculator.calcDegenerateProjection. cbv zeta.
    match goal with
    | |- context [EllipticalArcConfigCalculator.projectCircularAngle _ _ ?o] =>
        destruct (projectCircularAngle_frame parameters cameraTransform o)
          as (_ & HsX & HsY & HxHat & HyHat)
    end.
    rewrite HsX, HsY, HxHat. simpl EllipticalArcParameters.semiXAxis.
    simpl EllipticalArcParameters.semiYAxis.
    intros HoutX HoutY.
    simpl EllipticalArcParameters.plane in HxHat, HyHat |- *.
    unfold Math.abs in *.
    rewrite (Rleb_false _ _ HoutX), (Rleb_false _ _ HoutY) in HyHat |- *.
    simpl in HyHat |- *. split; [reflexivity | exact HyHat].
Qed.

(** *** A small arc whose projection is turned round *)

Lemma EPS_pos : 0 < EPS.
Proof. unfold EPS. lra. Qed.

Lemma ColumnVector3_eq (a b c a' b' c' : R) :
  a = a' -> b = b' -> c = c' ->
  ColumnVector3.mk a b c = ColumnVector3.mk a' b' c'.
Proof. intros; subst; reflexivity. Qed.

Lemma atan2_right (y x : R) : 0 < x -> Math.atan2 y x = atan (y / x).
Proof.
  intros Hx. unfold Math.atan2.
  destruct (Rlt_dec 0 x); [reflexivity | contradiction].
Qed.

Lemma atan2_down (y : R) : y < 0 -> Math.atan2 y 0 = - (PI / 2).
Proof.
  intros Hy. unfold Math.atan2.
  destruct (Rlt_dec 0 0); [lra |].
  destruct (Rlt_dec 0 y); [lra |].
  destruct (Rlt_dec y 0); [reflexivity | contradiction].
Qed.

(** Unfolds the vector operations down to arithmetic on components. *)
Ltac vec_simpl :=
  cbv [ColumnVector3.vectorDot ColumnVector3.add ColumnVector3.addScaled
       ColumnVector3.subtract ColumnVector3.multiplyScalar
       ColumnVector3.vectorCross ColumnVector3.x ColumnVector3.y ColumnVector3.z
       ColumnVector.add ColumnVector.addScaled ColumnVector.subtract
       ColumnVector.multiplyScalar ColumnVector.vectorDot
       ColumnVector3_ColumnVector
       ProjectionPlaneCamera.project ProjectionPlaneCamera.xHat
       ProjectionPlaneCamera.yHat ProjectionPlaneCamera.zHat
       ProjectionPlaneCamera.focalDistance ProjectionPlaneCamera.worldPosition
       ProjectionPlaneCamera.new
       PlaneDirections.xHat PlaneDirections.yHat PlaneDirections.zHat
       EllipticalArcParameters.origin EllipticalArcParameters.plane
       EllipticalArcParameters.semiXAxis EllipticalArcParameters.semiYAxis
       EllipticalArcVertexCalculator.calculateVertex
       EllipticalArcVertexCalculator.scaledXHat
       EllipticalArcVertexCalculator.scaledYHat] in *.

Lemma distance_from_zero (a b : R) :
  ColumnVector3.distanceTo (ColumnVector3.mk a b 0) (ColumnVector3.mk 0 0 0)
  = sqrt (a * a + b * b).
Proof. unfold ColumnVector3.distanceTo. vec_simpl. f_equal. ring. Qed.

Section TurnedArc.

Variables (r eps : R).
Hypothesis r_pos : 0 < r.
Hypothesis r_small : r < eps.

Let cam := ProjectionPlaneCamera.asCameraTransform camera_above.

Lemma camera_above_project (c s : R) :
  ProjectionPlaneCamera.project camera_above (ColumnVector3.mk (r * c) (- r * s) 0)
  = ColumnVector3.mk (r * c / 5) (- r * s / 5) 0.
Proof. unfold camera_above. vec_simpl. apply ColumnVector3_eq; field. Qed.

Lemma tiny_arc_vertex (a : R) :
  EllipticalArcVertexCalculator.calculateVertex (tiny_arc r) a
  = ColumnVector3.mk (r * cos a) (- r * sin a) 0.
Proof. unfold tiny_arc. vec_simpl. apply ColumnVector3_eq; ring. Qed.

Lemma tiny_arc_projected_angle (range : ConstStepRange.t) (a : R) :
  EllipticalArcVertexCalculator.circularAngleForEllipsePoint (flat_frame r range)
    (ColumnVector3.subtract
       (CameraTransform.project cam
          (EllipticalArcVertexCalculator.calculateVertex (tiny_arc r) a))
       (EllipticalArcParameters.origin (flat_frame r range)))
  = Math.atan2 (- r * sin a / 5) (r * cos a / 5).
Proof.
  rewrite tiny_arc_vertex. subst cam.
  cbv [CameraTransform.project ProjectionPlaneCamera.asCameraTransform].
  rewrite camera_above_project.
  unfold EllipticalArcVertexCalculator.circularAngleForEllipsePoint, flat_frame.
  vec_simpl. f_equal; field; lra.
Qed.

(** The projected end angle (a quarter turn clockwise) is below the
    projected start angle (0) while the input range is increasing: the y
    direction is negated. *)
Lemma tiny_arc_turned (range : ConstStepRange.t) :
  PlaneDirections.yHat
    (EllipticalArcParameters.plane
       (EllipticalArcConfigCalculator.projectCircularAngle
          (tiny_arc r) cam (flat_frame r range)))
  = ColumnVector3.mk 0 (-1) 0.
Proof.
  pose proof PI_RGT_0 as Hpi.
  unfold EllipticalArcConfigCalculator.projectCircularAngle.
  rewrite !tiny_arc_projected_angle.
  cbv [ValueRange.start ValueRange.end_ ValueRange.size ConstStepRange_ValueRange
       ConstStepRange.start ConstStepRange.end_ ConstStepRange.size
       ConstStepRange.new ConstStepRange._start ConstStepRange._end
       EllipticalArcParameters.circularAngle_rad tiny_arc].
  rewrite cos_0, sin_0, cos_PI2, sin_PI2.
  rewrite (atan2_right (- r * 0 / 5) (r * 1 / 5)) by lra.
  replace (- r * 0 / 5 / (r * 1 / 5)) with 0 by (field; lra).
  rewrite atan_0.
  replace (r * 0 / 5) with 0 by field.
  rewrite (atan2_down (- r * 1 / 5)) by lra.
  rewrite (Rltb_false 0 (- (PI / 2))) by lra.
  rewrite (Rltb_true (- (PI / 2)) 0) by lra.
  rewrite (Rltb_true 0 (PI / 2 - 0)) by lra.
  cbv zeta. simpl andb. simpl orb. cbv iota.
  match goal with
  | |- context [if ?inversion then (_, _ + 2 * PI) else _] => destruct inversion
  end; unfold flat_frame; vec_simpl; apply ColumnVector3_eq; ring.
Qed.

Lemma tiny_arc_degenerate_projection
    (out_result : MutableEllipticalArcParameters ColumnVector3.t) :
  let result :=
    EllipticalArcConfigCalculator.calcDegenerateProjection
      (tiny_arc r) cam out_result eps in
  EllipticalArcParameters.semiXAxis result = r / 5 /\
  EllipticalArcParameters.semiYAxis result = r / 5 /\
  PlaneDirections.yHat (EllipticalArcParameters.plane result)
    = ColumnVector3.mk 0 (-1) 0.
Proof.
  assert (Hsqrt : forall a b,
             a * a + b * b = (r / 5) * (r / 5) -> sqrt (a * a + b * b) = r / 5).
  { intros a b E. rewrite E. apply sqrt_square. lra. }
  assert (Hresult :
    EllipticalArcConfigCalculator.calcDegenerateProjection
      (tiny_arc r) cam out_result eps
    = EllipticalArcConfigCalculator.projectCircularAngle (tiny_arc r) cam
        (flat_frame r (EllipticalArcParameters.circularAngle_rad out_result))).
  { unfold EllipticalArcConfigCalculator.calcDegenerateProjection.
    rewrite !tiny_arc_vertex.
    rewrite cos_0, sin_0, cos_PI, sin_PI, cos_PI2, sin_PI2.
    subst cam. cbv [CameraTransform.project ProjectionPlaneCamera.asCameraTransform].
    rewrite !camera_above_project.
    cbv zeta.
    assert (Horigin :
      ColumnVector3.multiplyScalar
        (ColumnVector3.add (ColumnVector3.mk (r * 1 / 5) (- r * 0 / 5) 0)
           (ColumnVector3.mk (r * -1 / 5) (- r * 0 / 5) 0)) (5 / 10)
      = ColumnVector3.mk 0 0 0).
    { vec_simpl. apply ColumnVector3_eq; field. }
    rewrite !Horigin. rewrite !distance_from_zero.
    rewrite (Hsqrt (r * -1 / 5) (- r * 0 / 5)) by field.
    rewrite (Hsqrt (r * 0 / 5) (- r * 1 / 5)) by field.
    unfold Math.abs.
    rewrite (Rleb_false eps (Rabs (r / 5))) by (rewrite Rabs_pos_eq; lra).
    reflexivity. }
  cbv zeta. rewrite Hresult.
  destruct (projectCircularAngle_frame (tiny_arc r) cam
              (flat_frame r (EllipticalArcParameters.circularAngle_rad out_result)))
    as (_ & HsX & HsY & _ & _).
  rewrite HsX, HsY. repeat split. apply tiny_arc_turned.
Qed.

End TurnedArc.

Lemma C5_degenerate_input_witness :
  let parameters := tiny_arc (EPS / 10) in
  let cameraTransform := ProjectionPlaneCamera.asCameraTransform camera_above in
  let this := EllipticalArcConfigCalculator.new EPS in
  let result :=
    EllipticalArcConfigCalculator.calcDegenerateProjection
      parameters cameraTransform blank_result EPS in
  (CameraTransform.isPerspectiveCamera cameraTransform = true /\
   Rabs (EllipticalArcParameters.semiXAxis parameters) < EPS /\
   Rabs (EllipticalArcParameters.semiYAxis parameters) < EPS) /\
  EllipticalArcConfigCalculator.projectToCamera
    this parameters cameraTransform blank_result EPS = (this, Ok result) /\
  (Rabs (EllipticalArcParameters.semiXAxis result) < EPS ->
   Rabs (EllipticalArcParameters.semiYAxis result) < EPS ->
   PlaneDirections.xHat (EllipticalArcParameters.plane result)
     = CameraTransform.getProjectionPlaneXHat cameraTransform /\
   (PlaneDirections.yHat (EllipticalArcParameters.plane result)
      = CameraTransform.getProjectionPlaneYHat cameraTransform \/
    PlaneDirections.yHat (EllipticalArcParameters.plane result)
      = ColumnVector3.multiplyScalar
          (CameraTransform.getProjectionPlaneYHat cameraTransform) (-1))).
Proof.
  pose proof EPS_pos as Heps.
  assert (Hsmall : Rabs (EPS / 10) < EPS) by (rewrite Rabs_pos_eq; lra).
  split; [split; [reflexivity | split; exact Hsmall] |].
  apply (C5_degenerate_input
           (EllipticalArcConfigCalculator.new EPS) (tiny_arc (EPS / 10))
           (ProjectionPlaneCamera.asCameraTransform camera_above)
           blank_result EPS);
    [reflexivity | exact Hsmall | exact Hsmall].
Defined.

(** The claim as stated fails for the small circle of radius [EPS / 10]
    seen from [camera_above]: both its semi-axes and both projected
    semi-axes are below [EPS], the degenerate projection is returned, and
    the output y direction is [(0, -1, 0)], which is not the camera's
    projection-plane y-hat [(0, 1, 0)]. *)
Lemma C5_counterexample :
  let parameters := tiny_arc (EPS / 10) in
  let cameraTransform := ProjectionPlaneCamera.asCameraTransform camera_above in
  let this := EllipticalArcConfigCalculator.new EPS in
  let result :=
    EllipticalArcConfigCalculator.calcDegenerateProjection
      parameters cameraTransform blank_result EPS in
  CameraTransform.isPerspectiveCamera cameraTransform = true /\
  Rabs (EllipticalArcParameters.semiXAxis parameters) < EPS /\
  Rabs (EllipticalArcParameters.semiYAxis parameters) < EPS /\
  EllipticalArcConfigCalculator.projectToCamera
    this parameters cameraTransform blank_result EPS = (this, Ok result) /\
  Rabs (EllipticalArcParameters.semiXAxis result) < EPS /\
  Rabs (EllipticalArcParameters.semiYAxis result) < EPS /\
  ~ (PlaneDirections.xHat (EllipticalArcParameters.plane result)
       = CameraTransform.getProjectionPlaneXHat cameraTransform /\
     PlaneDirections.yHat (EllipticalArcParameters.plane result)
       = CameraTransform.getProjectionPlaneYHat cameraTransform).
Proof.
  pose proof EPS_pos as Heps.
  assert (Hsmall : Rabs (EPS / 10) < EPS) by (rewrite Rabs_pos_eq; lra).
  assert (Hr : 0 < EPS / 10) by lra.
  assert (Hlt : EPS / 10 < EPS) by lra.
  destruct (tiny_arc_degenerate_projection (EPS / 10) EPS Hr Hlt blank_result)
    as (HsX & HsY & HyHat).
  cbv zeta. repeat split.
  - exact Hsmall.
  - exact Hsmall.
  - now apply projectToCamera_axis_degenerate.
  - rewrite HsX, Rabs_pos_eq; lra.
  - rewrite HsY, Rabs_pos_eq; lra.
  - intros [_ Hy]. rewrite HyHat in Hy. simpl in Hy.
    apply (f_equal ColumnVector3.y) in Hy. simpl in Hy. lra.
Qed.

(** ** The projector: the cone through the ellipse and the eye *)

(** Unfolds matrix products and the calculator's fields down to
    arithmetic on components. *)
Ltac mat_simpl :=
  cbv [conicResidual3 conicResidual2 planeCoordinates
       Matrix3.multiply Matrix3.multiplyVector Matrix3.multiply3x2 Matrix3.transposed
       Matrix3.setFromColumnVectors
       Matrix3.m00 Matrix3.m01 Matrix3.m02 Matrix3.m10 Matrix3.m11 Matrix3.m12
       Matrix3.m20 Matrix3.m21 Matrix3.m22
       Matrix3x2.setFromColumnVectors Matrix3x2_transposed
       Matrix3x2.m00 Matrix3x2.m01 Matrix3x2.m10 Matrix3x2.m11 Matrix3x2.m20 Matrix3x2.m21
       Matrix2x3.multiply Matrix2x3.multiplyVector
       Matrix2x3.m00 Matrix2x3.m01 Matrix2x3.m02 Matrix2x3.m10 Matrix2x3.m11 Matrix2x3.m12
       Matrix2.multiplyVector Matrix2.multiplyScalar Matrix2.invert
       Matrix2.m00 Matrix2.m01 Matrix2.m10 Matrix2.m11
       ColumnVector2.vectorDot ColumnVector2.multiplyScalar ColumnVector2.x ColumnVector2.y
       ColumnVector3.vectorDot ColumnVector3.add ColumnVector3.addScaled
       ColumnVector3.subtract ColumnVector3.multiplyScalar
       ColumnVector3.vectorCross ColumnVector3.x ColumnVector3.y ColumnVector3.z
       EllipticalArcConfigCalculator.calcConeInWorldFrame
       EllipticalArcConfigCalculator.calcProjectedEllipseConicEq
       EllipticalArcConfigCalculator.eps
       EllipticalArcConfigCalculator.ellipseBasis
       EllipticalArcConfigCalculator.projectionPlaneBasis2
       EllipticalArcConfigCalculator.eyePoint_c
       EllipticalArcConfigCalculator.ellipticalConeVertex_c
       EllipticalArcConfigCalculator.ellipseCenter_c
       EllipticalArcConfigCalculator.conicEqA_c
       EllipticalArcConfigCalculator.conicEqB_c
       EllipticalArcConfigCalculator.conicEqC_c
       EllipticalArcConfigCalculator.conicEqA_s
       EllipticalArcConfigCalculator.conicEqB_s
       EllipticalArcConfigCalculator.conicEqC_s
       EllipticalArcConfigCalculator.conicEqA_p
       EllipticalArcConfigCalculator.conicEqB_p
       EllipticalArcConfigCalculator.conicEqC_p
       CameraTransform.getProjectionPlaneXHat CameraTransform.getProjectionPlaneYHat
       CameraTransform.getProjectionPlaneCenter CameraTransform.getWorldPosition
       CameraTransform.project
       ProjectionPlaneCamera.asCameraTransform
       ProjectionPlaneCamera.getProjectionPlaneXHat
       ProjectionPlaneCamera.getProjectionPlaneYHat
       ProjectionPlaneCamera.getProjectionPlaneCenter
       ProjectionPlaneCamera.getWorldPosition
       ProjectionPlaneCamera.projectionToWorld
       ProjectionPlaneCamera.project ProjectionPlaneCamera.xHat
       ProjectionPlaneCamera.yHat ProjectionPlaneCamera.zHat
       ProjectionPlaneCamera.focalDistance ProjectionPlaneCamera.worldPosition
       symmetric3] in *.

(** [calcConeInWorldFrame] is a change of variables: the world-frame
    equation at a point is the ellipse-frame equation at the coordinates of
    the point in the frame of the ellipse. *)
Lemma world_frame_residual
    (this : EllipticalArcConfigCalculator.t) (X : ColumnVector3.t) :
  symmetric3 (EllipticalArcConfigCalculator.conicEqA_c this) ->
  let world := EllipticalArcConfigCalculator.calcConeInWorldFrame this in
  conicResidual3
    (EllipticalArcConfigCalculator.conicEqA_s world)
    (EllipticalArcConfigCalculator.conicEqB_s world)
    (EllipticalArcConfigCalculator.conicEqC_s world) X
  = conicResidual3
      (EllipticalArcConfigCalculator.conicEqA_c this)
      (EllipticalArcConfigCalculator.conicEqB_c this)
      (EllipticalArcConfigCalculator.conicEqC_c this)
      (frameCoordinates
         (EllipticalArcConfigCalculator.ellipseBasis this)
         (EllipticalArcConfigCalculator.ellipseCenter_c this) X).
Proof.
  destruct this as [e [r00 r01 r02 r10 r11 r12 r20 r21 r22] pb ey cv [c0 c1 c2]
                      [a00 a01 a02 a10 a11 a12 a20 a21 a22] [b0 b1 b2] As Bs Cs Ap Bp Cp K M].
  destruct X as [x0 x1 x2].
  unfold frameCoordinates. mat_simpl. intros (H10 & H20 & H21). subst a10 a20 a21.
  ring.
Qed.

(** The world-frame matrix of a symmetric ellipse-frame matrix is symmetric. *)
Lemma world_frame_symmetric (this : EllipticalArcConfigCalculator.t) :
  symmetric3 (EllipticalArcConfigCalculator.conicEqA_c this) ->
  symmetric3 (EllipticalArcConfigCalculator.conicEqA_s
                (EllipticalArcConfigCalculator.calcConeInWorldFrame this)).
Proof.
  destruct this as [e [r00 r01 r02 r10 r11 r12 r20 r21 r22] pb ey cv [c0 c1 c2]
                      [a00 a01 a02 a10 a11 a12 a20 a21 a22] [b0 b1 b2] As Bs Cs Ap Bp Cp K M].
  mat_simpl. intros (H10 & H20 & H21). subst a10 a20 a21.
  repeat split; ring.
Qed.

(** [calcProjectedEllipseConicEq] is a change of variables as well: the
    projection-plane equation at plane coordinates [Y] is the world-frame
    equation at the world point with these coordinates. *)
Lemma plane_residual (this : EllipticalArcConfigCalculator.t)
    (camera : ProjectionPlaneCamera.t) (Y : ColumnVector2.t) :
  symmetric3 (EllipticalArcConfigCalculator.conicEqA_s this) ->
  let projected :=
    EllipticalArcConfigCalculator.calcProjectedEllipseConicEq this
      (ProjectionPlaneCamera.asCameraTransform camera) in
  conicResidual2
    (EllipticalArcConfigCalculator.conicEqA_p projected)
    (EllipticalArcConfigCalculator.conicEqB_p projected)
    (EllipticalArcConfigCalculator.conicEqC_p projected) Y
  = conicResidual3
      (EllipticalArcConfigCalculator.conicEqA_s this)
      (EllipticalArcConfigCalculator.conicEqB_s this)
      (EllipticalArcConfigCalculator.conicEqC_s this)
      (ProjectionPlaneCamera.projectionToWorld camera
         (ColumnVector3.mk (ColumnVector2.x Y) (ColumnVector2.y Y) 0)).
Proof.
  destruct this as [e Rm pb ey cv cen Ac Bc
                      [a00 a01 a02 a10 a11 a12 a20 a21 a22] [b0 b1 b2] Cs Ap Bp Cp K M].
  destruct camera as [[x0 x1 x2] [y0 y1 y2] [z0 z1 z2] f [e0 e1 e2]].
  destruct Y as [u v].
  mat_simpl. intros (H10 & H20 & H21). subst a10 a20 a21.
  ring.
Qed.


(** The image of a point, put back in the world, lies on the line from the
    eye to the point. *)
Lemma project_on_sight_line (camera : ProjectionPlaneCamera.t) (X : ColumnVector3.t) :
  orthonormalCamera camera ->
  ProjectionPlaneCamera.pointFromEyePointZ camera X <> 0 ->
  let Y := ProjectionPlaneCamera.project camera X in
  ProjectionPlaneCamera.projectionToWorld camera
    (ColumnVector3.mk (ColumnVector3.x Y) (ColumnVector3.y Y) 0)
  = ColumnVector3.addScaled (ProjectionPlaneCamera.worldPosition camera)
      (ColumnVector3.subtract X (ProjectionPlaneCamera.worldPosition camera))
      (ProjectionPlaneCamera.focalDistance camera
       / ProjectionPlaneCamera.pointFromEyePointZ camera X).
Proof.
  destruct camera as [[x0 x1 x2] [y0 y1 y2] [z0 z1 z2] f [e0 e1 e2]].
  destruct X as [p0 p1 p2].
  unfold orthonormalCamera, ProjectionPlaneCamera.pointFromEyePointZ.
  mat_simpl.
  intros (Hxx & Hyy & Hzz & Hxy & Hxz & Hyz) Hpz.
  set (pz := - (0 + (p0 - e0) * z0 + (p1 - e1) * z1 + (p2 - e2) * z2)) in *.
  assert (Hk : f / pz * pz = f) by (field; exact Hpz).
  set (k := f / pz) in *. clearbody k.
  subst pz.
  apply ColumnVector3_eq.
  - nsatz.
  - nsatz.
  - nsatz.
Qed.

(** A number of magnitude at least a positive [eps] is not zero. *)
Lemma nonzero_of_magnitude (eps a : R) : 0 < eps -> eps <= Rabs a -> a <> 0.
Proof. intros Heps Ha E. subst a. rewrite Rabs_R0 in Ha. lra. Qed.


(** Coordinates in the frame of the ellipse are affine in the point. *)
Lemma frame_on_sight_line (basis : Matrix3.t) (center_c E X : ColumnVector3.t) (k : R) :
  frameCoordinates basis center_c (ColumnVector3.addScaled E (ColumnVector3.subtract X E) k)
  = ColumnVector3.addScaled (frameCoordinates basis center_c E)
      (ColumnVector3.subtract (frameCoordinates basis center_c X)
         (frameCoordinates basis center_c E)) k.
Proof.
  destruct basis, center_c, E, X. unfold frameCoordinates. mat_simpl.
  apply ColumnVector3_eq; ring.
Qed.

Section EllipseFrame.

Context {Range : Type} `{ValueRange.t Range}.
Variable parameters : EllipticalArcParameters.t ColumnVector3.t Range.
Hypothesis plane_orthonormal : orthonormalPlane (EllipticalArcParameters.plane parameters).

Let plane := EllipticalArcParameters.plane parameters.
Let origin := EllipticalArcParameters.origin parameters.
Let basis := arcBasis parameters.
Let center_c := arcCenter_c parameters.

(** In its own frame, the point of the ellipse at a circular angle. *)
Lemma frame_of_vertex (circularAngle_rad : R) :
  frameCoordinates basis center_c
    (EllipticalArcVertexCalculator.calculateVertex parameters circularAngle_rad)
  = ColumnVector3.mk
      (EllipticalArcParameters.semiXAxis parameters * cos circularAngle_rad)
      (EllipticalArcParameters.semiYAxis parameters * sin circularAngle_rad) 0.
Proof.
  subst basis center_c plane origin. revert plane_orthonormal.
  destruct parameters as [[c0 c1 c2] [[x0 x1 x2] [y0 y1 y2]] range a b].
  unfold orthonormalPlane, frameCoordinates, arcBasis, arcCenter_c. vec_simpl. mat_simpl.
  intros (Hxx & Hyy & Hxy).
  generalize (cos circularAngle_rad) (sin circularAngle_rad). intros c s.
  apply ColumnVector3_eq; nsatz.
Qed.

(** In the frame of the ellipse, a point seen from the centre: this is how
    [ellipticalConeVertex_c] is computed from the eye point. *)
Lemma frame_of_eye (E : ColumnVector3.t) :
  frameCoordinates basis center_c E
  = let eyePoint_c := ColumnVector3.subtract E origin in
    ColumnVector3.mk
      (ColumnVector3.vectorDot eyePoint_c (PlaneDirections.xHat plane))
      (ColumnVector3.vectorDot eyePoint_c (PlaneDirections.yHat plane))
      (ColumnVector3.vectorDot eyePoint_c (PlaneDirections.zHat plane)).
Proof.
  subst basis center_c plane origin. clear plane_orthonormal.
  destruct parameters as [[c0 c1 c2] [[x0 x1 x2] [y0 y1 y2]] range a b].
  destruct E as [e0 e1 e2].
  unfold frameCoordinates, arcBasis, arcCenter_c. vec_simpl. mat_simpl.
  apply ColumnVector3_eq; ring.
Qed.

End EllipseFrame.

(** Every point of a line from the apex to a point of the ellipse satisfies
    the equation of the cone. *)
Lemma cone_through_ellipse (a b e0 e1 e2 angle k : R) :
  a <> 0 -> b <> 0 -> e2 <> 0 ->
  let apex := ColumnVector3.mk e0 e1 e2 in
  conicResidual3 (coneEqA a b apex) (coneEqB apex) (-1)
    (ColumnVector3.addScaled apex
       (ColumnVector3.subtract (ColumnVector3.mk (a * cos angle) (b * sin angle) 0) apex) k)
  = 0.
Proof.
  intros Ha Hb He. cbv zeta. unfold coneEqA, coneEqB. mat_simpl.
  pose proof (sin2_cos2 angle) as Hcs. unfold Rsqr in Hcs.
  generalize dependent (cos angle). generalize (sin angle). intros s c Hcs.
  transitivity (k * k * (s * s + c * c - 1)); [field; auto | rewrite Hcs; ring].
Qed.

(** So does every point of the ellipse. *)
Lemma ellipse_on_cone (a b e0 e1 e2 angle : R) :
  a <> 0 -> b <> 0 -> e2 <> 0 ->
  conicResidual3 (coneEqA a b (ColumnVector3.mk e0 e1 e2))
    (coneEqB (ColumnVector3.mk e0 e1 e2)) (-1)
    (ColumnVector3.mk (a * cos angle) (b * sin angle) 0)
  = 0.
Proof.
  intros Ha Hb He. cbv zeta. unfold coneEqA, coneEqB. mat_simpl.
  pose proof (sin2_cos2 angle) as Hcs. unfold Rsqr in Hcs.
  generalize dependent (cos angle). generalize (sin angle). intros s c Hcs.
  transitivity (s * s + c * c - 1); [field; auto | rewrite Hcs; ring].
Qed.



Section FiniteCone.

Context {Range : Type} `{ValueRange.t Range}.
Variable this : EllipticalArcConfigCalculator.t.
Variable parameters : EllipticalArcParameters.t ColumnVector3.t Range.
Variable camera : ProjectionPlaneCamera.t.
Variable eps : R.

Let plane := EllipticalArcParameters.plane parameters.
Let origin := EllipticalArcParameters.origin parameters.
Let a := EllipticalArcParameters.semiXAxis parameters.
Let b := EllipticalArcParameters.semiYAxis parameters.
Let apex := frameCoordinates (arcBasis parameters) (arcCenter_c parameters)
              (ProjectionPlaneCamera.worldPosition camera).

Hypothesis eps_pos : 0 < eps.
Hypothesis semiX_large : eps <= Rabs a.
Hypothesis semiY_large : eps <= Rabs b.
Hypothesis eye_off_plane :
  eps <= Rabs (ColumnVector3.vectorDot
                 (ColumnVector3.subtract (ProjectionPlaneCamera.worldPosition camera) origin)
                 (PlaneDirections.zHat plane)).

Let cameraTransform := ProjectionPlaneCamera.asCameraTransform camera.
Let skewed :=
  EllipticalArcConfigCalculator.calcSkewedConeInInputEllipseFrame
    this parameters cameraTransform eps.
Let world := EllipticalArcConfigCalculator.calcConeInWorldFrame (fst skewed).
Let projected :=
  EllipticalArcConfigCalculator.calcProjectedEllipseConicEq world cameraTransform.

(** The divisors of [calcSkewedConeInInputEllipseFrame] are not zero. *)
Lemma finite_cone_nonzero :
  a <> 0 /\ b <> 0 /\ ColumnVector3.z apex <> 0.
Proof.
  split; [| split].
  - exact (nonzero_of_magnitude _ _ eps_pos semiX_large).
  - exact (nonzero_of_magnitude _ _ eps_pos semiY_large).
  - subst apex. rewrite frame_of_eye. cbv zeta.
    cbv [ColumnVector3.z].
    exact (nonzero_of_magnitude _ _ eps_pos eye_off_plane).
Qed.

(** The cone is built, and these are its fields. *)
Lemma finite_cone_fields :
  snd skewed = Finite /\
  EllipticalArcConfigCalculator.ellipseBasis (fst skewed) = arcBasis parameters /\
  EllipticalArcConfigCalculator.ellipseCenter_c (fst skewed) = arcCenter_c parameters /\
  EllipticalArcConfigCalculator.conicEqA_c (fst skewed) = coneEqA a b apex /\
  EllipticalArcConfigCalculator.conicEqB_c (fst skewed) = coneEqB apex.
Proof.
  subst skewed cameraTransform apex.
  rewrite frame_of_eye. cbv zeta.
  unfold EllipticalArcConfigCalculator.calcSkewedConeInInputEllipseFrame.
  unfold Math.abs. fold a b.
  rewrite (Rltb_false _ _ semiX_large), (Rltb_false _ _ semiY_large).
  simpl orb. cbv iota zeta.
  cbv [CameraTransform.getWorldPosition ProjectionPlaneCamera.asCameraTransform
       ProjectionPlaneCamera.getWorldPosition].
  fold plane origin. cbv [ColumnVector3.x ColumnVector3.y ColumnVector3.z].
  rewrite (Rltb_false _ _ eye_off_plane). repeat split.
Qed.

(** Its matrix is symmetric. *)
Lemma finite_cone_symmetric :
  symmetric3 (EllipticalArcConfigCalculator.conicEqA_c (fst skewed)).
Proof.
  destruct finite_cone_fields as (_ & _ & _ & HA_c & _).
  rewrite HA_c. repeat split.
Qed.

(** The world-frame equation at a point is the ellipse-frame equation of
    the cone at the coordinates of the point in the frame of the ellipse. *)
Lemma finite_cone_world_residual (P : ColumnVector3.t) :
  conicResidual3
    (EllipticalArcConfigCalculator.conicEqA_s world)
    (EllipticalArcConfigCalculator.conicEqB_s world)
    (EllipticalArcConfigCalculator.conicEqC_s world) P
  = conicResidual3 (coneEqA a b apex) (coneEqB apex) (-1)
      (frameCoordinates (arcBasis parameters) (arcCenter_c parameters) P).
Proof.
  destruct finite_cone_fields as (_ & Hbasis & Hcenter & HA_c & HB_c).
  subst world. rewrite (world_frame_residual _ P finite_cone_symmetric).
  rewrite Hbasis, Hcenter, HA_c, HB_c. reflexivity.
Qed.

(** The projection-plane equation at plane coordinates [Y] is the
    world-frame equation at the world point with these coordinates. *)
Lemma finite_cone_plane_residual (Y : ColumnVector2.t) :
  conicResidual2
    (EllipticalArcConfigCalculator.conicEqA_p projected)
    (EllipticalArcConfigCalculator.conicEqB_p projected)
    (EllipticalArcConfigCalculator.conicEqC_p projected) Y
  = conicResidual3 (coneEqA a b apex) (coneEqB apex) (-1)
      (frameCoordinates (arcBasis parameters) (arcCenter_c parameters)
         (ProjectionPlaneCamera.projectionToWorld camera
            (ColumnVector3.mk (ColumnVector2.x Y) (ColumnVector2.y Y) 0))).
Proof.
  pose proof finite_cone_symmetric as Hsym.
  pose proof finite_cone_world_residual as Hworld.
  subst projected. unfold cameraTransform in *.
  rewrite plane_residual by (subst world; apply world_frame_symmetric; exact Hsym).
  apply Hworld.
Qed.

End FiniteCone.

(** C1 (as amended).  For an arc with an orthonormal plane basis whose
    semi-axes both have magnitude at least [eps > 0], and a perspective
    camera (with its orthonormal basis) whose eye point is at least [eps]
    off the plane of the ellipse, the cone is built ([Finite]), every point
    of the ellipse satisfies the world-frame equation computed by
    [calcConeInWorldFrame] exactly, and the camera projection of every
    point of the ellipse that is not at the depth of the eye
    ([pointFromEyePointZ <> 0], the divisor of the projection) satisfies
    the projection-plane equation computed by
    [calcProjectedEllipseConicEq] exactly. *)
Theorem C1_conic_equations
    {Range : Type} `{ValueRange.t Range}
    (this : EllipticalArcConfigCalculator.t)
    (parameters : EllipticalArcParameters.t ColumnVector3.t Range)
    (camera : ProjectionPlaneCamera.t)
    (eps circularAngle_rad : R) :
  0 < eps ->
  orthonormalPlane (EllipticalArcParameters.plane parameters) ->
  orthonormalCamera camera ->
  eps <= Rabs (EllipticalArcParameters.semiXAxis parameters) ->
  eps <= Rabs (EllipticalArcParameters.semiYAxis parameters) ->
  eps <= Rabs (ColumnVector3.vectorDot
                 (ColumnVector3.subtract (ProjectionPlaneCamera.worldPosition camera)
                    (EllipticalArcParameters.origin parameters))
                 (PlaneDirections.zHat (EllipticalArcParameters.plane parameters))) ->
  let cameraTransform := ProjectionPlaneCamera.asCameraTransform camera in
  let skewed :=
    EllipticalArcConfigCalculator.calcSkewedConeInInputEllipseFrame
      this parameters cameraTransform eps in
  let world := EllipticalArcConfigCalculator.calcConeInWorldFrame (fst skewed) in
  let projected :=
    EllipticalArcConfigCalculator.calcProjectedEllipseConicEq world cameraTransform in
  let X := EllipticalArcVertexCalculator.calculateVertex parameters circularAngle_rad in
  snd skewed = Finite /\
  conicResidual3
    (EllipticalArcConfigCalculator.conicEqA_s world)
    (EllipticalArcConfigCalculator.conicEqB_s world)
    (EllipticalArcConfigCalculator.conicEqC_s world) X = 0 /\
  (ProjectionPlaneCamera.pointFromEyePointZ camera X <> 0 ->
   conicResidual2
     (EllipticalArcConfigCalculator.conicEqA_p projected)
     (EllipticalArcConfigCalculator.conicEqB_p projected)
     (EllipticalArcConfigCalculator.conicEqC_p projected)
     (planeCoordinates (ProjectionPlaneCamera.project camera X)) = 0).
Proof.
  intros Heps Hplane Hcamera HsemiX HsemiY Heye cameraTransform skewed world projected X.
  destruct (finite_cone_nonzero parameters camera eps Heps HsemiX HsemiY Heye)
    as (Ha & Hb & He2).
  split; [| split].
  - exact (proj1 (finite_cone_fields this parameters camera eps HsemiX HsemiY Heye)).
  - subst world skewed cameraTransform.
    rewrite (finite_cone_world_residual this parameters camera eps HsemiX HsemiY Heye).
    subst X.
    rewrite (frame_of_vertex parameters Hplane).
    destruct (frameCoordinates _ _ (ProjectionPlaneCamera.worldPosition camera))
      as [e0 e1 e2].
    apply ellipse_on_cone; assumption.
  - intros Hpz. subst projected world skewed cameraTransform.
    rewrite (finite_cone_plane_residual this parameters camera eps HsemiX HsemiY Heye).
    unfold planeCoordinates. cbv [ColumnVector2.x ColumnVector2.y].
    rewrite (project_on_sight_line camera X Hcamera Hpz).
    rewrite frame_on_sight_line.
    subst X.
    rewrite (frame_of_vertex parameters Hplane).
    destruct (frameCoordinates _ _ (ProjectionPlaneCamera.worldPosition camera))
      as [e0 e1 e2].
    apply cone_through_ellipse; assumption.
Qed.

(** The basis of a freshly constructed camera is orthonormal. *)
Lemma new_camera_orthonormal (worldPosition : ColumnVector3.t) :
  orthonormalCamera (ProjectionPlaneCamera.new worldPosition).
Proof. unfold orthonormalCamera. vec_simpl. repeat split; ring. Qed.

Lemma EPS_small : EPS <= 1.
Proof. unfold EPS. lra. Qed.

Lemma C1_conic_equations_witness :
  let parameters := unit_circle in
  let camera := camera_above in
  let this := EllipticalArcConfigCalculator.new EPS in
  let cameraTransform := ProjectionPlaneCamera.asCameraTransform camera in
  let skewed :=
    EllipticalArcConfigCalculator.calcSkewedConeInInputEllipseFrame
      this parameters cameraTransform EPS in
  let world := EllipticalArcConfigCalculator.calcConeInWorldFrame (fst skewed) in
  let projected :=
    EllipticalArcConfigCalculator.calcProjectedEllipseConicEq world cameraTransform in
  let X := EllipticalArcVertexCalculator.calculateVertex parameters 0 in
  (0 < EPS /\
   orthonormalPlane (EllipticalArcParameters.plane parameters) /\
   orthonormalCamera camera /\
   EPS <= Rabs (EllipticalArcParameters.semiXAxis parameters) /\
   EPS <= Rabs (EllipticalArcParameters.semiYAxis parameters) /\
   EPS <= Rabs (ColumnVector3.vectorDot
                  (ColumnVector3.subtract (ProjectionPlaneCamera.worldPosition camera)
                     (EllipticalArcParameters.origin parameters))
                  (PlaneDirections.zHat (EllipticalArcParameters.plane parameters))) /\
   ProjectionPlaneCamera.pointFromEyePointZ camera X <> 0) /\
  snd skewed = Finite /\
  conicResidual3
    (EllipticalArcConfigCalculator.conicEqA_s world)
    (EllipticalArcConfigCalculator.conicEqB_s world)
    (EllipticalArcConfigCalculator.conicEqC_s world) X = 0 /\
  conicResidual2
    (EllipticalArcConfigCalculator.conicEqA_p projected)
    (EllipticalArcConfigCalculator.conicEqB_p projected)
    (EllipticalArcConfigCalculator.conicEqC_p projected)
    (planeCoordinates (ProjectionPlaneCamera.project camera X)) = 0.
Proof.
  pose proof EPS_pos as Hpos. pose proof EPS_small as Hsmall.
  assert (Hplane : orthonormalPlane (EllipticalArcParameters.plane unit_circle)).
  { unfold orthonormalPlane, unit_circle. vec_simpl. repeat split; ring. }
  assert (Hsemi : EPS <= Rabs 1) by (rewrite Rabs_pos_eq; lra).
  assert (Heye :
    EPS <= Rabs (ColumnVector3.vectorDot
                   (ColumnVector3.subtract
                      (ProjectionPlaneCamera.worldPosition camera_above)
                      (EllipticalArcParameters.origin unit_circle))
                   (PlaneDirections.zHat (EllipticalArcParameters.plane unit_circle)))).
  { unfold unit_circle, camera_above. vec_simpl.
    replace (0 + (0 - 0) * (0 * 0 - 0 * 1) + (0 - 0) * (0 * 0 - 1 * 0)
             + (5 - 0) * (1 * 1 - 0 * 0)) with 5 by ring.
    rewrite Rabs_pos_eq; lra. }
  assert (Hdepth :
    ProjectionPlaneCamera.pointFromEyePointZ camera_above
      (EllipticalArcVertexCalculator.calculateVertex unit_circle 0) <> 0).
  { unfold ProjectionPlaneCamera.pointFromEyePointZ, unit_circle, camera_above.
    vec_simpl. rewrite cos_0, sin_0. lra. }
  destruct (C1_conic_equations (EllipticalArcConfigCalculator.new EPS)
              unit_circle camera_above EPS 0 Hpos Hplane
              (new_camera_orthonormal _) Hsemi Hsemi Heye)
    as (Hfinite & Hworld & Hprojected).
  cbv zeta.
  exact (conj
           (conj Hpos (conj Hplane (conj (new_camera_orthonormal _)
              (conj Hsemi (conj Hsemi (conj Heye Hdepth))))))
           (conj Hfinite (conj Hworld (Hprojected Hdepth)))).
Defined.

(** At the origin of the projection plane the residual is the constant term. *)
Lemma conicResidual2_at_origin (A : Matrix2.t) (B : ColumnVector2.t) (c : R) :
  conicResidual2 A B c (ColumnVector2.mk 0 0) = c.
Proof. destruct A, B. mat_simpl. ring. Qed.

(** The claim as stated fails for the upright unit circle seen from
    [camera_beside]: the arc and the camera meet every condition of the
    claim, but the point at circular angle 0 is at the depth of the eye, so
    the projection divides by zero.  The source then yields non-finite
    coordinates; here the quotient is 0, the image is the centre of the
    projection plane, and the residual of the projection-plane equation
    there is 1. *)
Lemma C1_counterexample :
  let parameters := upright_circle in
  let camera := camera_beside in
  let this := EllipticalArcConfigCalculator.new EPS in
  let cameraTransform := ProjectionPlaneCamera.asCameraTransform camera in
  let skewed :=
    EllipticalArcConfigCalculator.calcSkewedConeInInputEllipseFrame
      this parameters cameraTransform EPS in
  let world := EllipticalArcConfigCalculator.calcConeInWorldFrame (fst skewed) in
  let projected :=
    EllipticalArcConfigCalculator.calcProjectedEllipseConicEq world cameraTransform in
  let X := EllipticalArcVertexCalculator.calculateVertex parameters 0 in
  orthonormalPlane (EllipticalArcParameters.plane parameters) /\
  orthonormalCamera camera /\
  EPS <= Rabs (EllipticalArcParameters.semiXAxis parameters) /\
  EPS <= Rabs (EllipticalArcParameters.semiYAxis parameters) /\
  EPS <= Rabs (ColumnVector3.vectorDot
                 (ColumnVector3.subtract (ProjectionPlaneCamera.worldPosition camera)
                    (EllipticalArcParameters.origin parameters))
                 (PlaneDirections.zHat (EllipticalArcParameters.plane parameters))) /\
  snd skewed = Finite /\
  ProjectionPlaneCamera.pointFromEyePointZ camera X = 0 /\
  conicResidual2
    (EllipticalArcConfigCalculator.conicEqA_p projected)
    (EllipticalArcConfigCalculator.conicEqB_p projected)
    (EllipticalArcConfigCalculator.conicEqC_p projected)
    (planeCoordinates (ProjectionPlaneCamera.project camera X)) <> 0.
Proof.
  pose proof EPS_pos as Hpos. pose proof EPS_small as Hsmall.
  assert (Hplane : orthonormalPlane (EllipticalArcParameters.plane upright_circle)).
  { unfold orthonormalPlane, upright_circle. vec_simpl. repeat split; ring. }
  assert (Hsemi : EPS <= Rabs 1) by (rewrite Rabs_pos_eq; lra).
  assert (Heye :
    EPS <= Rabs (ColumnVector3.vectorDot
                   (ColumnVector3.subtract
                      (ProjectionPlaneCamera.worldPosition camera_beside)
                      (EllipticalArcParameters.origin upright_circle))
                   (PlaneDirections.zHat (EllipticalArcParameters.plane upright_circle)))).
  { unfold upright_circle, camera_beside. vec_simpl.
    replace (0 + (2 - 0) * (0 * 0 - 1 * 1) + (0 - 0) * (1 * 0 - 0 * 0)
             + (1 - 0) * (0 * 1 - 0 * 0)) with (-2) by ring.
    rewrite Rabs_left; lra. }
  assert (HX : EllipticalArcVertexCalculator.calculateVertex upright_circle 0
               = ColumnVector3.mk 0 0 1).
  { unfold upright_circle. vec_simpl. rewrite cos_0, sin_0.
    apply ColumnVector3_eq; ring. }
  assert (HY : ProjectionPlaneCamera.project camera_beside (ColumnVector3.mk 0 0 1)
               = ColumnVector3.mk 0 0 1).
  { unfold camera_beside. vec_simpl.
    replace (- (0 + (0 - 2) * 0 + (0 - 0) * 0 + (1 - 1) * 1)) with 0 by ring.
    unfold Rdiv. rewrite Rinv_0. apply ColumnVector3_eq; ring. }
  destruct (finite_cone_fields (EllipticalArcConfigCalculator.new EPS)
              upright_circle camera_beside EPS Hsemi Hsemi Heye)
    as (Hfinite & _).
  cbv zeta. rewrite HX, HY.
  split; [exact Hplane |].
  split; [apply new_camera_orthonormal |].
  split; [exact Hsemi |]. split; [exact Hsemi |].
  split; [exact Heye |].
  split; [exact Hfinite |].
  split.
  { unfold ProjectionPlaneCamera.pointFromEyePointZ, camera_beside. vec_simpl. ring. }
  unfold planeCoordinates. cbv [ColumnVector3.x ColumnVector3.y].
  rewrite (finite_cone_plane_residual (EllipticalArcConfigCalculator.new EPS)
             upright_circle camera_beside EPS Hsemi Hsemi Heye).
  assert (Hapex :
    frameCoordinates (arcBasis upright_circle) (arcCenter_c upright_circle)
      (ProjectionPlaneCamera.worldPosition camera_beside)
    = ColumnVector3.mk 1 0 (-2)).
  { unfold frameCoordinates, arcBasis, arcCenter_c, upright_circle, camera_beside.
    vec_simpl. mat_simpl. apply ColumnVector3_eq; ring. }
  assert (Hcenter :
    frameCoordinates (arcBasis upright_circle) (arcCenter_c upright_circle)
      (ProjectionPlaneCamera.projectionToWorld camera_beside
         (ColumnVector3.mk 0 0 0))
    = ColumnVector3.mk 0 0 (-2)).
  { unfold frameCoordinates, arcBasis, arcCenter_c, upright_circle, camera_beside.
    vec_simpl. mat_simpl. apply ColumnVector3_eq; ring. }
  cbv [ColumnVector2.x ColumnVector2.y].
  rewrite Hapex, Hcenter.
  unfold coneEqA, coneEqB, upright_circle. vec_simpl. mat_simpl.
  match goal with |- ?lhs <> 0 => replace lhs with 1 by (field; lra) end.
  lra.
Qed.

(** ** The basis of the perspective camera

    Every camera the interface can produce has an orthonormal basis: the
    constructor builds one ([new_camera_orthonormal]) and each method that
    changes the camera keeps it. *)

Lemma cross_dot_left (a b : ColumnVector3.t) :
  ColumnVector3.vectorDot (ColumnVector3.vectorCross a b) a = 0.
Proof. destruct a, b. vec_simpl. ring. Qed.

Lemma cross_dot_right (a b : ColumnVector3.t) :
  ColumnVector3.vectorDot (ColumnVector3.vectorCross a b) b = 0.
Proof. destruct a, b. vec_simpl. ring. Qed.

Lemma dot_comm (a b : ColumnVector3.t) :
  ColumnVector3.vectorDot a b = ColumnVector3.vectorDot b a.
Proof. destruct a, b. vec_simpl. ring. Qed.

Lemma cross_dot_cross (a b : ColumnVector3.t) :
  ColumnVector3.vectorDot (ColumnVector3.vectorCross a b) (ColumnVector3.vectorCross a b)
  = ColumnVector3.vectorDot a a * ColumnVector3.vectorDot b b
    - ColumnVector3.vectorDot a b * ColumnVector3.vectorDot a b.
Proof. destruct a, b. vec_simpl. ring. Qed.

Lemma normalize_dot (v w : ColumnVector3.t) :
  0 < ColumnVector3.vectorDot v v ->
  ColumnVector3.vectorDot (ColumnVector3.normalizeColumnVectors v) w
  = ColumnVector3.vectorDot v w / sqrt (ColumnVector3.vectorDot v v).
Proof.
  destruct v as [v0 v1 v2], w as [w0 w1 w2].
  unfold ColumnVector3.normalizeColumnVectors. vec_simpl. intros Hpos.
  pose proof (sqrt_lt_R0 _ Hpos) as Hl.
  field. lra.
Qed.

Lemma normalize_unit (v : ColumnVector3.t) :
  0 < ColumnVector3.vectorDot v v ->
  ColumnVector3.vectorDot (ColumnVector3.normalizeColumnVectors v)
    (ColumnVector3.normalizeColumnVectors v) = 1.
Proof.
  intros Hpos. rewrite normalize_dot by assumption.
  rewrite dot_comm, normalize_dot by assumption.
  pose proof (sqrt_lt_R0 _ Hpos) as Hl.
  pose proof (sqrt_sqrt (ColumnVector3.vectorDot v v) (Rlt_le _ _ Hpos)) as Hsq.
  set (l := sqrt (ColumnVector3.vectorDot v v)) in *.
  rewrite <- Hsq at 1. field. lra.
Qed.

Lemma distance_positive (p q : ColumnVector3.t) (eps : R) :
  0 < eps -> eps <= ColumnVector3.distanceTo p q ->
  0 < ColumnVector3.vectorDot (ColumnVector3.subtract q p) (ColumnVector3.subtract q p).
Proof.
  destruct p as [p0 p1 p2], q as [q0 q1 q2].
  unfold ColumnVector3.distanceTo. vec_simpl. intros Heps Hd.
  set (s := 0 + (p0 - q0) * (p0 - q0) + (p1 - q1) * (p1 - q1) + (p2 - q2) * (p2 - q2)) in *.
  replace (0 + (q0 - p0) * (q0 - p0) + (q1 - p1) * (q1 - p1) + (q2 - p2) * (q2 - p2))
    with s by (subst s; ring).
  destruct (Rle_or_lt s 0) as [Hs | Hs]; [| exact Hs].
  rewrite (sqrt_neg_0 _ Hs) in Hd. lra.
Qed.

(** [lookAt] rebuilds the basis around the new viewing direction. *)
Lemma lookAt_orthonormal (camera camera' : ProjectionPlaneCamera.t)
    (targetPoint : ColumnVector3.t) (eps : R) :
  0 < eps ->
  ProjectionPlaneCamera.lookAt camera targetPoint eps = Ok camera' ->
  orthonormalCamera camera'.
Proof.
  intros Heps. unfold ProjectionPlaneCamera.lookAt.
  unfold Rltb. destruct (Rlt_dec _ eps) as [Hclose | Hfar]; [discriminate |].
  apply Rnot_lt_le in Hfar.
  pose proof (distance_positive _ _ _ Heps Hfar) as Hv.
  set (v := ColumnVector3.subtract (ProjectionPlaneCamera.worldPosition camera) targetPoint) in *.
  pose proof (normalize_unit v Hv) as Hzz.
  set (z := ColumnVector3.normalizeColumnVectors v) in *.
  cbv zeta. unfold Rleb.
  destruct (Rle_dec _ _) as [Hxy | Hxy]; intros [= <-]; unfold orthonormalCamera;
    cbv [ProjectionPlaneCamera.xHat ProjectionPlaneCamera.yHat ProjectionPlaneCamera.zHat].
  - set (u := ColumnVector3.vectorCross (ColumnVector3.mk (-1) 0 0) z).
    assert (Hu : 0 < ColumnVector3.vectorDot u u).
    { subst u. clearbody z. destruct z as [z0 z1 z2]. unfold Math.abs in Hxy.
      apply Rsqr_le_abs_1 in Hxy. unfold Rsqr in Hxy.
      revert Hzz Hxy. vec_simpl. intros Hzz Hxy. nra. }
    pose proof (normalize_unit u Hu) as Hyy.
    assert (Hyz : ColumnVector3.vectorDot (ColumnVector3.normalizeColumnVectors u) z = 0).
    { rewrite normalize_dot by assumption. subst u. rewrite cross_dot_right.
      unfold Rdiv. ring. }
    set (y := ColumnVector3.normalizeColumnVectors u) in *.
    repeat split.
    + rewrite cross_dot_cross, Hyy, Hzz, Hyz. ring.
    + exact Hyy.
    + exact Hzz.
    + apply cross_dot_left.
    + apply cross_dot_right.
    + exact Hyz.
  - apply Rnot_le_lt in Hxy.
    set (u := ColumnVector3.vectorCross (ColumnVector3.mk 0 1 0) z).
    assert (Hu : 0 < ColumnVector3.vectorDot u u).
    { subst u. clearbody z. destruct z as [z0 z1 z2]. unfold Math.abs in Hxy.
      apply Rsqr_lt_abs_1 in Hxy. unfold Rsqr in Hxy.
      revert Hzz Hxy. vec_simpl. intros Hzz Hxy. nra. }
    pose proof (normalize_unit u Hu) as Hxx.
    assert (Hxz : ColumnVector3.vectorDot (ColumnVector3.normalizeColumnVectors u) z = 0).
    { rewrite normalize_dot by assumption. subst u. rewrite cross_dot_right.
      unfold Rdiv. ring. }
    set (x := ColumnVector3.normalizeColumnVectors u) in *.
    repeat split.
    + exact Hxx.
    + rewrite cross_dot_cross, Hxx, Hzz, (dot_comm z x), Hxz. ring.
    + exact Hzz.
    + rewrite dot_comm. apply cross_dot_right.
    + exact Hxz.
    + apply cross_dot_left.
Qed.

Lemma flipXAxis_orthonormal (camera : ProjectionPlaneCamera.t) :
  orthonormalCamera camera -> orthonormalCamera (ProjectionPlaneCamera.flipXAxis camera).
Proof.
  destruct camera as [[x0 x1 x2] [y0 y1 y2] [z0 z1 z2] f e].
  unfold orthonormalCamera, ProjectionPlaneCamera.flipXAxis. vec_simpl.
  intros (Hxx & Hyy & Hzz & Hxy & Hxz & Hyz). repeat split; nra.
Qed.

Lemma flipYAxis_orthonormal (camera : ProjectionPlaneCamera.t) :
  orthonormalCamera camera -> orthonormalCamera (ProjectionPlaneCamera.flipYAxis camera).
Proof.
  destruct camera as [[x0 x1 x2] [y0 y1 y2] [z0 z1 z2] f e].
  unfold orthonormalCamera, ProjectionPlaneCamera.flipYAxis. vec_simpl.
  intros (Hxx & Hyy & Hzz & Hxy & Hxz & Hyz). repeat split; nra.
Qed.

Lemma flipZAxis_orthonormal (camera : ProjectionPlaneCamera.t) :
  orthonormalCamera camera -> orthonormalCamera (ProjectionPlaneCamera.flipZAxis camera).
Proof.
  destruct camera as [[x0 x1 x2] [y0 y1 y2] [z0 z1 z2] f e].
  unfold orthonormalCamera, ProjectionPlaneCamera.flipZAxis. vec_simpl.
  intros (Hxx & Hyy & Hzz & Hxy & Hxz & Hyz). repeat split; nra.
Qed.

Lemma setFocalDistance_orthonormal (camera : ProjectionPlaneCamera.t) (value : R) :
  orthonormalCamera camera ->
  orthonormalCamera (ProjectionPlaneCamera.setFocalDistance camera value).
Proof. destruct camera. exact (fun H => H). Qed.

(** ** The solids: what a call of the setter keeps *)

Lemma Reqb_eq (a b : R) : Reqb a b = true -> a = b.
Proof. unfold Reqb. destruct (Req_dec_T a b); [trivial | discriminate]. Qed.

Lemma Reqb_refl (a : R) : Reqb a a = true.
Proof. apply Reqb_true. reflexivity. Qed.


Lemma set_drawEndSliceIndex_console_irrelevant
    (startVertexIndex : Z -> Z) (calculatedSliceCount : Z)
    (g : IndexedGeometry.t) (console console' : Console.t) (sliceIdx : Z) :
  fst (IndexedGeometry.set_drawEndSliceIndex startVertexIndex calculatedSliceCount
         g console sliceIdx)
  = fst (IndexedGeometry.set_drawEndSliceIndex startVertexIndex calculatedSliceCount
           g console' sliceIdx).
Proof.
  unfold IndexedGeometry.set_drawEndSliceIndex.
  destruct ((0 <=? sliceIdx)%Z && (sliceIdx <=? calculatedSliceCount)%Z); reflexivity.
Qed.

Section SliceParameter.

Context {Range : Type} `{ValueRange.t Range}.
Variable vertexCalculator : ConnectingSliceVertexCalculator.t.
Variable baseCalculator : VertexCalculator.t Range.



End SliceParameter.

(** *** The cylinder *)

Section Cylinder.

Context {Range : Type} `{ValueRange.t Range}.

Lemma cylinder_out_of_range (this : ArchytasCylinder.t Range)
    (console : Console.t) (value : R) :
  ValueRange.includes (ArchytasCylinder.angle_rad (ArchytasCylinder.config this)) value
  = false ->
  ArchytasCylinder.set_secantAngle_rad this console value
  = (this,
     Console.error "Angle {} rad out of bounds [{} rad; {} rad]"
       (value
        :: ValueRange.start (ArchytasCylinder.angle_rad (ArchytasCylinder.config this))
        :: ValueRange.end_ (ArchytasCylinder.angle_rad (ArchytasCylinder.config this))
        :: nil)
     :: console).
Proof.
  intros Hout. unfold ArchytasCylinder.set_secantAngle_rad.
  cbv zeta. rewrite Hout. reflexivity.
Qed.

Lemma cylinder_in_range (this : ArchytasCylinder.t Range)
    (console : Console.t) (value : R) :
  let config := ArchytasCylinder.config this in
  let range := ArchytasCylinder.angle_rad config in
  let stepIdx := ValueRange.lastIncludedStepIdx range value in
  let calculatedSliceCount :=
    VertexCalculator.sliceCount (ArchytasCylinder.vertexCalculator config) in
  ValueRange.includes range value = true ->
  fst (ArchytasCylinder.set_secantAngle_rad this console value)
  = ArchytasCylinder.mk config (ArchytasCylinder.coords this)
      (fst (IndexedGeometry.set_drawEndSliceIndex
              ArchytasCylinder.surface_startVertexIndex calculatedSliceCount
              (ArchytasCylinder.surface this) console stepIdx))
      (fst (IndexedGeometry.set_drawEndSliceIndex
              ArchytasCylinder.wireframe_startVertexIndex calculatedSliceCount
              (ArchytasCylinder.wireframe this) console
              (if (0 <? stepIdx)%Z then stepIdx + 1 else stepIdx)%Z))
      (ConnectingSliceVertexCoords.set_sliceParameter
         (ArchytasCylinder.connectingSliceCalculator this)
         (ArchytasCylinder.vertexCalculator config)
         (ArchytasCylinder.connectingSliceCoords this) value)
      (ArchytasCylinder.connectingSliceSurface this)
      (ArchytasCylinder.connectingSliceWireframe this).
Proof.
  intros config range stepIdx calculatedSliceCount Hin.
  unfold ArchytasCylinder.set_secantAngle_rad. cbv zeta.
  fold config. fold range. rewrite Hin. fold stepIdx. fold calculatedSliceCount.
  destruct (IndexedGeometry.set_drawEndSliceIndex _ _ (ArchytasCylinder.surface this) _ _)
    as [surface console1] eqn:Es.
  rewrite (set_drawEndSliceIndex_console_irrelevant _ _ _ console console1).
  destruct (IndexedGeometry.set_drawEndSliceIndex _ _ (ArchytasCylinder.wireframe this) _ _)
    as [wireframe console2] eqn:Ew.
  reflexivity.
Qed.



End Cylinder.

(** *** The torus *)

Section Torus.

Context {Range : Type} `{ValueRange.t Range}.

Lemma torus_out_of_range (this : ArchytasTorus.t Range)
    (console : Console.t) (value : R) :
  ValueRange.includes (ArchytasTorus.toroidalAngle_rad (ArchytasTorus.config this)) value
  = false ->
  ArchytasTorus.set_toroidalAngle_rad this console value
  = (this,
     Console.error "Toroidal angle {} rad out of bounds [{}; {}]"
       (value
        :: ValueRange.repr (ArchytasTorus.toroidalAngle_rad (ArchytasTorus.config this))
             (180 / PI))
     :: console).
Proof.
  intros Hout. unfold ArchytasTorus.set_toroidalAngle_rad.
  cbv zeta. rewrite Hout. reflexivity.
Qed.




End Torus.

(** *** Ranges that increase *)

Lemma Rleb_le (a b : R) : Rleb a b = true -> a <= b.
Proof. unfold Rleb. destruct (Rle_dec a b); [trivial | discriminate]. Qed.

Lemma includes_bounds (r : ConstStepRange.t) (value : R) :
  ConstStepRange.includes r value = true ->
  ConstStepRange.start r <= value <= ConstStepRange.end_ r.
Proof.
  unfold ConstStepRange.includes. intros Hin.
  apply andb_prop in Hin as [Hs He]. split; apply Rleb_le; assumption.
Qed.

Section IncreasingRange.

Variable r : ConstStepRange.t.
Hypothesis stepSize_pos : 0 < ConstStepRange._stepSize r.



End IncreasingRange.

Section ConstructedRange.

Variables (start end_ : R) (n : Z).
Hypothesis n_pos : (1 <= n)%Z.
Hypothesis increasing : start < end_.

Let r := ConstStepRange.new start end_ n.


Lemma lastIncludedStepIdx_le_stepCount (value : R) :
  value <= end_ ->
  (ConstStepRange.lastIncludedStepIdx r value <= n)%Z.
Proof.
  intros Hle.
  assert (Hn : 0 < IZR n) by (apply IZR_lt; lia).
  rewrite <- (ZfloorZ n).
  unfold ConstStepRange.lastIncludedStepIdx, Math.floor.
  apply Zfloor_le. simpl.
  unfold ConstStepRange.start. simpl.
  apply Rmult_le_reg_r with ((end_ - start) / IZR n).
  - apply Rdiv_lt_0_compat; lra.
  - replace ((value - start) / ((end_ - start) / IZR n) * ((end_ - start) / IZR n))
      with (value - start) by (field; lra).
    replace (IZR n * ((end_ - start) / IZR n)) with (end_ - start) by (field; lra).
    lra.
Qed.

End ConstructedRange.

(** *** The geometries *)


Lemma notBefore_unset_set (count : Z) : ~ notBefore None (Some count).
Proof. intros H. exact H. Qed.








(** *** The cylinder and the torus: successive values *)



(** *** The cone *)

Lemma cone_same_value (this : ArchytasCone.t) (console : Console.t) :
  ArchytasCone.set_oapAngleCompliment_rad this console
    (ArchytasCone._oapAngleCompliment_rad this)
  = (this, console).
Proof.
  unfold ArchytasCone.set_oapAngleCompliment_rad. rewrite Reqb_refl. reflexivity.
Qed.

Lemma cone_out_of_range (this : ArchytasCone.t) (console : Console.t) (value : R) :
  let range := ArchytasCone.oapAngleCompliment_rad (ArchytasCone.config this) in
  value <> ArchytasCone._oapAngleCompliment_rad this ->
  ConstStepRange.includes range value = false ->
  ArchytasCone.set_oapAngleCompliment_rad this console value
  = (this,
     Console.error "Angle {} rad out of bounds [{} rad; {} rad]"
       (value :: ConstStepRange.start range :: ConstStepRange.end_ range :: nil)
     :: console).
Proof.
  intros range Hne Hout. unfold ArchytasCone.set_oapAngleCompliment_rad.
  rewrite (Reqb_false _ _ Hne). cbv zeta. fold range. rewrite Hout. reflexivity.
Qed.

Lemma cone_in_range (this : ArchytasCone.t) (console : Console.t) (value : R) :
  let config := ArchytasCone.config this in
  let range := ArchytasCone.oapAngleCompliment_rad config in
  let stepIdx := ConstStepRange.lastIncludedStepIdx range value in
  let calculatedSliceCount :=
    VertexCalculator.sliceCount (ArchytasCone.vertexCalculator config) in
  let ptQ := fst (ArchytasCone.updatePts config value) in
  let ptT := snd (ArchytasCone.updatePts config value) in
  value <> ArchytasCone._oapAngleCompliment_rad this ->
  ConstStepRange.includes range value = true ->
  fst (ArchytasCone.set_oapAngleCompliment_rad this console value)
  = ArchytasCone.mk config (ArchytasCone.coords this)
      (fst (IndexedGeometry.set_drawEndSliceIndex
              ArchytasCone.surface_startVertexIndex calculatedSliceCount
              (ArchytasCone.surface this) console stepIdx))
      (fst (IndexedGeometry.set_drawEndSliceIndex
              ArchytasCone.wireframe_startVertexIndex calculatedSliceCount
              (ArchytasCone.wireframe this) console
              (if (0 <? stepIdx)%Z then stepIdx + 1 else stepIdx)%Z))
      (ConnectingSliceVertexCoords.set_sliceParameter
         (ArchytasCone.ConeConnectingSliceVertexCalculator config)
         (ArchytasCone.vertexCalculator config)
         (ArchytasCone.connectingSliceCoords this) value)
      (ArchytasCone.connectingSliceSurface this)
      (ArchytasCone.connectingSliceWireframe this)
      (Line.commitUpdates
         (Line.updateVertex (Line.updateVertex (ArchytasCone.lineQt this) 0 ptQ) 1 ptT))
      (Line.commitUpdates (Line.updateVertex (ArchytasCone.lineAt this) 1 ptT))
      ptQ ptT
      (Some (ArchytasCone.labelPositioner config ptT))
      value.
Proof.
  intros config range stepIdx calculatedSliceCount ptQ ptT Hne Hin.
  unfold ArchytasCone.set_oapAngleCompliment_rad.
  rewrite (Reqb_false _ _ Hne). cbv zeta.
  fold config. fold range. rewrite Hin. fold stepIdx. fold calculatedSliceCount.
  destruct (IndexedGeometry.set_drawEndSliceIndex _ _ (ArchytasCone.surface this) _ _)
    as [surface console1] eqn:Es.
  rewrite (set_drawEndSliceIndex_console_irrelevant _ _ _ console console1).
  destruct (IndexedGeometry.set_drawEndSliceIndex _ _ (ArchytasCone.wireframe this) _ _)
    as [wireframe console2] eqn:Ew.
  unfold ptQ, ptT.
  destruct (ArchytasCone.updatePts config value) as [q t].
  reflexivity.
Qed.

Section ConeRange.

Variable labelPositioner : ColumnVector3.t -> Z * Z.
Variable origin : ColumnVector3.t.
Variable transversePlane : PlaneDirections.t ColumnVector3.t.
Variable invertZ : bool.
Variables apexAngle_rad height cylinderRadius : R.
Variable aopAngleStepCount : Z.

Let config : ArchytasCone.ConeConfiguration :=
  ArchytasCone.newConfiguration labelPositioner origin transversePlane invertZ
    apexAngle_rad height cylinderRadius aopAngleStepCount.

Let range : ConstStepRange.t := ArchytasCone.oapAngleCompliment_rad config.

Lemma cone_range_bounds :
  ConstStepRange.start range = 0 /\ ConstStepRange.end_ range = PI / 2.
Proof.
  unfold range, config, ArchytasCone.newConfiguration,
    ConstStepRange.radRangeFromStartEndDegStepCount, ConstStepRange.new,
    ConstStepRange.start, ConstStepRange.end_.
  simpl. split; lra.
Qed.

Lemma cone_reachable_stored_in_range (this : ArchytasCone.t) :
  cone_reachable config this ->
  ArchytasCone.config this = config
  /\ ConstStepRange.includes range (ArchytasCone._oapAngleCompliment_rad this) = true.
Proof.
  induction 1 as [|this console value _ [IHconfig IH]].
  - unfold ArchytasCone.new.
    destruct (ArchytasCone.updatePts config (PI / 4)) as [q t].
    split; [reflexivity|].
    cbn [ArchytasCone._oapAngleCompliment_rad].
    destruct cone_range_bounds as [Hs He].
    unfold ConstStepRange.includes. rewrite Hs, He.
    pose proof PI_RGT_0.
    rewrite !Rleb_true by lra. reflexivity.
  - destruct (Req_dec_T value (ArchytasCone._oapAngleCompliment_rad this)) as [->|Hne].
    { rewrite cone_same_value. split; assumption. }
    destruct (ConstStepRange.includes
                (ArchytasCone.oapAngleCompliment_rad (ArchytasCone.config this)) value)
      eqn:Hin.
    2:{ rewrite cone_out_of_range by assumption. split; assumption. }
    rewrite (cone_in_range this console value Hne Hin).
    split; [exact IHconfig|].
    cbn [ArchytasCone._oapAngleCompliment_rad].
    rewrite IHconfig in Hin. exact Hin.
Qed.

(** Out of the range means other than the stored angle. *)
Lemma cone_reachable_out_of_range (this : ArchytasCone.t)
    (console : Console.t) (value : R) :
  cone_reachable config this ->
  ConstStepRange.includes range value = false ->
  ArchytasCone.set_oapAngleCompliment_rad this console value
  = (this,
     Console.error "Angle {} rad out of bounds [{} rad; {} rad]"
       (value :: ConstStepRange.start range :: ConstStepRange.end_ range :: nil)
     :: console).
Proof.
  intros Hreachable Hout.
  destruct (cone_reachable_stored_in_range this Hreachable) as [Hconfig Hin].
  rewrite cone_out_of_range.
  - rewrite Hconfig. reflexivity.
  - intros ->. rewrite Hin in Hout. discriminate.
  - rewrite Hconfig. exact Hout.
Qed.

End ConeRange.

Section ConeFacts.

Variable labelPositioner : ColumnVector3.t -> Z * Z.
Variable origin : ColumnVector3.t.
Variable transversePlane : PlaneDirections.t ColumnVector3.t.
Variable invertZ : bool.
Variables apexAngle_rad height cylinderRadius : R.
Variable aopAngleStepCount : Z.
Hypothesis stepCount_pos : (2 <= aopAngleStepCount)%Z.

Let config : ArchytasCone.ConeConfiguration :=
  ArchytasCone.newConfiguration labelPositioner origin transversePlane invertZ
    apexAngle_rad height cylinderRadius aopAngleStepCount.

Let range : ConstStepRange.t := ArchytasCone.oapAngleCompliment_rad config.









End ConeFacts.

(** *** The buffers keep their length *)

Lemma Float32Array_set_length (this : Float32Array.t) (index : Z) (value : R) :
  length (Float32Array.set this index value) = length this.
Proof.
  unfold Float32Array.set. destruct (0 <=? index)%Z; [|reflexivity].
  apply length_insert.
Qed.

Lemma Float32Array_new_length (n : Z) :
  length (Float32Array.new n) = Z.to_nat n.
Proof. unfold Float32Array.new. apply length_replicate. Qed.

Lemma writeVertex_lengths (this : CoordsArrayVertexAndNormalWriter.t)
    (vertexIdx : Z) (vertex : VertexAndNormal.t) :
  writerLengths (CoordsArrayVertexAndNormalWriter.writeVertex this vertexIdx vertex)
  = writerLengths this.
Proof.
  unfold writerLengths, CoordsArrayVertexAndNormalWriter.writeVertex. cbv zeta.
  cbn [CoordsArrayVertexAndNormalWriter.outputVertexCoords
       CoordsArrayVertexAndNormalWriter.outputNormalCoords].
  rewrite !Float32Array_set_length. reflexivity.
Qed.

Lemma forLoop_invariant {S : Type} (P : S -> Prop) (body : Z -> S -> S) :
  (forall i s, P s -> P (body i s)) ->
  forall count i s, P s -> P (forLoop count i body s).
Proof.
  intros Hbody count. induction count as [|count IH]; intros i s Hs; simpl.
  - exact Hs.
  - apply IH. apply Hbody. exact Hs.
Qed.

Lemma forLoop_lengths (body : Z -> CoordsArrayVertexAndNormalWriter.t ->
                              CoordsArrayVertexAndNormalWriter.t) :
  (forall i vertexWriter, writerLengths (body i vertexWriter) = writerLengths vertexWriter) ->
  forall count i vertexWriter,
    writerLengths (forLoop count i body vertexWriter) = writerLengths vertexWriter.
Proof.
  intros Hbody count i vertexWriter.
  apply (forLoop_invariant (fun w => writerLengths w = writerLengths vertexWriter)).
  - intros j w Hw. rewrite Hbody. exact Hw.
  - reflexivity.
Qed.




Section BaseConnectingSlice.

Context {Range : Type} `{ValueRange.t Range}.
Variable vertexCoords : SurfaceVertexCoords.t.
Variable vertexCalculator : VertexCalculator.t Range.

Hypothesis slice_lengths :
  forall sliceParameter vertexWriter vertexStartIdx,
    writerLengths
      (SliceVertexCalculator.calculateVertices (VertexCalculator.slice vertexCalculator)
         sliceParameter vertexWriter vertexStartIdx)
    = writerLengths vertexWriter.



End BaseConnectingSlice.

Lemma cylinder_calculateVertices_lengths {Range : Type}
    (config : ArchytasCylinder.CylinderConfiguration Range)
    (secantAngle_rad : R) (vertexWriter : CoordsArrayVertexAndNormalWriter.t)
    (vertexStartIdx : Z) :
  writerLengths
    (ArchytasCylinder.calculateVertices config secantAngle_rad vertexWriter vertexStartIdx)
  = writerLengths vertexWriter.
Proof.
  unfold ArchytasCylinder.calculateVertices. cbv zeta.
  rewrite !writeVertex_lengths. reflexivity.
Qed.

Lemma torus_calculateVertices_lengths {Range : Type}
    (config : ArchytasTorus.TorusConfiguration Range)
    (toroidalAngle_rad : R) (vertexWriter : CoordsArrayVertexAndNormalWriter.t)
    (vertexStartIdx : Z) :
  writerLengths
    (ArchytasTorus.calculateVertices config toroidalAngle_rad vertexWriter vertexStartIdx)
  = writerLengths vertexWriter.
Proof.
  unfold ArchytasTorus.calculateVertices. cbv zeta.
  apply forLoop_lengths. intros i w. apply writeVertex_lengths.
Qed.



(** *** The connecting slice of each solid *)










(** ** The solids: the claims *)

(** C3.  The setter of the sweep angle of a solid, called with a value
    outside the solid's range, writes one error to the console and returns
    the solid as it was; nothing is thrown, the setter having no other
    outcome.  For the cone the solid is one the constructor and the setter
    can produce: its stored angle is then in the range, so a value outside
    the range is not the stored one, for which the setter returns at
    once. *)
Theorem C3_out_of_range_sweep_rejected :
  (forall (labelPositioner : ColumnVector3.t -> Z * Z) (origin : ColumnVector3.t)
          (transversePlane : PlaneDirections.t ColumnVector3.t) (invertZ : bool)
          (apexAngle_rad height cylinderRadius : R) (aopAngleStepCount : Z)
          (this : ArchytasCone.t) (console : Console.t) (value : R),
     let config :=
       ArchytasCone.newConfiguration labelPositioner origin transversePlane invertZ
         apexAngle_rad height cylinderRadius aopAngleStepCount in
     let range := ArchytasCone.oapAngleCompliment_rad config in
     cone_reachable config this ->
     ConstStepRange.includes range value = false ->
     ArchytasCone.set_oapAngleCompliment_rad this console value
     = (this,
        Console.error "Angle {} rad out of bounds [{} rad; {} rad]"
          (value :: ConstStepRange.start range :: ConstStepRange.end_ range :: nil)
        :: console))
  /\ (forall (Range : Type) (ValueRange_Range : ValueRange.t Range)
             (this : ArchytasCylinder.t Range) (console : Console.t) (value : R),
        let range := ArchytasCylinder.angle_rad (ArchytasCylinder.config this) in
        ValueRange.includes range value = false ->
        ArchytasCylinder.set_secantAngle_rad this console value
        = (this,
           Console.error "Angle {} rad out of bounds [{} rad; {} rad]"
             (value :: ValueRange.start range :: ValueRange.end_ range :: nil)
           :: console))
  /\ (forall (Range : Type) (ValueRange_Range : ValueRange.t Range)
             (this : ArchytasTorus.t Range) (console : Console.t) (value : R),
        let range := ArchytasTorus.toroidalAngle_rad (ArchytasTorus.config this) in
        ValueRange.includes range value = false ->
        ArchytasTorus.set_toroidalAngle_rad this console value
        = (this,
           Console.error "Toroidal angle {} rad out of bounds [{}; {}]"
             (value :: ValueRange.repr range (180 / PI))
           :: console)).
Proof.
  split; [|split].
  - intros. apply cone_reachable_out_of_range; assumption.
  - intros. apply cylinder_out_of_range. assumption.
  - intros. apply torus_out_of_range. assumption.
Qed.

Lemma sample_range_excludes :
  ConstStepRange.includes angleOapComplimentRange (-1) = false.
Proof.
  unfold ConstStepRange.includes, angleOapComplimentRange,
    ConstStepRange.radRangeFromStartEndDegStepCount, ConstStepRange.new,
    ConstStepRange.start.
  cbn [ConstStepRange._start].
  rewrite (Rleb_false (0 * PI / 180) (-1)) by lra. reflexivity.
Qed.

Lemma sample_cone_excludes :
  ConstStepRange.includes (ArchytasCone.oapAngleCompliment_rad sample_cone) (-1) = false.
Proof.
  unfold sample_cone, ArchytasCone.newConfiguration.
  cbn [ArchytasCone.oapAngleCompliment_rad].
  unfold ConstStepRange.includes,
    ConstStepRange.radRangeFromStartEndDegStepCount, ConstStepRange.new,
    ConstStepRange.start.
  cbn [ConstStepRange._start].
  rewrite (Rleb_false (0 * PI / 180) (-1)) by lra. reflexivity.
Qed.

Lemma C3_out_of_range_sweep_rejected_witness :
  ArchytasCone.set_oapAngleCompliment_rad (ArchytasCone.new sample_cone) nil (-1)
  = (ArchytasCone.new sample_cone,
     Console.error "Angle {} rad out of bounds [{} rad; {} rad]"
       (-1
        :: ConstStepRange.start (ArchytasCone.oapAngleCompliment_rad sample_cone)
        :: ConstStepRange.end_ (ArchytasCone.oapAngleCompliment_rad sample_cone)
        :: nil)
     :: nil)
  /\ ArchytasCylinder.set_secantAngle_rad (ArchytasCylinder.new sample_cylinder) nil (-1)
     = (ArchytasCylinder.new sample_cylinder,
        Console.error "Angle {} rad out of bounds [{} rad; {} rad]"
          (-1
           :: ConstStepRange.start angleOapComplimentRange
           :: ConstStepRange.end_ angleOapComplimentRange :: nil)
        :: nil)
  /\ ArchytasTorus.set_toroidalAngle_rad (ArchytasTorus.new sample_torus) nil (-1)
     = (ArchytasTorus.new sample_torus,
        Console.error "Toroidal angle {} rad out of bounds [{}; {}]"
          (-1 :: ValueRange.repr angleOapComplimentRange (180 / PI))
        :: nil).
Proof.
  destruct C3_out_of_range_sweep_rejected as [Hcone [Hcylinder Htorus]].
  split; [|split].
  - apply (Hcone (fun _ => (0, 0)%Z)).
    + apply cone_reachable_new.
    + exact sample_cone_excludes.
  - apply (Hcylinder ConstStepRange.t ConstStepRange_ValueRange).
    exact sample_range_excludes.
  - apply (Htorus ConstStepRange.t ConstStepRange_ValueRange).
    exact sample_range_excludes.
Defined.
















(** ** The projector: a circle seen from its axis *)

Lemma Matrix2_eq (a b c d a' b' c' d' : R) :
  a = a' -> b = b' -> c = c' -> d = d' ->
  Matrix2.mk a b c d = Matrix2.mk a' b' c' d'.
Proof. intros; subst; reflexivity. Qed.

Lemma ColumnVector2_eq (a b a' b' : R) :
  a = a' -> b = b' -> ColumnVector2.mk a b = ColumnVector2.mk a' b'.
Proof. intros; subst; reflexivity. Qed.

(** The conic in the projection plane, for a cone of revolution about the
    normal of the plane of the circle and a camera that looks along it. *)
Lemma on_axis_conic
    (this : EllipticalArcConfigCalculator.t)
    (plane : PlaneDirections.t ColumnVector3.t) (origin : ColumnVector3.t)
    (camera : ProjectionPlaneCamera.t) (u w t h : R) :
  orthonormalPlane plane ->
  orthonormalCamera camera ->
  ProjectionPlaneCamera.worldPosition camera
  = ColumnVector3.addScaled origin (PlaneDirections.zHat plane) h ->
  ColumnVector3.vectorDot (ProjectionPlaneCamera.xHat camera) (PlaneDirections.zHat plane)
  = 0 ->
  ColumnVector3.vectorDot (ProjectionPlaneCamera.yHat camera) (PlaneDirections.zHat plane)
  = 0 ->
  EllipticalArcConfigCalculator.ellipseBasis this
  = Matrix3.setFromColumnVectors (PlaneDirections.xHat plane) (PlaneDirections.yHat plane)
      (PlaneDirections.zHat plane) ->
  EllipticalArcConfigCalculator.ellipseCenter_c this
  = ColumnVector3.mk
      (ColumnVector3.vectorDot origin (PlaneDirections.xHat plane))
      (ColumnVector3.vectorDot origin (PlaneDirections.yHat plane))
      (ColumnVector3.vectorDot origin (PlaneDirections.zHat plane)) ->
  EllipticalArcConfigCalculator.conicEqA_c this = Matrix3.mk u 0 0 0 u 0 0 0 w ->
  EllipticalArcConfigCalculator.conicEqB_c this = ColumnVector3.mk 0 0 t ->
  let projected :=
    EllipticalArcConfigCalculator.calcProjectedEllipseConicEq
      (EllipticalArcConfigCalculator.calcConeInWorldFrame this)
      (ProjectionPlaneCamera.asCameraTransform camera) in
  let depth :=
    h - ProjectionPlaneCamera.focalDistance camera
        * ColumnVector3.vectorDot (PlaneDirections.zHat plane)
            (ProjectionPlaneCamera.zHat camera) in
  EllipticalArcConfigCalculator.conicEqA_p projected = Matrix2.mk u 0 0 u /\
  EllipticalArcConfigCalculator.conicEqB_p projected = ColumnVector2.mk 0 0 /\
  EllipticalArcConfigCalculator.conicEqC_p projected
  = w * (depth * depth) + t * depth - 1.
Proof.
  intros Hplane Hcamera Heye Hx Hy Hbasis Hcenter HA_c HB_c projected depth.
  subst projected depth.
  unfold EllipticalArcConfigCalculator.calcProjectedEllipseConicEq,
    EllipticalArcConfigCalculator.calcConeInWorldFrame.
  cbv zeta.
  cbn [EllipticalArcConfigCalculator.conicEqA_p EllipticalArcConfigCalculator.conicEqB_p
       EllipticalArcConfigCalculator.conicEqC_p EllipticalArcConfigCalculator.conicEqA_s
       EllipticalArcConfigCalculator.conicEqB_s EllipticalArcConfigCalculator.conicEqC_s].
  rewrite Hbasis, Hcenter, HA_c, HB_c.
  unfold EllipticalArcConfigCalculator.conicEqC_c.
  revert Hplane Hcamera Heye Hx Hy.
  destruct plane as [[a1 a2 a3] [b1 b2 b3]].
  destruct origin as [c1 c2 c3].
  destruct camera as [[p1 p2 p3] [q1 q2 q3] [s1 s2 s3] f E].
  unfold orthonormalPlane, orthonormalCamera.
  cbn [ProjectionPlaneCamera.worldPosition].
  intros (Haa & Hbb & Hab) (Hpp & Hqq & Hss & Hpq & Hps & Hqs) -> Hx Hy.
  vec_simpl. mat_simpl.
  repeat split.
  - apply Matrix2_eq; nsatz.
  - apply ColumnVector2_eq; nsatz.
  - nsatz.
Qed.

(** A multiple of the identity has a double eigenvalue, and
    [getEigenvectorForEigenvalue] writes the zero column for it. *)
Lemma scalar_matrix_eigen (m : R) :
  Matrix2.getEigenvaluesAndVectors (Matrix2.mk m 0 0 m)
  = (ColumnVector2.mk m m, Matrix2.mk 0 0 0 0).
Proof.
  assert (Hvalues : Matrix2.getEigenValues (Matrix2.mk m 0 0 m) = ColumnVector2.mk m m).
  { unfold Matrix2.getEigenValues. cbn [Matrix2.m00 Matrix2.m01 Matrix2.m10 Matrix2.m11].
    cbv zeta.
    replace ((- m - m) * (- m - m) - 4 * (m * m - 0 * 0)) with 0 by ring.
    rewrite sqrt_0. apply ColumnVector2_eq; field. }
  assert (Hvector :
    Matrix2.getEigenvectorForEigenvalue (Matrix2.mk m 0 0 m) m = ColumnVector2.mk 0 0).
  { unfold Matrix2.getEigenvectorForEigenvalue.
    cbn [Matrix2.m00 Matrix2.m01 Matrix2.m10 Matrix2.m11]. cbv zeta.
    replace (m - m) with 0 by ring. replace (- 0) with 0 by ring.
    rewrite Rltb_false by apply Rle_refl. reflexivity. }
  unfold Matrix2.getEigenvaluesAndVectors. cbv zeta. rewrite Hvalues.
  cbn [ColumnVector2.x ColumnVector2.y]. rewrite Hvector. reflexivity.
Qed.

(** The axis of a plane with an orthonormal basis is a unit vector
    orthogonal to both. *)
Lemma zHat_unit (plane : PlaneDirections.t ColumnVector3.t) :
  orthonormalPlane plane ->
  ColumnVector3.vectorDot (PlaneDirections.zHat plane) (PlaneDirections.zHat plane) = 1
  /\ ColumnVector3.vectorDot (PlaneDirections.zHat plane) (PlaneDirections.xHat plane) = 0
  /\ ColumnVector3.vectorDot (PlaneDirections.zHat plane) (PlaneDirections.yHat plane) = 0.
Proof.
  destruct plane as [[a1 a2 a3] [b1 b2 b3]].
  unfold orthonormalPlane. vec_simpl. intros (Haa & Hbb & Hab).
  repeat split; nsatz.
Qed.

(** A camera whose projection plane is parallel to the plane looks along
    the axis of the plane, one way or the other. *)
Lemma looking_along_axis (plane : PlaneDirections.t ColumnVector3.t)
    (camera : ProjectionPlaneCamera.t) :
  orthonormalPlane plane ->
  orthonormalCamera camera ->
  ColumnVector3.vectorDot (ProjectionPlaneCamera.xHat camera) (PlaneDirections.zHat plane)
  = 0 ->
  ColumnVector3.vectorDot (ProjectionPlaneCamera.yHat camera) (PlaneDirections.zHat plane)
  = 0 ->
  let sigma :=
    ColumnVector3.vectorDot (PlaneDirections.zHat plane)
      (ProjectionPlaneCamera.zHat camera) in
  sigma * sigma = 1.
Proof.
  destruct plane as [[a1 a2 a3] [b1 b2 b3]].
  destruct camera as [[p1 p2 p3] [q1 q2 q3] [s1 s2 s3] f E].
  unfold orthonormalPlane, orthonormalCamera. vec_simpl.
  intros (Haa & Hbb & Hab) (Hpp & Hqq & Hss & Hpq & Hps & Hqs) Hx Hy.
  nsatz.
Qed.

Lemma semi_axis_of_eigenvalue (r f h : R) :
  r <> 0 -> f <> 0 -> h <> 0 ->
  1 / sqrt (1 / (0 / 4 - - (f * f) / (h * h)) * (1 / (r * r))) = Rabs (r * f / h).
Proof.
  intros Hr Hf Hh.
  replace (1 / (0 / 4 - - (f * f) / (h * h)) * (1 / (r * r)))
    with (Rsqr (h / (r * f))) by (unfold Rsqr; field; auto).
  rewrite sqrt_Rsqr_abs.
  unfold Rdiv at 1. rewrite Rmult_1_l. rewrite <- Rabs_inv.
  f_equal. field. auto.
Qed.

Section OnAxisCircle.

Context {Range : Type} `{ValueRange.t Range}.
Variable this : EllipticalArcConfigCalculator.t.
Variable parameters : EllipticalArcParameters.t ColumnVector3.t Range.
Variable camera : ProjectionPlaneCamera.t.
Variable out_result : MutableEllipticalArcParameters ColumnVector3.t.
Variables eps r h : R.

Let plane := EllipticalArcParameters.plane parameters.
Let origin := EllipticalArcParameters.origin parameters.
Let f := ProjectionPlaneCamera.focalDistance camera.
Let cameraTransform := ProjectionPlaneCamera.asCameraTransform camera.

Hypothesis eps_pos : 0 < eps.
Hypothesis plane_orthonormal : orthonormalPlane plane.
Hypothesis camera_orthonormal : orthonormalCamera camera.
Hypothesis circle_x : EllipticalArcParameters.semiXAxis parameters = r.
Hypothesis circle_y : EllipticalArcParameters.semiYAxis parameters = r.
Hypothesis radius_nonzero : r <> 0.
Hypothesis eye_on_axis :
  ProjectionPlaneCamera.worldPosition camera
  = ColumnVector3.addScaled origin (PlaneDirections.zHat plane) h.
Hypothesis eye_off_centre : h <> 0.
Hypothesis plane_parallel_x :
  ColumnVector3.vectorDot (ProjectionPlaneCamera.xHat camera) (PlaneDirections.zHat plane)
  = 0.
Hypothesis plane_parallel_y :
  ColumnVector3.vectorDot (ProjectionPlaneCamera.yHat camera) (PlaneDirections.zHat plane)
  = 0.
Hypothesis focal_nonzero : f <> 0.

(** The eye in the frame of the circle. *)
Lemma on_axis_apex :
  frameCoordinates (arcBasis parameters) (arcCenter_c parameters)
    (ProjectionPlaneCamera.worldPosition camera)
  = ColumnVector3.mk 0 0 h.
Proof.
  rewrite frame_of_eye. cbv zeta. fold origin plane. rewrite eye_on_axis.
  clear eye_on_axis plane_parallel_x plane_parallel_y camera_orthonormal.
  revert plane_orthonormal. generalize plane origin. clear.
  intros [[a1 a2 a3] [b1 b2 b3]] [c1 c2 c3].
  unfold orthonormalPlane. vec_simpl. intros (Haa & Hbb & Hab).
  apply ColumnVector3_eq; nsatz.
Qed.

Lemma on_axis_height :
  ColumnVector3.vectorDot
    (ColumnVector3.subtract (ProjectionPlaneCamera.worldPosition camera) origin)
    (PlaneDirections.zHat plane) = h.
Proof.
  pose proof on_axis_apex as Hapex.
  rewrite frame_of_eye in Hapex. cbv zeta in Hapex. fold origin plane in Hapex.
  injection Hapex as _ _ Hz. exact Hz.
Qed.

(** Off the plane of the circle, and with a radius that is not below
    [eps], the projection is computed from the cone and is the circle of
    radius [|r * f / h|]. *)
Lemma on_axis_finite :
  eps <= Rabs r ->
  eps <= Rabs h ->
  exists result,
    snd (EllipticalArcConfigCalculator.projectToCamera
           this parameters cameraTransform out_result eps) = Ok result
    /\ EllipticalArcParameters.semiXAxis result = Rabs (r * f / h)
    /\ EllipticalArcParameters.semiYAxis result = Rabs (r * f / h).
Proof.
  intros Hr Hh.
  assert (HsemiX : eps <= Rabs (EllipticalArcParameters.semiXAxis parameters))
    by (rewrite circle_x; exact Hr).
  assert (HsemiY : eps <= Rabs (EllipticalArcParameters.semiYAxis parameters))
    by (rewrite circle_y; exact Hr).
  assert (Heye : eps <= Rabs (ColumnVector3.vectorDot
                    (ColumnVector3.subtract (ProjectionPlaneCamera.worldPosition camera)
                       (EllipticalArcParameters.origin parameters))
                    (PlaneDirections.zHat (EllipticalArcParameters.plane parameters))))
    by (fold origin plane; rewrite on_axis_height; exact Hh).
  destruct (finite_cone_fields this parameters camera eps HsemiX HsemiY Heye)
    as (Hfinite & Hbasis & Hcenter & HA_c & HB_c).
  rewrite on_axis_apex in HA_c, HB_c. rewrite circle_x, circle_y in HA_c.
  unfold EllipticalArcConfigCalculator.projectToCamera.
  fold cameraTransform in Hfinite, Hbasis, Hcenter, HA_c, HB_c.
  destruct (EllipticalArcConfigCalculator.calcSkewedConeInInputEllipseFrame
              this parameters cameraTransform eps) as [skewed result] eqn:Eskewed.
  cbn [fst snd] in Hfinite, Hbasis, Hcenter, HA_c, HB_c. subst result.
  cbn [SkewedEllipticalConeResult_eqb CameraTransform.isPerspectiveCamera
       cameraTransform ProjectionPlaneCamera.asCameraTransform negb orb].
  change (negb (ColumnVector.componentCount ColumnVector3.t =? 3)%Z) with false.
  cbn [orb snd].
  assert (HA_c' :
    EllipticalArcConfigCalculator.conicEqA_c skewed
    = Matrix3.mk (1 / (r * r)) 0 0 0 (1 / (r * r)) 0 0 0 (- 1 / (h * h))).
  { rewrite HA_c. unfold coneEqA.
    cbn [ColumnVector3.x ColumnVector3.y ColumnVector3.z]. cbv zeta.
    f_equal; field; auto. }
  assert (HB_c' :
    EllipticalArcConfigCalculator.conicEqB_c skewed = ColumnVector3.mk 0 0 (2 / h)).
  { rewrite HB_c. reflexivity. }
  destruct (on_axis_conic skewed plane origin camera
              (1 / (r * r)) (- 1 / (h * h)) (2 / h) h
              plane_orthonormal camera_orthonormal eye_on_axis
              plane_parallel_x plane_parallel_y Hbasis Hcenter HA_c' HB_c')
    as (HA_p & HB_p & HC_p).
  pose proof (looking_along_axis plane camera plane_orthonormal camera_orthonormal
                plane_parallel_x plane_parallel_y) as Hsigma.
  cbv zeta in Hsigma. fold f in HC_p.
  set (sigma := ColumnVector3.vectorDot (PlaneDirections.zHat plane)
                  (ProjectionPlaneCamera.zHat camera)) in *.
  assert (HC_p' :
    EllipticalArcConfigCalculator.conicEqC_p
      (EllipticalArcConfigCalculator.calcProjectedEllipseConicEq
         (EllipticalArcConfigCalculator.calcConeInWorldFrame skewed)
         (ProjectionPlaneCamera.asCameraTransform camera))
    = - (f * f) / (h * h)).
  { rewrite HC_p.
    transitivity (- (f * f) * (sigma * sigma) / (h * h)); [field; auto|].
    rewrite Hsigma. field. auto. }
  fold cameraTransform in HA_p, HB_p, HC_p'.
  unfold EllipticalArcConfigCalculator.calcPerspectiveProjection.
  unfold EllipticalArcConfigCalculator.calcProjectedEllipseMatrixEq at 1.
  cbv zeta.
  cbn [EllipticalArcConfigCalculator.ellipseEqM_p].
  rewrite HA_p, HB_p, HC_p'.
  replace (Matrix2.multiplyScalar (Matrix2.mk (1 / (r * r)) 0 0 (1 / (r * r)))
             (1 / (ColumnVector2.vectorDot
                     (Matrix2.multiplyVector
                        (Matrix2.invert (Matrix2.mk (1 / (r * r)) 0 0 (1 / (r * r))))
                        (ColumnVector2.mk 0 0))
                     (ColumnVector2.mk 0 0) / 4
                   - - (f * f) / (h * h))))
    with (Matrix2.mk
            (1 / (0 / 4 - - (f * f) / (h * h)) * (1 / (r * r))) 0 0
            (1 / (0 / 4 - - (f * f) / (h * h)) * (1 / (r * r)))).
  2:{ unfold Matrix2.multiplyScalar, Matrix2.multiplyVector, Matrix2.invert,
        ColumnVector2.vectorDot.
      cbn [Matrix2.m00 Matrix2.m01 Matrix2.m10 Matrix2.m11 ColumnVector2.x ColumnVector2.y].
      cbv zeta.
      apply Matrix2_eq.
      - f_equal. f_equal. f_equal. unfold Rdiv. ring.
      - ring.
      - ring.
      - f_equal. f_equal. f_equal. unfold Rdiv. ring. }
  rewrite scalar_matrix_eigen.
  cbn [Matrix2.column Matrix2.m00 Matrix2.m01 Matrix2.m10 Matrix2.m11
       ColumnVector2.x ColumnVector2.y].
  replace (ColumnVector2.vectorDot (ColumnVector2.mk 0 0) (ColumnVector2.mk 0 0)) with 0
    by (unfold ColumnVector2.vectorDot; cbn [ColumnVector2.x ColumnVector2.y]; ring).
  rewrite (Rltb_true 0 eps eps_pos).
  eexists. split; [reflexivity|].
  match goal with
  | |- context [EllipticalArcConfigCalculator.projectCircularAngle ?p ?c ?o] =>
      destruct (projectCircularAngle_frame p c o) as (_ & HX & HY & _)
  end.
  cbv zeta in HX, HY. rewrite HX, HY.
  cbn [EllipticalArcParameters.semiXAxis EllipticalArcParameters.semiYAxis].
  split; apply semi_axis_of_eigenvalue; auto.
Qed.

Let sigma :=
  ColumnVector3.vectorDot (PlaneDirections.zHat plane) (ProjectionPlaneCamera.zHat camera).

(** The image of a point of the circle: its depth is the same all around,
    so the image is the point of the circle scaled by the focal distance
    over the depth, in the coordinates of the projection plane. *)
Lemma on_axis_project (circularAngle_rad : R) :
  let scale := f / (h * sigma) in
  ProjectionPlaneCamera.project camera
    (EllipticalArcVertexCalculator.calculateVertex parameters circularAngle_rad)
  = ColumnVector3.mk
      (scale * r
       * (cos circularAngle_rad
          * ColumnVector3.vectorDot (PlaneDirections.xHat plane)
              (ProjectionPlaneCamera.xHat camera)
          + sin circularAngle_rad
            * ColumnVector3.vectorDot (PlaneDirections.yHat plane)
                (ProjectionPlaneCamera.xHat camera)))
      (scale * r
       * (cos circularAngle_rad
          * ColumnVector3.vectorDot (PlaneDirections.xHat plane)
              (ProjectionPlaneCamera.yHat camera)
          + sin circularAngle_rad
            * ColumnVector3.vectorDot (PlaneDirections.yHat plane)
                (ProjectionPlaneCamera.yHat camera)))
      (scale * - (h * sigma) + f).
Proof.
  intros scale. subst scale.
  unfold ProjectionPlaneCamera.project. cbv zeta.
  assert (Hdepth :
    - ColumnVector3.vectorDot
        (ColumnVector3.subtract
           (EllipticalArcVertexCalculator.calculateVertex parameters circularAngle_rad)
           (ProjectionPlaneCamera.worldPosition camera))
        (ProjectionPlaneCamera.zHat camera)
    = h * sigma).
  { subst sigma. rewrite eye_on_axis.
    unfold EllipticalArcVertexCalculator.calculateVertex,
      EllipticalArcVertexCalculator.scaledXHat, EllipticalArcVertexCalculator.scaledYHat.
    rewrite circle_x, circle_y. fold plane origin.
    generalize (cos circularAngle_rad) (sin circularAngle_rad). intros c s.
    clear eye_on_axis.
    revert plane_orthonormal camera_orthonormal plane_parallel_x plane_parallel_y.
    generalize plane origin. clear.
    intros [[a1 a2 a3] [b1 b2 b3]] [c1 c2 c3].
    destruct camera as [[p1 p2 p3] [q1 q2 q3] [s1 s2 s3] f' E].
    unfold orthonormalPlane, orthonormalCamera. vec_simpl.
    intros (Haa & Hbb & Hab) (Hpp & Hqq & Hss & Hpq & Hps & Hqs) Hx Hy.
    nsatz. }
  rewrite Hdepth. fold f.
  generalize (f / (h * sigma)). intros scale.
  subst sigma. rewrite eye_on_axis.
  unfold EllipticalArcVertexCalculator.calculateVertex,
    EllipticalArcVertexCalculator.scaledXHat, EllipticalArcVertexCalculator.scaledYHat.
  rewrite circle_x, circle_y. fold plane origin.
  generalize (cos circularAngle_rad) (sin circularAngle_rad). intros c s.
  subst f. clear Hdepth eye_on_axis focal_nonzero.
  revert plane_orthonormal camera_orthonormal plane_parallel_x plane_parallel_y.
  generalize plane origin. clear.
  intros [[a1 a2 a3] [b1 b2 b3]] [c1 c2 c3].
  destruct camera as [[p1 p2 p3] [q1 q2 q3] [s1 s2 s3] f' E].
  unfold orthonormalPlane, orthonormalCamera. vec_simpl.
  intros (Haa & Hbb & Hab) (Hpp & Hqq & Hss & Hpq & Hps & Hqs) Hx Hy.
  apply ColumnVector3_eq; nsatz.
Qed.

(** The directions of the circle, seen in the projection plane, are unit
    vectors. *)
Lemma on_axis_directions :
  let along (v w : ColumnVector3.t) := ColumnVector3.vectorDot v w in
  let xe := PlaneDirections.xHat plane in
  let ye := PlaneDirections.yHat plane in
  let xc := ProjectionPlaneCamera.xHat camera in
  let yc := ProjectionPlaneCamera.yHat camera in
  along xe xc * along xe xc + along xe yc * along xe yc = 1
  /\ along ye xc * along ye xc + along ye yc * along ye yc = 1.
Proof.
  cbv zeta.
  revert plane_orthonormal camera_orthonormal plane_parallel_x plane_parallel_y.
  generalize plane. clear.
  intros [[a1 a2 a3] [b1 b2 b3]].
  destruct camera as [[p1 p2 p3] [q1 q2 q3] [s1 s2 s3] f' E].
  unfold orthonormalPlane, orthonormalCamera. vec_simpl.
  intros (Haa & Hbb & Hab) (Hpp & Hqq & Hss & Hpq & Hps & Hqs) Hx Hy.
  split; nsatz.
Qed.

Lemma on_axis_scale :
  (f / (h * sigma) * r) * (f / (h * sigma) * r) = Rsqr (r * f / h).
Proof.
  pose proof (looking_along_axis plane camera plane_orthonormal camera_orthonormal
                plane_parallel_x plane_parallel_y) as Hsigma.
  cbv zeta in Hsigma. fold sigma in Hsigma.
  assert (Hnonzero : sigma <> 0) by (intros E; rewrite E in Hsigma; lra).
  unfold Rsqr.
  transitivity (r * f / h * (r * f / h) / (sigma * sigma)); [field; auto|].
  rewrite Hsigma. field. auto.
Qed.

(** With a radius below [eps], or the eye within [eps] of the plane of the
    circle, the projection is measured on three projected points of the
    circle, and is the same circle. *)
Lemma on_axis_degenerate :
  Rabs r < eps \/ Rabs h < eps ->
  exists result,
    snd (EllipticalArcConfigCalculator.projectToCamera
           this parameters cameraTransform out_result eps) = Ok result
    /\ EllipticalArcParameters.semiXAxis result = Rabs (r * f / h)
    /\ EllipticalArcParameters.semiYAxis result = Rabs (r * f / h).
Proof.
  intros Hsmall.
  assert (Hpath :
    snd (EllipticalArcConfigCalculator.projectToCamera
           this parameters cameraTransform out_result eps)
    = Ok (EllipticalArcConfigCalculator.calcDegenerateProjection
            parameters cameraTransform out_result eps)).
  { destruct (Rlt_dec (Rabs r) eps) as [Hr|Hr].
    - rewrite projectToCamera_axis_degenerate; [reflexivity | reflexivity |].
      rewrite circle_x. exact Hr.
    - destruct Hsmall as [Hr'|Hh]; [contradiction|].
      unfold EllipticalArcConfigCalculator.projectToCamera.
      cbn [CameraTransform.isPerspectiveCamera cameraTransform
           ProjectionPlaneCamera.asCameraTransform negb].
      change (negb (ColumnVector.componentCount ColumnVector3.t =? 3)%Z) with false.
      cbn [orb].
      unfold EllipticalArcConfigCalculator.calcSkewedConeInInputEllipseFrame.
      unfold Math.abs. rewrite circle_x, circle_y.
      rewrite (Rltb_false (Rabs r) eps) by lra. cbn [orb]. cbv zeta.
      cbn [ColumnVector3.z].
      change (CameraTransform.getWorldPosition cameraTransform)
        with (ProjectionPlaneCamera.worldPosition camera).
      fold origin plane. rewrite on_axis_height.
      rewrite (Rltb_true (Rabs h) eps Hh). reflexivity. }
  rewrite Hpath. eexists. split; [reflexivity|].
  unfold EllipticalArcConfigCalculator.calcDegenerateProjection. cbv zeta.
  match goal with
  | |- context [EllipticalArcConfigCalculator.projectCircularAngle ?p ?c ?o] =>
      destruct (projectCircularAngle_frame p c o) as (_ & HX & HY & _)
  end.
  cbv zeta in HX, HY. rewrite HX, HY. clear HX HY.
  cbn [EllipticalArcParameters.semiXAxis EllipticalArcParameters.semiYAxis
       CameraTransform.project cameraTransform ProjectionPlaneCamera.asCameraTransform].
  rewrite !on_axis_project. cbv zeta.
  rewrite cos_0, sin_0, cos_PI, sin_PI, cos_PI2, sin_PI2.
  destruct on_axis_directions as [Hxe Hye]. cbv zeta in Hxe, Hye.
  pose proof on_axis_scale as Hscale.
  unfold ColumnVector3.distanceTo, ColumnVector3.multiplyScalar, ColumnVector3.add.
  cbn [ColumnVector3.x ColumnVector3.y ColumnVector3.z].
  set (scale := f / (h * sigma) * r) in *.
  set (xx := ColumnVector3.vectorDot (PlaneDirections.xHat plane)
               (ProjectionPlaneCamera.xHat camera)) in *.
  set (xy := ColumnVector3.vectorDot (PlaneDirections.xHat plane)
               (ProjectionPlaneCamera.yHat camera)) in *.
  set (yx := ColumnVector3.vectorDot (PlaneDirections.yHat plane)
               (ProjectionPlaneCamera.xHat camera)) in *.
  set (yy := ColumnVector3.vectorDot (PlaneDirections.yHat plane)
               (ProjectionPlaneCamera.yHat camera)) in *.
  set (depth := f / (h * sigma) * - (h * sigma) + f) in *.
  clearbody scale xx xy yx yy depth.
  split.
  - rewrite <- sqrt_Rsqr_abs. f_equal. rewrite <- Hscale.
    transitivity (scale * scale * (xx * xx + xy * xy)); [field | rewrite Hxe; ring].
  - rewrite <- sqrt_Rsqr_abs. f_equal. rewrite <- Hscale.
    transitivity (scale * scale * (yx * yx + yy * yy)); [field | rewrite Hye; ring].
Qed.

End OnAxisCircle.

(** A camera whose projection plane is parallel to the plane of the circle
    is what [lookAt] yields when it is aimed at the centre of the circle
    from a point of its axis. *)
Lemma lookAt_centre_on_axis (camera camera' : ProjectionPlaneCamera.t)
    (plane : PlaneDirections.t ColumnVector3.t) (origin : ColumnVector3.t)
    (h eps : R) :
  0 < eps ->
  h <> 0 ->
  ProjectionPlaneCamera.worldPosition camera
  = ColumnVector3.addScaled origin (PlaneDirections.zHat plane) h ->
  ProjectionPlaneCamera.lookAt camera origin eps = Ok camera' ->
  orthonormalCamera camera'
  /\ ProjectionPlaneCamera.worldPosition camera' = ProjectionPlaneCamera.worldPosition camera
  /\ ProjectionPlaneCamera.focalDistance camera'
     = ProjectionPlaneCamera.focalDistance camera
  /\ ColumnVector3.vectorDot (ProjectionPlaneCamera.xHat camera')
       (PlaneDirections.zHat plane) = 0
  /\ ColumnVector3.vectorDot (ProjectionPlaneCamera.yHat camera')
       (PlaneDirections.zHat plane) = 0.
Proof.
  intros Heps Hh Heye HlookAt.
  pose proof (lookAt_orthonormal camera camera' origin eps Heps HlookAt) as Hortho.
  set (v := ColumnVector3.subtract (ProjectionPlaneCamera.worldPosition camera) origin).
  assert (Hfields :
    ProjectionPlaneCamera.zHat camera' = ColumnVector3.normalizeColumnVectors v
    /\ ProjectionPlaneCamera.worldPosition camera'
       = ProjectionPlaneCamera.worldPosition camera
    /\ ProjectionPlaneCamera.focalDistance camera'
       = ProjectionPlaneCamera.focalDistance camera
    /\ 0 < ColumnVector3.vectorDot v v).
  { revert HlookAt. unfold ProjectionPlaneCamera.lookAt.
    unfold Rltb. destruct (Rlt_dec _ eps) as [Hclose | Hfar]; [discriminate |].
    apply Rnot_lt_le in Hfar.
    pose proof (distance_positive _ _ _ Heps Hfar) as Hv.
    cbv zeta. destruct (Rleb _ _); intros [= <-]; repeat split; exact Hv. }
  destruct Hfields as (Hz & Hposition & Hfocal & Hv).
  split; [exact Hortho|]. split; [exact Hposition|]. split; [exact Hfocal|].
  destruct Hortho as (_ & _ & _ & _ & Hxz & Hyz).
  cbv zeta in Hxz, Hyz. rewrite Hz in Hxz, Hyz.
  rewrite dot_comm, normalize_dot in Hxz, Hyz by exact Hv.
  pose proof (sqrt_lt_R0 _ Hv) as Hlength.
  assert (Hscaled : forall w,
    ColumnVector3.vectorDot v w / sqrt (ColumnVector3.vectorDot v v) = 0 ->
    ColumnVector3.vectorDot w (PlaneDirections.zHat plane) = 0).
  { intros w Hw.
    assert (Hvw : ColumnVector3.vectorDot v w = 0).
    { apply Rmult_eq_reg_r with (/ sqrt (ColumnVector3.vectorDot v v)).
      - rewrite Rmult_0_l. exact Hw.
      - apply Rinv_neq_0_compat. lra. }
    assert (Hhw : ColumnVector3.vectorDot v w
                  = h * ColumnVector3.vectorDot w (PlaneDirections.zHat plane)).
    { subst v. rewrite Heye.
      destruct origin, (PlaneDirections.zHat plane), w. vec_simpl. ring. }
    rewrite Hhw in Hvw.
    apply Rmult_integral in Hvw. destruct Hvw; [contradiction | assumption]. }
  split; apply Hscaled; assumption.
Qed.

(** In exact arithmetic: a circle (both semi-axes [r <> 0], orthonormal
    plane basis) seen by a perspective camera whose eye is on the axis of
    the circle, at [h <> 0] from its centre, whose projection plane is
    parallel to the plane of the circle and whose focal distance [f] is not
    zero: [projectToCamera] returns a result, by either of its two paths,
    and both of its semi-axes are [|r * f / h|], so the projection is a
    circle of that radius.  The two eigenvalues are equal there because the
    discriminant of [getEigenValues] is exactly zero, which rounding does
    not preserve (see the part on double precision below). *)
Lemma circle_on_axis_stays_circle_in_exact_arithmetic
    {Range : Type} `{ValueRange.t Range}
    (this : EllipticalArcConfigCalculator.t)
    (parameters : EllipticalArcParameters.t ColumnVector3.t Range)
    (camera : ProjectionPlaneCamera.t)
    (out_result : MutableEllipticalArcParameters ColumnVector3.t)
    (eps r h : R) :
  let plane := EllipticalArcParameters.plane parameters in
  let f := ProjectionPlaneCamera.focalDistance camera in
  0 < eps ->
  orthonormalPlane plane ->
  orthonormalCamera camera ->
  EllipticalArcParameters.semiXAxis parameters = r ->
  EllipticalArcParameters.semiYAxis parameters = r ->
  r <> 0 ->
  ProjectionPlaneCamera.worldPosition camera
  = ColumnVector3.addScaled (EllipticalArcParameters.origin parameters)
      (PlaneDirections.zHat plane) h ->
  h <> 0 ->
  ColumnVector3.vectorDot (ProjectionPlaneCamera.xHat camera) (PlaneDirections.zHat plane)
  = 0 ->
  ColumnVector3.vectorDot (ProjectionPlaneCamera.yHat camera) (PlaneDirections.zHat plane)
  = 0 ->
  f <> 0 ->
  exists result,
    snd (EllipticalArcConfigCalculator.projectToCamera this parameters
           (ProjectionPlaneCamera.asCameraTransform camera) out_result eps)
    = Ok result
    /\ EllipticalArcParameters.semiXAxis result
       = EllipticalArcParameters.semiYAxis result
    /\ Rabs (EllipticalArcParameters.semiXAxis result
             - EllipticalArcParameters.semiYAxis result) <= eps
    /\ EllipticalArcParameters.semiXAxis result = Rabs (r * f / h).
Proof.
  intros plane f Heps Hplane Hcamera HsemiX HsemiY Hr Heye Hh Hx Hy Hf.
  assert (Hboth :
    exists result,
      snd (EllipticalArcConfigCalculator.projectToCamera this parameters
             (ProjectionPlaneCamera.asCameraTransform camera) out_result eps)
      = Ok result
      /\ EllipticalArcParameters.semiXAxis result = Rabs (r * f / h)
      /\ EllipticalArcParameters.semiYAxis result = Rabs (r * f / h)).
  { destruct (Rlt_dec (Rabs r) eps) as [Hsmall|Hlarge].
    - apply on_axis_degenerate; auto.
    - destruct (Rlt_dec (Rabs h) eps) as [Hnear|Hfar].
      + apply on_axis_degenerate; auto.
      + apply on_axis_finite; auto; lra. }
  destruct Hboth as (result & Hresult & HX & HY).
  exists result. split; [exact Hresult|].
  rewrite HX, HY. repeat split.
  replace (Rabs (r * f / h) - Rabs (r * f / h)) with 0 by ring.
  rewrite Rabs_R0. lra.
Qed.


(** ** Double precision *)

Section DoublePrecision.

Import PrimFloat.
#[local] Set Warnings "-inexact-float".

(** C2.  In double precision the range semantics of the claim fail.  For
    the range from [0] to [1] in nine steps, the value of step 7 is in the
    range and [lastIncludedStepIdx] of it is 6, not 7: the quotient
    [(value - start) / _stepSize] is rounded to just below 7 (the interface
    documents the method as returning "the index of the last step with
    value <= the given value", and step 7 is such a step).  For the same
    interval in 49 steps, the value of step 49 is below [end]; for the
    range from [0] to [Math.PI / 2] in 25 steps, the value of step 25 is
    above [end], so that [includes] rejects the last step of the range.
    The value of step 0 is the start, and the range of 0 to 180 degrees in
    one step runs from [0] to [Math.PI], as the claim says. *)
Theorem C2_rounding_breaks_range_semantics :
  ((let r := Double.ConstStepRange.new 0 1 9 in
    let value := Double.ConstStepRange.atStep r 7 in
    Double.ConstStepRange.includes r value = true
    /\ Double.ConstStepRange.lastIncludedStepIdx r value = 6)
   /\ (let r := Double.ConstStepRange.new 0 1 49 in
       Double.ConstStepRange.atStep r 0 = Double.ConstStepRange.start r
       /\ (Double.ConstStepRange.atStep r 49 <? Double.ConstStepRange.end_ r) = true)
   /\ (let r := Double.ConstStepRange.new 0 (Double.Math.PI / 2) 25 in
       (Double.ConstStepRange.end_ r <? Double.ConstStepRange.atStep r 25) = true
       /\ Double.ConstStepRange.includes r (Double.ConstStepRange.atStep r 25) = false)
   /\ (let r := Double.ConstStepRange.radRangeFromStartEndDegStepCount 0 180 1 in
       Double.ConstStepRange.atStep r 0 = 0
       /\ Double.ConstStepRange.atStep r 1 = Double.Math.PI))%float.
Proof. vm_compute. repeat split. Qed.

(** [projectCircularAngle] changes the direction of the y axis and the
    range of the result, not its semi-axes. *)
Lemma Double_projectCircularAngle_semiAxes
    (trigonometry : Double.Math.Trigonometry)
    (parameters : Double.EllipticalArcParameters.t)
    (cameraTransform : Double.ProjectionPlaneCamera.t)
    (out_result : Double.EllipticalArcParameters.t) :
  let result :=
    Double.EllipticalArcConfigCalculator.projectCircularAngle trigonometry
      parameters cameraTransform out_result in
  Double.EllipticalArcParameters.semiXAxis result
  = Double.EllipticalArcParameters.semiXAxis out_result
  /\ Double.EllipticalArcParameters.semiYAxis result
     = Double.EllipticalArcParameters.semiYAxis out_result.
Proof.
  cbv zeta. unfold Double.EllipticalArcConfigCalculator.projectCircularAngle.
  cbv zeta.
  repeat match goal with
         | |- context [if ?b then _ else _] => destruct b
         end; split; reflexivity.
Qed.

(** On the path of the cone, [projectToCamera] returns unless exactly one
    of the two eigenvector columns is shorter than [eps], and the
    semi-axes it returns are those computed from the two eigenvalues,
    whatever [Math.sin], [Math.cos] and [Math.atan2] return. *)
Lemma Double_projectToCamera_semiAxes
    (trigonometry : Double.Math.Trigonometry)
    (this : Double.EllipticalArcConfigCalculator.t)
    (parameters : Double.EllipticalArcParameters.t)
    (cameraTransform : Double.ProjectionPlaneCamera.t)
    (out_result : Double.EllipticalArcParameters.t) (eps : float) :
  let cone :=
    Double.EllipticalArcConfigCalculator.calcSkewedConeInInputEllipseFrame
      this parameters cameraTransform eps in
  let state :=
    Double.EllipticalArcConfigCalculator.calcProjectedEllipseMatrixEq
      (Double.EllipticalArcConfigCalculator.calcProjectedEllipseConicEq
         (Double.EllipticalArcConfigCalculator.calcConeInWorldFrame (fst cone))
         cameraTransform) in
  let eigen :=
    Double.Matrix2.getEigenvaluesAndVectors
      (Double.EllipticalArcConfigCalculator.ellipseEqM_p state) in
  let eigenColumn0 := Double.Matrix2.column (snd eigen) 0 in
  let eigenColumn1 := Double.Matrix2.column (snd eigen) 1 in
  snd cone = Finite ->
  Bool.eqb
    (Double.ColumnVector2.vectorDot eigenColumn0 eigenColumn0 <? eps)%float
    (Double.ColumnVector2.vectorDot eigenColumn1 eigenColumn1 <? eps)%float = true ->
  exists result,
    snd (Double.EllipticalArcConfigCalculator.projectToCamera trigonometry
           this parameters cameraTransform out_result eps) = Ok result
    /\ Double.EllipticalArcParameters.semiXAxis result
       = (1 / Double.Math.sqrt (Double.ColumnVector2.x (fst eigen)))%float
    /\ Double.EllipticalArcParameters.semiYAxis result
       = (1 / Double.Math.sqrt (Double.ColumnVector2.y (fst eigen)))%float.
Proof.
  intros cone state eigen eigenColumn0 eigenColumn1 Hfinite Hcolumns.
  unfold Double.EllipticalArcConfigCalculator.projectToCamera.
  fold cone. destruct cone as [this' result'] eqn:Econe.
  cbn [fst snd] in *. subst result'. cbn [SkewedEllipticalConeResult_eqb snd].
  fold state.
  unfold Double.EllipticalArcConfigCalculator.calcPerspectiveProjection.
  fold eigen. destruct eigen as [eigenvalues eigenvectors] eqn:Eeigen.
  cbn [fst snd] in *. fold eigenColumn0 eigenColumn1.
  destruct (Double.ColumnVector2.vectorDot eigenColumn0 eigenColumn0 <? eps)%float,
    (Double.ColumnVector2.vectorDot eigenColumn1 eigenColumn1 <? eps)%float;
    try discriminate Hcolumns;
    (eexists; split; [reflexivity |]);
    match goal with
    | |- context [Double.EllipticalArcConfigCalculator.projectCircularAngle ?t ?p ?c ?o] =>
        destruct (Double_projectCircularAngle_semiAxes t p c o) as [Hx Hy]
    end;
    cbv zeta in Hx, Hy; rewrite Hx, Hy; split; reflexivity.
Qed.

(** Evaluates the camera, applies the lemma above to the projection and
    leaves the semi-axes to be evaluated. *)
Ltac double_project_from_axis trigonometry :=
  unfold Double.projectFromAxis;
  match goal with
  | |- context [Double.cameraLookingAt ?eye ?target] =>
      let camera := eval vm_compute in (Double.cameraLookingAt eye target) in
      change (Double.cameraLookingAt eye target) with camera
  end;
  cbv beta iota;
  match goal with
  | |- context [Double.EllipticalArcConfigCalculator.projectToCamera _ ?t ?p ?c ?o ?e] =>
      destruct (Double_projectToCamera_semiAxes trigonometry t p c o e)
        as [result [Hresult [Hx Hy] ] ];
      [vm_compute; reflexivity | vm_compute; reflexivity |];
      exists result; split; [exact Hresult |]; rewrite Hx, Hy
  end.

(** C8.  In double precision a circle seen from its axis does not stay a
    circle.  The circle is centred at the origin in the plane spanned by
    [(1, 0, 0)] and [(0, 0.6, 0.8)]; the camera is at a distance on its
    axis (the centre plus the distance times [plane.zHat]) and looks at the
    centre.  For the radius 3 and the distance 4, [projectToCamera] returns
    a result whose two semi-axes are [NaN]: the discriminant
    [b * b - 4 * c] of [getEigenValues], zero in exact arithmetic, is
    rounded to a negative number, of which [Math.sqrt] is [NaN].  For the
    radius 2 and the distance 1 it returns the semi-axes
    2.0000000105367124 and 1.9999999894632881, which differ by more than
    [eps] = 1e-15: there the discriminant is rounded to a positive number.
    Both hold whatever [Math.sin], [Math.cos] and [Math.atan2] return. *)
Theorem C8_circle_on_axis_in_doubles (trigonometry : Double.Math.Trigonometry) :
  ((exists result,
      Double.projectFromAxis trigonometry (Double.tilted_circle 3) 4 = Ok result
      /\ is_nan (Double.EllipticalArcParameters.semiXAxis result) = true
      /\ is_nan (Double.EllipticalArcParameters.semiYAxis result) = true
      /\ (Double.Math.abs
            (Double.EllipticalArcParameters.semiXAxis result
             - Double.EllipticalArcParameters.semiYAxis result)
          <=? Double.EPS) = false)
   /\ (exists result,
         Double.projectFromAxis trigonometry (Double.tilted_circle 2) 1 = Ok result
         /\ Double.EllipticalArcParameters.semiXAxis result = 2.0000000105367124
         /\ Double.EllipticalArcParameters.semiYAxis result = 1.9999999894632881
         /\ (Double.Math.abs
               (Double.EllipticalArcParameters.semiXAxis result
                - Double.EllipticalArcParameters.semiYAxis result)
             <=? Double.EPS) = false))%float.
Proof.
  split.
  - double_project_from_axis trigonometry. vm_compute. repeat split.
  - double_project_from_axis trigonometry. vm_compute. repeat split.
Qed.

End DoublePrecision.

(* ===================================================================== *)
(** * Part III.  Further properties of the core                          *)
(* ===================================================================== *)

(** ** Stepped ranges: steps and values *)



(** ** The transverse circle: the angle transform and its inverse *)

Lemma half_versine_bounds (theta : R) : 0 <= (1 - cos theta) / 2 <= 1.
Proof. destruct (COS_bound theta). lra. Qed.

(** X4.  On [[0, PI]] [fromAngleOapCompliment_rad] undoes
    [toAngleOapCompliment_rad]: the two compose to the identity in this
    order. *)
Theorem X4_fromAngle_toAngle_roundtrip (theta : R) :
  0 <= theta <= PI ->
  TransverseCircleAngleRange.fromAngleOapCompliment_rad
    (TransverseCircleAngleRange.toAngleOapCompliment_rad theta) = theta.
Proof.
  intros Htheta. pose proof (half_versine_bounds theta) as Hb.
  unfold TransverseCircleAngleRange.toAngleOapCompliment_rad,
    TransverseCircleAngleRange.fromAngleOapCompliment_rad.
  replace (PI - (PI - asin ((1 - cos theta) / 2))) with (asin ((1 - cos theta) / 2))
    by ring.
  rewrite sin_asin by lra.
  replace (1 - 2 * ((1 - cos theta) / 2)) with (cos theta) by field.
  apply acos_cos. exact Htheta.
Qed.

Lemma X4_fromAngle_toAngle_roundtrip_witness :
  TransverseCircleAngleRange.fromAngleOapCompliment_rad
    (TransverseCircleAngleRange.toAngleOapCompliment_rad 0) = 0.
Proof.
  apply (X4_fromAngle_toAngle_roundtrip 0). pose proof PI_RGT_0. lra.
Defined.

(** ** 2x2 matrices: inverse and eigenvectors *)

(** X5.  [Matrix2.invert] of a matrix with a determinant other than [0]
    is the inverse of its transposed matrix; for a symmetric matrix, as the
    projector inverts, it is the inverse of the matrix itself. *)
Theorem X5_invert_inverts_the_transposed (M : Matrix2.t) (v : ColumnVector2.t) :
  Matrix2.m00 M * Matrix2.m11 M - Matrix2.m01 M * Matrix2.m10 M <> 0 ->
  Matrix2.multiplyVector (Matrix2.invert M)
    (Matrix2.multiplyVector (Matrix2_transposed M) v) = v
  /\ (Matrix2.m01 M = Matrix2.m10 M ->
      Matrix2.multiplyVector (Matrix2.invert M) (Matrix2.multiplyVector M v) = v).
Proof.
  destruct M as [a b c d], v as [x y].
  unfold Matrix2_transposed. mat_simpl. intros Hdet. split.
  - apply ColumnVector2_eq; field; exact Hdet.
  - intros ->. apply ColumnVector2_eq; field; exact Hdet.
Qed.

Lemma X5_invert_inverts_the_transposed_witness :
  let M := Matrix2.mk 2 1 0 1 in
  let v := ColumnVector2.mk 1 1 in
  Matrix2.multiplyVector (Matrix2.invert M)
    (Matrix2.multiplyVector (Matrix2_transposed M) v) = v
  /\ (Matrix2.m01 M = Matrix2.m10 M ->
      Matrix2.multiplyVector (Matrix2.invert M) (Matrix2.multiplyVector M v) = v).
Proof.
  apply (X5_invert_inverts_the_transposed (Matrix2.mk 2 1 0 1) (ColumnVector2.mk 1 1)).
  simpl. lra.
Defined.



(** ** The plane camera *)

(** X7.  A [PlaneCamera] that the constructor accepted has a homogeneous
    coordinate of magnitude at least [EPS], reports the world position
    [(0, 0)], and, when the element at row 1, column 0 of its transform is
    [0] (a scaling or a translation, as in the figures), projects a point
    to its image under the affine transform. *)
Theorem X7_plane_camera_is_affine (T : Matrix3.t) (camera : PlaneCamera.t)
    (p : ColumnVector2.t) :
  PlaneCamera.new T = Ok camera ->
  EPS <= Rabs (Matrix3.m22 T)
  /\ PlaneCamera.getWorldPosition camera = ColumnVector2.mk 0 0
  /\ (Matrix3.m10 T = 0 ->
      PlaneCamera.project camera p
      = ColumnVector2.mk
          ((Matrix3.m00 T * ColumnVector2.x p + Matrix3.m01 T * ColumnVector2.y p
            + Matrix3.m02 T) / Matrix3.m22 T)
          ((Matrix3.m10 T * ColumnVector2.x p + Matrix3.m11 T * ColumnVector2.y p
            + Matrix3.m12 T) / Matrix3.m22 T)).
Proof.
  unfold PlaneCamera.new, PlaneCamera.validateCameraTransform.
  destruct (Reqb (Matrix3.m20 T) 0) eqn:E20; [| discriminate].
  destruct (Reqb (Matrix3.m21 T) 0) eqn:E21; [| discriminate].
  cbn [negb orb].
  destruct (Rltb (Math.abs (Matrix3.m22 T)) EPS) eqn:Ew; [discriminate |].
  intros [= <-].
  apply Reqb_eq in E20, E21.
  unfold Rltb in Ew. destruct (Rlt_dec _ _) as [|Hw]; [discriminate |].
  apply Rnot_lt_le in Hw. unfold Math.abs in Hw.
  repeat split.
  - exact Hw.
  - unfold PlaneCamera.getWorldPosition.
    cbn [PlaneCamera.worldToProjectionPlaneTransform].
    rewrite E20, E21. apply ColumnVector2_eq; unfold Rdiv; ring.
  - intros E10. unfold PlaneCamera.project, ColumnVector2_applyAffine.
    cbn [PlaneCamera.worldToProjectionPlaneTransform].
    rewrite E20, E21, E10. destruct p as [x y]. cbn [ColumnVector2.x ColumnVector2.y].
    pose proof EPS_pos as Heps.
    assert (Hnz : Matrix3.m22 T <> 0)
      by (apply (nonzero_of_magnitude EPS); assumption).
    apply ColumnVector2_eq.
    + f_equal; ring.
    + f_equal; ring.
Qed.

Lemma X7_plane_camera_is_affine_witness :
  let T := Matrix3.mk 1 0 0 0 (-1) 0 0 0 1 in
  let camera := PlaneCamera.mk T in
  let p := ColumnVector2.mk 3 4 in
  EPS <= Rabs (Matrix3.m22 T)
  /\ PlaneCamera.getWorldPosition camera = ColumnVector2.mk 0 0
  /\ (Matrix3.m10 T = 0 ->
      PlaneCamera.project camera p
      = ColumnVector2.mk
          ((Matrix3.m00 T * ColumnVector2.x p + Matrix3.m01 T * ColumnVector2.y p
            + Matrix3.m02 T) / Matrix3.m22 T)
          ((Matrix3.m10 T * ColumnVector2.x p + Matrix3.m11 T * ColumnVector2.y p
            + Matrix3.m12 T) / Matrix3.m22 T)).
Proof.
  apply (X7_plane_camera_is_affine (Matrix3.mk 1 0 0 0 (-1) 0 0 0 1)).
  unfold PlaneCamera.new, PlaneCamera.validateCameraTransform.
  cbn [Matrix3.m20 Matrix3.m21 Matrix3.m22].
  rewrite (Reqb_true 0 0) by reflexivity. cbn [negb orb].
  rewrite Rltb_false; [reflexivity |].
  unfold Math.abs. rewrite Rabs_R1. exact EPS_small.
Defined.

(** ** The perspective camera *)

Lemma lookAt_fields (camera camera' : ProjectionPlaneCamera.t)
    (targetPoint : ColumnVector3.t) (eps : R) :
  ProjectionPlaneCamera.lookAt camera targetPoint eps = Ok camera' ->
  ProjectionPlaneCamera.zHat camera'
  = ColumnVector3.normalizeColumnVectors
      (ColumnVector3.subtract (ProjectionPlaneCamera.worldPosition camera) targetPoint)
  /\ ProjectionPlaneCamera.worldPosition camera' = ProjectionPlaneCamera.worldPosition camera
  /\ ProjectionPlaneCamera.focalDistance camera' = ProjectionPlaneCamera.focalDistance camera.
Proof.
  unfold ProjectionPlaneCamera.lookAt.
  destruct (Rltb _ eps); [discriminate |]. cbv zeta.
  destruct (Rleb _ _); intros [= <-]; repeat split.
Qed.

Lemma lookAt_returns (camera : ProjectionPlaneCamera.t)
    (targetPoint : ColumnVector3.t) (eps : R) :
  eps <= ColumnVector3.distanceTo targetPoint (ProjectionPlaneCamera.worldPosition camera) ->
  exists camera', ProjectionPlaneCamera.lookAt camera targetPoint eps = Ok camera'.
Proof.
  intros Hfar. unfold ProjectionPlaneCamera.lookAt.
  rewrite Rltb_false by exact Hfar. cbv zeta.
  destruct (Rleb _ _); eexists; reflexivity.
Qed.

Lemma project_target_of_lookAt (x y E t : ColumnVector3.t) (f : R) :
  0 < ColumnVector3.vectorDot (ColumnVector3.subtract E t) (ColumnVector3.subtract E t) ->
  ProjectionPlaneCamera.project
    (ProjectionPlaneCamera.mk x y
       (ColumnVector3.normalizeColumnVectors (ColumnVector3.subtract E t)) f E) t
  = ColumnVector3.mk 0 0 0.
Proof.
  destruct x as [x0 x1 x2], y as [y0 y1 y2], E as [e0 e1 e2], t as [t0 t1 t2].
  unfold ColumnVector3.normalizeColumnVectors. vec_simpl.
  intros Hpos.
  set (D := 0 + (e0 - t0) * (e0 - t0) + (e1 - t1) * (e1 - t1) + (e2 - t2) * (e2 - t2)) in *.
  pose proof (sqrt_lt_R0 _ Hpos) as HL.
  pose proof (sqrt_sqrt D (Rlt_le _ _ Hpos)) as HLL.
  set (L := sqrt D) in *.
  assert (Hdepth : - (0 + (t0 - e0) * ((e0 - t0) / L) + (t1 - e1) * ((e1 - t1) / L)
                        + (t2 - e2) * ((e2 - t2) / L)) = L).
  { transitivity (D / L); [subst D; field; lra |].
    rewrite <- HLL at 1. field. lra. }
  rewrite Hdepth. clearbody L. clear Hdepth.
  assert (Z0 : f / L * (t0 - e0) + f * ((e0 - t0) / L) = 0) by (field; lra).
  assert (Z1 : f / L * (t1 - e1) + f * ((e1 - t1) / L) = 0) by (field; lra).
  assert (Z2 : f / L * (t2 - e2) + f * ((e2 - t2) / L) = 0) by (field; lra).
  rewrite Z0, Z1, Z2. apply ColumnVector3_eq; ring.
Qed.

(** X8.  [lookAt] throws when the target is closer to the eye than [eps].
    Otherwise it returns a camera with an orthonormal basis, the same eye
    point and the same focal distance, which projects the target to the
    centre [(0, 0, 0)] of the projection plane. *)
Theorem X8_lookAt_centres_the_target (camera : ProjectionPlaneCamera.t)
    (targetPoint : ColumnVector3.t) (eps : R) :
  0 < eps ->
  let distanceFromCamera :=
    ColumnVector3.distanceTo targetPoint (ProjectionPlaneCamera.worldPosition camera) in
  (distanceFromCamera < eps ->
   ProjectionPlaneCamera.lookAt camera targetPoint eps
   = Throw "Look-at target too close to camera position")
  /\ (eps <= distanceFromCamera ->
      exists camera',
        ProjectionPlaneCamera.lookAt camera targetPoint eps = Ok camera'
        /\ orthonormalCamera camera'
        /\ ProjectionPlaneCamera.worldPosition camera'
           = ProjectionPlaneCamera.worldPosition camera
        /\ ProjectionPlaneCamera.focalDistance camera'
           = ProjectionPlaneCamera.focalDistance camera
        /\ ProjectionPlaneCamera.project camera' targetPoint = ColumnVector3.mk 0 0 0).
Proof.
  intros Heps d. split.
  - intros Hclose. unfold ProjectionPlaneCamera.lookAt. fold d.
    rewrite Rltb_true by exact Hclose. reflexivity.
  - intros Hfar. destruct (lookAt_returns camera targetPoint eps Hfar) as [camera' Hok].
    exists camera'. split; [exact Hok |].
    split; [exact (lookAt_orthonormal _ _ _ _ Heps Hok) |].
    destruct (lookAt_fields _ _ _ _ Hok) as (Hz & HE & Hf).
    split; [exact HE |]. split; [exact Hf |].
    destruct camera' as [x y z f E]. cbn in Hz, HE, Hf. subst z E f.
    apply project_target_of_lookAt.
    exact (distance_positive _ _ _ Heps Hfar).
Qed.

Lemma X8_lookAt_centres_the_target_witness :
  let camera := ProjectionPlaneCamera.new (ColumnVector3.mk 0 0 5) in
  let targetPoint := ColumnVector3.mk 0 0 0 in
  let distanceFromCamera :=
    ColumnVector3.distanceTo targetPoint (ProjectionPlaneCamera.worldPosition camera) in
  (distanceFromCamera < 1 ->
   ProjectionPlaneCamera.lookAt camera targetPoint 1
   = Throw "Look-at target too close to camera position")
  /\ (1 <= distanceFromCamera ->
      exists camera',
        ProjectionPlaneCamera.lookAt camera targetPoint 1 = Ok camera'
        /\ orthonormalCamera camera'
        /\ ProjectionPlaneCamera.worldPosition camera'
           = ProjectionPlaneCamera.worldPosition camera
        /\ ProjectionPlaneCamera.focalDistance camera'
           = ProjectionPlaneCamera.focalDistance camera
        /\ ProjectionPlaneCamera.project camera' targetPoint = ColumnVector3.mk 0 0 0).
Proof.
  apply (X8_lookAt_centres_the_target
           (ProjectionPlaneCamera.new (ColumnVector3.mk 0 0 5)) (ColumnVector3.mk 0 0 0) 1).
  lra.
Defined.

(** X9.  For a camera with an orthonormal basis and a focal distance
    other than [0], [project] undoes [projectionToWorld] on the points of
    the projection plane. *)
Theorem X9_project_after_projectionToWorld (camera : ProjectionPlaneCamera.t) (u v : R) :
  orthonormalCamera camera ->
  ProjectionPlaneCamera.focalDistance camera <> 0 ->
  ProjectionPlaneCamera.project camera
    (ProjectionPlaneCamera.projectionToWorld camera (ColumnVector3.mk u v 0))
  = ColumnVector3.mk u v 0.
Proof.
  destruct camera as [[x0 x1 x2] [y0 y1 y2] [z0 z1 z2] f [e0 e1 e2]].
  unfold orthonormalCamera. mat_simpl.
  intros (Hxx & Hyy & Hzz & Hxy & Hxz & Hyz) Hf.
  set (pz := - (0 + (e0 + - f * z0 + u * x0 + v * y0 + 0 * z0 - e0) * z0
                  + (e1 + - f * z1 + u * x1 + v * y1 + 0 * z1 - e1) * z1
                  + (e2 + - f * z2 + u * x2 + v * y2 + 0 * z2 - e2) * z2)).
  assert (Hpz : pz = f) by (subst pz; nsatz).
  rewrite Hpz.
  replace (f / f) with 1 by (field; exact Hf).
  apply ColumnVector3_eq; nsatz.
Qed.

Lemma X9_project_after_projectionToWorld_witness :
  ProjectionPlaneCamera.project camera_above
    (ProjectionPlaneCamera.projectionToWorld camera_above (ColumnVector3.mk 2 3 0))
  = ColumnVector3.mk 2 3 0.
Proof.
  apply (X9_project_after_projectionToWorld camera_above 2 3).
  - apply new_camera_orthonormal.
  - simpl. lra.
Defined.

(** X10.  All the points of a line through the eye, the eye apart, have
    the same projection, for a point that is not at the depth of the
    eye. *)
Theorem X10_project_is_constant_on_sight_lines
    (camera : ProjectionPlaneCamera.t) (X : ColumnVector3.t) (k : R) :
  ProjectionPlaneCamera.pointFromEyePointZ camera X <> 0 ->
  k <> 0 ->
  ProjectionPlaneCamera.project camera
    (ColumnVector3.addScaled (ProjectionPlaneCamera.worldPosition camera)
       (ColumnVector3.subtract X (ProjectionPlaneCamera.worldPosition camera)) k)
  = ProjectionPlaneCamera.project camera X.
Proof.
  destruct camera as [[x0 x1 x2] [y0 y1 y2] [z0 z1 z2] f [e0 e1 e2]].
  destruct X as [p0 p1 p2].
  unfold ProjectionPlaneCamera.pointFromEyePointZ. mat_simpl.
  intros Hpz Hk.
  set (pz := - (0 + (p0 - e0) * z0 + (p1 - e1) * z1 + (p2 - e2) * z2)) in *.
  replace (- (0 + (e0 + k * (p0 - e0) - e0) * z0 + (e1 + k * (p1 - e1) - e1) * z1
              + (e2 + k * (p2 - e2) - e2) * z2)) with (k * pz) by (subst pz; ring).
  assert (Hq : f / (k * pz) * k = f / pz) by (field; split; assumption).
  set (q := f / (k * pz)) in *. set (q' := f / pz) in *. clearbody q q' pz.
  apply ColumnVector3_eq; nsatz.
Qed.

Lemma X10_project_is_constant_on_sight_lines_witness :
  ProjectionPlaneCamera.project camera_above
    (ColumnVector3.addScaled (ProjectionPlaneCamera.worldPosition camera_above)
       (ColumnVector3.subtract (ColumnVector3.mk 1 2 0)
          (ProjectionPlaneCamera.worldPosition camera_above)) 2)
  = ProjectionPlaneCamera.project camera_above (ColumnVector3.mk 1 2 0).
Proof.
  apply (X10_project_is_constant_on_sight_lines camera_above (ColumnVector3.mk 1 2 0) 2).
  - unfold ProjectionPlaneCamera.pointFromEyePointZ. vec_simpl. simpl. lra.
  - lra.
Defined.

(** X11.  [flipXAxis] negates the first coordinate of every projection,
    [flipYAxis] the second and [flipZAxis] both; flipping the same axis
    twice gives the camera back. *)
Theorem X11_flips_mirror_the_image (camera : ProjectionPlaneCamera.t) (X : ColumnVector3.t) :
  let Y := ProjectionPlaneCamera.project camera X in
  ProjectionPlaneCamera.project (ProjectionPlaneCamera.flipXAxis camera) X
  = ColumnVector3.mk (- ColumnVector3.x Y) (ColumnVector3.y Y) (ColumnVector3.z Y)
  /\ ProjectionPlaneCamera.project (ProjectionPlaneCamera.flipYAxis camera) X
     = ColumnVector3.mk (ColumnVector3.x Y) (- ColumnVector3.y Y) (ColumnVector3.z Y)
  /\ ProjectionPlaneCamera.project (ProjectionPlaneCamera.flipZAxis camera) X
     = ColumnVector3.mk (- ColumnVector3.x Y) (- ColumnVector3.y Y) (ColumnVector3.z Y)
  /\ ProjectionPlaneCamera.flipXAxis (ProjectionPlaneCamera.flipXAxis camera) = camera
  /\ ProjectionPlaneCamera.flipYAxis (ProjectionPlaneCamera.flipYAxis camera) = camera
  /\ ProjectionPlaneCamera.flipZAxis (ProjectionPlaneCamera.flipZAxis camera) = camera.
Proof.
  destruct camera as [[x0 x1 x2] [y0 y1 y2] [z0 z1 z2] f [e0 e1 e2]].
  destruct X as [p0 p1 p2].
  unfold ProjectionPlaneCamera.flipXAxis, ProjectionPlaneCamera.flipYAxis,
    ProjectionPlaneCamera.flipZAxis.
  mat_simpl. cbv zeta.
  set (pz := - (0 + (p0 - e0) * z0 + (p1 - e1) * z1 + (p2 - e2) * z2)).
  replace (- (0 + (p0 - e0) * (-1 * z0) + (p1 - e1) * (-1 * z1) + (p2 - e2) * (-1 * z2)))
    with (- pz) by (subst pz; ring).
  assert (Hq : f / - pz = - (f / pz)).
  { unfold Rdiv. rewrite Rinv_opp. ring. }
  rewrite Hq. set (q := f / pz). clearbody q pz.
  repeat split; try (apply ColumnVector3_eq; ring).
  - f_equal. apply ColumnVector3_eq; ring.
  - f_equal. apply ColumnVector3_eq; ring.
  - f_equal. apply ColumnVector3_eq; ring.
Qed.

(** X12.  For a camera with an orthonormal basis, after
    [setFocalDistance f] the projection of a point that is not at the depth
    of the eye is the pinhole image: [f] times the coordinates of the point
    along the x and the y direction of the camera, seen from the eye,
    divided by its depth; the third coordinate is [0]. *)
Theorem X12_pinhole_formula (camera : ProjectionPlaneCamera.t)
    (focalDistance : R) (X : ColumnVector3.t) :
  orthonormalCamera camera ->
  ProjectionPlaneCamera.pointFromEyePointZ camera X <> 0 ->
  let fromEye := ColumnVector3.subtract X (ProjectionPlaneCamera.worldPosition camera) in
  let depth := ProjectionPlaneCamera.pointFromEyePointZ camera X in
  ProjectionPlaneCamera.project
    (ProjectionPlaneCamera.setFocalDistance camera focalDistance) X
  = ColumnVector3.mk
      (focalDistance
       * ColumnVector3.vectorDot fromEye (ProjectionPlaneCamera.xHat camera) / depth)
      (focalDistance
       * ColumnVector3.vectorDot fromEye (ProjectionPlaneCamera.yHat camera) / depth)
      0.
Proof.
  destruct camera as [[x0 x1 x2] [y0 y1 y2] [z0 z1 z2] f [e0 e1 e2]].
  destruct X as [p0 p1 p2].
  unfold orthonormalCamera, ProjectionPlaneCamera.pointFromEyePointZ,
    ProjectionPlaneCamera.setFocalDistance.
  mat_simpl.
  intros (Hxx & Hyy & Hzz & Hxy & Hxz & Hyz) Hpz. cbv zeta.
  set (pz := - (0 + (p0 - e0) * z0 + (p1 - e1) * z1 + (p2 - e2) * z2)) in *.
  assert (Hk : / pz * pz = 1) by (field; exact Hpz).
  unfold Rdiv. set (k := / pz) in *. clearbody k. subst pz.
  apply ColumnVector3_eq; nsatz.
Qed.

Lemma X12_pinhole_formula_witness :
  let camera := camera_above in
  let X := ColumnVector3.mk 1 2 0 in
  let fromEye := ColumnVector3.subtract X (ProjectionPlaneCamera.worldPosition camera) in
  let depth := ProjectionPlaneCamera.pointFromEyePointZ camera X in
  ProjectionPlaneCamera.project (ProjectionPlaneCamera.setFocalDistance camera 10) X
  = ColumnVector3.mk
      (10 * ColumnVector3.vectorDot fromEye (ProjectionPlaneCamera.xHat camera) / depth)
      (10 * ColumnVector3.vectorDot fromEye (ProjectionPlaneCamera.yHat camera) / depth)
      0.
Proof.
  apply (X12_pinhole_formula camera_above 10 (ColumnVector3.mk 1 2 0)).
  - apply new_camera_orthonormal.
  - unfold ProjectionPlaneCamera.pointFromEyePointZ. vec_simpl. simpl. lra.
Defined.

(** ** Angles in a plane *)

Lemma quadrant_of_positive_cos (theta : R) :
  - PI < theta <= PI -> 0 < cos theta -> - PI / 2 < theta < PI / 2.
Proof.
  intros [Hlo Hhi] Hc. pose proof PI_RGT_0 as Hpi. split.
  - destruct (Rlt_le_dec (- PI / 2) theta) as [H | H]; [exact H | exfalso].
    assert (Hle : cos (- theta) <= 0) by (apply cos_le_0; lra).
    rewrite cos_neg in Hle. lra.
  - destruct (Rlt_le_dec theta (PI / 2)) as [H | H]; [exact H | exfalso].
    assert (Hle : cos theta <= 0) by (apply cos_le_0; lra). lra.
Qed.

Lemma atan2_polar (a theta : R) :
  0 < a -> - PI < theta <= PI ->
  Math.atan2 (a * sin theta) (a * cos theta) = theta.
Proof.
  intros Ha [Hlo Hhi]. pose proof PI_RGT_0 as Hpi.
  unfold Math.atan2.
  destruct (Rlt_dec 0 (a * cos theta)) as [Hx | Hx].
  - assert (Hc : 0 < cos theta) by nra.
    destruct (quadrant_of_positive_cos theta (conj Hlo Hhi) Hc) as [H1 H2].
    replace (a * sin theta / (a * cos theta)) with (tan theta)
      by (unfold tan; field; lra).
    apply atan_tan. lra.
  - destruct (Rlt_dec (a * cos theta) 0) as [Hx' | Hx'].
    + assert (Hc : cos theta < 0) by nra.
      destruct (Rle_dec 0 (a * sin theta)) as [Hy | Hy].
      * assert (Hs : 0 <= sin theta) by nra.
        assert (H0 : 0 <= theta).
        { destruct (Rle_lt_dec 0 theta) as [H | H]; [exact H | exfalso].
          pose proof (sin_lt_0_var theta Hlo H). lra. }
        assert (H1 : PI / 2 < theta).
        { destruct (Rlt_le_dec (PI / 2) theta) as [H | H]; [exact H | exfalso].
          assert (0 <= cos theta) by (apply cos_ge_0; lra). lra. }
        assert (Es : sin theta = - sin (theta - PI)).
        { rewrite <- (neg_sin (theta - PI)). f_equal. ring. }
        assert (Ec : cos theta = - cos (theta - PI)).
        { rewrite <- (neg_cos (theta - PI)). f_equal. ring. }
        assert (Hc' : cos (theta - PI) <> 0) by lra.
        replace (a * sin theta / (a * cos theta)) with (tan (theta - PI)).
        -- rewrite atan_tan by lra. ring.
        -- unfold tan. rewrite Es, Ec. field. split; lra.
      * assert (Hs : sin theta < 0) by nra.
        assert (H0 : theta < 0).
        { destruct (Rlt_le_dec theta 0) as [H | H]; [exact H | exfalso].
          assert (0 <= sin theta) by (apply sin_ge_0; lra). lra. }
        assert (H1 : theta < - PI / 2).
        { destruct (Rlt_le_dec theta (- PI / 2)) as [H | H]; [exact H | exfalso].
          assert (0 <= cos theta) by (apply cos_ge_0; lra). lra. }
        assert (Es : sin (theta + PI) = - sin theta) by apply neg_sin.
        assert (Ec : cos (theta + PI) = - cos theta) by apply neg_cos.
        replace (a * sin theta / (a * cos theta)) with (tan (theta + PI)).
        -- rewrite atan_tan by lra. ring.
        -- unfold tan. rewrite Es, Ec. field. split; lra.
    + assert (Hc : cos theta = 0) by nra.
      destruct (Rlt_dec 0 (a * sin theta)) as [Hy | Hy].
      * assert (Hs : 0 < sin theta) by nra.
        assert (H0 : 0 <= theta).
        { destruct (Rle_lt_dec 0 theta) as [H | H]; [exact H | exfalso].
          pose proof (sin_lt_0_var theta Hlo H). lra. }
        destruct (cos_eq_0_2PI_0 theta H0 ltac:(lra) Hc) as [E | E]; lra.
      * destruct (Rlt_dec (a * sin theta) 0) as [Hy' | Hy'].
        -- assert (Hs : sin theta < 0) by nra.
           assert (H0 : theta < 0).
           { destruct (Rlt_le_dec theta 0) as [H | H]; [exact H | exfalso].
             assert (0 <= sin theta) by (apply sin_ge_0; lra). lra. }
           assert (Hc' : cos (- theta) = 0) by (rewrite cos_neg; exact Hc).
           destruct (cos_eq_0_2PI_0 (- theta) ltac:(lra) ltac:(lra) Hc') as [E | E]; lra.
        -- exfalso. assert (Hs : sin theta = 0) by nra.
           pose proof (sin2_cos2 theta) as Hsc. unfold Rsqr in Hsc.
           rewrite Hs, Hc in Hsc. lra.
Qed.

(** X13.  For an orthonormal plane and an angle in [(-PI, PI]],
    [angleForVector_rad] returns the angle that [unitVecAtAngle] was given,
    and the vector of [unitVecAtAngle] has length 1. *)
Theorem X13_angle_of_unit_vector (plane : PlaneDirections.t ColumnVector3.t) (angle_rad : R) :
  orthonormalPlane plane ->
  - PI < angle_rad <= PI ->
  PlaneDirections.angleForVector_rad plane (PlaneDirections.unitVecAtAngle plane angle_rad)
  = angle_rad
  /\ ColumnVector3.vectorDot (PlaneDirections.unitVecAtAngle plane angle_rad)
       (PlaneDirections.unitVecAtAngle plane angle_rad) = 1.
Proof.
  destruct plane as [[x0 x1 x2] [y0 y1 y2]].
  unfold orthonormalPlane, PlaneDirections.angleForVector_rad, PlaneDirections.unitVecAtAngle.
  vec_simpl. intros (Hxx & Hyy & Hxy) Hangle.
  pose proof (sin2_cos2 angle_rad) as Hsc. unfold Rsqr in Hsc.
  set (c := cos angle_rad) in *. set (s := sin angle_rad) in *.
  split.
  - replace (0 + y0 * (c * x0 + s * y0) + y1 * (c * x1 + s * y1) + y2 * (c * x2 + s * y2))
      with (1 * s) by (clearbody c s; nsatz).
    replace (0 + x0 * (c * x0 + s * y0) + x1 * (c * x1 + s * y1) + x2 * (c * x2 + s * y2))
      with (1 * c) by (clearbody c s; nsatz).
    subst c s. apply atan2_polar; lra.
  - clearbody c s. nsatz.
Qed.

Lemma xy_plane_orthonormal :
  orthonormalPlane (PlaneDirections.mk (ColumnVector3.mk 1 0 0) (ColumnVector3.mk 0 1 0)).
Proof. unfold orthonormalPlane. vec_simpl. repeat split; ring. Qed.

Lemma X13_angle_of_unit_vector_witness :
  let plane := PlaneDirections.mk (ColumnVector3.mk 1 0 0) (ColumnVector3.mk 0 1 0) in
  PlaneDirections.angleForVector_rad plane (PlaneDirections.unitVecAtAngle plane 0) = 0
  /\ ColumnVector3.vectorDot (PlaneDirections.unitVecAtAngle plane 0)
       (PlaneDirections.unitVecAtAngle plane 0) = 1.
Proof.
  apply (X13_angle_of_unit_vector
           (PlaneDirections.mk (ColumnVector3.mk 1 0 0) (ColumnVector3.mk 0 1 0)) 0).
  - exact xy_plane_orthonormal.
  - pose proof PI_RGT_0. lra.
Defined.



(** ** Buffers: store then load *)

Lemma Float32Array_get_set_same (this : Float32Array.t) (index : Z) (value : R) :
  (0 <= index < Z.of_nat (length this))%Z ->
  Float32Array.get (Float32Array.set this index value) index = value.
Proof.
  intros [H0 H1]. unfold Float32Array.get, Float32Array.set.
  destruct (0 <=? index)%Z eqn:E; [| lia].
  unfold Float32Array.t in *.
  rewrite nth_lookup, list_lookup_insert_eq by lia. reflexivity.
Qed.

Lemma Float32Array_get_set_other (this : Float32Array.t) (index other : Z) (value : R) :
  index <> other ->
  Float32Array.get (Float32Array.set this index value) other = Float32Array.get this other.
Proof.
  intros Hne. unfold Float32Array.get, Float32Array.set.
  destruct (0 <=? other)%Z eqn:Eo; [| reflexivity].
  destruct (0 <=? index)%Z eqn:Ei; [| reflexivity].
  unfold Float32Array.t in *.
  rewrite !nth_lookup, list_lookup_insert_ne by lia. reflexivity.
Qed.

Lemma writer_eta (this : CoordsArrayVertexWriter.t) :
  CoordsArrayVertexWriter.mk (CoordsArrayVertexWriter.vertexCoords this) = this.
Proof. destruct this. reflexivity. Qed.

Lemma writeVertex_length (this : CoordsArrayVertexWriter.t)
    (vertexIdx : Z) (vertex : ColumnVector3.t) :
  length (CoordsArrayVertexWriter.vertexCoords
            (CoordsArrayVertexWriter.writeVertex this vertexIdx vertex))
  = length (CoordsArrayVertexWriter.vertexCoords this).
Proof.
  unfold CoordsArrayVertexWriter.writeVertex. cbv zeta.
  cbn [CoordsArrayVertexWriter.vertexCoords].
  rewrite !Float32Array_set_length. reflexivity.
Qed.

Lemma readVertex_writeVertex_same (this : CoordsArrayVertexWriter.t)
    (vertexIdx : Z) (vertex : ColumnVector3.t) :
  (0 <= vertexIdx)%Z ->
  (vertexIdx * 3 + 2 < Z.of_nat (length (CoordsArrayVertexWriter.vertexCoords this)))%Z ->
  CoordsArrayVertexWriter.readVertex
    (CoordsArrayVertexWriter.writeVertex this vertexIdx vertex) vertexIdx = vertex.
Proof.
  intros H0 H1. destruct vertex as [v0 v1 v2].
  unfold CoordsArrayVertexWriter.readVertex, CoordsArrayVertexWriter.writeVertex,
    COORDS_PER_VERTEX.
  cbv zeta. cbn [CoordsArrayVertexWriter.vertexCoords ColumnVector3.x ColumnVector3.y
                 ColumnVector3.z].
  apply ColumnVector3_eq.
  - rewrite !Float32Array_get_set_other by lia.
    apply Float32Array_get_set_same. lia.
  - rewrite Float32Array_get_set_other by lia.
    apply Float32Array_get_set_same. rewrite Float32Array_set_length. lia.
  - apply Float32Array_get_set_same. rewrite !Float32Array_set_length. lia.
Qed.

Lemma readVertex_writeVertex_other (this : CoordsArrayVertexWriter.t)
    (vertexIdx other : Z) (vertex : ColumnVector3.t) :
  vertexIdx <> other ->
  CoordsArrayVertexWriter.readVertex
    (CoordsArrayVertexWriter.writeVertex this vertexIdx vertex) other
  = CoordsArrayVertexWriter.readVertex this other.
Proof.
  intros Hne.
  unfold CoordsArrayVertexWriter.readVertex, CoordsArrayVertexWriter.writeVertex,
    COORDS_PER_VERTEX.
  cbv zeta. cbn [CoordsArrayVertexWriter.vertexCoords].
  apply ColumnVector3_eq; rewrite !Float32Array_get_set_other by lia; reflexivity.
Qed.

(** ** Loops with an index *)

Lemma forLoop_indexed {S : Type} (P : Z -> S -> Prop) (body : Z -> S -> S) (stop : Z) :
  (forall i s, (i < stop)%Z -> P i s -> P (i + 1)%Z (body i s)) ->
  forall count i s,
    (i + Z.of_nat count <= stop)%Z -> P i s ->
    P (i + Z.of_nat count)%Z (forLoop count i body s).
Proof.
  intros Hbody count. induction count as [|count IH]; intros i s Hstop Hs.
  - simpl. replace (i + Z.of_nat 0)%Z with i by lia. exact Hs.
  - cbn [forLoop].
    replace (i + Z.of_nat (Datatypes.S count))%Z with (i + 1 + Z.of_nat count)%Z by lia.
    apply IH; [lia |]. apply Hbody; [lia | exact Hs].
Qed.

Section ParametricVertices.

Context {Range : Type} `{ValueRange.t Range}.
Variable parameterRange : Range.
Variable calculateVertex : R -> ColumnVector3.t.
Variable vertexWriter : CoordsArrayVertexWriter.t.

Hypothesis stepCount_nonneg : (0 <= ValueRange.stepCount parameterRange)%Z.
Hypothesis room :
  (ParametricVertexCalculator.vertexCount parameterRange * 3
   <= Z.of_nat (length (CoordsArrayVertexWriter.vertexCoords vertexWriter)))%Z.

Lemma parametric_calculateVertices :
  let written :=
    ParametricVertexCalculator.calculateVertices parameterRange calculateVertex
      CoordsArrayVertexWriter.writeVertex vertexWriter in
  length (CoordsArrayVertexWriter.vertexCoords written)
  = length (CoordsArrayVertexWriter.vertexCoords vertexWriter)
  /\ forall stepIdx, (0 <= stepIdx <= ValueRange.stepCount parameterRange)%Z ->
       CoordsArrayVertexWriter.readVertex written stepIdx
       = calculateVertex (ValueRange.atStep parameterRange stepIdx).
Proof.
  unfold ParametricVertexCalculator.vertexCount in room.
  set (n := ValueRange.stepCount parameterRange) in *.
  set (L := length (CoordsArrayVertexWriter.vertexCoords vertexWriter)) in *.
  pose (P := fun (j : Z) (w : CoordsArrayVertexWriter.t) =>
               (0 <= j)%Z
               /\ length (CoordsArrayVertexWriter.vertexCoords w) = L
               /\ forall k, (0 <= k < j)%Z ->
                    CoordsArrayVertexWriter.readVertex w k
                    = calculateVertex (ValueRange.atStep parameterRange k)).
  assert (Hloop : P (0 + Z.of_nat (Z.to_nat (n + 1)))%Z
                    (ParametricVertexCalculator.calculateVertices parameterRange
                       calculateVertex CoordsArrayVertexWriter.writeVertex vertexWriter)).
  { unfold ParametricVertexCalculator.calculateVertices. cbv zeta. fold n.
    apply (forLoop_indexed P _ (n + 1)%Z).
    - intros j w Hj (Hj0 & Hlen & Hread). repeat split.
      + lia.
      + rewrite writeVertex_length. exact Hlen.
      + intros k Hk. destruct (Z.eq_dec k j) as [-> | Hne].
        * apply readVertex_writeVertex_same; [exact Hj0 |]. rewrite Hlen. lia.
        * rewrite readVertex_writeVertex_other by congruence. apply Hread. lia.
    - lia.
    - repeat split; [lia |]. intros k Hk. lia. }
  destruct Hloop as (_ & Hlen & Hread). cbv zeta. split; [exact Hlen |].
  intros stepIdx Hstep. apply Hread. lia.
Qed.

End ParametricVertices.

(** X16.  The buffer of a new [EllipseArc] has three cells for each of
    the [stepCount + 1] vertices, and the vertex stored at each step index
    from [0] to [stepCount] is the point of the ellipse at the value of the
    range at that step; after [recalculateVertices] the same holds for the
    parameters then in force. *)
Theorem X16_arc_buffer_holds_the_arc {Range : Type} `{ValueRange.t Range}
    (config : EllipticalArcParameters.t ColumnVector3.t Range) (stepIdx : Z) :
  let range := EllipticalArcParameters.circularAngle_rad config in
  (0 <= stepIdx <= ValueRange.stepCount range)%Z ->
  let arc := EllipseArc.new config in
  length (LineVertexCoords.vertexCoords arc)
  = Z.to_nat ((ValueRange.stepCount range + 1) * 3)
  /\ CoordsArrayVertexWriter.readVertex (LineVertexCoords.vertexWriter arc) stepIdx
     = EllipticalArcVertexCalculator.calculateVertex config
         (ValueRange.atStep range stepIdx)
  /\ forall config',
       EllipticalArcParameters.circularAngle_rad config' = range ->
       CoordsArrayVertexWriter.readVertex
         (LineVertexCoords.vertexWriter (EllipseArc.recalculateVertices config' arc))
         stepIdx
       = EllipticalArcVertexCalculator.calculateVertex config'
           (ValueRange.atStep range stepIdx).
Proof.
  intros range Hstep arc.
  assert (Hn : (0 <= ValueRange.stepCount range)%Z) by lia.
  set (blank := CoordsArrayVertexWriter.mk
                  (Float32Array.new
                     (ParametricVertexCalculator.vertexCount range * COORDS_PER_VERTEX))).
  assert (Hroom : (ParametricVertexCalculator.vertexCount range * 3
                   <= Z.of_nat (length (CoordsArrayVertexWriter.vertexCoords blank)))%Z).
  { unfold blank. cbn [CoordsArrayVertexWriter.vertexCoords].
    rewrite Float32Array_new_length. unfold COORDS_PER_VERTEX,
      ParametricVertexCalculator.vertexCount. lia. }
  destruct (parametric_calculateVertices range
              (EllipticalArcVertexCalculator.calculateVertex config) blank Hn Hroom)
    as [Hlen Hread].
  assert (Hlen' : length (LineVertexCoords.vertexCoords arc)
                  = Z.to_nat ((ValueRange.stepCount range + 1) * 3)).
  { unfold arc, EllipseArc.new, LineVertexCoords.new. cbv zeta.
    cbn [LineVertexCoords.vertexCoords]. unfold EllipseArc.calculateVertices.
    fold range. fold blank. rewrite Hlen. unfold blank.
    cbn [CoordsArrayVertexWriter.vertexCoords]. rewrite Float32Array_new_length.
    reflexivity. }
  split; [exact Hlen' |]. split.
  - unfold arc, EllipseArc.new, LineVertexCoords.new, LineVertexCoords.vertexWriter.
    cbv zeta. cbn [LineVertexCoords.vertexCoords]. unfold EllipseArc.calculateVertices.
    fold range. fold blank. rewrite writer_eta. apply Hread. exact Hstep.
  - intros config' Hrange.
    assert (Hroom' : (ParametricVertexCalculator.vertexCount range * 3
                      <= Z.of_nat (length (CoordsArrayVertexWriter.vertexCoords
                                             (LineVertexCoords.vertexWriter arc))))%Z).
    { unfold LineVertexCoords.vertexWriter. cbn [CoordsArrayVertexWriter.vertexCoords].
      rewrite Hlen'. unfold ParametricVertexCalculator.vertexCount. lia. }
    destruct (parametric_calculateVertices range
                (EllipticalArcVertexCalculator.calculateVertex config')
                (LineVertexCoords.vertexWriter arc) Hn Hroom')
      as [_ Hread'].
    unfold EllipseArc.recalculateVertices, LineVertexCoords.recalculateVertices.
    cbv zeta. unfold EllipseArc.calculateVertices. rewrite Hrange.
    unfold LineVertexCoords.vertexWriter at 1. cbn [LineVertexCoords.vertexCoords].
    rewrite writer_eta. apply Hread'. exact Hstep.
Qed.

Lemma X16_arc_buffer_holds_the_arc_witness :
  let config := unit_circle in
  let range := EllipticalArcParameters.circularAngle_rad config in
  let arc := EllipseArc.new config in
  length (LineVertexCoords.vertexCoords arc)
  = Z.to_nat ((ValueRange.stepCount range + 1) * 3)
  /\ CoordsArrayVertexWriter.readVertex (LineVertexCoords.vertexWriter arc) 8
     = EllipticalArcVertexCalculator.calculateVertex config (ValueRange.atStep range 8)
  /\ forall config',
       EllipticalArcParameters.circularAngle_rad config' = range ->
       CoordsArrayVertexWriter.readVertex
         (LineVertexCoords.vertexWriter (EllipseArc.recalculateVertices config' arc)) 8
       = EllipticalArcVertexCalculator.calculateVertex config' (ValueRange.atStep range 8).
Proof.
  apply (X16_arc_buffer_holds_the_arc unit_circle 8). simpl. lia.
Defined.

(** ** Distances *)

Lemma dot_self_nonneg (v : ColumnVector3.t) : 0 <= ColumnVector3.vectorDot v v.
Proof. destruct v as [a b c]. vec_simpl. nra. Qed.

Lemma distanceTo_dot (p q : ColumnVector3.t) :
  ColumnVector3.distanceTo p q
  = sqrt (ColumnVector3.vectorDot (ColumnVector3.subtract p q) (ColumnVector3.subtract p q)).
Proof. destruct p, q. unfold ColumnVector3.distanceTo. vec_simpl. reflexivity. Qed.

Lemma distanceTo_square (p q : ColumnVector3.t) :
  ColumnVector3.distanceTo p q * ColumnVector3.distanceTo p q
  = ColumnVector3.vectorDot (ColumnVector3.subtract p q) (ColumnVector3.subtract p q).
Proof. rewrite distanceTo_dot. apply sqrt_sqrt. apply dot_self_nonneg. Qed.

Lemma distanceTo_of_square (p q : ColumnVector3.t) (d : R) :
  ColumnVector3.vectorDot (ColumnVector3.subtract p q) (ColumnVector3.subtract p q) = d * d ->
  ColumnVector3.distanceTo p q = Rabs d.
Proof.
  intros E. rewrite distanceTo_dot, E. apply sqrt_Rsqr_abs.
Qed.

(** ** The base circle *)

Lemma baseCircle_reachable_points
    (config : ArchytasBaseCircle.BaseCircleConfiguration) (this : ArchytasBaseCircle.t) :
  baseCircle_reachable config this -> baseCircle_points config this.
Proof.
  induction 1 as [| this console value Hreach IH].
  - unfold baseCircle_points, ArchytasBaseCircle.new. cbv zeta.
    destruct (ArchytasBaseCircle.updatePointsAndDirections config _ 0) as [P Q] eqn:E.
    cbn [ArchytasBaseCircle.config ArchytasBaseCircle.center
         ArchytasBaseCircle.diameterEnd ArchytasBaseCircle.ptP ArchytasBaseCircle.ptQ].
    repeat split. exists 0. symmetry. exact E.
  - destruct IH as (Hconfig & Hcenter & Hend & angle & Hpoints).
    unfold ArchytasBaseCircle.set_angleOapCompliment_rad. cbv zeta.
    destruct (ConstStepRange.includes _ _).
    + destruct (ArchytasBaseCircle.updatePointsAndDirections
                  (ArchytasBaseCircle.config this) (ArchytasBaseCircle.center this) value)
        as [P Q] eqn:E.
      cbn [fst]. unfold baseCircle_points.
      cbn [ArchytasBaseCircle.config ArchytasBaseCircle.center
           ArchytasBaseCircle.diameterEnd ArchytasBaseCircle.ptP ArchytasBaseCircle.ptQ].
      repeat split; try assumption.
      exists value. rewrite <- Hconfig. symmetry. exact E.
    + cbn [fst]. unfold baseCircle_points. repeat split; try assumption.
      exists angle. exact Hpoints.
Qed.

(** X17.  In every state of the base circle that the constructor and the
    setter produce, for an orthonormal plane: P lies on the circle, the
    angle APO is right, Q is the foot of P on the diameter AO, and AP is
    the mean proportional between AQ and AO ([AP^2 = AQ * AO]). *)
Theorem X17_base_circle_geometry
    (config : ArchytasBaseCircle.BaseCircleConfiguration) (this : ArchytasBaseCircle.t) :
  orthonormalPlane (ArchytasBaseCircle.plane config) ->
  baseCircle_reachable config this ->
  let A := ArchytasBaseCircle.origin config in
  let O := ArchytasBaseCircle.diameterEnd this in
  let P := ArchytasBaseCircle.ptP this in
  let Q := ArchytasBaseCircle.ptQ this in
  ColumnVector3.distanceTo (ArchytasBaseCircle.center this) P
  = Rabs (ArchytasBaseCircle.radius config)
  /\ ColumnVector3.vectorDot (ColumnVector3.subtract P A) (ColumnVector3.subtract P O) = 0
  /\ ColumnVector3.vectorDot (ColumnVector3.subtract P Q) (ColumnVector3.subtract O A) = 0
  /\ ColumnVector3.vectorCross (ColumnVector3.subtract Q A) (ColumnVector3.subtract O A)
     = ColumnVector3.mk 0 0 0
  /\ ColumnVector3.distanceTo A P * ColumnVector3.distanceTo A P
     = ColumnVector3.distanceTo A Q * ColumnVector3.distanceTo A O.
Proof.
  intros Hplane Hreach.
  destruct (baseCircle_reachable_points config this Hreach)
    as (Hconfig & Hcenter & Hend & angle & Hpoints).
  cbv zeta.
  unfold ArchytasBaseCircle.updatePointsAndDirections in Hpoints. cbv zeta in Hpoints.
  injection Hpoints as HP HQ.
  rewrite HP, HQ, Hend, Hcenter. clear HP HQ Hend Hcenter Hconfig Hreach this.
  destruct config as [positioner [a0 a1 a2] [[x0 x1 x2] [y0 y1 y2]] range r].
  cbn [ArchytasBaseCircle.origin ArchytasBaseCircle.plane ArchytasBaseCircle.radius] in *.
  unfold orthonormalPlane in Hplane. revert Hplane.
  pose proof (sin2_cos2 (2 * angle)) as Hsc. unfold Rsqr in Hsc.
  pose proof (COS_bound (2 * angle)) as [Hc0 Hc1].
  set (c := cos (2 * angle)) in *. set (s := sin (2 * angle)) in *. clearbody c s.
  intros (Hxx & Hyy & Hxy). revert Hxx Hyy Hxy. vec_simpl. intros Hxx Hyy Hxy.
  repeat split.
  - apply distanceTo_of_square. vec_simpl. nsatz.
  - nsatz.
  - nsatz.
  - apply ColumnVector3_eq; nsatz.
  - rewrite distanceTo_square.
    rewrite (distanceTo_of_square _ _ (r * (1 - c))) by (vec_simpl; nsatz).
    rewrite (distanceTo_of_square _ _ (2 * r)) by (vec_simpl; nsatz).
    rewrite <- Rabs_mult.
    rewrite Rabs_pos_eq by nra.
    vec_simpl. nsatz.
Qed.

Lemma X17_base_circle_geometry_witness :
  let config :=
    ArchytasBaseCircle.mkConfiguration (fun _ _ => (0, 0)%Z) (ColumnVector3.mk 0 0 0)
      (PlaneDirections.mk (ColumnVector3.mk 1 0 0) (ColumnVector3.mk 0 1 0))
      (ConstStepRange.new 0 PI 4) 1 in
  let this := ArchytasBaseCircle.new config in
  let A := ArchytasBaseCircle.origin config in
  let O := ArchytasBaseCircle.diameterEnd this in
  let P := ArchytasBaseCircle.ptP this in
  let Q := ArchytasBaseCircle.ptQ this in
  ColumnVector3.distanceTo (ArchytasBaseCircle.center this) P
  = Rabs (ArchytasBaseCircle.radius config)
  /\ ColumnVector3.vectorDot (ColumnVector3.subtract P A) (ColumnVector3.subtract P O) = 0
  /\ ColumnVector3.vectorDot (ColumnVector3.subtract P Q) (ColumnVector3.subtract O A) = 0
  /\ ColumnVector3.vectorCross (ColumnVector3.subtract Q A) (ColumnVector3.subtract O A)
     = ColumnVector3.mk 0 0 0
  /\ ColumnVector3.distanceTo A P * ColumnVector3.distanceTo A P
     = ColumnVector3.distanceTo A Q * ColumnVector3.distanceTo A O.
Proof.
  apply (X17_base_circle_geometry
           (ArchytasBaseCircle.mkConfiguration (fun _ _ => (0, 0)%Z) (ColumnVector3.mk 0 0 0)
              (PlaneDirections.mk (ColumnVector3.mk 1 0 0) (ColumnVector3.mk 0 1 0))
              (ConstStepRange.new 0 PI 4) 1)).
  - unfold orthonormalPlane. cbn [ArchytasBaseCircle.plane]. vec_simpl.
    repeat split; ring.
  - apply baseCircle_reachable_new.
Defined.

(** ** The transverse circle *)

Lemma Math_acos_defined (x c : R) : Math_acos x = Some c -> -1 <= x <= 1 /\ c = acos x.
Proof.
  unfold Math_acos. destruct (Rleb (-1) x) eqn:E1; [| discriminate].
  destruct (Rleb x 1) eqn:E2; [| discriminate].
  cbn [andb]. intros [= <-]. apply Rleb_le in E1, E2. repeat split; assumption.
Qed.

Lemma updatePointsAndDirections_yHat
    (config : ArchytasTransverseCircle.TransverseCircleConfiguration)
    (circlePlane : PlaneDirections.t ColumnVector3.t) (angle : R) :
  PlaneDirections.yHat
    (ArchytasTransverseCircle.points_circlePlane
       (ArchytasTransverseCircle.updatePointsAndDirections config circlePlane angle))
  = PlaneDirections.yHat circlePlane.
Proof. reflexivity. Qed.

Lemma transverseCircle_reachable_points
    (config : ArchytasTransverseCircle.TransverseCircleConfiguration)
    (this : ArchytasTransverseCircle.t) :
  transverseCircle_reachable config this -> transverseCircle_points config this.
Proof.
  induction 1 as [| this console value Hreach IH].
  - unfold transverseCircle_points, ArchytasTransverseCircle.new. cbv zeta.
    cbn [ArchytasTransverseCircle.config ArchytasTransverseCircle._angleOapCompliment_rad
         ArchytasTransverseCircle.circlePlane ArchytasTransverseCircle.center
         ArchytasTransverseCircle.diameterEnd ArchytasTransverseCircle.ptP
         ArchytasTransverseCircle.ptR].
    split; [reflexivity |]. split; [rewrite sin_0; lra |].
    eexists. split; [| reflexivity]. reflexivity.
  - pose proof IH as (Hconfig & Hsin & plane0 & Hy & Hpoints).
    unfold ArchytasTransverseCircle.set_angleOapCompliment_rad.
    destruct (Reqb _ value); [exact IH |].
    cbv zeta.
    destruct (Math_acos (1 - 2 * sin (PI - value))) as [c |] eqn:Eacos; [| exact IH].
    destruct (TransverseCircleAngleRange.includes
                (ArchytasTransverseCircle.centralAngle_rad
                   (ArchytasTransverseCircle.config this)) c); [| exact IH].
    cbn [fst]. unfold transverseCircle_points.
    cbn [ArchytasTransverseCircle.config ArchytasTransverseCircle._angleOapCompliment_rad
         ArchytasTransverseCircle.circlePlane ArchytasTransverseCircle.center
         ArchytasTransverseCircle.diameterEnd ArchytasTransverseCircle.ptP
         ArchytasTransverseCircle.ptR].
    split; [exact Hconfig |]. split.
    + apply Math_acos_defined in Eacos as [Hx _]. rewrite sin_PI_x in Hx. lra.
    + exists (ArchytasTransverseCircle.circlePlane this). split.
      * apply (f_equal ArchytasTransverseCircle.points_circlePlane) in Hpoints.
        cbn [ArchytasTransverseCircle.points_circlePlane] in Hpoints.
        rewrite Hpoints, updatePointsAndDirections_yHat. exact Hy.
      * rewrite Hconfig. reflexivity.
Qed.



(** ** The point P of the two circles *)

(** X19.  For the same origin, plane, radius and angle, the transverse
    circle and the base circle compute the same point P. *)
Theorem X19_circles_agree_on_P
    (baseConfig : ArchytasBaseCircle.BaseCircleConfiguration)
    (transverseConfig : ArchytasTransverseCircle.TransverseCircleConfiguration)
    (circlePlane : PlaneDirections.t ColumnVector3.t) (angleOapCompliment_rad : R) :
  ArchytasTransverseCircle.origin transverseConfig = ArchytasBaseCircle.origin baseConfig ->
  ArchytasTransverseCircle.baseCirclePlane transverseConfig
  = ArchytasBaseCircle.plane baseConfig ->
  ArchytasTransverseCircle.radius transverseConfig = ArchytasBaseCircle.radius baseConfig ->
  ArchytasTransverseCircle.points_ptP
    (ArchytasTransverseCircle.updatePointsAndDirections transverseConfig circlePlane
       angleOapCompliment_rad)
  = fst (ArchytasBaseCircle.updatePointsAndDirections baseConfig
           (ArchytasBaseCircle.center (ArchytasBaseCircle.new baseConfig))
           angleOapCompliment_rad).
Proof.
  destruct baseConfig as [positioner [a0 a1 a2] [[x0 x1 x2] [y0 y1 y2]] range r].
  destruct transverseConfig as [positioner' A' plane' range' r'].
  cbn [ArchytasTransverseCircle.origin ArchytasTransverseCircle.baseCirclePlane
       ArchytasTransverseCircle.radius ArchytasBaseCircle.origin ArchytasBaseCircle.plane
       ArchytasBaseCircle.radius].
  intros -> -> ->.
  unfold ArchytasBaseCircle.new. cbv zeta.
  destruct (ArchytasBaseCircle.updatePointsAndDirections _ _ 0) as [P0 Q0].
  cbn [ArchytasBaseCircle.center].
  unfold ArchytasTransverseCircle.updatePointsAndDirections,
    ArchytasTransverseCircle.updatePtP, ArchytasTransverseCircle.updateCirclePlane,
    ArchytasBaseCircle.updatePointsAndDirections.
  cbv zeta.
  cbn [fst ArchytasTransverseCircle.points_ptP ArchytasTransverseCircle.origin
       ArchytasTransverseCircle.baseCirclePlane ArchytasTransverseCircle.radius
       ArchytasBaseCircle.origin ArchytasBaseCircle.plane ArchytasBaseCircle.radius
       PlaneDirections.xHat PlaneDirections.yHat].
  rewrite cos_2a_sin, sin_2a.
  set (c := cos angleOapCompliment_rad). set (s := sin angleOapCompliment_rad).
  vec_simpl. apply ColumnVector3_eq; ring.
Qed.

Lemma X19_circles_agree_on_P_witness :
  let baseConfig :=
    ArchytasBaseCircle.mkConfiguration (fun _ _ => (0, 0)%Z) (ColumnVector3.mk 0 0 0)
      (PlaneDirections.mk (ColumnVector3.mk 1 0 0) (ColumnVector3.mk 0 1 0))
      (ConstStepRange.new 0 PI 4) 1 in
  let transverseConfig :=
    ArchytasTransverseCircle.mkConfiguration (fun _ _ => (0, 0)%Z) (ColumnVector3.mk 0 0 0)
      (PlaneDirections.mk (ColumnVector3.mk 1 0 0) (ColumnVector3.mk 0 1 0))
      (TransverseCircleAngleRange.new (ConstStepRange.new 0 (PI / 2) 2) 10) 1 in
  ArchytasTransverseCircle.points_ptP
    (ArchytasTransverseCircle.updatePointsAndDirections transverseConfig
       (ArchytasTransverseCircle.circlePlane (ArchytasTransverseCircle.new transverseConfig))
       1)
  = fst (ArchytasBaseCircle.updatePointsAndDirections baseConfig
           (ArchytasBaseCircle.center (ArchytasBaseCircle.new baseConfig)) 1).
Proof.
  apply X19_circles_agree_on_P; reflexivity.
Defined.

(** ** The points Q and T of the cone *)

Lemma unitVecAtAngle_unit (plane : PlaneDirections.t ColumnVector3.t) (angle_rad : R) :
  orthonormalPlane plane ->
  ColumnVector3.vectorDot (PlaneDirections.unitVecAtAngle plane angle_rad)
    (PlaneDirections.unitVecAtAngle plane angle_rad) = 1
  /\ ColumnVector3.vectorDot (PlaneDirections.unitVecAtAngle plane angle_rad)
       (PlaneDirections.zHat plane) = 0.
Proof.
  destruct plane as [[x0 x1 x2] [y0 y1 y2]].
  unfold orthonormalPlane, PlaneDirections.unitVecAtAngle, PlaneDirections.zHat.
  vec_simpl. intros (Hxx & Hyy & Hxy).
  pose proof (sin2_cos2 angle_rad) as Hsc. unfold Rsqr in Hsc.
  set (c := cos angle_rad) in *. set (s := sin angle_rad) in *. clearbody c s.
  split; nsatz.
Qed.

Lemma zHat_unit_of_orthonormal (plane : PlaneDirections.t ColumnVector3.t) :
  orthonormalPlane plane ->
  ColumnVector3.vectorDot (PlaneDirections.zHat plane) (PlaneDirections.zHat plane) = 1.
Proof.
  destruct plane as [[x0 x1 x2] [y0 y1 y2]].
  unfold orthonormalPlane, PlaneDirections.zHat.
  vec_simpl. intros (Hxx & Hyy & Hxy). nsatz.
Qed.

(** X20.  For an orthonormal transverse plane, [updatePts] puts Q on the
    axis of the cone at the distance [2 * cylinderRadius * sin^2] of the
    angle from the apex A, and T in the plane through Q perpendicular to
    the axis at the distance [AQ * |tan (apexAngle / 2)|] from Q: T lies on
    the cone. *)
Theorem X20_cone_points_lie_on_the_cone
    (config : ArchytasCone.ConeConfiguration) (oapAngleCompliment_rad : R) :
  orthonormalPlane (ArchytasCone.transversePlane config) ->
  let A := ArchytasCone.origin config in
  let Q := fst (ArchytasCone.updatePts config oapAngleCompliment_rad) in
  let T := snd (ArchytasCone.updatePts config oapAngleCompliment_rad) in
  let lenAq :=
    2 * ArchytasCone.cylinderRadius config
    * (sin oapAngleCompliment_rad * sin oapAngleCompliment_rad) in
  Q = ColumnVector3.addScaled A (ArchytasCone._zHat config) (- lenAq)
  /\ ColumnVector3.distanceTo A Q = Rabs lenAq
  /\ ColumnVector3.vectorDot (ColumnVector3.subtract T Q) (ArchytasCone._zHat config) = 0
  /\ ColumnVector3.distanceTo Q T
     = ColumnVector3.distanceTo A Q * Rabs (tan (ArchytasCone.apexAngle_rad config / 2)).
Proof.
  intros Hplane. cbv zeta.
  unfold ArchytasCone.updatePts. cbv zeta. cbn [fst snd].
  set (phi := ArchytasCone.centralAngleForAngleOAP_rad (PI / 2 - oapAngleCompliment_rad)).
  assert (El : ArchytasCone.cylinderRadius config
               * (1 + cos (2 * (PI / 2 - oapAngleCompliment_rad)))
               = 2 * ArchytasCone.cylinderRadius config
                 * (sin oapAngleCompliment_rad * sin oapAngleCompliment_rad)).
  { replace (2 * (PI / 2 - oapAngleCompliment_rad))
      with (PI - 2 * oapAngleCompliment_rad) by field.
    replace (PI - 2 * oapAngleCompliment_rad) with (- (2 * oapAngleCompliment_rad) + PI)
      by ring.
    rewrite neg_cos, cos_neg, cos_2a_sin. ring. }
  rewrite El. clear El.
  set (l := 2 * ArchytasCone.cylinderRadius config
            * (sin oapAngleCompliment_rad * sin oapAngleCompliment_rad)).
  clearbody l.
  unfold ArchytasCone.vertexOnAxisAtHeight, ArchytasCone.vertexAtCentralAngleAndHeight.
  cbv zeta.
  destruct (unitVecAtAngle_unit (ArchytasCone.transversePlane config) phi Hplane)
    as [Huu Huz].
  pose proof (zHat_unit_of_orthonormal _ Hplane) as Hzz.
  set (u := PlaneDirections.unitVecAtAngle (ArchytasCone.transversePlane config) phi) in *.
  clearbody u. clear phi.
  set (k := tan (ArchytasCone.apexAngle_rad config / 2)). clearbody k.
  assert (Hz : ColumnVector3.vectorDot (ArchytasCone._zHat config) (ArchytasCone._zHat config) = 1
               /\ ColumnVector3.vectorDot u (ArchytasCone._zHat config) = 0).
  { unfold ArchytasCone._zHat. destruct (ArchytasCone.invertZ config).
    - destruct (PlaneDirections.zHat (ArchytasCone.transversePlane config)) as [z0 z1 z2].
      destruct u as [u0 u1 u2]. revert Hzz Huz. vec_simpl. intros Hzz Huz. split; nsatz.
    - split; assumption. }
  destruct Hz as [Hzz' Huz'].
  set (z := ArchytasCone._zHat config) in *. clearbody z.
  clear Hzz Huz Hplane.
  destruct (ArchytasCone.origin config) as [a0 a1 a2].
  destruct z as [z0 z1 z2], u as [u0 u1 u2].
  revert Huu Hzz' Huz'. vec_simpl. intros Huu Hzz Huz.
  assert (HdAQ : ColumnVector3.distanceTo (ColumnVector3.mk a0 a1 a2)
                   (ColumnVector3.mk (- l * z0 + a0) (- l * z1 + a1) (- l * z2 + a2))
                 = Rabs l).
  { apply distanceTo_of_square. vec_simpl. nsatz. }
  repeat split.
  - apply ColumnVector3_eq; ring.
  - exact HdAQ.
  - nsatz.
  - rewrite HdAQ, <- Rabs_mult.
    apply distanceTo_of_square. vec_simpl. nsatz.
Qed.

Lemma X20_cone_points_lie_on_the_cone_witness :
  let config := sample_cone in
  let A := ArchytasCone.origin config in
  let Q := fst (ArchytasCone.updatePts config 1) in
  let T := snd (ArchytasCone.updatePts config 1) in
  let lenAq := 2 * ArchytasCone.cylinderRadius config * (sin 1 * sin 1) in
  Q = ColumnVector3.addScaled A (ArchytasCone._zHat config) (- lenAq)
  /\ ColumnVector3.distanceTo A Q = Rabs lenAq
  /\ ColumnVector3.vectorDot (ColumnVector3.subtract T Q) (ArchytasCone._zHat config) = 0
  /\ ColumnVector3.distanceTo Q T
     = ColumnVector3.distanceTo A Q * Rabs (tan (ArchytasCone.apexAngle_rad config / 2)).
Proof.
  apply (X20_cone_points_lie_on_the_cone sample_cone 1).
  unfold orthonormalPlane, sample_cone, ArchytasCone.newConfiguration.
  cbn [ArchytasCone.transversePlane]. vec_simpl. repeat split; ring.
Defined.

(** ** The label offsets *)

(** X21.  For an angle in [[0, PI/2]], [updateLabelPositions] keeps the
    horizontal offset of every label within [[-0.85, 0.85]]: that of P in
    [[-0.85, 0.85]], of Q in [[-0.5, 0.5]], of R in [[0, 0.85]], of S in
    [[-0.85, 0]] and of T in [[-0.5, 0]]. *)
Theorem X21_label_offsets_stay_bounded (angleOapCompliment_rad : R) :
  0 <= angleOapCompliment_rad <= PI / 2 ->
  let offsets := ArchytasModel.updateLabelPositions angleOapCompliment_rad in
  -0.85 <= ArchytasModel.offset_ptP offsets <= 0.85
  /\ -0.5 <= ArchytasModel.offset_ptQ offsets <= 0.5
  /\ 0 <= ArchytasModel.offset_ptR offsets <= 0.85
  /\ -0.85 <= ArchytasModel.offset_ptS offsets <= 0
  /\ -0.5 <= ArchytasModel.offset_ptT offsets <= 0.
Proof.
  intros [H0 H1]. pose proof PI_RGT_0 as Hpi.
  unfold ArchytasModel.updateLabelPositions. cbv zeta.
  cbn [ArchytasModel.offset_ptP ArchytasModel.offset_ptQ ArchytasModel.offset_ptR
       ArchytasModel.offset_ptS ArchytasModel.offset_ptT].
  assert (Ht0 : 0 <= angleOapCompliment_rad / PI * 2).
  { apply Rmult_le_pos; [| lra]. apply Rmult_le_pos; [lra |].
    left. apply Rinv_0_lt_compat. exact Hpi. }
  assert (Ht1 : angleOapCompliment_rad / PI * 2 <= 1).
  { apply Rmult_le_reg_r with PI; [exact Hpi |].
    replace (angleOapCompliment_rad / PI * 2 * PI) with (2 * angleOapCompliment_rad)
      by (field; lra).
    lra. }
  set (t := angleOapCompliment_rad / PI * 2) in *. clearbody t.
  assert (Htt : 0 <= t * (1 - t)) by (apply Rmult_le_pos; lra).
  assert (Ht2 : 0 <= t * t) by (apply Rmult_le_pos; lra).
  assert (Hmid : 0 <= (2 * t - 1) * (2 * t - 1)) by apply Rle_0_sqr.
  repeat split; lra.
Qed.

Lemma X21_label_offsets_stay_bounded_witness :
  let offsets := ArchytasModel.updateLabelPositions 0 in
  -0.85 <= ArchytasModel.offset_ptP offsets <= 0.85
  /\ -0.5 <= ArchytasModel.offset_ptQ offsets <= 0.5
  /\ 0 <= ArchytasModel.offset_ptR offsets <= 0.85
  /\ -0.85 <= ArchytasModel.offset_ptS offsets <= 0
  /\ -0.5 <= ArchytasModel.offset_ptT offsets <= 0.
Proof.
  apply (X21_label_offsets_stay_bounded 0). pose proof PI_RGT_0. lra.
Defined.

(** ** Turning the basis of a plane *)

(** X22.  [rotateByAngle_rad] turns an orthonormal basis of a plane within
    the plane: the new basis is orthonormal, has the same normal [zHat]
    and the same answer of [isXyProjectionInRightDirection], its x
    direction is the old direction at the angle, and a direction at an
    angle in the new basis is the direction at the sum of the two angles in
    the old one. *)
Theorem X22_rotateByAngle_rad_turns_the_basis
    (plane : PlaneDirections.t ColumnVector3.t) (angle_rad other_rad : R) :
  orthonormalPlane plane ->
  let rotated := PlaneDirections_rotateByAngle_rad plane angle_rad in
  orthonormalPlane rotated
  /\ PlaneDirections.zHat rotated = PlaneDirections.zHat plane
  /\ PlaneDirections.unitVecAtAngle rotated other_rad
     = PlaneDirections.unitVecAtAngle plane (angle_rad + other_rad)
  /\ PlaneDirections.angleForVector_rad rotated
       (PlaneDirections.unitVecAtAngle plane angle_rad) = 0
  /\ PlaneDirections_isXyProjectionInRightDirection rotated
     = PlaneDirections_isXyProjectionInRightDirection plane.
Proof.
  destruct plane as [[x0 x1 x2] [y0 y1 y2]].
  unfold orthonormalPlane. vec_simpl. intros (Hxx & Hyy & Hxy). cbv zeta.
  pose proof (sin2_cos2 angle_rad) as Hsc. unfold Rsqr in Hsc.
  unfold PlaneDirections_rotateByAngle_rad, PlaneDirections_isXyProjectionInRightDirection,
    PlaneDirections.unitVecAtAngle, PlaneDirections.angleForVector_rad.
  cbv zeta. vec_simpl.
  rewrite cos_plus, sin_plus.
  set (c := cos angle_rad) in *. set (s := sin angle_rad) in *.
  set (c' := cos other_rad). set (s' := sin other_rad).
  clearbody c s c' s'.
  split; [repeat split; nsatz |].
  split; [apply ColumnVector3_eq; nsatz |].
  split; [apply ColumnVector3_eq; ring |].
  split.
  - replace (0 + (- s * x0 + c * y0) * (c * x0 + s * y0)
               + (- s * x1 + c * y1) * (c * x1 + s * y1)
               + (- s * x2 + c * y2) * (c * x2 + s * y2)) with 0 by nsatz.
    replace (0 + (c * x0 + s * y0) * (c * x0 + s * y0)
               + (c * x1 + s * y1) * (c * x1 + s * y1)
               + (c * x2 + s * y2) * (c * x2 + s * y2)) with 1 by nsatz.
    unfold Math.atan2. destruct (Rlt_dec 0 1) as [_ | H]; [| lra].
    replace (0 / 1) with 0 by field. apply atan_0.
  - f_equal. nsatz.
Qed.

Lemma X22_rotateByAngle_rad_turns_the_basis_witness :
  let plane := PlaneDirections.mk (ColumnVector3.mk 1 0 0) (ColumnVector3.mk 0 1 0) in
  let rotated := PlaneDirections_rotateByAngle_rad plane (PI / 4) in
  orthonormalPlane rotated
  /\ PlaneDirections.zHat rotated = PlaneDirections.zHat plane
  /\ PlaneDirections.unitVecAtAngle rotated (PI / 4)
     = PlaneDirections.unitVecAtAngle plane (PI / 4 + PI / 4)
  /\ PlaneDirections.angleForVector_rad rotated
       (PlaneDirections.unitVecAtAngle plane (PI / 4)) = 0
  /\ PlaneDirections_isXyProjectionInRightDirection rotated
     = PlaneDirections_isXyProjectionInRightDirection plane.
Proof.
  apply (X22_rotateByAngle_rad_turns_the_basis
           (PlaneDirections.mk (ColumnVector3.mk 1 0 0) (ColumnVector3.mk 0 1 0))
           (PI / 4) (PI / 4)).
  exact xy_plane_orthonormal.
Defined.

(** ** The points Q, R and T of the assembled model *)


Lemma transverseCircle_reachable_yHat
    (config : ArchytasTransverseCircle.TransverseCircleConfiguration)
    (this : ArchytasTransverseCircle.t) :
  transverseCircle_reachable config this ->
  PlaneDirections.yHat (ArchytasTransverseCircle.circlePlane this)
  = ColumnVector3.multiplyScalar
      (PlaneDirections.zHat (ArchytasTransverseCircle.baseCirclePlane config)) (-1).
Proof.
  intros Hreach.
  destruct (transverseCircle_reachable_points config this Hreach)
    as (_ & _ & plane0 & Hy & Hpoints).
  injection Hpoints as Hcp _ _ _ _.
  rewrite Hcp. unfold ArchytasTransverseCircle.updateCirclePlane.
  cbn [PlaneDirections.yHat]. exact Hy.
Qed.


Lemma sample_baseCircle_orthonormal :
  orthonormalPlane (ArchytasBaseCircle.plane sample_baseCircle).
Proof.
  unfold orthonormalPlane, sample_baseCircle. cbn [ArchytasBaseCircle.plane].
  vec_simpl. repeat split; ring.
Qed.


(** ** The vertex buffers of the solids *)

Lemma readVertexAndNormal_write_same (this : CoordsArrayVertexAndNormalWriter.t)
    (vertexIdx : Z) (vertex : VertexAndNormal.t) :
  (0 <= vertexIdx)%Z ->
  (vertexIdx * 3 + 2
   < Z.of_nat (length (CoordsArrayVertexAndNormalWriter.outputVertexCoords this)))%Z ->
  (vertexIdx * 3 + 2
   < Z.of_nat (length (CoordsArrayVertexAndNormalWriter.outputNormalCoords this)))%Z ->
  CoordsArrayVertexAndNormalWriter_readVertex
    (CoordsArrayVertexAndNormalWriter.writeVertex this vertexIdx vertex) vertexIdx
  = vertex.
Proof.
  intros H0 Hv Hn. destruct vertex as [[v0 v1 v2] [n0 n1 n2]].
  unfold CoordsArrayVertexAndNormalWriter_readVertex,
    CoordsArrayVertexAndNormalWriter.writeVertex, COORDS_PER_VERTEX.
  cbv zeta.
  cbn [CoordsArrayVertexAndNormalWriter.outputVertexCoords
       CoordsArrayVertexAndNormalWriter.outputNormalCoords
       VertexAndNormal.vertex VertexAndNormal.normal
       ColumnVector3.x ColumnVector3.y ColumnVector3.z].
  f_equal; apply ColumnVector3_eq.
  - rewrite !Float32Array_get_set_other by lia.
    apply Float32Array_get_set_same. lia.
  - rewrite Float32Array_get_set_other by lia.
    apply Float32Array_get_set_same. rewrite Float32Array_set_length. lia.
  - apply Float32Array_get_set_same. rewrite !Float32Array_set_length. lia.
  - rewrite !Float32Array_get_set_other by lia.
    apply Float32Array_get_set_same. lia.
  - rewrite Float32Array_get_set_other by lia.
    apply Float32Array_get_set_same. rewrite Float32Array_set_length. lia.
  - apply Float32Array_get_set_same. rewrite !Float32Array_set_length. lia.
Qed.

Lemma readVertexAndNormal_write_other (this : CoordsArrayVertexAndNormalWriter.t)
    (vertexIdx other : Z) (vertex : VertexAndNormal.t) :
  vertexIdx <> other ->
  CoordsArrayVertexAndNormalWriter_readVertex
    (CoordsArrayVertexAndNormalWriter.writeVertex this vertexIdx vertex) other
  = CoordsArrayVertexAndNormalWriter_readVertex this other.
Proof.
  intros Hne.
  unfold CoordsArrayVertexAndNormalWriter_readVertex,
    CoordsArrayVertexAndNormalWriter.writeVertex, COORDS_PER_VERTEX.
  cbv zeta.
  cbn [CoordsArrayVertexAndNormalWriter.outputVertexCoords
       CoordsArrayVertexAndNormalWriter.outputNormalCoords].
  f_equal; apply ColumnVector3_eq; rewrite !Float32Array_get_set_other by lia; reflexivity.
Qed.

Lemma writerLengths_room (w : CoordsArrayVertexAndNormalWriter.t) (Lv Ln : nat) :
  writerLengths w = (Lv, Ln) ->
  length (CoordsArrayVertexAndNormalWriter.outputVertexCoords w) = Lv
  /\ length (CoordsArrayVertexAndNormalWriter.outputNormalCoords w) = Ln.
Proof. unfold writerLengths. intros [= <- <-]. split; reflexivity. Qed.

(** The loop of [VertexCalculator.calculateVertices], for a slice
    calculator that keeps to the vertices of its slice. *)
Section SlicedVertices.

Context {Range : Type} `{ValueRange.t Range}.
Variable calculator : VertexCalculator.t Range.
Variables (sharedCount perSlice : Z).
Variable expected : R -> Z -> VertexAndNormal.t.
Variable room : nat.

Let slice := VertexCalculator.slice calculator.

Hypothesis sharedCount_nonneg : (0 <= sharedCount)%Z.
Hypothesis perSlice_nonneg : (0 <= perSlice)%Z.
Hypothesis startVertexIndex_affine :
  forall sliceIdx,
    SliceVertexCalculator.startVertexIndex slice sliceIdx
    = (sharedCount + perSlice * sliceIdx)%Z.
Hypothesis slice_lengths :
  forall parameter vertexWriter vertexStartIdx,
    writerLengths
      (SliceVertexCalculator.calculateVertices slice parameter vertexWriter vertexStartIdx)
    = writerLengths vertexWriter.
Hypothesis slice_frame :
  forall parameter vertexWriter vertexStartIdx other,
    (other < vertexStartIdx \/ vertexStartIdx + perSlice <= other)%Z ->
    CoordsArrayVertexAndNormalWriter_readVertex
      (SliceVertexCalculator.calculateVertices slice parameter vertexWriter vertexStartIdx)
      other
    = CoordsArrayVertexAndNormalWriter_readVertex vertexWriter other.
Hypothesis slice_content :
  forall parameter vertexWriter vertexStartIdx k,
    writerLengths vertexWriter = (room, room) ->
    (0 <= vertexStartIdx)%Z ->
    ((vertexStartIdx + perSlice) * 3 <= Z.of_nat room)%Z ->
    (0 <= k < perSlice)%Z ->
    CoordsArrayVertexAndNormalWriter_readVertex
      (SliceVertexCalculator.calculateVertices slice parameter vertexWriter vertexStartIdx)
      (vertexStartIdx + k)
    = expected parameter k.
Hypothesis shared_lengths :
  forall vertexWriter,
    writerLengths (VertexCalculator.calculateSharedVertices calculator vertexWriter 0)
    = writerLengths vertexWriter.

Lemma sliced_calculateVertices (vertexWriter : CoordsArrayVertexAndNormalWriter.t) :
  writerLengths vertexWriter = (room, room) ->
  (0 <= VertexCalculator.sliceCount calculator)%Z ->
  ((sharedCount + perSlice * VertexCalculator.sliceCount calculator) * 3
   <= Z.of_nat room)%Z ->
  let written := VertexCalculator.calculateVertices calculator vertexWriter in
  writerLengths written = (room, room)
  /\ (forall k, (0 <= k < sharedCount)%Z ->
        CoordsArrayVertexAndNormalWriter_readVertex written k
        = CoordsArrayVertexAndNormalWriter_readVertex
            (VertexCalculator.calculateSharedVertices calculator vertexWriter 0) k)
  /\ (forall sliceIdx k,
        (0 <= sliceIdx < VertexCalculator.sliceCount calculator)%Z ->
        (0 <= k < perSlice)%Z ->
        CoordsArrayVertexAndNormalWriter_readVertex written
          (sharedCount + perSlice * sliceIdx + k)
        = expected
            (ValueRange.atStep (SliceVertexCalculator.sliceParameterRange slice) sliceIdx)
            k).
Proof.
  intros Hlen Hcount Hroom.
  set (n := VertexCalculator.sliceCount calculator) in *.
  set (w0 := VertexCalculator.calculateSharedVertices calculator vertexWriter 0).
  pose (P := fun (j : Z) (w : CoordsArrayVertexAndNormalWriter.t) =>
               (0 <= j)%Z
               /\ writerLengths w = (room, room)
               /\ (forall k, (0 <= k < sharedCount)%Z ->
                     CoordsArrayVertexAndNormalWriter_readVertex w k
                     = CoordsArrayVertexAndNormalWriter_readVertex w0 k)
               /\ (forall sliceIdx k, (0 <= sliceIdx < j)%Z -> (0 <= k < perSlice)%Z ->
                     CoordsArrayVertexAndNormalWriter_readVertex w
                       (sharedCount + perSlice * sliceIdx + k)
                     = expected
                         (ValueRange.atStep
                            (SliceVertexCalculator.sliceParameterRange slice) sliceIdx)
                         k)).
  assert (Hloop : P (0 + Z.of_nat (Z.to_nat n))%Z
                    (VertexCalculator.calculateVertices calculator vertexWriter)).
  { unfold VertexCalculator.calculateVertices. cbv zeta. fold n. fold slice. fold w0.
    apply (forLoop_indexed P _ n).
    - intros j w Hj (Hj0 & Hl & Hshared & Hslices).
      rewrite startVertexIndex_affine.
      split; [lia |]. split; [rewrite slice_lengths; exact Hl |]. split.
      + intros k Hk. rewrite slice_frame by nia. apply Hshared. exact Hk.
      + intros sliceIdx k Hs Hk.
        destruct (Z.eq_dec sliceIdx j) as [-> | Hne].
        * apply slice_content; [exact Hl | nia | nia | exact Hk].
        * rewrite slice_frame by nia. apply Hslices; lia.
    - lia.
    - split; [lia |]. split; [unfold w0; rewrite shared_lengths; exact Hlen |].
      split; [reflexivity |]. intros sliceIdx k Hs. lia. }
  destruct Hloop as (_ & Hl & Hshared & Hslices). cbv zeta.
  split; [exact Hl |]. split; [exact Hshared |].
  intros sliceIdx k Hs Hk. apply Hslices; lia.
Qed.

End SlicedVertices.

Lemma vertexWriter_of_new (vertexCount : Z)
    (calculateVertices :
       CoordsArrayVertexAndNormalWriter.t -> CoordsArrayVertexAndNormalWriter.t) :
  SurfaceVertexCoords.vertexWriter (SurfaceVertexCoords.new vertexCount calculateVertices)
  = calculateVertices
      (CoordsArrayVertexAndNormalWriter.mk
         (Float32Array.new (vertexCount * COORDS_PER_VERTEX))
         (Float32Array.new (vertexCount * COORDS_PER_VERTEX))).
Proof.
  unfold SurfaceVertexCoords.vertexWriter, SurfaceVertexCoords.new. cbv zeta.
  cbn [SurfaceVertexCoords.vertexCoords SurfaceVertexCoords.normalCoords].
  destruct (calculateVertices _). reflexivity.
Qed.

Lemma blank_writer_lengths (vertexCount : Z) :
  writerLengths
    (CoordsArrayVertexAndNormalWriter.mk
       (Float32Array.new (vertexCount * COORDS_PER_VERTEX))
       (Float32Array.new (vertexCount * COORDS_PER_VERTEX)))
  = (Z.to_nat (vertexCount * 3), Z.to_nat (vertexCount * 3)).
Proof.
  unfold writerLengths, COORDS_PER_VERTEX.
  cbn [CoordsArrayVertexAndNormalWriter.outputVertexCoords
       CoordsArrayVertexAndNormalWriter.outputNormalCoords].
  rewrite Float32Array_new_length. reflexivity.
Qed.

(** The two vertices of the cylinder's generatrix at a secant angle. *)
Lemma cylinder_slice_content {Range : Type} `{ValueRange.t Range}
    (config : ArchytasCylinder.CylinderConfiguration Range) (room : nat)
    (secantAngle_rad : R) (vertexWriter : CoordsArrayVertexAndNormalWriter.t)
    (vertexStartIdx k : Z) :
  writerLengths vertexWriter = (room, room) ->
  (0 <= vertexStartIdx)%Z ->
  ((vertexStartIdx + 2) * 3 <= Z.of_nat room)%Z ->
  (0 <= k < 2)%Z ->
  let plane := ArchytasCylinder.transversePlane config in
  let normal := PlaneDirections.unitVecAtAngle plane (PI - 2 * secantAngle_rad) in
  let foot :=
    ColumnVector3.addScaled (ArchytasCylinder.origin config) normal
      (ArchytasCylinder.radius config) in
  CoordsArrayVertexAndNormalWriter_readVertex
    (ArchytasCylinder.calculateVertices config secantAngle_rad vertexWriter vertexStartIdx)
    (vertexStartIdx + k)
  = VertexAndNormal.mk
      (if (k =? 0)%Z then foot
       else ColumnVector3.add foot
              (ColumnVector3.multiplyScalar (PlaneDirections.zHat plane)
                 (ArchytasCylinder.height config)))
      normal.
Proof.
  intros Hlen H0 Hroom Hk. cbv zeta.
  apply writerLengths_room in Hlen as [Hv Hn].
  unfold ArchytasCylinder.calculateVertices. cbv zeta.
  assert (Hk' : k = 0%Z \/ k = 1%Z) by lia.
  destruct Hk' as [-> | ->]; cbn [Z.eqb].
  - rewrite readVertexAndNormal_write_other by lia.
    replace (vertexStartIdx + 0)%Z with vertexStartIdx by lia.
    apply readVertexAndNormal_write_same; lia.
  - match goal with
    | |- CoordsArrayVertexAndNormalWriter_readVertex
           (CoordsArrayVertexAndNormalWriter.writeVertex ?w _ _) _ = _ =>
        destruct (writerLengths_room w room room) as [Hv' Hn'];
          [rewrite writeVertex_lengths; unfold writerLengths; rewrite Hv, Hn; reflexivity |]
    end.
    apply readVertexAndNormal_write_same; lia.
Qed.

Lemma cylinder_buffer {Range : Type} `{ValueRange.t Range}
    (config : ArchytasCylinder.CylinderConfiguration Range) (sliceIdx k : Z) :
  (0 <= sliceIdx <= ValueRange.stepCount (ArchytasCylinder.angle_rad config))%Z ->
  (0 <= k < 2)%Z ->
  let plane := ArchytasCylinder.transversePlane config in
  let secantAngle_rad := ValueRange.atStep (ArchytasCylinder.angle_rad config) sliceIdx in
  let normal := PlaneDirections.unitVecAtAngle plane (PI - 2 * secantAngle_rad) in
  let foot :=
    ColumnVector3.addScaled (ArchytasCylinder.origin config) normal
      (ArchytasCylinder.radius config) in
  CoordsArrayVertexAndNormalWriter_readVertex
    (SurfaceVertexCoords.vertexWriter (ArchytasCylinder.coords (ArchytasCylinder.new config)))
    (2 * sliceIdx + k)
  = VertexAndNormal.mk
      (if (k =? 0)%Z then foot
       else ColumnVector3.add foot
              (ColumnVector3.multiplyScalar (PlaneDirections.zHat plane)
                 (ArchytasCylinder.height config)))
      normal.
Proof.
  intros Hslice Hk. cbv zeta.
  unfold ArchytasCylinder.new. cbv zeta. cbn [ArchytasCylinder.coords].
  rewrite vertexWriter_of_new.
  set (calculator := ArchytasCylinder.vertexCalculator config).
  set (n := ValueRange.stepCount (ArchytasCylinder.angle_rad config)) in *.
  assert (Hcount : VertexCalculator.sliceCount calculator = (n + 1)%Z) by reflexivity.
  assert (Hvc : VertexCalculator.vertexCount calculator = (2 * (n + 2))%Z).
  { unfold VertexCalculator.vertexCount. rewrite Hcount.
    cbn [VertexCalculator.slice calculator ArchytasCylinder.vertexCalculator
         VertexCalculator.new ArchytasCylinder.slice
         SliceVertexCalculator.startVertexIndex].
    unfold ArchytasCylinder.vertexCount. lia. }
  pose proof (sliced_calculateVertices calculator 0 2
                (fun parameter k =>
                   let normal :=
                     PlaneDirections.unitVecAtAngle
                       (ArchytasCylinder.transversePlane config) (PI - 2 * parameter) in
                   let foot :=
                     ColumnVector3.addScaled (ArchytasCylinder.origin config) normal
                       (ArchytasCylinder.radius config) in
                   VertexAndNormal.mk
                     (if (k =? 0)%Z then foot
                      else ColumnVector3.add foot
                             (ColumnVector3.multiplyScalar
                                (PlaneDirections.zHat
                                   (ArchytasCylinder.transversePlane config))
                                (ArchytasCylinder.height config)))
                     normal)
                (Z.to_nat (VertexCalculator.vertexCount calculator * 3))) as Hsliced.
  cbv zeta in Hsliced.
  destruct Hsliced
    with (vertexWriter :=
            CoordsArrayVertexAndNormalWriter.mk
              (Float32Array.new
                 (VertexCalculator.vertexCount calculator * COORDS_PER_VERTEX))
              (Float32Array.new
                 (VertexCalculator.vertexCount calculator * COORDS_PER_VERTEX)))
    as (_ & _ & Hread).
  - lia.
  - lia.
  - intros i. unfold ArchytasCylinder.vertexCount. reflexivity.
  - intros parameter w s. apply cylinder_calculateVertices_lengths.
  - intros parameter w s other Hother.
    cbn [VertexCalculator.slice calculator ArchytasCylinder.vertexCalculator
         VertexCalculator.new ArchytasCylinder.slice
         SliceVertexCalculator.calculateVertices].
    unfold ArchytasCylinder.calculateVertices. cbv zeta.
    rewrite !readVertexAndNormal_write_other by lia. reflexivity.
  - intros parameter w s j Hlen Hs Hroom Hj.
    apply (cylinder_slice_content config _ parameter w s j Hlen Hs Hroom Hj).
  - intros w. reflexivity.
  - apply blank_writer_lengths.
  - rewrite Hcount. lia.
  - rewrite Hcount, Hvc. lia.
  - replace (2 * sliceIdx + k)%Z with (0 + 2 * sliceIdx + k)%Z by lia.
    apply Hread; [rewrite Hcount; lia | exact Hk].
Qed.

Lemma cos_supplement (x : R) : cos (PI - x) = - cos x.
Proof. replace (PI - x) with (- x + PI) by ring. rewrite neg_cos, cos_neg. reflexivity. Qed.

Lemma sin_supplement (x : R) : sin (PI - x) = sin x.
Proof. replace (PI - x) with (- x + PI) by ring. rewrite neg_sin, sin_neg. ring. Qed.

(** X24.  In the buffers of a new cylinder with an orthonormal transverse
    plane, the vertices [2 i] and [2 i + 1] of each slice [i] from [0] to
    [stepCount] are the two ends of the generatrix at the secant angle of
    step [i]: the lower one is the end of the chord of length
    [2 r cos angle] drawn, at that angle to the diameter, from the point of
    the base circle at central angle [0]; the upper one stands [height]
    above it along the axis; they share the normal, the unit vector from
    the axis to the lower vertex. *)
Theorem X24_cylinder_buffer_holds_the_generatrices {Range : Type} `{ValueRange.t Range}
    (config : ArchytasCylinder.CylinderConfiguration Range) (sliceIdx : Z) :
  orthonormalPlane (ArchytasCylinder.transversePlane config) ->
  (0 <= sliceIdx <= ValueRange.stepCount (ArchytasCylinder.angle_rad config))%Z ->
  let buffer :=
    SurfaceVertexCoords.vertexWriter
      (ArchytasCylinder.coords (ArchytasCylinder.new config)) in
  let secantAngle_rad := ValueRange.atStep (ArchytasCylinder.angle_rad config) sliceIdx in
  let lower := CoordsArrayVertexAndNormalWriter_readVertex buffer (2 * sliceIdx) in
  let upper := CoordsArrayVertexAndNormalWriter_readVertex buffer (2 * sliceIdx + 1) in
  let plane := ArchytasCylinder.transversePlane config in
  let D :=
    ColumnVector3.addScaled (ArchytasCylinder.origin config) (PlaneDirections.xHat plane)
      (ArchytasCylinder.radius config) in
  VertexAndNormal.vertex lower
  = ColumnVector3.addScaled D (PlaneDirections.unitVecAtAngle plane (PI - secantAngle_rad))
      (2 * ArchytasCylinder.radius config * cos secantAngle_rad)
  /\ VertexAndNormal.vertex upper
     = ColumnVector3.addScaled (VertexAndNormal.vertex lower) (PlaneDirections.zHat plane)
         (ArchytasCylinder.height config)
  /\ VertexAndNormal.normal upper = VertexAndNormal.normal lower
  /\ VertexAndNormal.vertex lower
     = ColumnVector3.addScaled (ArchytasCylinder.origin config)
         (VertexAndNormal.normal lower) (ArchytasCylinder.radius config)
  /\ ColumnVector3.vectorDot (VertexAndNormal.normal lower) (VertexAndNormal.normal lower)
     = 1
  /\ ColumnVector3.vectorDot (VertexAndNormal.normal lower) (PlaneDirections.zHat plane)
     = 0.
Proof.
  intros Hplane Hslice. cbv zeta.
  pose proof (cylinder_buffer config sliceIdx 0 Hslice ltac:(lia)) as Hlower.
  pose proof (cylinder_buffer config sliceIdx 1 Hslice ltac:(lia)) as Hupper.
  cbv zeta in Hlower, Hupper. cbn [Z.eqb] in Hlower, Hupper.
  replace (2 * sliceIdx + 0)%Z with (2 * sliceIdx)%Z in Hlower by lia.
  rewrite Hlower, Hupper. clear Hlower Hupper.
  cbn [VertexAndNormal.vertex VertexAndNormal.normal].
  set (theta := ValueRange.atStep (ArchytasCylinder.angle_rad config) sliceIdx).
  clearbody theta.
  destruct config as [[o0 o1 o2] r [[x0 x1 x2] [y0 y1 y2]] range h].
  cbn [ArchytasCylinder.origin ArchytasCylinder.radius ArchytasCylinder.transversePlane
       ArchytasCylinder.height] in *.
  unfold orthonormalPlane in Hplane. revert Hplane.
  unfold PlaneDirections.unitVecAtAngle. vec_simpl.
  rewrite !cos_supplement, !sin_supplement, cos_2a_cos, sin_2a.
  pose proof (sin2_cos2 theta) as Hsc. unfold Rsqr in Hsc.
  set (c := cos theta) in *. set (s := sin theta) in *. clearbody c s.
  intros (Hxx & Hyy & Hxy).
  split; [apply ColumnVector3_eq; ring |].
  split; [apply ColumnVector3_eq; ring |].
  split; [reflexivity |].
  split; [reflexivity |].
  split; nsatz.
Qed.

Lemma sample_cylinder_orthonormal :
  orthonormalPlane (ArchytasCylinder.transversePlane sample_cylinder).
Proof.
  unfold orthonormalPlane, sample_cylinder. cbn [ArchytasCylinder.transversePlane].
  vec_simpl. repeat split; ring.
Qed.

Lemma X24_cylinder_buffer_holds_the_generatrices_witness :
  let config := sample_cylinder in
  let buffer :=
    SurfaceVertexCoords.vertexWriter
      (ArchytasCylinder.coords (ArchytasCylinder.new config)) in
  let secantAngle_rad := ValueRange.atStep (ArchytasCylinder.angle_rad config) 3 in
  let lower := CoordsArrayVertexAndNormalWriter_readVertex buffer (2 * 3) in
  let upper := CoordsArrayVertexAndNormalWriter_readVertex buffer (2 * 3 + 1) in
  let plane := ArchytasCylinder.transversePlane config in
  let D :=
    ColumnVector3.addScaled (ArchytasCylinder.origin config) (PlaneDirections.xHat plane)
      (ArchytasCylinder.radius config) in
  VertexAndNormal.vertex lower
  = ColumnVector3.addScaled D (PlaneDirections.unitVecAtAngle plane (PI - secantAngle_rad))
      (2 * ArchytasCylinder.radius config * cos secantAngle_rad)
  /\ VertexAndNormal.vertex upper
     = ColumnVector3.addScaled (VertexAndNormal.vertex lower) (PlaneDirections.zHat plane)
         (ArchytasCylinder.height config)
  /\ VertexAndNormal.normal upper = VertexAndNormal.normal lower
  /\ VertexAndNormal.vertex lower
     = ColumnVector3.addScaled (ArchytasCylinder.origin config)
         (VertexAndNormal.normal lower) (ArchytasCylinder.radius config)
  /\ ColumnVector3.vectorDot (VertexAndNormal.normal lower) (VertexAndNormal.normal lower)
     = 1
  /\ ColumnVector3.vectorDot (VertexAndNormal.normal lower) (PlaneDirections.zHat plane)
     = 0.
Proof.
  apply (X24_cylinder_buffer_holds_the_generatrices sample_cylinder 3).
  - exact sample_cylinder_orthonormal.
  - vm_compute. split; discriminate.
Defined.

(** ** The vertex buffer of the torus *)

Section TorusVertices.

Context {Range : Type} `{ValueRange.t Range}.
Variable config : ArchytasTorus.TorusConfiguration Range.

(** The vertex and the normal of the tube circle at a toroidal angle, at a
    step of the poloidal range. *)
Let tubeVertex (toroidalAngle_rad : R) (i : Z) : VertexAndNormal.t :=
  let xHat :=
    PlaneDirections.unitVecAtAngle (ArchytasTorus.toroidalPlane config) toroidalAngle_rad in
  let yHat := PlaneDirections.zHat (ArchytasTorus.toroidalPlane config) in
  let poloidalAngle_rad :=
    ConstStepRange.atStep (ArchytasTorus.poloidalAngle_rad config) i in
  let normal :=
    ColumnVector3.addScaled
      (ColumnVector3.addScaled (ColumnVector3.mk 0 0 0) xHat (cos poloidalAngle_rad))
      yHat (sin poloidalAngle_rad) in
  VertexAndNormal.mk
    (ColumnVector3.add
       (ColumnVector3.multiplyScalar
          (ColumnVector3.mk
             (0 + ColumnVector3.x normal + ColumnVector3.x xHat)
             (0 + ColumnVector3.y normal + ColumnVector3.y xHat)
             (0 + ColumnVector3.z normal + ColumnVector3.z xHat))
          (ArchytasTorus.radius config))
       (ArchytasTorus.origin config))
    normal.

Lemma torus_slice (room : nat) (toroidalAngle_rad : R)
    (vertexWriter : CoordsArrayVertexAndNormalWriter.t) (vertexStartIdx : Z) :
  writerLengths vertexWriter = (room, room) ->
  (0 <= vertexStartIdx)%Z ->
  (0 <= ArchytasTorus.uniqueVertexCount config)%Z ->
  ((vertexStartIdx + ArchytasTorus.uniqueVertexCount config) * 3 <= Z.of_nat room)%Z ->
  let written :=
    ArchytasTorus.calculateVertices config toroidalAngle_rad vertexWriter vertexStartIdx in
  (forall k, (0 <= k < ArchytasTorus.uniqueVertexCount config)%Z ->
     CoordsArrayVertexAndNormalWriter_readVertex written (vertexStartIdx + k)
     = tubeVertex toroidalAngle_rad k)
  /\ (forall other,
        (other < vertexStartIdx
         \/ vertexStartIdx + ArchytasTorus.uniqueVertexCount config <= other)%Z ->
        CoordsArrayVertexAndNormalWriter_readVertex written other
        = CoordsArrayVertexAndNormalWriter_readVertex vertexWriter other).
Proof.
  intros Hlen H0 Hm Hroom.
  unfold ArchytasTorus.uniqueVertexCount in *.
  set (m := ConstStepRange.stepCount (ArchytasTorus.poloidalAngle_rad config)) in *.
  pose (P := fun (j : Z) (w : CoordsArrayVertexAndNormalWriter.t) =>
               (0 <= j)%Z
               /\ writerLengths w = (room, room)
               /\ (forall k, (0 <= k < j)%Z ->
                     CoordsArrayVertexAndNormalWriter_readVertex w (vertexStartIdx + k)
                     = tubeVertex toroidalAngle_rad k)
               /\ (forall other, (other < vertexStartIdx \/ vertexStartIdx + m <= other)%Z ->
                     CoordsArrayVertexAndNormalWriter_readVertex w other
                     = CoordsArrayVertexAndNormalWriter_readVertex vertexWriter other)).
  assert (Hloop : P (0 + Z.of_nat (Z.to_nat m))%Z
                    (ArchytasTorus.calculateVertices config toroidalAngle_rad vertexWriter
                       vertexStartIdx)).
  { unfold ArchytasTorus.calculateVertices. cbv zeta. fold m.
    apply (forLoop_indexed P _ m).
    - intros j w Hj (Hj0 & Hl & Hdone & Hframe).
      apply writerLengths_room in Hl as Hl'. destruct Hl' as [Hv Hn].
      split; [lia |]. split; [rewrite writeVertex_lengths; exact Hl |]. split.
      + intros k Hk. destruct (Z.eq_dec k j) as [-> | Hne].
        * apply readVertexAndNormal_write_same; lia.
        * rewrite readVertexAndNormal_write_other by lia. apply Hdone. lia.
      + intros other Hother.
        rewrite readVertexAndNormal_write_other by lia. apply Hframe. exact Hother.
    - lia.
    - split; [lia |]. split; [exact Hlen |]. split; [intros k Hk; lia | reflexivity]. }
  destruct Hloop as (_ & _ & Hdone & Hframe). cbv zeta. split.
  - intros k Hk. apply Hdone. lia.
  - exact Hframe.
Qed.

Lemma torus_slice_frame (toroidalAngle_rad : R)
    (vertexWriter : CoordsArrayVertexAndNormalWriter.t) (vertexStartIdx other : Z) :
  (other < vertexStartIdx
   \/ vertexStartIdx + ArchytasTorus.uniqueVertexCount config <= other)%Z ->
  CoordsArrayVertexAndNormalWriter_readVertex
    (ArchytasTorus.calculateVertices config toroidalAngle_rad vertexWriter vertexStartIdx)
    other
  = CoordsArrayVertexAndNormalWriter_readVertex vertexWriter other.
Proof.
  intros Hother. unfold ArchytasTorus.uniqueVertexCount in Hother.
  set (m := ConstStepRange.stepCount (ArchytasTorus.poloidalAngle_rad config)) in *.
  pose (P := fun (j : Z) (w : CoordsArrayVertexAndNormalWriter.t) =>
               (0 <= j)%Z
               /\ CoordsArrayVertexAndNormalWriter_readVertex w other
                  = CoordsArrayVertexAndNormalWriter_readVertex vertexWriter other).
  assert (Hloop : P (0 + Z.of_nat (Z.to_nat m))%Z
                    (ArchytasTorus.calculateVertices config toroidalAngle_rad vertexWriter
                       vertexStartIdx)).
  { unfold ArchytasTorus.calculateVertices. cbv zeta. fold m.
    apply (forLoop_indexed P _ (Z.max 0 m)).
    - intros j w Hj (Hj0 & Hframe). split; [lia |].
      rewrite readVertexAndNormal_write_other by lia. exact Hframe.
    - lia.
    - split; [lia | reflexivity]. }
  exact (proj2 Hloop).
Qed.

Lemma torus_buffer (toroidalStepIdx k : Z) :
  let m := ConstStepRange.stepCount (ArchytasTorus.poloidalAngle_rad config) in
  let buffer :=
    SurfaceVertexCoords.vertexWriter (ArchytasTorus.coords (ArchytasTorus.new config)) in
  (0 <= toroidalStepIdx <= m)%Z ->
  (0 <= k < m)%Z ->
  CoordsArrayVertexAndNormalWriter_readVertex buffer 0
  = VertexAndNormal.mk (ArchytasTorus.origin config)
      (PlaneDirections.zHat (ArchytasTorus.toroidalPlane config))
  /\ CoordsArrayVertexAndNormalWriter_readVertex buffer (1 + m * toroidalStepIdx + k)
     = tubeVertex
         (ConstStepRange.atStep (ArchytasTorus.poloidalAngle_rad config) toroidalStepIdx) k.
Proof.
  intros m buffer Hslice Hk. subst buffer.
  unfold ArchytasTorus.new. cbv zeta. cbn [ArchytasTorus.coords].
  rewrite vertexWriter_of_new.
  set (calculator := ArchytasTorus.vertexCalculator config).
  assert (Hcount : VertexCalculator.sliceCount calculator = (m + 1)%Z) by reflexivity.
  assert (Hvc : VertexCalculator.vertexCount calculator = (1 + m * (m + 2))%Z).
  { unfold VertexCalculator.vertexCount. rewrite Hcount.
    cbn [VertexCalculator.slice calculator ArchytasTorus.vertexCalculator
         ArchytasTorus.slice SliceVertexCalculator.startVertexIndex].
    unfold ArchytasTorus.uniqueVertexCount. fold m. lia. }
  set (blank := CoordsArrayVertexAndNormalWriter.mk
                  (Float32Array.new
                     (VertexCalculator.vertexCount calculator * COORDS_PER_VERTEX))
                  (Float32Array.new
                     (VertexCalculator.vertexCount calculator * COORDS_PER_VERTEX))).
  assert (Hblank : writerLengths blank
                   = (Z.to_nat (VertexCalculator.vertexCount calculator * 3),
                      Z.to_nat (VertexCalculator.vertexCount calculator * 3)))
    by apply blank_writer_lengths.
  destruct (sliced_calculateVertices calculator 1 m tubeVertex
              (Z.to_nat (VertexCalculator.vertexCount calculator * 3)))
    with (vertexWriter := blank) as (_ & Hshared & Hread).
  - lia.
  - lia.
  - intros i. reflexivity.
  - intros parameter w s. apply torus_calculateVertices_lengths.
  - intros parameter w s other Hother.
    apply torus_slice_frame. exact Hother.
  - intros parameter w s j Hlen Hs Hroom Hj.
    apply (torus_slice _ parameter w s Hlen Hs);
      [unfold ArchytasTorus.uniqueVertexCount; fold m; lia | exact Hroom | exact Hj].
  - intros w. apply writeVertex_lengths.
  - exact Hblank.
  - rewrite Hcount. lia.
  - rewrite Hcount, Hvc. rewrite Z2Nat.id by nia. nia.
  - split.
    + rewrite Hshared by lia.
      cbn [VertexCalculator.calculateSharedVertices calculator
           ArchytasTorus.vertexCalculator].
      unfold ArchytasTorus.calculateSharedVertices.
      apply writerLengths_room in Hblank as [Hv Hn].
      apply readVertexAndNormal_write_same;
        [lia | rewrite Hv, Hvc, Z2Nat.id by nia; nia | rewrite Hn, Hvc, Z2Nat.id by nia; nia].
    + apply Hread; [rewrite Hcount; lia | exact Hk].
Qed.

End TorusVertices.

(** X25.  In the buffers of a new torus with an orthonormal toroidal
    plane, vertex [0] is the origin with the normal of the plane as its
    normal, and vertex [1 + m i + k] (with [m] the step count of the
    poloidal range, whose steps also give the toroidal angles of the
    slices) is the point of the tube circle of slice [i] at the poloidal
    angle of step [k]: it lies at the radius from the centre of the tube
    circle along its unit normal, and on the horn torus
    [(|X|^2)^2 = 4 r^2 (|X|^2 - (X . zHat)^2)]. *)
Theorem X25_torus_buffer_holds_the_tube_circles {Range : Type} `{ValueRange.t Range}
    (config : ArchytasTorus.TorusConfiguration Range) (toroidalStepIdx poloidalStepIdx : Z) :
  orthonormalPlane (ArchytasTorus.toroidalPlane config) ->
  (0 <= toroidalStepIdx
   <= ConstStepRange.stepCount (ArchytasTorus.poloidalAngle_rad config))%Z ->
  (0 <= poloidalStepIdx
   < ConstStepRange.stepCount (ArchytasTorus.poloidalAngle_rad config))%Z ->
  let buffer :=
    SurfaceVertexCoords.vertexWriter (ArchytasTorus.coords (ArchytasTorus.new config)) in
  let plane := ArchytasTorus.toroidalPlane config in
  let origin := ArchytasTorus.origin config in
  let radius := ArchytasTorus.radius config in
  let tubeCircleCount := ConstStepRange.stepCount (ArchytasTorus.poloidalAngle_rad config) in
  let toroidalAngle_rad :=
    ConstStepRange.atStep (ArchytasTorus.poloidalAngle_rad config) toroidalStepIdx in
  let poloidalAngle_rad :=
    ConstStepRange.atStep (ArchytasTorus.poloidalAngle_rad config) poloidalStepIdx in
  let xHat := PlaneDirections.unitVecAtAngle plane toroidalAngle_rad in
  let zHat := PlaneDirections.zHat plane in
  let tubeCenter := ColumnVector3.addScaled origin xHat radius in
  let shared := CoordsArrayVertexAndNormalWriter_readVertex buffer 0 in
  let point :=
    CoordsArrayVertexAndNormalWriter_readVertex buffer
      (1 + tubeCircleCount * toroidalStepIdx + poloidalStepIdx) in
  let fromOrigin := ColumnVector3.subtract (VertexAndNormal.vertex point) origin in
  shared = VertexAndNormal.mk origin zHat
  /\ VertexAndNormal.normal point
     = ColumnVector3.addScaled (ColumnVector3.multiplyScalar xHat (cos poloidalAngle_rad))
         zHat (sin poloidalAngle_rad)
  /\ VertexAndNormal.vertex point
     = ColumnVector3.addScaled tubeCenter (VertexAndNormal.normal point) radius
  /\ ColumnVector3.vectorDot (VertexAndNormal.normal point) (VertexAndNormal.normal point)
     = 1
  /\ ColumnVector3.vectorDot fromOrigin fromOrigin
     * ColumnVector3.vectorDot fromOrigin fromOrigin
     = 4 * radius * radius
       * (ColumnVector3.vectorDot fromOrigin fromOrigin
          - ColumnVector3.vectorDot fromOrigin zHat
            * ColumnVector3.vectorDot fromOrigin zHat).
Proof.
  intros Hplane Hslice Hk. cbv zeta.
  destruct (torus_buffer config toroidalStepIdx poloidalStepIdx Hslice Hk)
    as [Hshared Hpoint].
  rewrite Hshared, Hpoint. clear Hshared Hpoint.
  cbn [VertexAndNormal.vertex VertexAndNormal.normal].
  set (phi := ConstStepRange.atStep (ArchytasTorus.poloidalAngle_rad config)
                toroidalStepIdx).
  set (psi := ConstStepRange.atStep (ArchytasTorus.poloidalAngle_rad config)
                poloidalStepIdx).
  destruct (unitVecAtAngle_unit _ phi Hplane) as [Hxx Hxz].
  pose proof (zHat_unit_of_orthonormal _ Hplane) as Hzz.
  set (X := PlaneDirections.unitVecAtAngle (ArchytasTorus.toroidalPlane config) phi) in *.
  set (Z := PlaneDirections.zHat (ArchytasTorus.toroidalPlane config)) in *.
  clearbody X Z phi psi.
  pose proof (sin2_cos2 psi) as Hsc. unfold Rsqr in Hsc.
  set (c := cos psi) in *. set (s := sin psi) in *. clearbody c s.
  destruct (ArchytasTorus.origin config) as [o0 o1 o2].
  set (r := ArchytasTorus.radius config). clearbody r.
  destruct X as [x0 x1 x2]. destruct Z as [z0 z1 z2].
  revert Hxx Hxz Hzz. vec_simpl. intros Hxx Hxz Hzz.
  split; [reflexivity |].
  split; [apply ColumnVector3_eq; ring |].
  split; [apply ColumnVector3_eq; ring |].
  split; [nsatz |].
  match goal with
  | |- ?d * ?d = 4 * r * r * (?d - ?z * ?z) =>
      assert (Ed : d = 2 * r * r * (1 + c)) by nsatz;
      assert (Ez : z = r * s) by nsatz;
      rewrite Ed, Ez
  end.
  nsatz.
Qed.

Lemma sample_torus_orthonormal :
  orthonormalPlane (ArchytasTorus.toroidalPlane sample_torus).
Proof.
  unfold orthonormalPlane, sample_torus, ArchytasTorus.newConfiguration.
  cbn [ArchytasTorus.toroidalPlane]. vec_simpl. repeat split; ring.
Qed.

Lemma X25_torus_buffer_holds_the_tube_circles_witness :
  let config := sample_torus in
  let buffer :=
    SurfaceVertexCoords.vertexWriter (ArchytasTorus.coords (ArchytasTorus.new config)) in
  let plane := ArchytasTorus.toroidalPlane config in
  let origin := ArchytasTorus.origin config in
  let radius := ArchytasTorus.radius config in
  let tubeCircleCount := ConstStepRange.stepCount (ArchytasTorus.poloidalAngle_rad config) in
  let toroidalAngle_rad :=
    ConstStepRange.atStep (ArchytasTorus.poloidalAngle_rad config) 2 in
  let poloidalAngle_rad :=
    ConstStepRange.atStep (ArchytasTorus.poloidalAngle_rad config) 5 in
  let xHat := PlaneDirections.unitVecAtAngle plane toroidalAngle_rad in
  let zHat := PlaneDirections.zHat plane in
  let tubeCenter := ColumnVector3.addScaled origin xHat radius in
  let shared := CoordsArrayVertexAndNormalWriter_readVertex buffer 0 in
  let point :=
    CoordsArrayVertexAndNormalWriter_readVertex buffer (1 + tubeCircleCount * 2 + 5) in
  let fromOrigin := ColumnVector3.subtract (VertexAndNormal.vertex point) origin in
  shared = VertexAndNormal.mk origin zHat
  /\ VertexAndNormal.normal point
     = ColumnVector3.addScaled (ColumnVector3.multiplyScalar xHat (cos poloidalAngle_rad))
         zHat (sin poloidalAngle_rad)
  /\ VertexAndNormal.vertex point
     = ColumnVector3.addScaled tubeCenter (VertexAndNormal.normal point) radius
  /\ ColumnVector3.vectorDot (VertexAndNormal.normal point) (VertexAndNormal.normal point)
     = 1
  /\ ColumnVector3.vectorDot fromOrigin fromOrigin
     * ColumnVector3.vectorDot fromOrigin fromOrigin
     = 4 * radius * radius
       * (ColumnVector3.vectorDot fromOrigin fromOrigin
          - ColumnVector3.vectorDot fromOrigin zHat
            * ColumnVector3.vectorDot fromOrigin zHat).
Proof.
  apply (X25_torus_buffer_holds_the_tube_circles sample_torus 2 5).
  - exact sample_torus_orthonormal.
  - vm_compute. split; discriminate.
  - vm_compute. split; [discriminate | reflexivity].
Defined.

(** ** The index buffers of the cylinder *)

Lemma Uint32Array_set_length (this : Uint32Array.t) (index value : Z) :
  length (Uint32Array.set this index value) = length this.
Proof.
  unfold Uint32Array.set. destruct (0 <=? index)%Z; [| reflexivity].
  unfold Uint32Array.t in *. apply length_insert.
Qed.

Lemma Uint32Array_get_set_same (this : Uint32Array.t) (index value : Z) :
  (0 <= index < Z.of_nat (length this))%Z ->
  (0 <= value < 2 ^ 32)%Z ->
  Uint32Array.get (Uint32Array.set this index value) index = Some value.
Proof.
  intros [H0 H1] Hvalue. unfold Uint32Array.get, Uint32Array.set.
  destruct (0 <=? index)%Z eqn:E; [| lia].
  unfold Uint32Array.t in *.
  rewrite list_lookup_insert_eq by lia. rewrite Z.mod_small by exact Hvalue. reflexivity.
Qed.

Lemma Uint32Array_get_set_other (this : Uint32Array.t) (index other value : Z) :
  index <> other ->
  Uint32Array.get (Uint32Array.set this index value) other = Uint32Array.get this other.
Proof.
  intros Hne. unfold Uint32Array.get, Uint32Array.set.
  destruct (0 <=? other)%Z eqn:Eo; [| reflexivity].
  destruct (0 <=? index)%Z eqn:Ei; [| reflexivity].
  unfold Uint32Array.t in *.
  rewrite list_lookup_insert_ne by lia. reflexivity.
Qed.

Lemma Uint32Array_new_length (n : Z) : length (Uint32Array.new n) = Z.to_nat n.
Proof. unfold Uint32Array.new. apply length_replicate. Qed.

(** The loop of [IndexedGeometry.calculateVertexIndices], for a slice
    calculator that writes [perSlice] indices from its start index on. *)
Section SlicedIndices.

Variable slice : IndexedGeometrySliceVertexCalculator.t.
Variable perSlice : Z.
Variable expected : Z -> Z -> option Z.

Hypothesis perSlice_nonneg : (0 <= perSlice)%Z.
Hypothesis startVertexIndex_linear :
  forall sliceIdx,
    IndexedGeometrySliceVertexCalculator.startVertexIndex slice sliceIdx
    = (perSlice * sliceIdx)%Z.
Hypothesis slice_length :
  forall sliceIdx out startIdx,
    length (IndexedGeometrySliceVertexCalculator.calculateVertexIndices slice sliceIdx out
              startIdx)
    = length out.
Hypothesis slice_frame :
  forall sliceIdx out startIdx other,
    (other < startIdx \/ startIdx + perSlice <= other)%Z ->
    Uint32Array.get
      (IndexedGeometrySliceVertexCalculator.calculateVertexIndices slice sliceIdx out
         startIdx) other
    = Uint32Array.get out other.

Lemma sliced_calculateVertexIndices (calculatedSliceCount : Z) :
  (0 <= calculatedSliceCount)%Z ->
  (forall sliceIdx out startIdx k,
     (0 <= sliceIdx < calculatedSliceCount)%Z ->
     (0 <= startIdx)%Z -> (startIdx + perSlice <= Z.of_nat (length out))%Z ->
     (0 <= k < perSlice)%Z ->
     Uint32Array.get
       (IndexedGeometrySliceVertexCalculator.calculateVertexIndices slice sliceIdx out
          startIdx) (startIdx + k)
     = expected sliceIdx k) ->
  let indices := IndexedGeometry_triangleVertexIndices slice calculatedSliceCount in
  Z.of_nat (length indices) = (perSlice * calculatedSliceCount)%Z
  /\ forall sliceIdx k,
       (0 <= sliceIdx < calculatedSliceCount)%Z -> (0 <= k < perSlice)%Z ->
       Uint32Array.get indices (perSlice * sliceIdx + k) = expected sliceIdx k.
Proof.
  intros Hcount slice_content.
  unfold IndexedGeometry_triangleVertexIndices, IndexedGeometry_vertexCount.
  rewrite startVertexIndex_linear.
  set (n := calculatedSliceCount) in *.
  set (blank := Uint32Array.new (perSlice * n)).
  assert (Hblank : Z.of_nat (length blank) = (perSlice * n)%Z).
  { unfold blank. rewrite Uint32Array_new_length. rewrite Z2Nat.id by nia. reflexivity. }
  pose (P := fun (j : Z) (out : Uint32Array.t) =>
               (0 <= j)%Z
               /\ length out = length blank
               /\ forall sliceIdx k, (0 <= sliceIdx < j)%Z -> (0 <= k < perSlice)%Z ->
                    Uint32Array.get out (perSlice * sliceIdx + k)
                    = expected sliceIdx k).
  assert (Hloop : P (0 + Z.of_nat (Z.to_nat n))%Z
                    (IndexedGeometry_calculateVertexIndices slice n blank)).
  { unfold IndexedGeometry_calculateVertexIndices. cbv zeta.
    apply (forLoop_indexed P _ n).
    - intros j out Hj (Hj0 & Hl & Hdone).
      rewrite startVertexIndex_linear.
      split; [lia |]. split; [rewrite slice_length; exact Hl |].
      intros sliceIdx k Hs Hk.
      destruct (Z.eq_dec sliceIdx j) as [-> | Hne].
      + apply slice_content; [lia | nia | rewrite Hl; nia | exact Hk].
      + rewrite slice_frame by nia. apply Hdone; lia.
    - lia.
    - split; [lia |]. split; [reflexivity |]. intros sliceIdx k Hs. lia. }
  destruct Hloop as (_ & Hl & Hdone). cbv zeta. split.
  - rewrite Hl. exact Hblank.
  - intros sliceIdx k Hs Hk. apply Hdone; lia.
Qed.

End SlicedIndices.

Section CylinderIndices.

Context {Range : Type} `{ValueRange.t Range}.
Variable config : ArchytasCylinder.CylinderConfiguration Range.

Lemma cylinder_surface_turns (sliceIdx : Z) (out : Uint32Array.t) (startIdx : Z) :
  CylinderSurfaceAngleStepCalculator.calculateVertexIndices
    (ArchytasCylinder.vertexCalculator config) sliceIdx out startIdx
  = Uint32Array.set
      (Uint32Array.set
         (Uint32Array.set
            (Uint32Array.set
               (Uint32Array.set
                  (Uint32Array.set out startIdx (2 * sliceIdx))
                  (startIdx + 1) (2 * sliceIdx + 2))
               (startIdx + 2) (2 * sliceIdx + 3))
            (startIdx + 3) (2 * sliceIdx + 3))
         (startIdx + 4) (2 * sliceIdx + 1))
      (startIdx + 5) (2 * sliceIdx).
Proof.
  unfold CylinderSurfaceAngleStepCalculator.calculateVertexIndices. cbv zeta.
  cbn [VertexCalculator.slice ArchytasCylinder.vertexCalculator VertexCalculator.new
       ArchytasCylinder.slice SliceVertexCalculator.startVertexIndex].
  unfold ArchytasCylinder.vertexCount.
  replace (2 * (sliceIdx + 1) - 1 - 2 * sliceIdx)%Z with 1%Z by lia.
  change (Z.to_nat 1) with 1%nat. cbn [forLoop].
  repeat (f_equal; try lia).
Qed.

Lemma cylinder_wireframe_turns (sliceIdx : Z) (out : Uint32Array.t) (startIdx : Z) :
  CylinderWireframeAngleStepCalculator.calculateVertexIndices
    (ArchytasCylinder.vertexCalculator config) sliceIdx out startIdx
  = Uint32Array.set (Uint32Array.set out startIdx (2 * sliceIdx))
      (startIdx + 1) (2 * sliceIdx + 1).
Proof.
  unfold CylinderWireframeAngleStepCalculator.calculateVertexIndices. cbv zeta.
  cbn [VertexCalculator.slice ArchytasCylinder.vertexCalculator VertexCalculator.new
       ArchytasCylinder.slice SliceVertexCalculator.startVertexIndex].
  unfold ArchytasCylinder.vertexCount.
  replace (2 * (sliceIdx + 1) - 1 - 2 * sliceIdx)%Z with 1%Z by lia.
  change (Z.to_nat 1) with 1%nat. cbn [forLoop].
  repeat (f_equal; try lia).
Qed.

Lemma cylinder_surfaceIndices (sliceCount : Z) :
  VertexCalculator.sliceCount (ArchytasCylinder.vertexCalculator config) = sliceCount ->
  (0 <= sliceCount)%Z ->
  (2 * (sliceCount + 1) <= 2 ^ 32)%Z ->
  Z.of_nat (length (ArchytasCylinder_surfaceIndices config)) = (6 * sliceCount)%Z
  /\ forall sliceIdx k,
       (0 <= sliceIdx < sliceCount)%Z -> (0 <= k < 6)%Z ->
       Uint32Array.get (ArchytasCylinder_surfaceIndices config) (6 * sliceIdx + k)
       = [2 * sliceIdx; 2 * sliceIdx + 2; 2 * sliceIdx + 3;
          2 * sliceIdx + 3; 2 * sliceIdx + 1; 2 * sliceIdx]%Z !! Z.to_nat k.
Proof.
  intros Hcount Hpos Hsmall. unfold ArchytasCylinder_surfaceIndices. rewrite Hcount.
  apply (sliced_calculateVertexIndices
           (CylinderSurfaceAngleStepCalculator.new (ArchytasCylinder.vertexCalculator config))
           6
           (fun sliceIdx k =>
              [2 * sliceIdx; 2 * sliceIdx + 2; 2 * sliceIdx + 3;
               2 * sliceIdx + 3; 2 * sliceIdx + 1; 2 * sliceIdx]%Z !! Z.to_nat k)).
  - lia.
  - intros sliceIdx. reflexivity.
  - intros sliceIdx out startIdx.
    cbn [IndexedGeometrySliceVertexCalculator.calculateVertexIndices
         CylinderSurfaceAngleStepCalculator.new].
    rewrite cylinder_surface_turns, !Uint32Array_set_length. reflexivity.
  - intros sliceIdx out startIdx other Hother.
    cbn [IndexedGeometrySliceVertexCalculator.calculateVertexIndices
         CylinderSurfaceAngleStepCalculator.new].
    rewrite cylinder_surface_turns, !Uint32Array_get_set_other by lia. reflexivity.
  - exact Hpos.
  - intros sliceIdx out startIdx k Hs H0 Hroom Hk.
    cbn [IndexedGeometrySliceVertexCalculator.calculateVertexIndices
         CylinderSurfaceAngleStepCalculator.new].
    rewrite cylinder_surface_turns.
    assert (Hk' : (k = 0 \/ k = 1 \/ k = 2 \/ k = 3 \/ k = 4 \/ k = 5)%Z) by lia.
    destruct Hk' as [-> | [-> | [-> | [-> | [-> | ->] ] ] ] ];
      repeat rewrite Uint32Array_get_set_other by lia;
      (replace (startIdx + 0)%Z with startIdx by lia);
      (rewrite Uint32Array_get_set_same;
       [reflexivity | rewrite ?Uint32Array_set_length; lia | lia]).
Qed.

Lemma cylinder_wireframeIndices (sliceCount : Z) :
  VertexCalculator.sliceCount (ArchytasCylinder.vertexCalculator config) = sliceCount ->
  (0 <= sliceCount)%Z ->
  (2 * (sliceCount + 1) <= 2 ^ 32)%Z ->
  Z.of_nat (length (ArchytasCylinder_wireframeIndices config)) = (2 * sliceCount)%Z
  /\ forall sliceIdx k,
       (0 <= sliceIdx < sliceCount)%Z -> (0 <= k < 2)%Z ->
       Uint32Array.get (ArchytasCylinder_wireframeIndices config) (2 * sliceIdx + k)
       = [2 * sliceIdx; 2 * sliceIdx + 1]%Z !! Z.to_nat k.
Proof.
  intros Hcount Hpos Hsmall. unfold ArchytasCylinder_wireframeIndices. rewrite Hcount.
  apply (sliced_calculateVertexIndices
           (CylinderWireframeAngleStepCalculator.new
              (ArchytasCylinder.vertexCalculator config))
           2 (fun sliceIdx k => [2 * sliceIdx; 2 * sliceIdx + 1]%Z !! Z.to_nat k)).
  - lia.
  - intros sliceIdx. reflexivity.
  - intros sliceIdx out startIdx.
    cbn [IndexedGeometrySliceVertexCalculator.calculateVertexIndices
         CylinderWireframeAngleStepCalculator.new].
    rewrite cylinder_wireframe_turns, !Uint32Array_set_length. reflexivity.
  - intros sliceIdx out startIdx other Hother.
    cbn [IndexedGeometrySliceVertexCalculator.calculateVertexIndices
         CylinderWireframeAngleStepCalculator.new].
    rewrite cylinder_wireframe_turns, !Uint32Array_get_set_other by lia. reflexivity.
  - exact Hpos.
  - intros sliceIdx out startIdx k Hs H0 Hroom Hk.
    cbn [IndexedGeometrySliceVertexCalculator.calculateVertexIndices
         CylinderWireframeAngleStepCalculator.new].
    rewrite cylinder_wireframe_turns.
    assert (Hk' : (k = 0 \/ k = 1)%Z) by lia.
    destruct Hk' as [-> | ->];
      repeat rewrite Uint32Array_get_set_other by lia;
      (replace (startIdx + 0)%Z with startIdx by lia);
      (rewrite Uint32Array_get_set_same;
       [reflexivity | rewrite ?Uint32Array_set_length; lia | lia]).
Qed.

End CylinderIndices.

(** What the draw ranges of a reachable cylinder are: nothing set yet, or
    the indices of the slices before some step of the range. *)
Lemma cylinder_reachable_drawRanges (start end_ : R) (n : Z)
    (config : ArchytasCylinder.CylinderConfiguration ConstStepRange.t)
    (this : ArchytasCylinder.t ConstStepRange.t) :
  (0 < n)%Z -> start < end_ ->
  ArchytasCylinder.angle_rad config = ConstStepRange.new start end_ n ->
  cylinder_reachable config this ->
  ArchytasCylinder.config this = config
  /\ (let g := ArchytasCylinder.surface this in
      IndexedGeometry._startSliceIndex g = 0%Z
      /\ IndexedGeometry.start (IndexedGeometry.drawRange g) = 0%Z
      /\ (IndexedGeometry.count (IndexedGeometry.drawRange g) = None
          \/ exists stepIdx, (0 <= stepIdx <= n)%Z
               /\ IndexedGeometry.count (IndexedGeometry.drawRange g)
                  = Some (6 * stepIdx)%Z))
  /\ (let g := ArchytasCylinder.wireframe this in
      IndexedGeometry._startSliceIndex g = 0%Z
      /\ IndexedGeometry.start (IndexedGeometry.drawRange g) = 0%Z
      /\ (IndexedGeometry.count (IndexedGeometry.drawRange g) = None
          \/ exists sliceIdx, (0 <= sliceIdx <= n + 1)%Z
               /\ IndexedGeometry.count (IndexedGeometry.drawRange g)
                  = Some (2 * sliceIdx)%Z)).
Proof.
  intros Hn Hlt Hrange Hreach.
  induction Hreach as [| this console value Hreach IH].
  - cbv zeta. unfold ArchytasCylinder.new. cbv zeta.
    cbn [ArchytasCylinder.config ArchytasCylinder.surface ArchytasCylinder.wireframe
         IndexedGeometry.new IndexedGeometry._startSliceIndex IndexedGeometry.drawRange
         IndexedGeometry.start IndexedGeometry.count].
    repeat split; left; reflexivity.
  - destruct IH as (Hconfig & (Hs0 & Hs1 & Hs2) & (Hw0 & Hw1 & Hw2)).
    destruct (ValueRange.includes
                (ArchytasCylinder.angle_rad (ArchytasCylinder.config this)) value) eqn:Hin.
    2:{ rewrite cylinder_out_of_range by exact Hin. cbn [fst].
        split; [exact Hconfig |]. split; repeat split; assumption. }
    rewrite (cylinder_in_range this console value Hin).
    cbn [ArchytasCylinder.config ArchytasCylinder.surface ArchytasCylinder.wireframe].
    rewrite Hconfig in *. rewrite Hrange in *.
    set (stepIdx := ValueRange.lastIncludedStepIdx (ConstStepRange.new start end_ n) value).
    assert (Hle : (stepIdx <= n)%Z).
    { apply lastIncludedStepIdx_le_stepCount; [lia | exact Hlt |].
      apply includes_bounds in Hin. simpl in Hin. lra. }
    assert (Hcount : VertexCalculator.sliceCount (ArchytasCylinder.vertexCalculator config)
                     = (n + 1)%Z).
    { unfold VertexCalculator.sliceCount.
      cbn [VertexCalculator.slice ArchytasCylinder.vertexCalculator VertexCalculator.new
           ArchytasCylinder.slice SliceVertexCalculator.sliceParameterRange].
      rewrite Hrange. reflexivity. }
    rewrite Hcount.
    split; [reflexivity |]. split.
    + cbv zeta. unfold IndexedGeometry.set_drawEndSliceIndex.
      destruct ((0 <=? stepIdx)%Z && (stepIdx <=? n + 1)%Z) eqn:E; cbn [fst].
      * cbn [IndexedGeometry._startSliceIndex IndexedGeometry.drawRange
             IndexedGeometry.start IndexedGeometry.count].
        rewrite Hs0. split; [reflexivity |]. split; [reflexivity |].
        right. exists stepIdx. apply andb_prop in E as [E0 _]. apply Z.leb_le in E0.
        split; [lia |]. unfold ArchytasCylinder.surface_startVertexIndex,
          ArchytasCylinder.vertexCount. f_equal; lia.
      * repeat split; assumption.
    + cbv zeta. unfold IndexedGeometry.set_drawEndSliceIndex.
      set (sliceIdx := (if (0 <? stepIdx)%Z then stepIdx + 1 else stepIdx)%Z).
      destruct ((0 <=? sliceIdx)%Z && (sliceIdx <=? n + 1)%Z) eqn:E; cbn [fst].
      * cbn [IndexedGeometry._startSliceIndex IndexedGeometry.drawRange
             IndexedGeometry.start IndexedGeometry.count].
        rewrite Hw0. split; [reflexivity |]. split; [reflexivity |].
        right. exists sliceIdx. apply andb_prop in E as [E0 E1].
        apply Z.leb_le in E0, E1.
        split; [lia |]. unfold ArchytasCylinder.wireframe_startVertexIndex,
          ArchytasCylinder.vertexCount. f_equal; lia.
      * repeat split; assumption.
Qed.

(** X26.  For a cylinder over a range built with [start < end] and at
    least one step: the index buffer of the surface holds, for each slice,
    the two triangles of the quad between the generatrix of the slice and
    the next one, and that of the wireframe the generatrix itself; and in
    every state that the constructor and the setter produce, every index
    inside a draw range that was set refers to a vertex that the
    constructor computed (one of the first [2 (stepCount + 1)]). *)
Theorem X26_cylinder_draws_computed_vertices (start end_ : R) (n : Z)
    (config : ArchytasCylinder.CylinderConfiguration ConstStepRange.t)
    (this : ArchytasCylinder.t ConstStepRange.t) :
  (0 < n)%Z ->
  (2 * (n + 2) <= 2 ^ 32)%Z ->
  start < end_ ->
  ArchytasCylinder.angle_rad config = ConstStepRange.new start end_ n ->
  cylinder_reachable config this ->
  let sliceCount := (n + 1)%Z in
  let surfaceIndices := ArchytasCylinder_surfaceIndices config in
  let wireframeIndices := ArchytasCylinder_wireframeIndices config in
  (forall sliceIdx k,
     (0 <= sliceIdx < sliceCount)%Z -> (0 <= k < 6)%Z ->
     Uint32Array.get surfaceIndices (6 * sliceIdx + k)
     = [2 * sliceIdx; 2 * sliceIdx + 2; 2 * sliceIdx + 3;
        2 * sliceIdx + 3; 2 * sliceIdx + 1; 2 * sliceIdx]%Z !! Z.to_nat k)
  /\ (forall sliceIdx k,
        (0 <= sliceIdx < sliceCount)%Z -> (0 <= k < 2)%Z ->
        Uint32Array.get wireframeIndices (2 * sliceIdx + k)
        = [2 * sliceIdx; 2 * sliceIdx + 1]%Z !! Z.to_nat k)
  /\ (forall count position index,
        IndexedGeometry.count (IndexedGeometry.drawRange (ArchytasCylinder.surface this))
        = Some count ->
        (IndexedGeometry.start (IndexedGeometry.drawRange (ArchytasCylinder.surface this))
         <= position
         < IndexedGeometry.start (IndexedGeometry.drawRange (ArchytasCylinder.surface this))
           + count)%Z ->
        Uint32Array.get surfaceIndices position = Some index ->
        (0 <= index < 2 * sliceCount)%Z)
  /\ (forall count position index,
        IndexedGeometry.count (IndexedGeometry.drawRange (ArchytasCylinder.wireframe this))
        = Some count ->
        (IndexedGeometry.start (IndexedGeometry.drawRange (ArchytasCylinder.wireframe this))
         <= position
         < IndexedGeometry.start
             (IndexedGeometry.drawRange (ArchytasCylinder.wireframe this))
           + count)%Z ->
        Uint32Array.get wireframeIndices position = Some index ->
        (0 <= index < 2 * sliceCount)%Z).
Proof.
  intros Hn Hsmall Hlt Hrange Hreach. cbv zeta.
  assert (Hcount : VertexCalculator.sliceCount (ArchytasCylinder.vertexCalculator config)
                   = (n + 1)%Z).
  { unfold VertexCalculator.sliceCount.
    cbn [VertexCalculator.slice ArchytasCylinder.vertexCalculator VertexCalculator.new
         ArchytasCylinder.slice SliceVertexCalculator.sliceParameterRange].
    rewrite Hrange. reflexivity. }
  destruct (cylinder_surfaceIndices config (n + 1) Hcount ltac:(lia) ltac:(lia))
    as [_ Hsurface].
  destruct (cylinder_wireframeIndices config (n + 1) Hcount ltac:(lia) ltac:(lia))
    as [_ Hwireframe].
  destruct (cylinder_reachable_drawRanges start end_ n config this Hn Hlt Hrange Hreach)
    as (_ & (_ & Hs1 & Hs2) & (_ & Hw1 & Hw2)).
  cbv zeta in Hs1, Hs2, Hw1, Hw2.
  split; [exact Hsurface |]. split; [exact Hwireframe |]. split.
  - intros count position index Hc Hp Hget. rewrite Hs1 in Hp.
    destruct Hs2 as [Hnone | (stepIdx & Hstep & Hsome)]; [congruence |].
    assert (count = (6 * stepIdx)%Z) by congruence. subst count.
    pose proof (Z.div_mod position 6 ltac:(lia)) as Hdm.
    pose proof (Z.mod_pos_bound position 6 ltac:(lia)) as Hmod.
    set (s := (position / 6)%Z) in *. set (k := (position mod 6)%Z) in *.
    assert (Hs : (0 <= s < stepIdx)%Z) by nia.
    rewrite Hdm, (Hsurface s k ltac:(lia) Hmod) in Hget.
    assert (Hk' : (k = 0 \/ k = 1 \/ k = 2 \/ k = 3 \/ k = 4 \/ k = 5)%Z) by lia.
    destruct Hk' as [E | [E | [E | [E | [E | E] ] ] ] ];
      rewrite E in Hget; injection Hget as <-; lia.
  - intros count position index Hc Hp Hget. rewrite Hw1 in Hp.
    destruct Hw2 as [Hnone | (sliceIdx & Hslice & Hsome)]; [congruence |].
    assert (count = (2 * sliceIdx)%Z) by congruence. subst count.
    pose proof (Z.div_mod position 2 ltac:(lia)) as Hdm.
    pose proof (Z.mod_pos_bound position 2 ltac:(lia)) as Hmod.
    set (s := (position / 2)%Z) in *. set (k := (position mod 2)%Z) in *.
    assert (Hs : (0 <= s < sliceIdx)%Z) by nia.
    rewrite Hdm, (Hwireframe s k ltac:(lia) Hmod) in Hget.
    assert (Hk' : (k = 0 \/ k = 1)%Z) by lia.
    destruct Hk' as [E | E]; rewrite E in Hget; injection Hget as <-; lia.
Qed.

Lemma X26_cylinder_draws_computed_vertices_witness :
  let config := sample_cylinder in
  let this :=
    fst (ArchytasCylinder.set_secantAngle_rad (ArchytasCylinder.new config) nil (PI / 4)) in
  let sliceCount := (18 + 1)%Z in
  let surfaceIndices := ArchytasCylinder_surfaceIndices config in
  let wireframeIndices := ArchytasCylinder_wireframeIndices config in
  (forall sliceIdx k,
     (0 <= sliceIdx < sliceCount)%Z -> (0 <= k < 6)%Z ->
     Uint32Array.get surfaceIndices (6 * sliceIdx + k)
     = [2 * sliceIdx; 2 * sliceIdx + 2; 2 * sliceIdx + 3;
        2 * sliceIdx + 3; 2 * sliceIdx + 1; 2 * sliceIdx]%Z !! Z.to_nat k)
  /\ (forall sliceIdx k,
        (0 <= sliceIdx < sliceCount)%Z -> (0 <= k < 2)%Z ->
        Uint32Array.get wireframeIndices (2 * sliceIdx + k)
        = [2 * sliceIdx; 2 * sliceIdx + 1]%Z !! Z.to_nat k)
  /\ (forall count position index,
        IndexedGeometry.count (IndexedGeometry.drawRange (ArchytasCylinder.surface this))
        = Some count ->
        (IndexedGeometry.start (IndexedGeometry.drawRange (ArchytasCylinder.surface this))
         <= position
         < IndexedGeometry.start (IndexedGeometry.drawRange (ArchytasCylinder.surface this))
           + count)%Z ->
        Uint32Array.get surfaceIndices position = Some index ->
        (0 <= index < 2 * sliceCount)%Z)
  /\ (forall count position index,
        IndexedGeometry.count (IndexedGeometry.drawRange (ArchytasCylinder.wireframe this))
        = Some count ->
        (IndexedGeometry.start (IndexedGeometry.drawRange (ArchytasCylinder.wireframe this))
         <= position
         < IndexedGeometry.start
             (IndexedGeometry.drawRange (ArchytasCylinder.wireframe this))
           + count)%Z ->
        Uint32Array.get wireframeIndices position = Some index ->
        (0 <= index < 2 * sliceCount)%Z).
Proof.
  apply (X26_cylinder_draws_computed_vertices (0 * PI / 180) (90 * PI / 180) 18
           sample_cylinder
           (fst (ArchytasCylinder.set_secantAngle_rad
                   (ArchytasCylinder.new sample_cylinder) nil (PI / 4)))).
  - lia.
  - vm_compute. discriminate.
  - pose proof PI_RGT_0. lra.
  - reflexivity.
  - apply cylinder_reachable_set. apply cylinder_reachable_new.
Defined.

(** ** The index buffers of the torus *)

Section TorusIndices.

Context {Range : Type} `{ValueRange.t Range}.
Variable config : ArchytasTorus.TorusConfiguration Range.

Let m := ConstStepRange.stepCount (ArchytasTorus.poloidalAngle_rad config).

Hypothesis tube_circle_nonempty : (1 <= m)%Z.

(** The six indices of the quad between vertex [k] and vertex [k + 1] of
    the tube circle that starts at [first] and of the next circle, which
    starts at [next]. *)
Let quad (first next k : Z) : list Z :=
  [first + k; next + k; next + k + 1; next + k + 1; first + k + 1; first + k]%Z.

Lemma torus_surface_quads (toroidalStepIdx : Z) (out : Uint32Array.t) (startIdx : Z)
    (turns : Z) :
  let first := (1 + m * toroidalStepIdx)%Z in
  let next := (1 + m * (toroidalStepIdx + 1))%Z in
  let body :=
    fun (k : Z) (out_vertexIndices : Uint32Array.t) =>
      Uint32Array.set
        (Uint32Array.set
           (Uint32Array.set
              (Uint32Array.set
                 (Uint32Array.set
                    (Uint32Array.set out_vertexIndices (startIdx + 6 * k) (first + k))
                    (startIdx + 6 * k + 1) (next + k))
                 (startIdx + 6 * k + 2) (next + k + 1))
              (startIdx + 6 * k + 3) (next + k + 1))
           (startIdx + 6 * k + 4) (first + k + 1))
        (startIdx + 6 * k + 5) (first + k) in
  (0 <= turns)%Z ->
  let written := forLoop (Z.to_nat turns) 0 body out in
  length written = length out
  /\ (forall other, (other < startIdx \/ startIdx + 6 * turns <= other)%Z ->
        Uint32Array.get written other = Uint32Array.get out other)
  /\ ((0 <= toroidalStepIdx)%Z -> (0 <= startIdx)%Z ->
      (startIdx + 6 * turns <= Z.of_nat (length out))%Z ->
      (next + turns < 2 ^ 32)%Z ->
      forall k j, (0 <= k < turns)%Z -> (0 <= j < 6)%Z ->
        Uint32Array.get written (startIdx + 6 * k + j) = quad first next k !! Z.to_nat j).
Proof.
  intros first next body Hturns written.
  pose (P := fun (n : Z) (w : Uint32Array.t) =>
               (0 <= n)%Z
               /\ length w = length out
               /\ (forall other, (other < startIdx \/ startIdx + 6 * n <= other)%Z ->
                     Uint32Array.get w other = Uint32Array.get out other)
               /\ ((0 <= toroidalStepIdx)%Z -> (0 <= startIdx)%Z ->
                   (startIdx + 6 * turns <= Z.of_nat (length out))%Z ->
                   (next + turns < 2 ^ 32)%Z ->
                   forall k j, (0 <= k < n)%Z -> (0 <= j < 6)%Z ->
                     Uint32Array.get w (startIdx + 6 * k + j)
                     = quad first next k !! Z.to_nat j)).
  assert (Hloop : P (0 + Z.of_nat (Z.to_nat turns))%Z written).
  { apply (forLoop_indexed P _ turns).
    - intros n w Hn (Hn0 & Hl & Hframe & Hdone).
      split; [lia |]. split; [unfold body; rewrite !Uint32Array_set_length; exact Hl |].
      split.
      + intros other Hother. unfold body.
        rewrite !Uint32Array_get_set_other by lia. apply Hframe. lia.
      + intros Hi Hs Hroom Hsmall k j Hk Hj.
        destruct (Z.eq_dec k n) as [-> | Hne].
        * assert (Hfirst : (0 <= first)%Z) by (unfold first; nia).
          assert (Hnext : (first <= next)%Z) by (unfold first, next; nia).
          unfold body, quad.
          assert (Hj' : (j = 0 \/ j = 1 \/ j = 2 \/ j = 3 \/ j = 4 \/ j = 5)%Z) by lia.
          destruct Hj' as [-> | [-> | [-> | [-> | [-> | ->] ] ] ] ];
            repeat rewrite Uint32Array_get_set_other by lia;
            (replace (startIdx + 6 * n + 0)%Z with (startIdx + 6 * n)%Z by lia);
            (rewrite Uint32Array_get_set_same;
             [reflexivity | rewrite ?Uint32Array_set_length, Hl; lia | lia]).
        * unfold body. rewrite !Uint32Array_get_set_other by lia.
          apply (Hdone Hi Hs Hroom Hsmall); lia.
    - lia.
    - split; [lia |]. split; [reflexivity |]. split; [reflexivity |].
      intros _ _ _ _ k j Hk. lia. }
  rewrite Z2Nat.id in Hloop by exact Hturns.
  destruct Hloop as (_ & Hl & Hframe & Hdone).
  split; [exact Hl |]. split; [exact Hframe |]. exact Hdone.
Qed.

Lemma torus_surface_slice (toroidalStepIdx : Z) (out : Uint32Array.t) (startIdx : Z) :
  let first := (1 + m * toroidalStepIdx)%Z in
  let next := (1 + m * (toroidalStepIdx + 1))%Z in
  let written :=
    TorusSurfaceToroidalStepCalculator.calculateVertexIndices config toroidalStepIdx out
      startIdx in
  length written = length out
  /\ (forall other,
        (other < startIdx \/ startIdx + (6 * (m - 1) + 3) <= other)%Z ->
        Uint32Array.get written other = Uint32Array.get out other)
  /\ ((0 <= toroidalStepIdx)%Z -> (0 <= startIdx)%Z ->
      (startIdx + (6 * (m - 1) + 3) <= Z.of_nat (length out))%Z ->
      (next + m <= 2 ^ 32)%Z ->
      (forall k j, (0 <= k < m - 1)%Z -> (0 <= j < 6)%Z ->
         Uint32Array.get written (startIdx + 6 * k + j) = quad first next k !! Z.to_nat j)
      /\ (forall j, (0 <= j < 3)%Z ->
            Uint32Array.get written (startIdx + 6 * (m - 1) + j)
            = [0; next + m - 2; first + m - 2]%Z !! Z.to_nat j)).
Proof.
  intros first next written.
  unfold written, TorusSurfaceToroidalStepCalculator.calculateVertexIndices. cbv zeta.
  cbn [ArchytasTorus.slice SliceVertexCalculator.startVertexIndex].
  unfold ArchytasTorus.uniqueVertexCount. fold m. fold first. fold next.
  replace (next - 1 - first)%Z with (m - 1)%Z by (unfold first, next; lia).
  rewrite Z2Nat.id by lia.
  destruct (torus_surface_quads toroidalStepIdx out startIdx (m - 1) ltac:(lia))
    as (Hl & Hframe & Hdone).
  cbv zeta in Hl, Hframe, Hdone. fold first in Hl, Hframe, Hdone.
  fold next in Hl, Hframe, Hdone.
  set (loop := forLoop (Z.to_nat (m - 1)) 0 _ out) in *.
  split; [rewrite !Uint32Array_set_length; exact Hl |]. split.
  - intros other Hother. rewrite !Uint32Array_get_set_other by lia.
    apply Hframe. lia.
  - intros Hi Hs Hroom Hsmall.
    assert (Hfirst : (0 <= first)%Z) by (unfold first; nia).
    assert (Hnext : (first <= next)%Z) by (unfold first, next; nia).
    split.
    + intros k j Hk Hj. rewrite !Uint32Array_get_set_other by lia.
      apply Hdone; lia.
    + intros j Hj.
      replace (next + (m - 1) - 1)%Z with (next + m - 2)%Z by lia.
      replace (first + (m - 1) - 1)%Z with (first + m - 2)%Z by lia.
      assert (Hj' : (j = 0 \/ j = 1 \/ j = 2)%Z) by lia.
      destruct Hj' as [-> | [-> | ->] ];
        repeat rewrite Uint32Array_get_set_other by lia;
        (replace (startIdx + 6 * (m - 1) + 0)%Z with (startIdx + 6 * (m - 1))%Z by lia);
        (rewrite Uint32Array_get_set_same;
         [reflexivity | rewrite ?Uint32Array_set_length, Hl; lia | lia]).
Qed.

Lemma torus_wireframe_segments (toroidalStepIdx : Z) (out : Uint32Array.t)
    (startIdx : Z) (turns : Z) :
  let first := (1 + m * toroidalStepIdx)%Z in
  let body :=
    fun (k : Z) (out_vertexIndices : Uint32Array.t) =>
      Uint32Array.set
        (Uint32Array.set out_vertexIndices (startIdx + 2 * k) (first + k))
        (startIdx + 2 * k + 1) (first + k + 1) in
  (0 <= turns)%Z ->
  let written := forLoop (Z.to_nat turns) 0 body out in
  length written = length out
  /\ (forall other, (other < startIdx \/ startIdx + 2 * turns <= other)%Z ->
        Uint32Array.get written other = Uint32Array.get out other)
  /\ ((0 <= toroidalStepIdx)%Z -> (0 <= startIdx)%Z ->
      (startIdx + 2 * turns <= Z.of_nat (length out))%Z ->
      (first + turns < 2 ^ 32)%Z ->
      forall k j, (0 <= k < turns)%Z -> (0 <= j < 2)%Z ->
        Uint32Array.get written (startIdx + 2 * k + j)
        = [first + k; first + k + 1]%Z !! Z.to_nat j).
Proof.
  intros first body Hturns written.
  pose (P := fun (n : Z) (w : Uint32Array.t) =>
               (0 <= n)%Z
               /\ length w = length out
               /\ (forall other, (other < startIdx \/ startIdx + 2 * n <= other)%Z ->
                     Uint32Array.get w other = Uint32Array.get out other)
               /\ ((0 <= toroidalStepIdx)%Z -> (0 <= startIdx)%Z ->
                   (startIdx + 2 * turns <= Z.of_nat (length out))%Z ->
                   (first + turns < 2 ^ 32)%Z ->
                   forall k j, (0 <= k < n)%Z -> (0 <= j < 2)%Z ->
                     Uint32Array.get w (startIdx + 2 * k + j)
                     = [first + k; first + k + 1]%Z !! Z.to_nat j)).
  assert (Hloop : P (0 + Z.of_nat (Z.to_nat turns))%Z written).
  { apply (forLoop_indexed P _ turns).
    - intros n w Hn (Hn0 & Hl & Hframe & Hdone).
      split; [lia |]. split; [unfold body; rewrite !Uint32Array_set_length; exact Hl |].
      split.
      + intros other Hother. unfold body.
        rewrite !Uint32Array_get_set_other by lia. apply Hframe. lia.
      + intros Hi Hs Hroom Hsmall k j Hk Hj.
        destruct (Z.eq_dec k n) as [-> | Hne].
        * assert (Hfirst : (0 <= first)%Z) by (unfold first; nia).
          unfold body.
          assert (Hj' : (j = 0 \/ j = 1)%Z) by lia.
          destruct Hj' as [-> | ->];
            repeat rewrite Uint32Array_get_set_other by lia;
            (replace (startIdx + 2 * n + 0)%Z with (startIdx + 2 * n)%Z by lia);
            (rewrite Uint32Array_get_set_same;
             [reflexivity | rewrite ?Uint32Array_set_length, Hl; lia | lia]).
        * unfold body. rewrite !Uint32Array_get_set_other by lia.
          apply (Hdone Hi Hs Hroom Hsmall); lia.
    - lia.
    - split; [lia |]. split; [reflexivity |]. split; [reflexivity |].
      intros _ _ _ _ k j Hk. lia. }
  rewrite Z2Nat.id in Hloop by exact Hturns.
  destruct Hloop as (_ & Hl & Hframe & Hdone).
  split; [exact Hl |]. split; [exact Hframe |]. exact Hdone.
Qed.

Lemma torus_wireframe_slice (toroidalStepIdx : Z) (out : Uint32Array.t) (startIdx : Z) :
  let first := (1 + m * toroidalStepIdx)%Z in
  let written :=
    TorusWireframeToroidalStepCalculator.calculateVertexIndices config toroidalStepIdx out
      startIdx in
  length written = length out
  /\ (forall other,
        (other < startIdx \/ startIdx + 2 * m <= other)%Z ->
        Uint32Array.get written other = Uint32Array.get out other)
  /\ ((0 <= toroidalStepIdx)%Z -> (0 <= startIdx)%Z ->
      (startIdx + 2 * m <= Z.of_nat (length out))%Z ->
      (first + m <= 2 ^ 32)%Z ->
      (forall k j, (0 <= k < m - 1)%Z -> (0 <= j < 2)%Z ->
         Uint32Array.get written (startIdx + 2 * k + j)
         = [first + k; first + k + 1]%Z !! Z.to_nat j)
      /\ (forall j, (0 <= j < 2)%Z ->
            Uint32Array.get written (startIdx + 2 * (m - 1) + j)
            = [first + m - 1; 0]%Z !! Z.to_nat j)).
Proof.
  intros first written.
  unfold written, TorusWireframeToroidalStepCalculator.calculateVertexIndices. cbv zeta.
  cbn [ArchytasTorus.slice SliceVertexCalculator.startVertexIndex].
  unfold ArchytasTorus.uniqueVertexCount. fold m. fold first.
  replace (1 + m * (toroidalStepIdx + 1) - 1 - first)%Z with (m - 1)%Z
    by (unfold first; lia).
  replace (1 + m * (toroidalStepIdx + 1) - 1)%Z with (first + m - 1)%Z
    by (unfold first; lia).
  rewrite Z2Nat.id by lia.
  destruct (torus_wireframe_segments toroidalStepIdx out startIdx (m - 1) ltac:(lia))
    as (Hl & Hframe & Hdone).
  cbv zeta in Hl, Hframe, Hdone. fold first in Hl, Hframe, Hdone.
  set (loop := forLoop (Z.to_nat (m - 1)) 0 _ out) in *.
  split; [rewrite !Uint32Array_set_length; exact Hl |]. split.
  - intros other Hother. rewrite !Uint32Array_get_set_other by lia.
    apply Hframe. lia.
  - intros Hi Hs Hroom Hsmall.
    assert (Hfirst : (0 <= first)%Z) by (unfold first; nia).
    split.
    + intros k j Hk Hj. rewrite !Uint32Array_get_set_other by lia.
      apply Hdone; lia.
    + intros j Hj.
      assert (Hj' : (j = 0 \/ j = 1)%Z) by lia.
      destruct Hj' as [-> | ->];
        repeat rewrite Uint32Array_get_set_other by lia;
        (replace (startIdx + 2 * (m - 1) + 0)%Z with (startIdx + 2 * (m - 1))%Z by lia);
        (rewrite Uint32Array_get_set_same;
         [reflexivity | rewrite ?Uint32Array_set_length, Hl; lia | lia]).
Qed.

End TorusIndices.

(** X27.  For a torus whose poloidal range has [m >= 1] steps, the index
    buffer of the surface holds, for each slice, the two triangles of each
    of the [m - 1] quads between consecutive vertices of the tube circle
    and of the next circle, and then one triangle that joins the shared
    vertex [0] with the vertices number [m - 2] of the two circles (the
    last vertex of a circle has number [m - 1]); the buffer of the
    wireframe holds the [m - 1] segments of the tube circle and then the
    segment from its last vertex to the shared vertex [0]. *)
Theorem X27_torus_index_buffers {Range : Type} `{ValueRange.t Range}
    (config : ArchytasTorus.TorusConfiguration Range) (toroidalStepIdx : Z) :
  let m := ConstStepRange.stepCount (ArchytasTorus.poloidalAngle_rad config) in
  (1 <= m)%Z ->
  (1 + m * (m + 2) <= 2 ^ 32)%Z ->
  (0 <= toroidalStepIdx <= m)%Z ->
  let first := (1 + m * toroidalStepIdx)%Z in
  let next := (1 + m * (toroidalStepIdx + 1))%Z in
  let surfaceIndices := ArchytasTorus_surfaceIndices config in
  let wireframeIndices := ArchytasTorus_wireframeIndices config in
  let surfaceStart := ((6 * (m - 1) + 3) * toroidalStepIdx)%Z in
  let wireframeStart := (2 * m * toroidalStepIdx)%Z in
  Z.of_nat (length surfaceIndices) = ((6 * (m - 1) + 3) * (m + 1))%Z
  /\ Z.of_nat (length wireframeIndices) = (2 * m * (m + 1))%Z
  /\ (forall k j, (0 <= k < m - 1)%Z -> (0 <= j < 6)%Z ->
        Uint32Array.get surfaceIndices (surfaceStart + 6 * k + j)
        = [first + k; next + k; next + k + 1; next + k + 1; first + k + 1; first + k]%Z
            !! Z.to_nat j)
  /\ (forall j, (0 <= j < 3)%Z ->
        Uint32Array.get surfaceIndices (surfaceStart + 6 * (m - 1) + j)
        = [0; next + m - 2; first + m - 2]%Z !! Z.to_nat j)
  /\ (forall k j, (0 <= k < m - 1)%Z -> (0 <= j < 2)%Z ->
        Uint32Array.get wireframeIndices (wireframeStart + 2 * k + j)
        = [first + k; first + k + 1]%Z !! Z.to_nat j)
  /\ (forall j, (0 <= j < 2)%Z ->
        Uint32Array.get wireframeIndices (wireframeStart + 2 * (m - 1) + j)
        = [first + m - 1; 0]%Z !! Z.to_nat j).
Proof.
  intros m Hm Hsmall Hslice first next surfaceIndices wireframeIndices
    surfaceStart wireframeStart.
  assert (Hcount : VertexCalculator.sliceCount (ArchytasTorus.vertexCalculator config)
                   = (m + 1)%Z) by reflexivity.
  (* the surface *)
  pose (surfaceExpected :=
          fun (sliceIdx position : Z) =>
            let first := (1 + m * sliceIdx)%Z in
            let next := (1 + m * (sliceIdx + 1))%Z in
            if (position <? 6 * (m - 1))%Z
            then [first + position / 6; next + position / 6; next + position / 6 + 1;
                  next + position / 6 + 1; first + position / 6 + 1;
                  first + position / 6]%Z !! Z.to_nat (position mod 6)
            else [0; next + m - 2; first + m - 2]%Z
                   !! Z.to_nat (position - 6 * (m - 1))).
  destruct (sliced_calculateVertexIndices
              (TorusSurfaceToroidalStepCalculator.new config) (6 * (m - 1) + 3)
              surfaceExpected) with (calculatedSliceCount := (m + 1)%Z)
    as [Hsl Hsurface].
  - lia.
  - intros sliceIdx.
    cbn [IndexedGeometrySliceVertexCalculator.startVertexIndex
         TorusSurfaceToroidalStepCalculator.new].
    unfold TorusSurfaceToroidalStepCalculator.startVertexIndex,
      TorusSurfaceToroidalStepCalculator.vertexIdxCount,
      TorusSurfaceToroidalStepCalculator.triangleCount, ArchytasTorus.uniqueVertexCount.
    fold m. lia.
  - intros sliceIdx out startIdx.
    apply (torus_surface_slice config Hm sliceIdx out startIdx).
  - intros sliceIdx out startIdx other Hother.
    apply (torus_surface_slice config Hm sliceIdx out startIdx). exact Hother.
  - lia.
  - intros sliceIdx out startIdx position Hs H0 Hroom Hp.
    destruct (torus_surface_slice config Hm sliceIdx out startIdx) as (_ & _ & Hcontent).
    destruct Hcontent as [Hquads Hlast]; [lia | exact H0 | exact Hroom | fold m; nia |].
    fold m in Hquads, Hlast.
    cbn [IndexedGeometrySliceVertexCalculator.calculateVertexIndices
         TorusSurfaceToroidalStepCalculator.new].
    unfold surfaceExpected. cbv zeta.
    destruct (position <? 6 * (m - 1))%Z eqn:E.
    + apply Z.ltb_lt in E.
      pose proof (Z.div_mod position 6 ltac:(lia)) as Hdm.
      pose proof (Z.mod_pos_bound position 6 ltac:(lia)) as Hmod.
      rewrite Hdm at 1. rewrite Z.add_assoc.
      apply Hquads; [| exact Hmod].
      split; [apply Z.div_pos; lia | apply Z.div_lt_upper_bound; lia].
    + apply Z.ltb_ge in E.
      replace (startIdx + position)%Z
        with (startIdx + 6 * (m - 1) + (position - 6 * (m - 1)))%Z by lia.
      apply Hlast. lia.
  - (* the wireframe *)
    pose (wireframeExpected :=
            fun (sliceIdx position : Z) =>
              let first := (1 + m * sliceIdx)%Z in
              if (position <? 2 * (m - 1))%Z
              then [first + position / 2; first + position / 2 + 1]%Z
                     !! Z.to_nat (position mod 2)
              else [first + m - 1; 0]%Z !! Z.to_nat (position - 2 * (m - 1))).
    destruct (sliced_calculateVertexIndices
                (TorusWireframeToroidalStepCalculator.new config) (2 * m)
                wireframeExpected) with (calculatedSliceCount := (m + 1)%Z)
      as [Hwl Hwireframe].
    + lia.
    + intros sliceIdx.
      cbn [IndexedGeometrySliceVertexCalculator.startVertexIndex
           TorusWireframeToroidalStepCalculator.new].
      unfold TorusWireframeToroidalStepCalculator.startVertexIndex,
        TorusWireframeToroidalStepCalculator.vertexIdxCount,
        TorusWireframeToroidalStepCalculator.lineSegmentCount,
        ArchytasTorus.uniqueVertexCount.
      fold m. lia.
    + intros sliceIdx out startIdx.
      apply (torus_wireframe_slice config Hm sliceIdx out startIdx).
    + intros sliceIdx out startIdx other Hother.
      apply (torus_wireframe_slice config Hm sliceIdx out startIdx). exact Hother.
    + lia.
    + intros sliceIdx out startIdx position Hs H0 Hroom Hp.
      destruct (torus_wireframe_slice config Hm sliceIdx out startIdx)
        as (_ & _ & Hcontent).
      destruct Hcontent as [Hsegments Hlast];
        [lia | exact H0 | exact Hroom | fold m; nia |].
      fold m in Hsegments, Hlast.
      cbn [IndexedGeometrySliceVertexCalculator.calculateVertexIndices
           TorusWireframeToroidalStepCalculator.new].
      unfold wireframeExpected. cbv zeta.
      destruct (position <? 2 * (m - 1))%Z eqn:E.
      * apply Z.ltb_lt in E.
        pose proof (Z.div_mod position 2 ltac:(lia)) as Hdm.
        pose proof (Z.mod_pos_bound position 2 ltac:(lia)) as Hmod.
        rewrite Hdm at 1. rewrite Z.add_assoc.
        apply Hsegments; [| exact Hmod].
        split; [apply Z.div_pos; lia | apply Z.div_lt_upper_bound; lia].
      * apply Z.ltb_ge in E.
        replace (startIdx + position)%Z
          with (startIdx + 2 * (m - 1) + (position - 2 * (m - 1)))%Z by lia.
        apply Hlast. lia.
    + (* the statement *)
      unfold surfaceIndices, wireframeIndices, ArchytasTorus_surfaceIndices,
        ArchytasTorus_wireframeIndices.
      rewrite Hcount.
      split; [exact Hsl |]. split; [exact Hwl |]. split; [| split; [| split] ].
      * intros k j Hk Hj.
        replace (surfaceStart + 6 * k + j)%Z
          with ((6 * (m - 1) + 3) * toroidalStepIdx + (6 * k + j))%Z
          by (unfold surfaceStart; lia).
        rewrite Hsurface by lia.
        unfold surfaceExpected. cbv zeta. fold first. fold next.
        replace (6 * k + j <? 6 * (m - 1))%Z with true by (symmetry; apply Z.ltb_lt; lia).
        replace ((6 * k + j) / 6)%Z with k
          by (apply (Z.div_unique _ 6 k j); lia).
        replace ((6 * k + j) mod 6)%Z with j
          by (apply (Z.mod_unique _ 6 k j); lia).
        reflexivity.
      * intros j Hj.
        replace (surfaceStart + 6 * (m - 1) + j)%Z
          with ((6 * (m - 1) + 3) * toroidalStepIdx + (6 * (m - 1) + j))%Z
          by (unfold surfaceStart; lia).
        rewrite Hsurface by lia.
        unfold surfaceExpected. cbv zeta. fold first. fold next.
        replace (6 * (m - 1) + j <? 6 * (m - 1))%Z with false
          by (symmetry; apply Z.ltb_ge; lia).
        replace (6 * (m - 1) + j - 6 * (m - 1))%Z with j by lia.
        reflexivity.
      * intros k j Hk Hj.
        replace (wireframeStart + 2 * k + j)%Z
          with (2 * m * toroidalStepIdx + (2 * k + j))%Z
          by (unfold wireframeStart; lia).
        rewrite Hwireframe by lia.
        unfold wireframeExpected. cbv zeta. fold first.
        replace (2 * k + j <? 2 * (m - 1))%Z with true by (symmetry; apply Z.ltb_lt; lia).
        replace ((2 * k + j) / 2)%Z with k
          by (apply (Z.div_unique _ 2 k j); lia).
        replace ((2 * k + j) mod 2)%Z with j
          by (apply (Z.mod_unique _ 2 k j); lia).
        reflexivity.
      * intros j Hj.
        replace (wireframeStart + 2 * (m - 1) + j)%Z
          with (2 * m * toroidalStepIdx + (2 * (m - 1) + j))%Z
          by (unfold wireframeStart; lia).
        rewrite Hwireframe by lia.
        unfold wireframeExpected. cbv zeta. fold first.
        replace (2 * (m - 1) + j <? 2 * (m - 1))%Z with false
          by (symmetry; apply Z.ltb_ge; lia).
        replace (2 * (m - 1) + j - 2 * (m - 1))%Z with j by lia.
        reflexivity.
Qed.

Lemma X27_torus_index_buffers_witness :
  let config := sample_torus in
  let toroidalStepIdx := 2%Z in
  let m := ConstStepRange.stepCount (ArchytasTorus.poloidalAngle_rad config) in
  let first := (1 + m * toroidalStepIdx)%Z in
  let next := (1 + m * (toroidalStepIdx + 1))%Z in
  let surfaceIndices := ArchytasTorus_surfaceIndices config in
  let wireframeIndices := ArchytasTorus_wireframeIndices config in
  let surfaceStart := ((6 * (m - 1) + 3) * toroidalStepIdx)%Z in
  let wireframeStart := (2 * m * toroidalStepIdx)%Z in
  Z.of_nat (length surfaceIndices) = ((6 * (m - 1) + 3) * (m + 1))%Z
  /\ Z.of_nat (length wireframeIndices) = (2 * m * (m + 1))%Z
  /\ (forall k j, (0 <= k < m - 1)%Z -> (0 <= j < 6)%Z ->
        Uint32Array.get surfaceIndices (surfaceStart + 6 * k + j)
        = [first + k; next + k; next + k + 1; next + k + 1; first + k + 1; first + k]%Z
            !! Z.to_nat j)
  /\ (forall j, (0 <= j < 3)%Z ->
        Uint32Array.get surfaceIndices (surfaceStart + 6 * (m - 1) + j)
        = [0; next + m - 2; first + m - 2]%Z !! Z.to_nat j)
  /\ (forall k j, (0 <= k < m - 1)%Z -> (0 <= j < 2)%Z ->
        Uint32Array.get wireframeIndices (wireframeStart + 2 * k + j)
        = [first + k; first + k + 1]%Z !! Z.to_nat j)
  /\ (forall j, (0 <= j < 2)%Z ->
        Uint32Array.get wireframeIndices (wireframeStart + 2 * (m - 1) + j)
        = [first + m - 1; 0]%Z !! Z.to_nat j).
Proof.
  apply (X27_torus_index_buffers sample_torus 2).
  - vm_compute. discriminate.
  - vm_compute. discriminate.
  - vm_compute. split; discriminate.
Defined.

(** ** What the circles draw *)

Lemma Line_updateVertex_start (line : Line.t) (a b a' : ColumnVector3.t) :
  Line.coords line = Line.coords (Line.new [a; b]) ->
  Line.coords (Line.updateVertex line 0 a') = Line.coords (Line.new [a'; b]).
Proof.
  destruct a as [a0 a1 a2], b as [b0 b1 b2], a' as [c0 c1 c2].
  unfold Line.updateVertex, Line.new. cbv zeta.
  cbn [Line.coords flat_map app ColumnVector3.x ColumnVector3.y ColumnVector3.z].
  intros ->. reflexivity.
Qed.

Lemma Line_updateVertex_end (line : Line.t) (a b b' : ColumnVector3.t) :
  Line.coords line = Line.coords (Line.new [a; b]) ->
  Line.coords (Line.updateVertex line 1 b') = Line.coords (Line.new [a; b']).
Proof.
  destruct a as [a0 a1 a2], b as [b0 b1 b2], b' as [c0 c1 c2].
  unfold Line.updateVertex, Line.new. cbv zeta.
  cbn [Line.coords flat_map app ColumnVector3.x ColumnVector3.y ColumnVector3.z].
  intros ->. reflexivity.
Qed.

Lemma Line_commitUpdates_coords (line : Line.t) :
  Line.coords (Line.commitUpdates line) = Line.coords line.
Proof. reflexivity. Qed.

(** X28.  In every state of the two circles that the constructors and
    the setters produce, the drawn segments join the current points: the
    buffers of the base circle's lines hold A and O, A and P, P and Q, P
    and O, those of the transverse circle's lines hold A and S, R and A, R
    and P, R and S, and the labels of P, Q, R and S are positioned at these
    points. *)
Theorem X28_circles_draw_their_points
    (baseConfig : ArchytasBaseCircle.BaseCircleConfiguration)
    (transverseConfig : ArchytasTransverseCircle.TransverseCircleConfiguration)
    (baseCircle : ArchytasBaseCircle.t) (transverseCircle : ArchytasTransverseCircle.t) :
  baseCircle_reachable baseConfig baseCircle ->
  transverseCircle_reachable transverseConfig transverseCircle ->
  let A := ArchytasBaseCircle.origin baseConfig in
  let O := ArchytasBaseCircle.diameterEnd baseCircle in
  let P := ArchytasBaseCircle.ptP baseCircle in
  let Q := ArchytasBaseCircle.ptQ baseCircle in
  let A' := ArchytasTransverseCircle.origin transverseConfig in
  let S := ArchytasTransverseCircle.diameterEnd transverseCircle in
  let P' := ArchytasTransverseCircle.ptP transverseCircle in
  let R := ArchytasTransverseCircle.ptR transverseCircle in
  (Line.coords (ArchytasBaseCircle.diameter baseCircle) = Line.coords (Line.new [A; O])
   /\ Line.coords (ArchytasBaseCircle.lineAp baseCircle) = Line.coords (Line.new [A; P])
   /\ Line.coords (ArchytasBaseCircle.linePq baseCircle) = Line.coords (Line.new [P; Q])
   /\ Line.coords (ArchytasBaseCircle.linePo baseCircle) = Line.coords (Line.new [P; O])
   /\ ArchytasBaseCircle.ptPLabel_position baseCircle
      = ArchytasBaseCircle.labelPositioner baseConfig label_ptP P
   /\ ArchytasBaseCircle.ptQLabel_position baseCircle
      = ArchytasBaseCircle.labelPositioner baseConfig label_ptQ Q)
  /\ (Line.coords (ArchytasTransverseCircle.diameter transverseCircle)
      = Line.coords (Line.new [A'; S])
      /\ Line.coords (ArchytasTransverseCircle.lineRa transverseCircle)
         = Line.coords (Line.new [R; A'])
      /\ Line.coords (ArchytasTransverseCircle.lineRp transverseCircle)
         = Line.coords (Line.new [R; P'])
      /\ Line.coords (ArchytasTransverseCircle.lineRs transverseCircle)
         = Line.coords (Line.new [R; S])
      /\ ArchytasTransverseCircle.ptRLabel_position transverseCircle
         = ArchytasTransverseCircle.labelPositioner transverseConfig label_ptR R
      /\ ArchytasTransverseCircle.ptSLabel_position transverseCircle
         = ArchytasTransverseCircle.labelPositioner transverseConfig label_ptS S).
Proof.
  intros Hbase Htransverse. cbv zeta. split.
  - clear Htransverse. induction Hbase as [| this console value Hreach IH].
    + unfold ArchytasBaseCircle.new. cbv zeta.
      destruct (ArchytasBaseCircle.updatePointsAndDirections baseConfig _ 0) as [P Q].
      cbn [ArchytasBaseCircle.diameter ArchytasBaseCircle.lineAp ArchytasBaseCircle.linePq
           ArchytasBaseCircle.linePo ArchytasBaseCircle.ptP ArchytasBaseCircle.ptQ
           ArchytasBaseCircle.diameterEnd ArchytasBaseCircle.ptPLabel_position
           ArchytasBaseCircle.ptQLabel_position].
      repeat split.
    + destruct (baseCircle_reachable_points _ _ Hreach) as (Hconfig & _).
      destruct IH as (Hd & Hap & Hpq & Hpo & Hlp & Hlq).
      unfold ArchytasBaseCircle.set_angleOapCompliment_rad. cbv zeta.
      destruct (ConstStepRange.includes _ _);
        [| cbn [fst]; repeat split; assumption].
      destruct (ArchytasBaseCircle.updatePointsAndDirections
                  (ArchytasBaseCircle.config this) (ArchytasBaseCircle.center this) value)
        as [P Q].
      cbn [fst ArchytasBaseCircle.diameter ArchytasBaseCircle.lineAp
           ArchytasBaseCircle.linePq ArchytasBaseCircle.linePo ArchytasBaseCircle.ptP
           ArchytasBaseCircle.ptQ ArchytasBaseCircle.diameterEnd
           ArchytasBaseCircle.ptPLabel_position ArchytasBaseCircle.ptQLabel_position].
      rewrite !Line_commitUpdates_coords, Hconfig.
      split; [exact Hd |].
      split; [apply (Line_updateVertex_end _ _ _ _ Hap) |].
      split; [apply (Line_updateVertex_end _ _ (ArchytasBaseCircle.ptQ this)),
                    (Line_updateVertex_start _ _ _ _ Hpq) |].
      split; [apply (Line_updateVertex_start _ _ _ _ Hpo) |].
      split; reflexivity.
  - clear Hbase. induction Htransverse as [| this console value Hreach IH].
    + unfold ArchytasTransverseCircle.new. cbv zeta.
      cbn [ArchytasTransverseCircle.diameter ArchytasTransverseCircle.lineRa
           ArchytasTransverseCircle.lineRp ArchytasTransverseCircle.lineRs
           ArchytasTransverseCircle.ptP ArchytasTransverseCircle.ptR
           ArchytasTransverseCircle.diameterEnd ArchytasTransverseCircle.ptRLabel_position
           ArchytasTransverseCircle.ptSLabel_position].
      repeat split.
    + destruct (transverseCircle_reachable_points _ _ Hreach) as (Hconfig & _).
      pose proof IH as (Hd & Hra & Hrp & Hrs & Hlr & Hls).
      unfold ArchytasTransverseCircle.set_angleOapCompliment_rad.
      destruct (Reqb _ value); [exact IH |].
      cbv zeta.
      destruct (Math_acos (1 - 2 * sin (PI - value))) as [c |]; [| exact IH].
      destruct (TransverseCircleAngleRange.includes
                  (ArchytasTransverseCircle.centralAngle_rad
                     (ArchytasTransverseCircle.config this)) c); [| exact IH].
      cbn [fst ArchytasTransverseCircle.diameter ArchytasTransverseCircle.lineRa
           ArchytasTransverseCircle.lineRp ArchytasTransverseCircle.lineRs
           ArchytasTransverseCircle.ptP ArchytasTransverseCircle.ptR
           ArchytasTransverseCircle.diameterEnd ArchytasTransverseCircle.ptRLabel_position
           ArchytasTransverseCircle.ptSLabel_position].
      rewrite !Line_commitUpdates_coords, Hconfig.
      split; [apply (Line_updateVertex_end _ _ _ _ Hd) |].
      split; [apply (Line_updateVertex_start _ _ _ _ Hra) |].
      split; [apply (Line_updateVertex_end _ _ (ArchytasTransverseCircle.ptP this)),
                    (Line_updateVertex_start _ _ _ _ Hrp) |].
      split; [apply (Line_updateVertex_end _ _ (ArchytasTransverseCircle.diameterEnd this)),
                    (Line_updateVertex_start _ _ _ _ Hrs) |].
      split; reflexivity.
Qed.

Lemma X28_circles_draw_their_points_witness :
  let baseCircle :=
    fst (ArchytasBaseCircle.set_angleOapCompliment_rad
           (ArchytasBaseCircle.new sample_baseCircle) nil (PI / 4)) in
  let transverseCircle :=
    fst (ArchytasTransverseCircle.set_angleOapCompliment_rad
           (ArchytasTransverseCircle.new sample_transverseCircle) nil (PI / 4)) in
  let A := ArchytasBaseCircle.origin sample_baseCircle in
  let O := ArchytasBaseCircle.diameterEnd baseCircle in
  let P := ArchytasBaseCircle.ptP baseCircle in
  let Q := ArchytasBaseCircle.ptQ baseCircle in
  let A' := ArchytasTransverseCircle.origin sample_transverseCircle in
  let S := ArchytasTransverseCircle.diameterEnd transverseCircle in
  let P' := ArchytasTransverseCircle.ptP transverseCircle in
  let R := ArchytasTransverseCircle.ptR transverseCircle in
  (Line.coords (ArchytasBaseCircle.diameter baseCircle) = Line.coords (Line.new [A; O])
   /\ Line.coords (ArchytasBaseCircle.lineAp baseCircle) = Line.coords (Line.new [A; P])
   /\ Line.coords (ArchytasBaseCircle.linePq baseCircle) = Line.coords (Line.new [P; Q])
   /\ Line.coords (ArchytasBaseCircle.linePo baseCircle) = Line.coords (Line.new [P; O])
   /\ ArchytasBaseCircle.ptPLabel_position baseCircle
      = ArchytasBaseCircle.labelPositioner sample_baseCircle label_ptP P
   /\ ArchytasBaseCircle.ptQLabel_position baseCircle
      = ArchytasBaseCircle.labelPositioner sample_baseCircle label_ptQ Q)
  /\ (Line.coords (ArchytasTransverseCircle.diameter transverseCircle)
      = Line.coords (Line.new [A'; S])
      /\ Line.coords (ArchytasTransverseCircle.lineRa transverseCircle)
         = Line.coords (Line.new [R; A'])
      /\ Line.coords (ArchytasTransverseCircle.lineRp transverseCircle)
         = Line.coords (Line.new [R; P'])
      /\ Line.coords (ArchytasTransverseCircle.lineRs transverseCircle)
         = Line.coords (Line.new [R; S])
      /\ ArchytasTransverseCircle.ptRLabel_position transverseCircle
         = ArchytasTransverseCircle.labelPositioner sample_transverseCircle label_ptR R
      /\ ArchytasTransverseCircle.ptSLabel_position transverseCircle
         = ArchytasTransverseCircle.labelPositioner sample_transverseCircle label_ptS S).
Proof.
  apply (X28_circles_draw_their_points sample_baseCircle sample_transverseCircle).
  - apply baseCircle_reachable_set. apply baseCircle_reachable_new.
  - apply transverseCircle_reachable_set. apply transverseCircle_reachable_new.
Defined.

(** ** The arc of the transverse circle *)

Lemma arc_buffer_new {Range : Type} `{ValueRange.t Range}
    (config : EllipticalArcParameters.t ColumnVector3.t Range) :
  (0 <= ValueRange.stepCount (EllipticalArcParameters.circularAngle_rad config))%Z ->
  let range := EllipticalArcParameters.circularAngle_rad config in
  let arc := EllipseArc.new config in
  length (LineVertexCoords.vertexCoords arc) = Z.to_nat ((ValueRange.stepCount range + 1) * 3)
  /\ forall stepIdx, (0 <= stepIdx <= ValueRange.stepCount range)%Z ->
       CoordsArrayVertexWriter.readVertex (LineVertexCoords.vertexWriter arc) stepIdx
       = EllipticalArcVertexCalculator.calculateVertex config
           (ValueRange.atStep range stepIdx).
Proof.
  intros Hn range arc.
  set (blank := CoordsArrayVertexWriter.mk
                  (Float32Array.new
                     (ParametricVertexCalculator.vertexCount range * COORDS_PER_VERTEX))).
  assert (Hroom : (ParametricVertexCalculator.vertexCount range * 3
                   <= Z.of_nat (length (CoordsArrayVertexWriter.vertexCoords blank)))%Z).
  { unfold blank. cbn [CoordsArrayVertexWriter.vertexCoords].
    rewrite Float32Array_new_length. unfold COORDS_PER_VERTEX,
      ParametricVertexCalculator.vertexCount. fold range in Hn. lia. }
  destruct (parametric_calculateVertices range
              (EllipticalArcVertexCalculator.calculateVertex config) blank Hn Hroom)
    as [Hlen Hread].
  unfold arc, EllipseArc.new, LineVertexCoords.new, LineVertexCoords.vertexWriter.
  cbv zeta. cbn [LineVertexCoords.vertexCoords]. unfold EllipseArc.calculateVertices.
  fold range. fold blank. split.
  - rewrite Hlen. unfold blank. cbn [CoordsArrayVertexWriter.vertexCoords].
    rewrite Float32Array_new_length. reflexivity.
  - rewrite writer_eta. exact Hread.
Qed.

Lemma arc_buffer_recalculated {Range : Type} `{ValueRange.t Range}
    (config : EllipticalArcParameters.t ColumnVector3.t Range) (arc : LineVertexCoords.t) :
  (0 <= ValueRange.stepCount (EllipticalArcParameters.circularAngle_rad config))%Z ->
  let range := EllipticalArcParameters.circularAngle_rad config in
  length (LineVertexCoords.vertexCoords arc) = Z.to_nat ((ValueRange.stepCount range + 1) * 3) ->
  let arc' := EllipseArc.recalculateVertices config arc in
  length (LineVertexCoords.vertexCoords arc')
  = Z.to_nat ((ValueRange.stepCount range + 1) * 3)
  /\ forall stepIdx, (0 <= stepIdx <= ValueRange.stepCount range)%Z ->
       CoordsArrayVertexWriter.readVertex (LineVertexCoords.vertexWriter arc') stepIdx
       = EllipticalArcVertexCalculator.calculateVertex config
           (ValueRange.atStep range stepIdx).
Proof.
  intros Hn range Hlen arc'.
  assert (Hroom : (ParametricVertexCalculator.vertexCount range * 3
                   <= Z.of_nat (length (CoordsArrayVertexWriter.vertexCoords
                                          (LineVertexCoords.vertexWriter arc))))%Z).
  { unfold LineVertexCoords.vertexWriter. cbn [CoordsArrayVertexWriter.vertexCoords].
    rewrite Hlen. unfold ParametricVertexCalculator.vertexCount. fold range in Hn. lia. }
  destruct (parametric_calculateVertices range
              (EllipticalArcVertexCalculator.calculateVertex config)
              (LineVertexCoords.vertexWriter arc) Hn Hroom)
    as [Hlen' Hread].
  unfold arc', EllipseArc.recalculateVertices, LineVertexCoords.recalculateVertices.
  cbv zeta. unfold EllipseArc.calculateVertices. fold range.
  split.
  - cbn [LineVertexCoords.vertexCoords]. rewrite Hlen'.
    unfold LineVertexCoords.vertexWriter.
    cbn [CoordsArrayVertexWriter.vertexCoords]. exact Hlen.
  - unfold LineVertexCoords.vertexWriter at 1. cbn [LineVertexCoords.vertexCoords].
    rewrite writer_eta. exact Hread.
Qed.

Lemma transverseCircle_reachable_arc
    (config : ArchytasTransverseCircle.TransverseCircleConfiguration)
    (this : ArchytasTransverseCircle.t) :
  let range := ArchytasTransverseCircle.centralAngle_rad config in
  (0 <= ValueRange.stepCount range)%Z ->
  transverseCircle_reachable config this ->
  ArchytasTransverseCircle.config this = config
  /\ length (LineVertexCoords.vertexCoords (ArchytasTransverseCircle.circle this))
     = Z.to_nat ((ValueRange.stepCount range + 1) * 3)
  /\ forall stepIdx, (0 <= stepIdx <= ValueRange.stepCount range)%Z ->
       CoordsArrayVertexWriter.readVertex
         (LineVertexCoords.vertexWriter (ArchytasTransverseCircle.circle this)) stepIdx
       = EllipticalArcVertexCalculator.calculateVertex
           (EllipticalArcParameters.mk
              (ArchytasTransverseCircle.center this)
              (ArchytasTransverseCircle.circlePlane this)
              range
              (ArchytasTransverseCircle.radius config)
              (ArchytasTransverseCircle.radius config))
           (ValueRange.atStep range stepIdx).
Proof.
  intros range Hn Hreach.
  induction Hreach as [| this console value Hreach IH].
  - unfold ArchytasTransverseCircle.new. cbv zeta.
    cbn [ArchytasTransverseCircle.config ArchytasTransverseCircle.circle
         ArchytasTransverseCircle.center ArchytasTransverseCircle.circlePlane].
    split; [reflexivity |].
    apply (arc_buffer_new
             (ArchytasTransverseCircle.circleParameters config
                (ArchytasTransverseCircle.updatePointsAndDirections config
                   (PlaneDirections.mk (ColumnVector3.mk 0 0 0)
                      (ColumnVector3.multiplyScalar
                         (PlaneDirections.zHat
                            (ArchytasTransverseCircle.baseCirclePlane config)) (-1)))
                   0))).
    exact Hn.
  - pose proof IH as (Hconfig & Hlen & Hread).
    unfold ArchytasTransverseCircle.set_angleOapCompliment_rad.
    destruct (Reqb _ value); [exact IH |].
    cbv zeta.
    destruct (Math_acos (1 - 2 * sin (PI - value))) as [c |]; [| exact IH].
    destruct (TransverseCircleAngleRange.includes
                (ArchytasTransverseCircle.centralAngle_rad
                   (ArchytasTransverseCircle.config this)) c); [| exact IH].
    cbn [fst ArchytasTransverseCircle.config ArchytasTransverseCircle.circle
         ArchytasTransverseCircle.center ArchytasTransverseCircle.circlePlane].
    split; [exact Hconfig |]. rewrite Hconfig.
    apply (arc_buffer_recalculated
             (ArchytasTransverseCircle.circleParameters config
                (ArchytasTransverseCircle.updatePointsAndDirections config
                   (ArchytasTransverseCircle.circlePlane this) value))
             (ArchytasTransverseCircle.circle this)).
    + exact Hn.
    + exact Hlen.
Qed.

(** X29.  In every state of the transverse circle that the constructor
    and the setter produce, for an orthonormal plane of the base circle,
    the vertex that the arc's buffer holds at each step index is the point
    of the circle in its current plane at the angle of that step: at the
    radius from the current centre, in the current plane, which stands
    upright on the plane of the base circle. *)
Theorem X29_transverse_arc_follows_the_plane
    (config : ArchytasTransverseCircle.TransverseCircleConfiguration)
    (this : ArchytasTransverseCircle.t) (stepIdx : Z) :
  orthonormalPlane (ArchytasTransverseCircle.baseCirclePlane config) ->
  transverseCircle_reachable config this ->
  (0 <= stepIdx <= ValueRange.stepCount (ArchytasTransverseCircle.centralAngle_rad config))%Z ->
  let range := ArchytasTransverseCircle.centralAngle_rad config in
  let radius := ArchytasTransverseCircle.radius config in
  let center := ArchytasTransverseCircle.center this in
  let plane := ArchytasTransverseCircle.circlePlane this in
  let vertex :=
    CoordsArrayVertexWriter.readVertex
      (LineVertexCoords.vertexWriter (ArchytasTransverseCircle.circle this)) stepIdx in
  vertex
  = ColumnVector3.addScaled center
      (PlaneDirections.unitVecAtAngle plane (ValueRange.atStep range stepIdx)) radius
  /\ ColumnVector3.distanceTo center vertex = Rabs radius
  /\ ColumnVector3.vectorDot (ColumnVector3.subtract vertex center)
       (PlaneDirections.zHat plane) = 0
  /\ ColumnVector3.vectorDot (PlaneDirections.zHat plane)
       (PlaneDirections.zHat (ArchytasTransverseCircle.baseCirclePlane config)) = 0.
Proof.
  intros Hplane Hreach Hstep. cbv zeta.
  destruct (transverseCircle_reachable_arc config this ltac:(lia) Hreach)
    as (_ & _ & Hread).
  rewrite (Hread stepIdx Hstep). clear Hread.
  pose proof (transverseCircle_reachable_yHat config this Hreach) as Hy.
  destruct (transverseCircle_reachable_points config this Hreach)
    as (_ & _ & plane0 & _ & Hpoints).
  injection Hpoints as Hcp _ _ _ _.
  assert (Hx : PlaneDirections.xHat (ArchytasTransverseCircle.circlePlane this)
               = PlaneDirections.xHat
                   (ArchytasTransverseCircle.updateCirclePlane config plane0
                      (ArchytasTransverseCircle._angleOapCompliment_rad this)))
    by (rewrite Hcp; reflexivity).
  unfold ArchytasTransverseCircle.updateCirclePlane in Hx.
  cbn [PlaneDirections.xHat] in Hx.
  set (angle := ValueRange.atStep (ArchytasTransverseCircle.centralAngle_rad config)
                  stepIdx).
  set (v := ArchytasTransverseCircle._angleOapCompliment_rad this) in *.
  clearbody angle v.
  destruct (ArchytasTransverseCircle.circlePlane this) as [xt yt].
  cbn [PlaneDirections.xHat PlaneDirections.yHat] in Hx, Hy. subst xt yt.
  destruct (ArchytasTransverseCircle.center this) as [c0 c1 c2].
  set (r := ArchytasTransverseCircle.radius config). clearbody r.
  destruct (ArchytasTransverseCircle.baseCirclePlane config)
    as [[x0 x1 x2] [y0 y1 y2]].
  unfold orthonormalPlane in Hplane. revert Hplane.
  unfold EllipticalArcVertexCalculator.calculateVertex, PlaneDirections.unitVecAtAngle.
  vec_simpl.
  pose proof (sin2_cos2 angle) as Hsc. unfold Rsqr in Hsc.
  pose proof (sin2_cos2 v) as Hsc'. unfold Rsqr in Hsc'.
  set (ca := cos angle) in *. set (sa := sin angle) in *.
  set (cv := cos v) in *. set (sv := sin v) in *. clearbody ca sa cv sv.
  intros (Hxx & Hyy & Hxy).
  split; [apply ColumnVector3_eq; ring |].
  split; [apply distanceTo_of_square; vec_simpl; nsatz |].
  split; nsatz.
Qed.

Lemma X29_transverse_arc_follows_the_plane_witness :
  let config := sample_transverseCircle in
  let this :=
    fst (ArchytasTransverseCircle.set_angleOapCompliment_rad
           (ArchytasTransverseCircle.new config) nil (PI / 4)) in
  let range := ArchytasTransverseCircle.centralAngle_rad config in
  let radius := ArchytasTransverseCircle.radius config in
  let center := ArchytasTransverseCircle.center this in
  let plane := ArchytasTransverseCircle.circlePlane this in
  let vertex :=
    CoordsArrayVertexWriter.readVertex
      (LineVertexCoords.vertexWriter (ArchytasTransverseCircle.circle this)) 5 in
  vertex
  = ColumnVector3.addScaled center
      (PlaneDirections.unitVecAtAngle plane (ValueRange.atStep range 5)) radius
  /\ ColumnVector3.distanceTo center vertex = Rabs radius
  /\ ColumnVector3.vectorDot (ColumnVector3.subtract vertex center)
       (PlaneDirections.zHat plane) = 0
  /\ ColumnVector3.vectorDot (PlaneDirections.zHat plane)
       (PlaneDirections.zHat (ArchytasTransverseCircle.baseCirclePlane config)) = 0.
Proof.
  apply (X29_transverse_arc_follows_the_plane sample_transverseCircle
           (fst (ArchytasTransverseCircle.set_angleOapCompliment_rad
                   (ArchytasTransverseCircle.new sample_transverseCircle) nil (PI / 4)))
           5).
  - exact sample_baseCircle_orthonormal.
  - apply transverseCircle_reachable_set. apply transverseCircle_reachable_new.
  - vm_compute. split; discriminate.
Defined.
